(** * libmediacodec: a Rocq model of the FFmpeg wrapper classes

    The repository wraps libavcodec / libswresample / libswscale behind small
    C++ classes.  This development embeds the wrapper code (not the wrapped
    library): every library entry point is a field of the interface
    [FFmpeg] below, and the wrappers are state-passing programs over it that
    also record, in order, the library calls they make.

    Layout: the first half holds the definitions, one [Module] per C++ class
    or struct, named as in the sources; the second half holds the lemmas. *)

From Stdlib Require Import ZArith List String Bool Lia QArith DecimalString.
From stdpp Require Import base list strings.
Import ListNotations.

Local Open Scope string_scope.
Local Open Scope list_scope.
Local Open Scope Z_scope.

(** ** Bytes, C integers and the outcome of a call *)

Definition byte : Type := Byte.byte.
Abbreviation bytes := (list byte).

(** The numerical value of a [uint8_t]. *)
Definition byte_val (b : byte) : Z := Z.of_N (Byte.to_N b).

(** What a call can end in.  [Undefined] stands for the executions C++ gives
    no meaning to (a null pointer dereferenced, a buffer overrun, a
    [static_cast] to a class the object is not); [OutOfFuel] is the model's
    own artefact for a loop that was not given enough iterations. *)
Inductive outcome (A : Type) : Type :=
| Ret (a : A)
| Undefined
| OutOfFuel.
Arguments Ret {A} a.
Arguments Undefined {A}.
Arguments OutOfFuel {A}.

Definition outcome_bind {A B} (m : outcome A) (f : A -> outcome B) : outcome B :=
  match m with
  | Ret a => f a
  | Undefined => Undefined
  | OutOfFuel => OutOfFuel
  end.

Definition INT_MAX : Z := 2147483647.
Definition INT_MIN : Z := -2147483648.

(** [int] arithmetic.  Signed overflow has no defined meaning in C++; the
    model takes the two's-complement result every supported target
    produces.  The lemmas that depend on a product state its range. *)
Definition wrap_int (z : Z) : Z := (z + 2147483648) mod 4294967296 - 2147483648.
Definition int_mul (a b : Z) : Z := wrap_int (a * b).
Definition int_add (a b : Z) : Z := wrap_int (a + b).
(** [a / b] on [int]: truncation towards zero. *)
Definition int_div (a b : Z) : Z := wrap_int (Z.quot a b).

(** Conversion of an [int] to [size_t] (64 bits). *)
Definition to_size_t (z : Z) : Z := z mod 18446744073709551616.

(** ** [std::vector<uint8_t>] and raw buffers *)

(** [v.resize(n)]: truncates, or pads with value-initialised bytes. *)
Definition vector_resize (v : bytes) (n : nat) : bytes :=
  take n v ++ replicate (n - length v)%nat Byte.x00.

(** [memcpy(dst + dst_off, src + src_off, n)] on two buffers of known
    extent.  The count reaches [memcpy] as a [size_t], so a negative [int]
    is an enormous count; that, an offset before the start of a buffer and
    every access past either extent are undefined. *)
Definition memcpy (dst : bytes) (dst_off : Z) (src : bytes) (src_off : Z)
    (n : Z) : outcome bytes :=
  if (n <? 0) || (dst_off <? 0) || (src_off <? 0) then Undefined
  else
    let k := Z.to_nat n in
    let d := Z.to_nat dst_off in
    let s := Z.to_nat src_off in
    if ((s + k <=? length src) && (d + k <=? length dst))%nat
    then Ret (take d dst ++ take k (drop s src) ++ drop (d + k) dst)
    else Undefined.

(** A pointer to an output vector: [None] is [nullptr]. *)
Abbreviation vector_ptr := (option (list byte)).

(** [!p] on a pointer. *)
Definition is_null {A} (p : option A) : bool :=
  match p with
  | Some _ => false
  | None => true
  end.

(** [snprintf(buf, size, "%d", n)]: at most [size - 1] characters are kept. *)
Definition snprintf_d (size : nat) (n : Z) : string :=
  let s := NilZero.string_of_int (Z.to_int n) in
  String.substring 0 (Nat.min (size - 1) (String.length s)) s.

(** ** The wrapped library

    Only what the wrappers pass to FFmpeg and read back is represented.
    Enumerators carry the names of the FFmpeg headers. *)

Inductive AVPixelFormat : Type :=
| AV_PIX_FMT_NONE
| AV_PIX_FMT_YUV420P
| AV_PIX_FMT_RGB24
| AV_PIX_FMT_NV12
| AV_PIX_FMT_RGBA
| AV_PIX_FMT_BGRA.

Inductive AVSampleFormat : Type :=
| AV_SAMPLE_FMT_NONE
| AV_SAMPLE_FMT_U8
| AV_SAMPLE_FMT_S16
| AV_SAMPLE_FMT_S32
| AV_SAMPLE_FMT_FLT
| AV_SAMPLE_FMT_DBL
| AV_SAMPLE_FMT_U8P
| AV_SAMPLE_FMT_S16P
| AV_SAMPLE_FMT_S32P
| AV_SAMPLE_FMT_FLTP
| AV_SAMPLE_FMT_DBLP
| AV_SAMPLE_FMT_S64
| AV_SAMPLE_FMT_S64P.

Inductive AVCodecID : Type :=
| AV_CODEC_ID_H264
| AV_CODEC_ID_OPUS.

#[global] Instance AVPixelFormat_eq_dec : EqDecision AVPixelFormat.
Proof. solve_decision. Defined.
#[global] Instance AVSampleFormat_eq_dec : EqDecision AVSampleFormat.
Proof. solve_decision. Defined.

Record AVRational : Type := { num : Z; den : Z }.

(** An [AVFrame] as the video encoders use it: the picture parameters, the
    presentation time stamp and the plane buffers [data[0]], [data[1]], ...
    The buffers belong to the library, which chooses their extent. *)
Record AVFrame : Type := {
  frame_format : AVPixelFormat;
  frame_width : Z;
  frame_height : Z;
  frame_pts : Z;
  frame_planes : list bytes
}.

(** An [AVPacket]: the payload it currently refers to ([size] is its length). *)
Record AVPacket : Type := { packet_data : bytes }.

(** The public fields of [AVCodecContext] the wrappers assign or read, and
    the private part behind [priv_data] and the codec's internal state. *)
Record AVCodecContext (Priv : Type) : Type := {
  ctx_width : Z;
  ctx_height : Z;
  ctx_bit_rate : Z;
  ctx_time_base : AVRational;
  ctx_framerate : AVRational;
  ctx_gop_size : Z;
  ctx_max_b_frames : Z;
  ctx_pix_fmt : AVPixelFormat;
  ctx_sample_fmt : AVSampleFormat;
  ctx_refs : Z;
  ctx_thread_count : Z;
  ctx_slices : Z;
  ctx_keyint_min : Z;
  ctx_trellis : Z;
  ctx_rc_max_rate : Z;
  ctx_rc_buffer_size : Z;
  ctx_flags : Z;
  priv_data : Priv
}.
Arguments ctx_width {Priv}.
Arguments ctx_height {Priv}.
Arguments ctx_bit_rate {Priv}.
Arguments ctx_time_base {Priv}.
Arguments ctx_framerate {Priv}.
Arguments ctx_gop_size {Priv}.
Arguments ctx_max_b_frames {Priv}.
Arguments ctx_pix_fmt {Priv}.
Arguments ctx_sample_fmt {Priv}.
Arguments ctx_refs {Priv}.
Arguments ctx_thread_count {Priv}.
Arguments ctx_slices {Priv}.
Arguments ctx_keyint_min {Priv}.
Arguments ctx_trellis {Priv}.
Arguments ctx_rc_max_rate {Priv}.
Arguments ctx_rc_buffer_size {Priv}.
Arguments ctx_flags {Priv}.
Arguments priv_data {Priv}.

Definition AV_CODEC_FLAG_LOOP_FILTER : Z := 2048.

(** [AVERROR(EAGAIN)] on Linux and [AVERROR_EOF]. *)
Definition AVERROR_EAGAIN : Z := -11.
Definition AVERROR_EOF : Z := -541478725.

(** libavcodec and libavutil, as deterministic functions of what they are
    handed.  A pointer result is an [option] ([None] is [NULL]); a call that
    updates an object in place returns the updated object. *)
Class FFmpeg : Type := {
  AVCodec : Type;
  Priv : Type;
  avcodec_find_encoder : AVCodecID -> option AVCodec;
  avcodec_find_encoder_by_name : string -> option AVCodec;
  avcodec_alloc_context3 : AVCodec -> option (AVCodecContext Priv);
  av_opt_set : Priv -> string -> string -> Z * Priv;
  avcodec_open2 : AVCodecContext Priv -> AVCodec -> Z * AVCodecContext Priv;
  av_frame_alloc : option AVFrame;
  av_frame_get_buffer : AVFrame -> Z -> Z * AVFrame;
  av_frame_make_writable : AVFrame -> Z * AVFrame;
  av_packet_alloc : option AVPacket;
  avcodec_send_frame : AVCodecContext Priv -> option AVFrame -> Z * AVCodecContext Priv;
  avcodec_receive_packet : AVCodecContext Priv -> Z * bytes * AVCodecContext Priv;
  (** the C library's rendering of ["%.1f"] into a buffer of the given size *)
  snprintf_1f : nat -> Q -> string
}.

(** ** The record of library calls

    Every call a wrapper makes is recorded, with the arguments and results
    the specification speaks about. *)
Inductive Event : Type :=
| E_find_encoder (id : AVCodecID)
| E_find_encoder_by_name (name : string)
| E_alloc_context3
| E_opt_set (key value : string)
| E_open2 (ret : Z)
| E_frame_alloc
| E_frame_get_buffer (ret : Z)
| E_frame_make_writable (ret : Z)
| E_frame_free
| E_packet_alloc
| E_packet_unref
| E_packet_free
| E_free_context
| E_send_frame (frame : option AVFrame) (ret : Z)
| E_receive_packet (ret : Z) (data : bytes)
| E_swr_alloc
| E_swr_free
| E_swr_opt_chlayout (key : string) (nb_channels : Z)
| E_swr_opt_int (key : string) (value : Z)
| E_swr_opt_sample_fmt (key : string) (fmt : AVSampleFormat)
| E_swr_init (ret : Z)
| E_av_register_all
| E_mutex_lock (mutex : string)
| E_mutex_unlock (mutex : string).

Abbreviation trace := (list Event).

(** A wrapper operation returns a value together with the library calls it
    made, in order, or its behaviour is undefined. *)
Definition M (A : Type) : Type := outcome (A * trace).

Definition pure {A} (a : A) : M A := Ret (a, []).

Definition bind {A B} (m : M A) (f : A -> M B) : M B :=
  match m with
  | Ret (a, t1) =>
      match f a with
      | Ret (b, t2) => Ret (b, t1 ++ t2)
      | Undefined => Undefined
      | OutOfFuel => OutOfFuel
      end
  | Undefined => Undefined
  | OutOfFuel => OutOfFuel
  end.

Definition emit (e : Event) : M unit := Ret (tt, [e]).
Definition undefined {A} : M A := Undefined.
Definition out_of_fuel {A} : M A := OutOfFuel.
Definition lift {A} (o : outcome A) : M A :=
  outcome_bind o (fun a => Ret (a, [])).

(** A call into code that is given by its result and the calls it made. *)
Definition called {A} (r : A * trace) : M A := Ret r.

(** A pointer that must not be null where it is dereferenced. *)
Definition deref {A} (p : option A) : M A :=
  match p with
  | Some a => pure a
  | None => undefined
  end.

Notation "'let*' x ':=' m 'in' k" := (bind m (fun x => k))
  (at level 10, x pattern, m at level 100, k at level 200).
Notation "'do*' m 'in' k" := (bind m (fun _ => k))
  (at level 10, m at level 100, k at level 200).

(** The payloads of the packets the library handed over in a trace: the
    [avcodec_receive_packet] calls that returned success. *)
Definition received_packets (tr : trace) : list bytes :=
  flat_map
    (fun e =>
       match e with
       | E_receive_packet r data => if r <? 0 then [] else [data]
       | _ => []
       end) tr.

(** The frames handed to [avcodec_send_frame] in a trace. *)
Definition submitted_frames (tr : trace) : list (option AVFrame) :=
  flat_map
    (fun e =>
       match e with
       | E_send_frame frame _ => [frame]
       | _ => []
       end) tr.

(** ** Steps shared by the encoder wrappers *)

(** [if (p) { free(&p); }]. *)
Definition free_if_set {A} (p : option A) (e : Event) : M unit :=
  match p with
  | Some _ => emit e
  | None => pure tt
  end.

Section WithLibrary.
Context `{L : FFmpeg}.

(** A run of [av_opt_set(ctx->priv_data, key, value, 0)] calls; the wrappers
    ignore the status each call returns. *)
Fixpoint apply_options (opts : list (string * string)) (priv : Priv) : M Priv :=
  match opts with
  | [] => pure priv
  | (key, value) :: rest =>
      do* emit (E_opt_set key value) in
      apply_options rest (snd (av_opt_set priv key value))
  end.

End WithLibrary.

Definition set_plane (frame : AVFrame) (plane : nat) (buf : bytes) : AVFrame := {|
  frame_format := frame_format frame;
  frame_width := frame_width frame;
  frame_height := frame_height frame;
  frame_pts := frame_pts frame;
  frame_planes := <[plane := buf]> (frame_planes frame)
|}.

Definition set_pts (frame : AVFrame) (pts : Z) : AVFrame := {|
  frame_format := frame_format frame;
  frame_width := frame_width frame;
  frame_height := frame_height frame;
  frame_pts := pts;
  frame_planes := frame_planes frame
|}.

(** [memcpy(frame->data[plane], src + src_off, n)]. *)
Definition copy_to_plane (frame : AVFrame) (plane : nat) (src : bytes)
    (src_off n : Z) : M AVFrame :=
  let* buf := deref (frame_planes frame !! plane) in
  let* buf' := lift (memcpy buf 0 src src_off n) in
  pure (set_plane frame plane buf').


(** * h264_encoder.h: [struct H264EncoderConfig]

    [float] members are carried as the rational their initializer denotes;
    the wrappers copy them and hand them to [snprintf], nothing more. *)

Module H264EncoderConfig.

Record t : Type := mk {
  width : Z;
  height : Z;
  bitrate : Z;
  framerate : Z;
  preset : string;
  profile : string;
  level : string;
  tune : string;
  gop_size : Z;
  max_b_frames : Z;
  refs : Z;
  open_gop : bool;
  keyint_min : Z;
  scenecut_threshold : Z;
  repeat_headers : bool;
  constant_bitrate : bool;
  crf : Z;
  qp : Z;
  rc_lookahead : Z;
  vbv_maxrate : Z;
  vbv_bufsize : Z;
  vbv_init : Q;
  bitrate_variance : Q;
  qp_variance : Q;
  qp_min : Z;
  qp_max : Z;
  qp_step : Z;
  me_method : string;
  me_range : Z;
  subpixel_me : Z;
  me_skip_threshold : Z;
  psy_rd : bool;
  psy_rd_strength : Q;
  fast_pskip : bool;
  mixed_refs : bool;
  cabac : bool;
  dct8x8 : bool;
  aq_mode : bool;
  aq_strength : Q;
  deblock : bool;
  deblock_alpha : Z;
  deblock_beta : Z;
  slices : Z;
  slice_max_size : Z;
  threads : Z;
  add_sei : bool;
  add_aud : bool;
  annexb : bool;
  intra_refresh : Z;
  keyint_sec : Z;
  trellis : Z;
  nr_strength : Z;
  force_cfr : bool;
  bluray_compat : bool
}.

(** The default member initializers of the struct. *)
Definition default : t := {|
  width := 1920;
  height := 1080;
  bitrate := 5000000;
  framerate := 30;
  preset := "medium";
  profile := "high";
  level := "4.1";
  tune := "";
  gop_size := 30;
  max_b_frames := 2;
  refs := 3;
  open_gop := false;
  keyint_min := 25;
  scenecut_threshold := 40;
  repeat_headers := false;
  constant_bitrate := false;
  crf := 23;
  qp := (-1);
  rc_lookahead := 40;
  vbv_maxrate := 0;
  vbv_bufsize := 0;
  vbv_init := (9 # 10)%Q;
  bitrate_variance := (0 # 1)%Q;
  qp_variance := (0 # 1)%Q;
  qp_min := 0;
  qp_max := 51;
  qp_step := 4;
  me_method := "hex";
  me_range := 16;
  subpixel_me := 7;
  me_skip_threshold := 0;
  psy_rd := true;
  psy_rd_strength := (1 # 1)%Q;
  fast_pskip := true;
  mixed_refs := true;
  cabac := true;
  dct8x8 := true;
  aq_mode := true;
  aq_strength := (1 # 1)%Q;
  deblock := true;
  deblock_alpha := 0;
  deblock_beta := 0;
  slices := 0;
  slice_max_size := 0;
  threads := 0;
  add_sei := true;
  add_aud := false;
  annexb := true;
  intra_refresh := 0;
  keyint_sec := 0;
  trellis := 1;
  nr_strength := 0;
  force_cfr := false;
  bluray_compat := false
|}.

Definition set_width (v : Z) (c : t) : t := {|
  width := v; height := height c; bitrate := bitrate c;
  framerate := framerate c; preset := preset c; profile := profile c;
  level := level c; tune := tune c; gop_size := gop_size c;
  max_b_frames := max_b_frames c; refs := refs c; open_gop := open_gop c;
  keyint_min := keyint_min c; scenecut_threshold := scenecut_threshold c;
  repeat_headers := repeat_headers c; constant_bitrate := constant_bitrate c;
  crf := crf c; qp := qp c; rc_lookahead := rc_lookahead c;
  vbv_maxrate := vbv_maxrate c; vbv_bufsize := vbv_bufsize c;
  vbv_init := vbv_init c; bitrate_variance := bitrate_variance c;
  qp_variance := qp_variance c; qp_min := qp_min c; qp_max := qp_max c;
  qp_step := qp_step c; me_method := me_method c; me_range := me_range c;
  subpixel_me := subpixel_me c; me_skip_threshold := me_skip_threshold c;
  psy_rd := psy_rd c; psy_rd_strength := psy_rd_strength c;
  fast_pskip := fast_pskip c; mixed_refs := mixed_refs c; cabac := cabac c;
  dct8x8 := dct8x8 c; aq_mode := aq_mode c; aq_strength := aq_strength c;
  deblock := deblock c; deblock_alpha := deblock_alpha c;
  deblock_beta := deblock_beta c; slices := slices c;
  slice_max_size := slice_max_size c; threads := threads c;
  add_sei := add_sei c; add_aud := add_aud c; annexb := annexb c;
  intra_refresh := intra_refresh c; keyint_sec := keyint_sec c;
  trellis := trellis c; nr_strength := nr_strength c;
  force_cfr := force_cfr c; bluray_compat := bluray_compat c
|}.

Definition set_height (v : Z) (c : t) : t := {|
  width := width c; height := v; bitrate := bitrate c;
  framerate := framerate c; preset := preset c; profile := profile c;
  level := level c; tune := tune c; gop_size := gop_size c;
  max_b_frames := max_b_frames c; refs := refs c; open_gop := open_gop c;
  keyint_min := keyint_min c; scenecut_threshold := scenecut_threshold c;
  repeat_headers := repeat_headers c; constant_bitrate := constant_bitrate c;
  crf := crf c; qp := qp c; rc_lookahead := rc_lookahead c;
  vbv_maxrate := vbv_maxrate c; vbv_bufsize := vbv_bufsize c;
  vbv_init := vbv_init c; bitrate_variance := bitrate_variance c;
  qp_variance := qp_variance c; qp_min := qp_min c; qp_max := qp_max c;
  qp_step := qp_step c; me_method := me_method c; me_range := me_range c;
  subpixel_me := subpixel_me c; me_skip_threshold := me_skip_threshold c;
  psy_rd := psy_rd c; psy_rd_strength := psy_rd_strength c;
  fast_pskip := fast_pskip c; mixed_refs := mixed_refs c; cabac := cabac c;
  dct8x8 := dct8x8 c; aq_mode := aq_mode c; aq_strength := aq_strength c;
  deblock := deblock c; deblock_alpha := deblock_alpha c;
  deblock_beta := deblock_beta c; slices := slices c;
  slice_max_size := slice_max_size c; threads := threads c;
  add_sei := add_sei c; add_aud := add_aud c; annexb := annexb c;
  intra_refresh := intra_refresh c; keyint_sec := keyint_sec c;
  trellis := trellis c; nr_strength := nr_strength c;
  force_cfr := force_cfr c; bluray_compat := bluray_compat c
|}.

Definition set_bitrate (v : Z) (c : t) : t := {|
  width := width c; height := height c; bitrate := v;
  framerate := framerate c; preset := preset c; profile := profile c;
  level := level c; tune := tune c; gop_size := gop_size c;
  max_b_frames := max_b_frames c; refs := refs c; open_gop := open_gop c;
  keyint_min := keyint_min c; scenecut_threshold := scenecut_threshold c;
  repeat_headers := repeat_headers c; constant_bitrate := constant_bitrate c;
  crf := crf c; qp := qp c; rc_lookahead := rc_lookahead c;
  vbv_maxrate := vbv_maxrate c; vbv_bufsize := vbv_bufsize c;
  vbv_init := vbv_init c; bitrate_variance := bitrate_variance c;
  qp_variance := qp_variance c; qp_min := qp_min c; qp_max := qp_max c;
  qp_step := qp_step c; me_method := me_method c; me_range := me_range c;
  subpixel_me := subpixel_me c; me_skip_threshold := me_skip_threshold c;
  psy_rd := psy_rd c; psy_rd_strength := psy_rd_strength c;
  fast_pskip := fast_pskip c; mixed_refs := mixed_refs c; cabac := cabac c;
  dct8x8 := dct8x8 c; aq_mode := aq_mode c; aq_strength := aq_strength c;
  deblock := deblock c; deblock_alpha := deblock_alpha c;
  deblock_beta := deblock_beta c; slices := slices c;
  slice_max_size := slice_max_size c; threads := threads c;
  add_sei := add_sei c; add_aud := add_aud c; annexb := annexb c;
  intra_refresh := intra_refresh c; keyint_sec := keyint_sec c;
  trellis := trellis c; nr_strength := nr_strength c;
  force_cfr := force_cfr c; bluray_compat := bluray_compat c
|}.

Definition set_framerate (v : Z) (c : t) : t := {|
  width := width c; height := height c; bitrate := bitrate c; framerate := v;
  preset := preset c; profile := profile c; level := level c; tune := tune c;
  gop_size := gop_size c; max_b_frames := max_b_frames c; refs := refs c;
  open_gop := open_gop c; keyint_min := keyint_min c;
  scenecut_threshold := scenecut_threshold c;
  repeat_headers := repeat_headers c; constant_bitrate := constant_bitrate c;
  crf := crf c; qp := qp c; rc_lookahead := rc_lookahead c;
  vbv_maxrate := vbv_maxrate c; vbv_bufsize := vbv_bufsize c;
  vbv_init := vbv_init c; bitrate_variance := bitrate_variance c;
  qp_variance := qp_variance c; qp_min := qp_min c; qp_max := qp_max c;
  qp_step := qp_step c; me_method := me_method c; me_range := me_range c;
  subpixel_me := subpixel_me c; me_skip_threshold := me_skip_threshold c;
  psy_rd := psy_rd c; psy_rd_strength := psy_rd_strength c;
  fast_pskip := fast_pskip c; mixed_refs := mixed_refs c; cabac := cabac c;
  dct8x8 := dct8x8 c; aq_mode := aq_mode c; aq_strength := aq_strength c;
  deblock := deblock c; deblock_alpha := deblock_alpha c;
  deblock_beta := deblock_beta c; slices := slices c;
  slice_max_size := slice_max_size c; threads := threads c;
  add_sei := add_sei c; add_aud := add_aud c; annexb := annexb c;
  intra_refresh := intra_refresh c; keyint_sec := keyint_sec c;
  trellis := trellis c; nr_strength := nr_strength c;
  force_cfr := force_cfr c; bluray_compat := bluray_compat c
|}.

Definition set_preset (v : string) (c : t) : t := {|
  width := width c; height := height c; bitrate := bitrate c;
  framerate := framerate c; preset := v; profile := profile c;
  level := level c; tune := tune c; gop_size := gop_size c;
  max_b_frames := max_b_frames c; refs := refs c; open_gop := open_gop c;
  keyint_min := keyint_min c; scenecut_threshold := scenecut_threshold c;
  repeat_headers := repeat_headers c; constant_bitrate := constant_bitrate c;
  crf := crf c; qp := qp c; rc_lookahead := rc_lookahead c;
  vbv_maxrate := vbv_maxrate c; vbv_bufsize := vbv_bufsize c;
  vbv_init := vbv_init c; bitrate_variance := bitrate_variance c;
  qp_variance := qp_variance c; qp_min := qp_min c; qp_max := qp_max c;
  qp_step := qp_step c; me_method := me_method c; me_range := me_range c;
  subpixel_me := subpixel_me c; me_skip_threshold := me_skip_threshold c;
  psy_rd := psy_rd c; psy_rd_strength := psy_rd_strength c;
  fast_pskip := fast_pskip c; mixed_refs := mixed_refs c; cabac := cabac c;
  dct8x8 := dct8x8 c; aq_mode := aq_mode c; aq_strength := aq_strength c;
  deblock := deblock c; deblock_alpha := deblock_alpha c;
  deblock_beta := deblock_beta c; slices := slices c;
  slice_max_size := slice_max_size c; threads := threads c;
  add_sei := add_sei c; add_aud := add_aud c; annexb := annexb c;
  intra_refresh := intra_refresh c; keyint_sec := keyint_sec c;
  trellis := trellis c; nr_strength := nr_strength c;
  force_cfr := force_cfr c; bluray_compat := bluray_compat c
|}.

Definition set_profile (v : string) (c : t) : t := {|
  width := width c; height := height c; bitrate := bitrate c;
  framerate := framerate c; preset := preset c; profile := v;
  level := level c; tune := tune c; gop_size := gop_size c;
  max_b_frames := max_b_frames c; refs := refs c; open_gop := open_gop c;
  keyint_min := keyint_min c; scenecut_threshold := scenecut_threshold c;
  repeat_headers := repeat_headers c; constant_bitrate := constant_bitrate c;
  crf := crf c; qp := qp c; rc_lookahead := rc_lookahead c;
  vbv_maxrate := vbv_maxrate c; vbv_bufsize := vbv_bufsize c;
  vbv_init := vbv_init c; bitrate_variance := bitrate_variance c;
  qp_variance := qp_variance c; qp_min := qp_min c; qp_max := qp_max c;
  qp_step := qp_step c; me_method := me_method c; me_range := me_range c;
  subpixel_me := subpixel_me c; me_skip_threshold := me_skip_threshold c;
  psy_rd := psy_rd c; psy_rd_strength := psy_rd_strength c;
  fast_pskip := fast_pskip c; mixed_refs := mixed_refs c; cabac := cabac c;
  dct8x8 := dct8x8 c; aq_mode := aq_mode c; aq_strength := aq_strength c;
  deblock := deblock c; deblock_alpha := deblock_alpha c;
  deblock_beta := deblock_beta c; slices := slices c;
  slice_max_size := slice_max_size c; threads := threads c;
  add_sei := add_sei c; add_aud := add_aud c; annexb := annexb c;
  intra_refresh := intra_refresh c; keyint_sec := keyint_sec c;
  trellis := trellis c; nr_strength := nr_strength c;
  force_cfr := force_cfr c; bluray_compat := bluray_compat c
|}.

Definition set_level (v : string) (c : t) : t := {|
  width := width c; height := height c; bitrate := bitrate c;
  framerate := framerate c; preset := preset c; profile := profile c;
  level := v; tune := tune c; gop_size := gop_size c;
  max_b_frames := max_b_frames c; refs := refs c; open_gop := open_gop c;
  keyint_min := keyint_min c; scenecut_threshold := scenecut_threshold c;
  repeat_headers := repeat_headers c; constant_bitrate := constant_bitrate c;
  crf := crf c; qp := qp c; rc_lookahead := rc_lookahead c;
  vbv_maxrate := vbv_maxrate c; vbv_bufsize := vbv_bufsize c;
  vbv_init := vbv_init c; bitrate_variance := bitrate_variance c;
  qp_variance := qp_variance c; qp_min := qp_min c; qp_max := qp_max c;
  qp_step := qp_step c; me_method := me_method c; me_range := me_range c;
  subpixel_me := subpixel_me c; me_skip_threshold := me_skip_threshold c;
  psy_rd := psy_rd c; psy_rd_strength := psy_rd_strength c;
  fast_pskip := fast_pskip c; mixed_refs := mixed_refs c; cabac := cabac c;
  dct8x8 := dct8x8 c; aq_mode := aq_mode c; aq_strength := aq_strength c;
  deblock := deblock c; deblock_alpha := deblock_alpha c;
  deblock_beta := deblock_beta c; slices := slices c;
  slice_max_size := slice_max_size c; threads := threads c;
  add_sei := add_sei c; add_aud := add_aud c; annexb := annexb c;
  intra_refresh := intra_refresh c; keyint_sec := keyint_sec c;
  trellis := trellis c; nr_strength := nr_strength c;
  force_cfr := force_cfr c; bluray_compat := bluray_compat c
|}.

Definition set_gop_size (v : Z) (c : t) : t := {|
  width := width c; height := height c; bitrate := bitrate c;
  framerate := framerate c; preset := preset c; profile := profile c;
  level := level c; tune := tune c; gop_size := v;
  max_b_frames := max_b_frames c; refs := refs c; open_gop := open_gop c;
  keyint_min := keyint_min c; scenecut_threshold := scenecut_threshold c;
  repeat_headers := repeat_headers c; constant_bitrate := constant_bitrate c;
  crf := crf c; qp := qp c; rc_lookahead := rc_lookahead c;
  vbv_maxrate := vbv_maxrate c; vbv_bufsize := vbv_bufsize c;
  vbv_init := vbv_init c; bitrate_variance := bitrate_variance c;
  qp_variance := qp_variance c; qp_min := qp_min c; qp_max := qp_max c;
  qp_step := qp_step c; me_method := me_method c; me_range := me_range c;
  subpixel_me := subpixel_me c; me_skip_threshold := me_skip_threshold c;
  psy_rd := psy_rd c; psy_rd_strength := psy_rd_strength c;
  fast_pskip := fast_pskip c; mixed_refs := mixed_refs c; cabac := cabac c;
  dct8x8 := dct8x8 c; aq_mode := aq_mode c; aq_strength := aq_strength c;
  deblock := deblock c; deblock_alpha := deblock_alpha c;
  deblock_beta := deblock_beta c; slices := slices c;
  slice_max_size := slice_max_size c; threads := threads c;
  add_sei := add_sei c; add_aud := add_aud c; annexb := annexb c;
  intra_refresh := intra_refresh c; keyint_sec := keyint_sec c;
  trellis := trellis c; nr_strength := nr_strength c;
  force_cfr := force_cfr c; bluray_compat := bluray_compat c
|}.

Definition set_max_b_frames (v : Z) (c : t) : t := {|
  width := width c; height := height c; bitrate := bitrate c;
  framerate := framerate c; preset := preset c; profile := profile c;
  level := level c; tune := tune c; gop_size := gop_size c;
  max_b_frames := v; refs := refs c; open_gop := open_gop c;
  keyint_min := keyint_min c; scenecut_threshold := scenecut_threshold c;
  repeat_headers := repeat_headers c; constant_bitrate := constant_bitrate c;
  crf := crf c; qp := qp c; rc_lookahead := rc_lookahead c;
  vbv_maxrate := vbv_maxrate c; vbv_bufsize := vbv_bufsize c;
  vbv_init := vbv_init c; bitrate_variance := bitrate_variance c;
  qp_variance := qp_variance c; qp_min := qp_min c; qp_max := qp_max c;
  qp_step := qp_step c; me_method := me_method c; me_range := me_range c;
  subpixel_me := subpixel_me c; me_skip_threshold := me_skip_threshold c;
  psy_rd := psy_rd c; psy_rd_strength := psy_rd_strength c;
  fast_pskip := fast_pskip c; mixed_refs := mixed_refs c; cabac := cabac c;
  dct8x8 := dct8x8 c; aq_mode := aq_mode c; aq_strength := aq_strength c;
  deblock := deblock c; deblock_alpha := deblock_alpha c;
  deblock_beta := deblock_beta c; slices := slices c;
  slice_max_size := slice_max_size c; threads := threads c;
  add_sei := add_sei c; add_aud := add_aud c; annexb := annexb c;
  intra_refresh := intra_refresh c; keyint_sec := keyint_sec c;
  trellis := trellis c; nr_strength := nr_strength c;
  force_cfr := force_cfr c; bluray_compat := bluray_compat c
|}.

Definition set_constant_bitrate (v : bool) (c : t) : t := {|
  width := width c; height := height c; bitrate := bitrate c;
  framerate := framerate c; preset := preset c; profile := profile c;
  level := level c; tune := tune c; gop_size := gop_size c;
  max_b_frames := max_b_frames c; refs := refs c; open_gop := open_gop c;
  keyint_min := keyint_min c; scenecut_threshold := scenecut_threshold c;
  repeat_headers := repeat_headers c; constant_bitrate := v; crf := crf c;
  qp := qp c; rc_lookahead := rc_lookahead c; vbv_maxrate := vbv_maxrate c;
  vbv_bufsize := vbv_bufsize c; vbv_init := vbv_init c;
  bitrate_variance := bitrate_variance c; qp_variance := qp_variance c;
  qp_min := qp_min c; qp_max := qp_max c; qp_step := qp_step c;
  me_method := me_method c; me_range := me_range c;
  subpixel_me := subpixel_me c; me_skip_threshold := me_skip_threshold c;
  psy_rd := psy_rd c; psy_rd_strength := psy_rd_strength c;
  fast_pskip := fast_pskip c; mixed_refs := mixed_refs c; cabac := cabac c;
  dct8x8 := dct8x8 c; aq_mode := aq_mode c; aq_strength := aq_strength c;
  deblock := deblock c; deblock_alpha := deblock_alpha c;
  deblock_beta := deblock_beta c; slices := slices c;
  slice_max_size := slice_max_size c; threads := threads c;
  add_sei := add_sei c; add_aud := add_aud c; annexb := annexb c;
  intra_refresh := intra_refresh c; keyint_sec := keyint_sec c;
  trellis := trellis c; nr_strength := nr_strength c;
  force_cfr := force_cfr c; bluray_compat := bluray_compat c
|}.

Definition set_crf (v : Z) (c : t) : t := {|
  width := width c; height := height c; bitrate := bitrate c;
  framerate := framerate c; preset := preset c; profile := profile c;
  level := level c; tune := tune c; gop_size := gop_size c;
  max_b_frames := max_b_frames c; refs := refs c; open_gop := open_gop c;
  keyint_min := keyint_min c; scenecut_threshold := scenecut_threshold c;
  repeat_headers := repeat_headers c; constant_bitrate := constant_bitrate c;
  crf := v; qp := qp c; rc_lookahead := rc_lookahead c;
  vbv_maxrate := vbv_maxrate c; vbv_bufsize := vbv_bufsize c;
  vbv_init := vbv_init c; bitrate_variance := bitrate_variance c;
  qp_variance := qp_variance c; qp_min := qp_min c; qp_max := qp_max c;
  qp_step := qp_step c; me_method := me_method c; me_range := me_range c;
  subpixel_me := subpixel_me c; me_skip_threshold := me_skip_threshold c;
  psy_rd := psy_rd c; psy_rd_strength := psy_rd_strength c;
  fast_pskip := fast_pskip c; mixed_refs := mixed_refs c; cabac := cabac c;
  dct8x8 := dct8x8 c; aq_mode := aq_mode c; aq_strength := aq_strength c;
  deblock := deblock c; deblock_alpha := deblock_alpha c;
  deblock_beta := deblock_beta c; slices := slices c;
  slice_max_size := slice_max_size c; threads := threads c;
  add_sei := add_sei c; add_aud := add_aud c; annexb := annexb c;
  intra_refresh := intra_refresh c; keyint_sec := keyint_sec c;
  trellis := trellis c; nr_strength := nr_strength c;
  force_cfr := force_cfr c; bluray_compat := bluray_compat c
|}.

Definition set_threads (v : Z) (c : t) : t := {|
  width := width c; height := height c; bitrate := bitrate c;
  framerate := framerate c; preset := preset c; profile := profile c;
  level := level c; tune := tune c; gop_size := gop_size c;
  max_b_frames := max_b_frames c; refs := refs c; open_gop := open_gop c;
  keyint_min := keyint_min c; scenecut_threshold := scenecut_threshold c;
  repeat_headers := repeat_headers c; constant_bitrate := constant_bitrate c;
  crf := crf c; qp := qp c; rc_lookahead := rc_lookahead c;
  vbv_maxrate := vbv_maxrate c; vbv_bufsize := vbv_bufsize c;
  vbv_init := vbv_init c; bitrate_variance := bitrate_variance c;
  qp_variance := qp_variance c; qp_min := qp_min c; qp_max := qp_max c;
  qp_step := qp_step c; me_method := me_method c; me_range := me_range c;
  subpixel_me := subpixel_me c; me_skip_threshold := me_skip_threshold c;
  psy_rd := psy_rd c; psy_rd_strength := psy_rd_strength c;
  fast_pskip := fast_pskip c; mixed_refs := mixed_refs c; cabac := cabac c;
  dct8x8 := dct8x8 c; aq_mode := aq_mode c; aq_strength := aq_strength c;
  deblock := deblock c; deblock_alpha := deblock_alpha c;
  deblock_beta := deblock_beta c; slices := slices c;
  slice_max_size := slice_max_size c; threads := v; add_sei := add_sei c;
  add_aud := add_aud c; annexb := annexb c; intra_refresh := intra_refresh c;
  keyint_sec := keyint_sec c; trellis := trellis c;
  nr_strength := nr_strength c; force_cfr := force_cfr c;
  bluray_compat := bluray_compat c
|}.

End H264EncoderConfig.

(** * h264_encoder.cc: [class H264EncoderInstance] *)

Module H264EncoderInstance.
Section WithLibrary.
Context `{L : FFmpeg}.

(** The data members.  [frame_count_] has no initializer and is first
    assigned by a successful [Initialize]: it is [None] until then. *)
Record t : Type := {
  config_ : H264EncoderConfig.t;
  initialized_ : bool;
  frame_count_ : option Z;
  codec_ : option AVCodec;
  codec_ctx_ : option (AVCodecContext Priv);
  frame_ : option AVFrame;
  packet_ : option AVPacket
}.

(** [H264EncoderInstance(config)]. *)
Definition new (config : H264EncoderConfig.t) : t := {|
  config_ := config;
  initialized_ := false;
  frame_count_ := None;
  codec_ := None;
  codec_ctx_ := None;
  frame_ := None;
  packet_ := None
|}.

Definition Cleanup (self : t) : M t :=
  do* free_if_set (packet_ self) E_packet_free in
  do* free_if_set (frame_ self) E_frame_free in
  do* free_if_set (codec_ctx_ self) E_free_context in
  pure {|
    config_ := config_ self;
    initialized_ := false;
    frame_count_ := frame_count_ self;
    codec_ := codec_ self;
    codec_ctx_ := None;
    frame_ := None;
    packet_ := None
  |}.

Definition flag_string (b : bool) : string := if b then "1" else "0".

Definition option_if (b : bool) (key value : string) : list (string * string) :=
  if b then [(key, value)] else [].

(** The [av_opt_set(codec_ctx_->priv_data, key, value, 0)] calls of
    [Initialize], in source order. *)
Definition codec_options (c : H264EncoderConfig.t) : list (string * string) :=
  [ ("preset", H264EncoderConfig.preset c);
    ("profile", H264EncoderConfig.profile c) ]
  ++ option_if (negb (String.eqb (H264EncoderConfig.level c) ""))
       "level" (H264EncoderConfig.level c)
  ++ option_if (negb (String.eqb (H264EncoderConfig.tune c) ""))
       "tune" (H264EncoderConfig.tune c)
  ++ (if H264EncoderConfig.constant_bitrate c
      then [ ("crf", "0"); ("tune", "zerolatency") ]
      else if 0 <=? H264EncoderConfig.qp c
      then [ ("qp", snprintf_d 8 (H264EncoderConfig.qp c)) ]
      else [ ("crf", snprintf_d 8 (H264EncoderConfig.crf c)) ])
  ++ option_if (0 <? H264EncoderConfig.rc_lookahead c)
       "rc-lookahead" (snprintf_d 8 (H264EncoderConfig.rc_lookahead c))
  ++ [ ("me_method", H264EncoderConfig.me_method c);
       ("me_range", snprintf_d 8 (H264EncoderConfig.me_range c));
       ("subq", snprintf_d 8 (H264EncoderConfig.subpixel_me c));
       ("psy", flag_string (H264EncoderConfig.psy_rd c));
       ("psy-rd", snprintf_1f 16 (H264EncoderConfig.psy_rd_strength c));
       ("fast_pskip", flag_string (H264EncoderConfig.fast_pskip c));
       ("mixed_refs", flag_string (H264EncoderConfig.mixed_refs c));
       ("cabac", flag_string (H264EncoderConfig.cabac c));
       ("8x8dct", flag_string (H264EncoderConfig.dct8x8 c));
       ("aq-mode", flag_string (H264EncoderConfig.aq_mode c));
       ("aq-strength", snprintf_1f 16 (H264EncoderConfig.aq_strength c));
       ("deblock",
        snprintf_d 8 (H264EncoderConfig.deblock_alpha c) +:+ ":"
        +:+ snprintf_d 8 (H264EncoderConfig.deblock_beta c));
       ("qpmin", snprintf_d 8 (H264EncoderConfig.qp_min c));
       ("qpmax", snprintf_d 8 (H264EncoderConfig.qp_max c));
       ("qpstep", snprintf_d 8 (H264EncoderConfig.qp_step c));
       ("bluray-compat", flag_string (H264EncoderConfig.bluray_compat c));
       ("force-cfr", flag_string (H264EncoderConfig.force_cfr c)) ]
  ++ option_if (0 <? H264EncoderConfig.intra_refresh c)
       "intra-refresh" (snprintf_d 8 (H264EncoderConfig.intra_refresh c))
  ++ option_if (0 <? H264EncoderConfig.keyint_sec c)
       "keyint" (snprintf_d 8 (H264EncoderConfig.keyint_sec c))
  ++ option_if (0 <? H264EncoderConfig.nr_strength c)
       "nr" (snprintf_d 8 (H264EncoderConfig.nr_strength c))
  ++ option_if (0 <? H264EncoderConfig.slice_max_size c)
       "slice-max-size" (snprintf_d 16 (H264EncoderConfig.slice_max_size c))
  ++ [ ("open-gop", flag_string (H264EncoderConfig.open_gop c));
       ("scenecut", snprintf_d 8 (H264EncoderConfig.scenecut_threshold c));
       ("repeat-headers", flag_string (H264EncoderConfig.repeat_headers c));
       ("annexb", flag_string (H264EncoderConfig.annexb c)) ].

(** The assignments to the public fields of [codec_ctx_] made by
    [Initialize]; [priv] is the private part after the option calls. *)
Definition context_fields (c : H264EncoderConfig.t)
    (ctx : AVCodecContext Priv) (priv : Priv) : AVCodecContext Priv := {|
  ctx_width := H264EncoderConfig.width c;
  ctx_height := H264EncoderConfig.height c;
  ctx_bit_rate := H264EncoderConfig.bitrate c;
  ctx_time_base := {| num := 1; den := H264EncoderConfig.framerate c |};
  ctx_framerate := {| num := H264EncoderConfig.framerate c; den := 1 |};
  ctx_gop_size := H264EncoderConfig.gop_size c;
  ctx_max_b_frames := H264EncoderConfig.max_b_frames c;
  ctx_pix_fmt := AV_PIX_FMT_YUV420P;
  ctx_sample_fmt := ctx_sample_fmt ctx;
  ctx_refs := H264EncoderConfig.refs c;
  ctx_thread_count := H264EncoderConfig.threads c;
  ctx_slices := H264EncoderConfig.slices c;
  ctx_keyint_min := H264EncoderConfig.keyint_min c;
  ctx_trellis := H264EncoderConfig.trellis c;
  ctx_rc_max_rate :=
    if 0 <? H264EncoderConfig.vbv_maxrate c
    then H264EncoderConfig.vbv_maxrate c else ctx_rc_max_rate ctx;
  ctx_rc_buffer_size :=
    if 0 <? H264EncoderConfig.vbv_bufsize c
    then H264EncoderConfig.vbv_bufsize c else ctx_rc_buffer_size ctx;
  ctx_flags :=
    Z.lor (ctx_flags ctx)
      (if H264EncoderConfig.deblock c then 0 else AV_CODEC_FLAG_LOOP_FILTER);
  priv_data := priv
|}.

Definition with_handles (self : t) (initialized : bool) (count : option Z)
    (ctx : option (AVCodecContext Priv)) (frame : option AVFrame)
    (packet : option AVPacket) : t := {|
  config_ := config_ self;
  initialized_ := initialized;
  frame_count_ := count;
  codec_ := codec_ self;
  codec_ctx_ := ctx;
  frame_ := frame;
  packet_ := packet
|}.

Definition fail_after_cleanup (self : t) : M (bool * t) :=
  let* self' := Cleanup self in
  pure (false, self').

Definition Initialize (self : t) : M (bool * t) :=
  let* self := Cleanup self in
  do* emit (E_find_encoder AV_CODEC_ID_H264) in
  let found := avcodec_find_encoder AV_CODEC_ID_H264 in
  let self := {|
    config_ := config_ self; initialized_ := initialized_ self;
    frame_count_ := frame_count_ self; codec_ := found;
    codec_ctx_ := codec_ctx_ self; frame_ := frame_ self;
    packet_ := packet_ self |} in
  match found with
  | None => pure (false, self)
  | Some codec =>
      do* emit E_alloc_context3 in
      match avcodec_alloc_context3 codec with
      | None => pure (false, self)
      | Some ctx0 =>
          let* priv := apply_options (codec_options (config_ self)) (priv_data ctx0) in
          let ctx1 := context_fields (config_ self) ctx0 priv in
          let opened := avcodec_open2 ctx1 codec in
          do* emit (E_open2 (fst opened)) in
          let ctx := snd opened in
          let self := with_handles self false (frame_count_ self) (Some ctx) None None in
          if fst opened <? 0 then fail_after_cleanup self
          else
            do* emit E_frame_alloc in
            match av_frame_alloc with
            | None => fail_after_cleanup self
            | Some frame0 =>
                let frame1 := {|
                  frame_format := ctx_pix_fmt ctx;
                  frame_width := ctx_width ctx;
                  frame_height := ctx_height ctx;
                  frame_pts := frame_pts frame0;
                  frame_planes := frame_planes frame0 |} in
                let buffered := av_frame_get_buffer frame1 0 in
                do* emit (E_frame_get_buffer (fst buffered)) in
                let self :=
                  with_handles self false (frame_count_ self) (Some ctx)
                    (Some (snd buffered)) None in
                if fst buffered <? 0 then fail_after_cleanup self
                else
                  do* emit E_packet_alloc in
                  match av_packet_alloc with
                  | None => fail_after_cleanup self
                  | Some packet =>
                      pure (true,
                            with_handles self true (Some 0) (Some ctx)
                              (Some (snd buffered)) (Some packet))
                  end
            end
      end
  end.

(** The [while (ret >= 0)] loop of [EncodeFrame]; [out] is the vector
    behind [output_frame]. *)
Fixpoint receive_packets (fuel : nat) (r : Z) (self : t) (out : bytes)
    : M (bool * t * bytes) :=
  if r <? 0 then pure (true, self, out)
  else
    match fuel with
    | O => out_of_fuel
    | S fuel' =>
        let* ctx := deref (codec_ctx_ self) in
        let* _ := deref (packet_ self) in
        let received := avcodec_receive_packet ctx in
        let r := fst (fst received) in
        let data := snd (fst received) in
        do* emit (E_receive_packet r data) in
        let self :=
          with_handles self (initialized_ self) (frame_count_ self)
            (Some (snd received)) (frame_ self)
            (Some {| packet_data := if r <? 0 then [] else data |}) in
        if (r =? AVERROR_EAGAIN) || (r =? AVERROR_EOF) then pure (true, self, out)
        else if r <? 0 then pure (false, self, out)
        else
          let current_size := length out in
          let resized := vector_resize out (current_size + length data) in
          let* out' := lift (memcpy resized (Z.of_nat current_size) data 0
                               (Z.of_nat (length data))) in
          do* emit E_packet_unref in
          let self :=
            with_handles self (initialized_ self) (frame_count_ self)
              (codec_ctx_ self) (frame_ self) (Some {| packet_data := [] |}) in
          receive_packets fuel' r self out'
    end.

Definition EncodeFrame (fuel : nat) (self : t) (frame : option AVFrame)
    (output_frame : vector_ptr) : M (bool * t * vector_ptr) :=
  let* ctx := deref (codec_ctx_ self) in
  let sent := avcodec_send_frame ctx frame in
  do* emit (E_send_frame frame (fst sent)) in
  let self :=
    with_handles self (initialized_ self) (frame_count_ self)
      (Some (snd sent)) (frame_ self) (packet_ self) in
  if fst sent <? 0 then pure (false, self, output_frame)
  else
    let* _ := deref output_frame in
    let* (ok, self, out) := receive_packets fuel (fst sent) self [] in
    pure (ok, self, Some out).

(** [size_t expected_size = config_.width * config_.height * 3 / 2]. *)
Definition expected_size (c : H264EncoderConfig.t) : Z :=
  to_size_t
    (int_div
       (int_mul (int_mul (H264EncoderConfig.width c) (H264EncoderConfig.height c)) 3)
       2).

Definition EncodeYUV420 (fuel : nat) (self : t) (yuv_data : bytes)
    (output_frame : vector_ptr) : M (bool * t * vector_ptr) :=
  let* (ready, self) :=
    (if initialized_ self then pure (true, self) else Initialize self) in
  if negb ready then pure (false, self, output_frame)
  else
    match output_frame with
    | None => pure (false, self, output_frame)
    | Some _ =>
        let c := config_ self in
        if negb (Z.of_nat (length yuv_data) =? expected_size c)
        then pure (false, self, output_frame)
        else
          let* frame := deref (frame_ self) in
          let writable := av_frame_make_writable frame in
          do* emit (E_frame_make_writable (fst writable)) in
          let frame := snd writable in
          let self :=
            with_handles self (initialized_ self) (frame_count_ self)
              (codec_ctx_ self) (Some frame) (packet_ self) in
          if fst writable <? 0 then pure (false, self, output_frame)
          else
            let y_stride := H264EncoderConfig.width c in
            let y_size := int_mul y_stride (H264EncoderConfig.height c) in
            let* frame := copy_to_plane frame 0 yuv_data 0 y_size in
            let u_stride := int_div (H264EncoderConfig.width c) 2 in
            let u_size := int_mul u_stride (int_div (H264EncoderConfig.height c) 2) in
            let* frame := copy_to_plane frame 1 yuv_data y_size u_size in
            let v_stride := int_div (H264EncoderConfig.width c) 2 in
            let v_size := int_mul v_stride (int_div (H264EncoderConfig.height c) 2) in
            let* frame := copy_to_plane frame 2 yuv_data (y_size + u_size) v_size in
            let* count := deref (frame_count_ self) in
            let frame := set_pts frame count in
            let self :=
              with_handles self (initialized_ self) (Some (int_add count 1))
                (codec_ctx_ self) (Some frame) (packet_ self) in
            EncodeFrame fuel self (Some frame) output_frame
    end.

Definition Flush (fuel : nat) (self : t) (output_frame : vector_ptr)
    : M (bool * t * vector_ptr) :=
  if negb (initialized_ self) then pure (false, self, output_frame)
  else EncodeFrame fuel self None output_frame.

Definition Reconfigure (self : t) (config : H264EncoderConfig.t) : M (bool * t) :=
  Initialize {|
    config_ := config;
    initialized_ := initialized_ self;
    frame_count_ := frame_count_ self;
    codec_ := codec_ self;
    codec_ctx_ := codec_ctx_ self;
    frame_ := frame_ self;
    packet_ := packet_ self
  |}.

Definition GetConfig (self : t) : H264EncoderConfig.t := config_ self.

End WithLibrary.
Arguments t {L}.
End H264EncoderInstance.

Module H264Encoder.
Section WithLibrary.
Context `{L : FFmpeg}.

(** [H264Encoder::Create]: a null result is [None]; the instance that failed
    to initialize is destroyed, which runs [Cleanup]. *)
Definition Create (config : H264EncoderConfig.t) : M (option H264EncoderInstance.t) :=
  let* (ok, encoder) := H264EncoderInstance.Initialize (H264EncoderInstance.new config) in
  if negb ok then
    let* _ := H264EncoderInstance.Cleanup encoder in
    pure None
  else pure (Some encoder).

End WithLibrary.
End H264Encoder.

(** * accelerated/nvidia_hevc_encoder.h, nvidia_hevc_encoder.cc *)

Module NvidiaHEVCEncoderConfig.

Record t : Type := mk {
  width : Z;
  height : Z;
  bitrate : Z;
  framerate : Z;
  gop_length : Z;
  low_latency : bool;
  quality_preset : Z;
  max_b_frames : Z;
  use_cbr : bool
}.

(** [width], [height], [bitrate] and [framerate] have no initializer: an
    object is described once they are assigned. *)
Definition init (width0 height0 bitrate0 framerate0 : Z) : t := {|
  width := width0;
  height := height0;
  bitrate := bitrate0;
  framerate := framerate0;
  gop_length := 30;
  low_latency := false;
  quality_preset := 4;
  max_b_frames := 0;
  use_cbr := true
|}.

Definition set_gop_length (v : Z) (c : t) : t := {|
  width := width c; height := height c; bitrate := bitrate c;
  framerate := framerate c; gop_length := v; low_latency := low_latency c;
  quality_preset := quality_preset c; max_b_frames := max_b_frames c;
  use_cbr := use_cbr c
|}.

Definition set_max_b_frames (v : Z) (c : t) : t := {|
  width := width c; height := height c; bitrate := bitrate c;
  framerate := framerate c; gop_length := gop_length c;
  low_latency := low_latency c; quality_preset := quality_preset c;
  max_b_frames := v; use_cbr := use_cbr c
|}.

Definition set_use_cbr (v : bool) (c : t) : t := {|
  width := width c; height := height c; bitrate := bitrate c;
  framerate := framerate c; gop_length := gop_length c;
  low_latency := low_latency c; quality_preset := quality_preset c;
  max_b_frames := max_b_frames c; use_cbr := v
|}.

End NvidiaHEVCEncoderConfig.

(** [p[i]] and [p[i] = b] on a raw buffer of known extent. *)
Definition read_at (buf : bytes) (i : Z) : outcome byte :=
  if i <? 0 then Undefined
  else
    match buf !! Z.to_nat i with
    | Some b => Ret b
    | None => Undefined
    end.

Definition write_at (buf : bytes) (i : Z) (b : byte) : outcome bytes :=
  if (0 <=? i) && (i <? Z.of_nat (length buf))
  then Ret (<[Z.to_nat i := b]> buf)
  else Undefined.

Module NvidiaHEVCEncoder.
Section WithLibrary.
Context `{L : FFmpeg}.

Record t : Type := {
  codec_context_ : option (AVCodecContext Priv);
  frame_ : option AVFrame;
  packet_ : option AVPacket;
  width_ : Z;
  height_ : Z;
  frame_size_ : Z;
  y_plane_size_ : Z;
  pts_ : Z;
  initialized_ : bool
}.

(** [NvidiaHEVCEncoder(config)]. *)
Definition new (config : NvidiaHEVCEncoderConfig.t) : t := {|
  codec_context_ := None;
  frame_ := None;
  packet_ := None;
  width_ := NvidiaHEVCEncoderConfig.width config;
  height_ := NvidiaHEVCEncoderConfig.height config;
  frame_size_ :=
    int_div
      (int_mul
         (int_mul (NvidiaHEVCEncoderConfig.width config)
            (NvidiaHEVCEncoderConfig.height config)) 3) 2;
  y_plane_size_ :=
    int_mul (NvidiaHEVCEncoderConfig.width config)
      (NvidiaHEVCEncoderConfig.height config);
  pts_ := 0;
  initialized_ := false
|}.

Definition with_handles (self : t) (ctx : option (AVCodecContext Priv))
    (frame : option AVFrame) (packet : option AVPacket) (pts : Z)
    (initialized : bool) : t := {|
  codec_context_ := ctx;
  frame_ := frame;
  packet_ := packet;
  width_ := width_ self;
  height_ := height_ self;
  frame_size_ := frame_size_ self;
  y_plane_size_ := y_plane_size_ self;
  pts_ := pts;
  initialized_ := initialized
|}.

(** The [switch (config.quality_preset)] of [Initialize]. *)
Definition preset_name (quality_preset : Z) : string :=
  match quality_preset with
  | 1 => "slow"
  | 2 => "medium"
  | 3 => "fast"
  | 4 => "fast"
  | 5 => "hp"
  | 6 => "hq"
  | 7 => "bd"
  | _ => "medium"
  end.

Definition codec_options (config : NvidiaHEVCEncoderConfig.t)
    : list (string * string) :=
  [ ("preset", preset_name (NvidiaHEVCEncoderConfig.quality_preset config));
    ("rc", if NvidiaHEVCEncoderConfig.use_cbr config then "cbr" else "vbr") ]
  ++ (if NvidiaHEVCEncoderConfig.low_latency config
      then [ ("delay", "0"); ("zerolatency", "1") ]
      else []).

Definition context_fields (config : NvidiaHEVCEncoderConfig.t)
    (ctx : AVCodecContext Priv) (priv : Priv) : AVCodecContext Priv := {|
  ctx_width := NvidiaHEVCEncoderConfig.width config;
  ctx_height := NvidiaHEVCEncoderConfig.height config;
  ctx_bit_rate := NvidiaHEVCEncoderConfig.bitrate config;
  ctx_time_base := {| num := 1; den := NvidiaHEVCEncoderConfig.framerate config |};
  ctx_framerate := {| num := NvidiaHEVCEncoderConfig.framerate config; den := 1 |};
  ctx_gop_size := NvidiaHEVCEncoderConfig.gop_length config;
  ctx_max_b_frames := NvidiaHEVCEncoderConfig.max_b_frames config;
  ctx_pix_fmt := AV_PIX_FMT_NV12;
  ctx_sample_fmt := ctx_sample_fmt ctx;
  ctx_refs := ctx_refs ctx;
  ctx_thread_count := ctx_thread_count ctx;
  ctx_slices := ctx_slices ctx;
  ctx_keyint_min := ctx_keyint_min ctx;
  ctx_trellis := ctx_trellis ctx;
  ctx_rc_max_rate := ctx_rc_max_rate ctx;
  ctx_rc_buffer_size := ctx_rc_buffer_size ctx;
  ctx_flags := ctx_flags ctx;
  priv_data := priv
|}.

(** [Initialize]: on a failure it returns at once and leaves what it has
    allocated to the destructor. *)
Definition Initialize (self : t) (config : NvidiaHEVCEncoderConfig.t) : M (bool * t) :=
  do* emit (E_find_encoder_by_name "hevc_nvenc") in
  match avcodec_find_encoder_by_name "hevc_nvenc" with
  | None => pure (false, self)
  | Some codec =>
      do* emit E_alloc_context3 in
      match avcodec_alloc_context3 codec with
      | None =>
          pure (false,
                with_handles self None (frame_ self) (packet_ self) (pts_ self)
                  (initialized_ self))
      | Some ctx0 =>
          let* priv :=
            apply_options (codec_options config) (priv_data ctx0) in
          let ctx1 := context_fields config ctx0 priv in
          let opened := avcodec_open2 ctx1 codec in
          do* emit (E_open2 (fst opened)) in
          let ctx := snd opened in
          let self :=
            with_handles self (Some ctx) (frame_ self) (packet_ self) (pts_ self)
              (initialized_ self) in
          if fst opened <? 0 then pure (false, self)
          else
            do* emit E_frame_alloc in
            match av_frame_alloc with
            | None =>
                pure (false,
                      with_handles self (Some ctx) None (packet_ self) (pts_ self)
                        (initialized_ self))
            | Some frame0 =>
                let frame1 := {|
                  frame_format := ctx_pix_fmt ctx;
                  frame_width := NvidiaHEVCEncoderConfig.width config;
                  frame_height := NvidiaHEVCEncoderConfig.height config;
                  frame_pts := frame_pts frame0;
                  frame_planes := frame_planes frame0 |} in
                let buffered := av_frame_get_buffer frame1 0 in
                do* emit (E_frame_get_buffer (fst buffered)) in
                let self :=
                  with_handles self (Some ctx) (Some (snd buffered)) (packet_ self)
                    (pts_ self) (initialized_ self) in
                if fst buffered <? 0 then pure (false, self)
                else
                  do* emit E_packet_alloc in
                  match av_packet_alloc with
                  | None =>
                      pure (false,
                            with_handles self (Some ctx) (Some (snd buffered)) None
                              (pts_ self) (initialized_ self))
                  | Some packet =>
                      pure (true,
                            with_handles self (Some ctx) (Some (snd buffered))
                              (Some packet) (pts_ self) true)
                  end
            end
      end
  end.

(** The loop
    [for (int i = 0; i < y_plane_size_ / 4; i++)
       { uv_plane[i * 2] = u_plane[i]; uv_plane[i * 2 + 1] = v_plane[i]; }]
    with [n] iterations left; [u_plane] and [v_plane] point into
    [frame_data] at [u_off] and [v_off]. *)
Fixpoint interleave_uv (n : nat) (i : Z) (frame_data : bytes) (u_off v_off : Z)
    (uv_plane : bytes) : outcome bytes :=
  match n with
  | O => Ret uv_plane
  | S n' =>
      outcome_bind (read_at frame_data (u_off + i)) (fun u =>
      outcome_bind (write_at uv_plane (i * 2) u) (fun uv_plane =>
      outcome_bind (read_at frame_data (v_off + i)) (fun v =>
      outcome_bind (write_at uv_plane (i * 2 + 1) v) (fun uv_plane =>
      interleave_uv n' (i + 1) frame_data u_off v_off uv_plane))))
  end.

(** The "copy frame data" step of [EncodeFrame]. *)
Definition copy_frame_data (self : t) (ctx : AVCodecContext Priv) (frame : AVFrame)
    (frame_data : bytes) (is_nv12 : bool) : M AVFrame :=
  let y := y_plane_size_ self in
  if is_nv12 then
    let* frame := copy_to_plane frame 0 frame_data 0 y in
    copy_to_plane frame 1 frame_data y (int_div y 2)
  else if decide (ctx_pix_fmt ctx = AV_PIX_FMT_NV12) then
    let* frame := copy_to_plane frame 0 frame_data 0 y in
    let u_off := y in
    let v_off := y + int_div y 4 in
    let* uv_plane := deref (frame_planes frame !! 1%nat) in
    let* uv_plane :=
      lift (interleave_uv (Z.to_nat (int_div y 4)) 0 frame_data u_off v_off uv_plane) in
    pure (set_plane frame 1 uv_plane)
  else
    let* frame := copy_to_plane frame 0 frame_data 0 y in
    let* frame := copy_to_plane frame 1 frame_data y (int_div y 4) in
    copy_to_plane frame 2 frame_data (y + int_div y 4) (int_div y 4).

Definition EncodeFrame (self : t) (frame_data : bytes) (encoded_frame : vector_ptr)
    (is_nv12 : bool) : M (bool * t * vector_ptr) :=
  let* _ := deref encoded_frame in
  let encoded_frame : vector_ptr := Some [] in
  let* frame := deref (frame_ self) in
  let writable := av_frame_make_writable frame in
  do* emit (E_frame_make_writable (fst writable)) in
  let frame := snd writable in
  let self :=
    with_handles self (codec_context_ self) (Some frame) (packet_ self) (pts_ self)
      (initialized_ self) in
  if fst writable <? 0 then pure (false, self, encoded_frame)
  else
    let* ctx := deref (codec_context_ self) in
    let* frame := copy_frame_data self ctx frame frame_data is_nv12 in
    let frame := set_pts frame (pts_ self) in
    let self :=
      with_handles self (codec_context_ self) (Some frame) (packet_ self)
        (pts_ self + 1) (initialized_ self) in
    let sent := avcodec_send_frame ctx (Some frame) in
    do* emit (E_send_frame (Some frame) (fst sent)) in
    let self :=
      with_handles self (Some (snd sent)) (frame_ self) (packet_ self) (pts_ self)
        (initialized_ self) in
    if fst sent <? 0 then pure (false, self, encoded_frame)
    else
      let* _ := deref (packet_ self) in
      let received := avcodec_receive_packet (snd sent) in
      let r := fst (fst received) in
      let data := snd (fst received) in
      do* emit (E_receive_packet r data) in
      let self :=
        with_handles self (Some (snd received)) (frame_ self)
          (Some {| packet_data := if r <? 0 then [] else data |}) (pts_ self)
          (initialized_ self) in
      if r <? 0 then
        if (r =? AVERROR_EAGAIN) || (r =? AVERROR_EOF)
        then pure (true, self, encoded_frame)
        else pure (false, self, encoded_frame)
      else
        let resized := vector_resize [] (length data) in
        let* out := lift (memcpy resized 0 data 0 (Z.of_nat (length data))) in
        do* emit E_packet_unref in
        let self :=
          with_handles self (codec_context_ self) (frame_ self)
            (Some {| packet_data := [] |}) (pts_ self) (initialized_ self) in
        pure (true, self, Some out).

Definition EncodeYUV420 (self : t) (yuv_data : bytes) (encoded_frame : vector_ptr)
    : M (bool * t * vector_ptr) :=
  if negb (initialized_ self)
     || (Z.of_nat (length yuv_data) <? to_size_t (frame_size_ self))
  then pure (false, self, encoded_frame)
  else EncodeFrame self yuv_data encoded_frame false.

Definition EncodeNV12 (self : t) (nv12_data : bytes) (encoded_frame : vector_ptr)
    : M (bool * t * vector_ptr) :=
  if negb (initialized_ self)
     || (Z.of_nat (length nv12_data) <? to_size_t (frame_size_ self))
  then pure (false, self, encoded_frame)
  else EncodeFrame self nv12_data encoded_frame true.

(** [~NvidiaHEVCEncoder()]. *)
Definition destroy (self : t) : M unit :=
  do* free_if_set (packet_ self) E_packet_free in
  do* free_if_set (frame_ self) E_frame_free in
  free_if_set (codec_context_ self) E_free_context.

Definition Create (config : NvidiaHEVCEncoderConfig.t) : M (option t) :=
  let* (ok, encoder) := Initialize (new config) config in
  if negb ok then
    do* destroy encoder in
    pure None
  else pure (Some encoder).

End WithLibrary.
Arguments t {L}.
End NvidiaHEVCEncoder.

(** The NV12 chroma plane made of a U plane and a V plane: [u0 v0 u1 v1 ...]. *)
Fixpoint interleaved (u v : bytes) : bytes :=
  match u, v with
  | a :: u', b :: v' => a :: b :: interleaved u' v'
  | _, _ => []
  end.

(** A frame carries the planar YUV420 picture [input], of [n] luma samples
    and [q] samples in each chroma plane, in NV12 layout: plane 0 starts
    with the [n] luma bytes; plane 1 starts with [U[0] V[0] U[1] V[1] ...],
    where [U] is the [q] input bytes from offset [n] and [V] the [q] bytes
    after them, so that these [2 * q] bytes hold each sample of [U] and of
    [V] once. *)
Definition carries_as_nv12 (n q : nat) (input : bytes) (frame : AVFrame) : Prop :=
  let U := take q (drop n input) in
  let V := take q (drop (n + q) input) in
  exists Y UV,
    frame_planes frame !! 0%nat = Some Y
    /\ frame_planes frame !! 1%nat = Some UV
    /\ (n + 2 * q <= length input)%nat
    /\ (n <= length Y)%nat /\ (2 * q <= length UV)%nat
    /\ take n Y = take n input
    /\ (forall i, (i < q)%nat ->
          UV !! (2 * i)%nat = input !! (n + i)%nat
          /\ UV !! (2 * i + 1)%nat = input !! (n + q + i)%nat
          /\ is_Some (input !! (n + i)%nat)
          /\ is_Some (input !! (n + q + i)%nat))
    /\ take (2 * q) UV = interleaved U V
    /\ take (2 * q) UV ≡ₚ U ++ V.

(** * opus_encoder.h, opus_encoder.cc: the resampler set-up *)

Module OPUSApplication.
Inductive t : Type := VOIP | AUDIO | RESTRICTED_LOWDELAY.
Definition to_int (a : t) : Z :=
  match a with
  | VOIP => 2048
  | AUDIO => 2049
  | RESTRICTED_LOWDELAY => 2051
  end.
End OPUSApplication.

Module OPUSEncoderConfig.

Module Bandwidth.
Inductive t : Type := NARROWBAND | MEDIUMBAND | WIDEBAND | SUPERWIDEBAND | FULLBAND.
End Bandwidth.

Module SignalType.
Inductive t : Type := AUTO | VOICE | MUSIC.
End SignalType.

Module PredictionDisabled.
Inductive t : Type := DEFAULT | NO | YES.
End PredictionDisabled.

Record t : Type := mk {
  sample_rate : Z;
  channels : Z;
  bitrate : Z;
  application : OPUSApplication.t;
  frame_duration_ms : Z;
  complexity : Z;
  use_inband_fec : bool;
  use_dtx : bool;
  bandwidth : Bandwidth.t;
  use_vbr : bool;
  use_cvbr : bool;
  packet_loss_percentage : Z;
  signal_type : SignalType.t;
  max_frame_size_ms : Z;
  min_frame_size_ms : Z;
  lsb_depth : Z;
  prediction_disabled : PredictionDisabled.t
}.

Definition default : t := {|
  sample_rate := 48000;
  channels := 2;
  bitrate := 96000;
  application := OPUSApplication.AUDIO;
  frame_duration_ms := 20;
  complexity := 10;
  use_inband_fec := false;
  use_dtx := false;
  bandwidth := Bandwidth.FULLBAND;
  use_vbr := true;
  use_cvbr := true;
  packet_loss_percentage := 0;
  signal_type := SignalType.AUTO;
  max_frame_size_ms := 120;
  min_frame_size_ms := 2;
  lsb_depth := 16;
  prediction_disabled := PredictionDisabled.DEFAULT
|}.

End OPUSEncoderConfig.

(** libswresample and the option calls made on a resampler context.  The
    sources choose between [av_opt_set_chlayout] and the older channel-mask
    options with a preprocessor test on the libavutil version;
    [new_channel_layout_api] is the result of that test. *)
Class Swresample : Type := {
  SwrContext : Type;
  new_channel_layout_api : bool;
  av_get_default_channel_layout : Z -> Z;
  swr_alloc : option SwrContext;
  av_opt_set_chlayout_default : SwrContext -> string -> Z -> SwrContext;
  av_opt_set_int : SwrContext -> string -> Z -> SwrContext;
  av_opt_set_sample_fmt : SwrContext -> string -> AVSampleFormat -> SwrContext;
  swr_init : SwrContext -> Z * SwrContext;
  av_strerror : Z -> string
}.

Module OPUSEncoderImpl.
Section WithLibrary.
Context `{L : FFmpeg} `{R : Swresample}.

Record t : Type := {
  config_ : OPUSEncoderConfig.t;
  codec_ : option AVCodec;
  context_ : option (AVCodecContext Priv);
  frame_ : option AVFrame;
  packet_ : option AVPacket;
  swr_ctx_ : option SwrContext;
  last_input_format_ : AVSampleFormat;
  last_error_ : string;
  frame_size_ : Z;
  pts_ : Z
}.

(** [OPUSEncoderImpl(config)]. *)
Definition new (config : OPUSEncoderConfig.t) : t := {|
  config_ := config;
  codec_ := None;
  context_ := None;
  frame_ := None;
  packet_ := None;
  swr_ctx_ := None;
  last_input_format_ := AV_SAMPLE_FMT_NONE;
  last_error_ := "";
  frame_size_ := 960;
  pts_ := 0
|}.

Definition with_resampler (self : t) (swr : option SwrContext)
    (last_format : AVSampleFormat) (last_error : string) : t := {|
  config_ := config_ self;
  codec_ := codec_ self;
  context_ := context_ self;
  frame_ := frame_ self;
  packet_ := packet_ self;
  swr_ctx_ := swr;
  last_input_format_ := last_format;
  last_error_ := last_error;
  frame_size_ := frame_size_ self;
  pts_ := pts_ self
|}.

(** Setting the channel layout of one side ([side] is ["in"] or ["out"]) to
    the default layout for [channels] channels. *)
Definition set_channel_layout (swr : SwrContext) (side : string) (channels : Z)
    : M SwrContext :=
  if new_channel_layout_api then
    do* emit (E_swr_opt_chlayout (side +:+ "_chlayout") channels) in
    pure (av_opt_set_chlayout_default swr (side +:+ "_chlayout") channels)
  else
    let mask := av_get_default_channel_layout channels in
    do* emit (E_swr_opt_int (side +:+ "_channel_layout") mask) in
    let swr := av_opt_set_int swr (side +:+ "_channel_layout") mask in
    do* emit (E_swr_opt_int (side +:+ "_channels") channels) in
    pure (av_opt_set_int swr (side +:+ "_channels") channels).

Definition set_int (swr : SwrContext) (key : string) (v : Z) : M SwrContext :=
  do* emit (E_swr_opt_int key v) in
  pure (av_opt_set_int swr key v).

Definition set_sample_fmt (swr : SwrContext) (key : string) (fmt : AVSampleFormat)
    : M SwrContext :=
  do* emit (E_swr_opt_sample_fmt key fmt) in
  pure (av_opt_set_sample_fmt swr key fmt).

Definition InitializeResampler (self : t) (input_format : AVSampleFormat)
    (is_input_packed : bool) : M (bool * t) :=
  if negb (is_null (swr_ctx_ self))
     && bool_decide (last_input_format_ self = input_format)
  then pure (true, self)
  else
    do* free_if_set (swr_ctx_ self) E_swr_free in
    do* emit E_swr_alloc in
    match swr_alloc with
    | None =>
        pure (false,
              with_resampler self None (last_input_format_ self)
                "Could not allocate resampler context")
    | Some swr =>
        let c := config_ self in
        let* swr := set_channel_layout swr "in" (OPUSEncoderConfig.channels c) in
        let* swr := set_int swr "in_sample_rate" (OPUSEncoderConfig.sample_rate c) in
        let* swr := set_sample_fmt swr "in_sample_fmt" input_format in
        let* swr := set_channel_layout swr "out" (OPUSEncoderConfig.channels c) in
        let* swr := set_int swr "out_sample_rate" (OPUSEncoderConfig.sample_rate c) in
        let* context := deref (context_ self) in
        let* swr := set_sample_fmt swr "out_sample_fmt" (ctx_sample_fmt context) in
        let initialized := swr_init swr in
        do* emit (E_swr_init (fst initialized)) in
        if fst initialized <? 0 then
          do* emit E_swr_free in
          pure (false,
                with_resampler self None (last_input_format_ self)
                  ("Failed to initialize the resampler: "
                   +:+ av_strerror (fst initialized)))
        else
          pure (true,
                with_resampler self (Some (snd initialized)) input_format
                  (last_error_ self))
    end.

(** [GetBytesPerSample]. *)
Definition GetBytesPerSample (format : AVSampleFormat) : Z :=
  match format with
  | AV_SAMPLE_FMT_U8 | AV_SAMPLE_FMT_U8P => 1
  | AV_SAMPLE_FMT_S16 | AV_SAMPLE_FMT_S16P => 2
  | AV_SAMPLE_FMT_S32 | AV_SAMPLE_FMT_S32P
  | AV_SAMPLE_FMT_FLT | AV_SAMPLE_FMT_FLTP => 4
  | AV_SAMPLE_FMT_DBL | AV_SAMPLE_FMT_DBLP => 8
  | _ => 0
  end.

End WithLibrary.
Arguments t {L R}.
End OPUSEncoderImpl.

(** The resampler options recorded in a trace, in call order. *)
Definition resampler_options (tr : trace) : trace :=
  List.filter
    (fun e =>
       match e with
       | E_swr_opt_chlayout _ _ | E_swr_opt_int _ _ | E_swr_opt_sample_fmt _ _ => true
       | _ => false
       end) tr.

(** A resampler set up to convert the sample format only: the channel
    layout of both sides is the default layout for [channels] channels, the
    sample rate of both sides is [sample_rate], and the sample formats are
    [in_fmt] and [out_fmt].  These are the options, in the order the
    encoder sets them. *)
Definition format_conversion_only `{R : Swresample} (channels sample_rate : Z)
    (in_fmt out_fmt : AVSampleFormat) : trace :=
  let layout (side : string) :=
    if new_channel_layout_api
    then [ E_swr_opt_chlayout (side +:+ "_chlayout") channels ]
    else [ E_swr_opt_int (side +:+ "_channel_layout")
             (av_get_default_channel_layout channels);
           E_swr_opt_int (side +:+ "_channels") channels ] in
  layout "in"
  ++ [ E_swr_opt_int "in_sample_rate" sample_rate;
       E_swr_opt_sample_fmt "in_sample_fmt" in_fmt ]
  ++ layout "out"
  ++ [ E_swr_opt_int "out_sample_rate" sample_rate;
       E_swr_opt_sample_fmt "out_sample_fmt" out_fmt ].

(** * media_image_utils.h, media_image_utils.cc *)

Module ImageFormat.
Inductive t : Type := UNKNOWN | RGB | RGBA | BGRA | NV12 | YUV420P.
#[global] Instance eq_dec : EqDecision t.
Proof. solve_decision. Defined.
End ImageFormat.

(** A picture as [av_image_alloc] lays it out: one buffer, the plane
    pointers [data[i]] as offsets into it ([None] is a null pointer) and
    the line sizes. *)
Record Image : Type := {
  image_buffer : bytes;
  image_data : list (option Z);
  image_linesize : list Z
}.

(** The arguments that describe a scaling context: source width, height
    and format, destination width, height and format, and the flags. *)
Record SwsParams : Type := {
  srcW : Z; srcH : Z; srcFormat : AVPixelFormat;
  dstW : Z; dstH : Z; dstFormat : AVPixelFormat;
  sws_flags : Z
}.

#[global] Instance SwsParams_eq_dec : EqDecision SwsParams.
Proof. solve_decision. Defined.

Definition SWS_BILINEAR : Z := 2.

(** libswscale and [av_image_alloc].  [sws_params] reads back the
    arguments a context was created with. *)
Class Swscale : Type := {
  SwsContext : Type;
  sws_params : SwsContext -> SwsParams;
  sws_getContext : SwsParams -> option SwsContext;
  sws_getCachedContext : option SwsContext -> SwsParams -> option SwsContext;
  sws_scale : SwsContext -> Image -> Z -> Z -> Image -> Z * Image;
  av_image_alloc : Z -> Z -> AVPixelFormat -> Z -> Z * Image
}.

(** [std::copy(first, last, img.data[plane])]: the bytes [src] are stored
    from the plane pointer on. *)
Definition copy_to_image (img : Image) (plane : nat) (src : bytes) : outcome Image :=
  match image_data img !! plane with
  | Some (Some off) =>
      outcome_bind
        (memcpy (image_buffer img) off src 0 (Z.of_nat (length src)))
        (fun buf =>
           Ret {| image_buffer := buf;
                  image_data := image_data img;
                  image_linesize := image_linesize img |})
  | _ => Undefined
  end.

(** The [n] bytes a plane pointer points to. *)
Definition read_from_image (img : Image) (plane : nat) (n : Z) : outcome bytes :=
  match image_data img !! plane with
  | Some (Some off) =>
      if (n <? 0) || (off <? 0)
         || (Z.of_nat (length (image_buffer img)) <? off + n)
      then Undefined
      else Ret (take (Z.to_nat n) (drop (Z.to_nat off) (image_buffer img)))
  | _ => Undefined
  end.

(** The range [[v.begin() + first, v.begin() + last)] of a vector. *)
Definition vector_range (v : bytes) (first last : Z) : outcome bytes :=
  if (0 <=? first) && (first <=? last) && (last <=? Z.of_nat (length v))
  then Ret (take (Z.to_nat (last - first)) (drop (Z.to_nat first) v))
  else Undefined.

Module ImageUtils.

(** [data[i]] where the guards of the caller keep [i] below [data.size()]. *)
Definition at_index (data : bytes) (i : Z) : Z :=
  byte_val (nth (Z.to_nat i) data Byte.x00).

(** The chroma test of [DetectFormat]: the loop over eight sample pairs. *)
Fixpoint interleaved_pairs (data : bytes) (chroma_offset : Z) (n : nat) (i : Z)
    : bool :=
  match n with
  | O => true
  | S n' =>
      if 50 <? Z.abs (at_index data (chroma_offset + i * 2)
                      - at_index data (chroma_offset + i * 2 + 1))
      then false
      else interleaved_pairs data chroma_offset n' (i + 1)
  end.

Definition DetectFormat (data : bytes) (width height : Z) : ImageFormat.t :=
  let size := Z.of_nat (length data) in
  if size =? 0 then ImageFormat.UNKNOWN
  else if (8 <=? size)
          && (at_index data 0 =? 137) && (at_index data 1 =? 80)
          && (at_index data 2 =? 78) && (at_index data 3 =? 71)
  then ImageFormat.RGBA
  else if (8 <=? size) && (at_index data 0 =? 255) && (at_index data 1 =? 216)
  then ImageFormat.RGB
  else if (0 <? width) && (0 <? height) then
    if size =? to_size_t (int_mul (int_mul width height) 3) then ImageFormat.RGB
    else if size =? to_size_t (int_mul (int_mul width height) 4) then ImageFormat.RGBA
    else if size =? to_size_t (int_div (int_mul (int_mul width height) 3) 2) then
      let luma_size := to_size_t (int_mul width height) in
      let chroma_offset := luma_size in
      let interleaved :=
        if to_size_t (chroma_offset + 16) <? size
        then interleaved_pairs data chroma_offset 8 0
        else true in
      if interleaved then ImageFormat.NV12 else ImageFormat.YUV420P
    else ImageFormat.UNKNOWN
  else ImageFormat.UNKNOWN.

(** [DetectDimensions]; it never assigns to its reference parameters. *)
Definition DetectDimensions (data : bytes) (format : ImageFormat.t)
    (width height : Z) : bool :=
  if (0 <? width) && (0 <? height) then
    match format with
    | ImageFormat.RGB =>
        to_size_t (int_mul (int_mul width height) 3) <=? Z.of_nat (length data)
    | ImageFormat.RGBA | ImageFormat.BGRA =>
        to_size_t (int_mul (int_mul width height) 4) <=? Z.of_nat (length data)
    | ImageFormat.NV12 | ImageFormat.YUV420P =>
        to_size_t (int_div (int_mul (int_mul width height) 3) 2)
        <=? Z.of_nat (length data)
    | ImageFormat.UNKNOWN => false
    end
  else false.

Definition source_pixel_format (f : ImageFormat.t) : option AVPixelFormat :=
  match f with
  | ImageFormat.RGB => Some AV_PIX_FMT_RGB24
  | ImageFormat.RGBA => Some AV_PIX_FMT_RGBA
  | ImageFormat.BGRA => Some AV_PIX_FMT_BGRA
  | ImageFormat.NV12 => Some AV_PIX_FMT_NV12
  | ImageFormat.YUV420P => Some AV_PIX_FMT_YUV420P
  | ImageFormat.UNKNOWN => None
  end.

Definition target_pixel_format (f : ImageFormat.t) : option AVPixelFormat :=
  match f with
  | ImageFormat.NV12 => Some AV_PIX_FMT_NV12
  | ImageFormat.YUV420P => Some AV_PIX_FMT_YUV420P
  | _ => None
  end.

Section WithLibrary.
Context `{L : FFmpeg} `{S : Swscale}.

(** The object: [initialized_] and the scaling context kept in [impl_]. *)
Record t : Type := {
  initialized_ : bool;
  ctx_ : option SwsContext
}.

(** [ImageUtils()]. *)
Definition new : t := {| initialized_ := true; ctx_ := None |}.

(** "Copy input data to source frame". *)
Definition fill_source (src : Image) (src_pix_fmt : AVPixelFormat)
    (input_data : bytes) (width height : Z) : outcome Image :=
  match src_pix_fmt with
  | AV_PIX_FMT_RGB24 | AV_PIX_FMT_RGBA | AV_PIX_FMT_BGRA =>
      copy_to_image src 0 input_data
  | _ =>
      let y_plane_size := to_size_t (int_mul width height) in
      let size := Z.of_nat (length input_data) in
      outcome_bind (vector_range input_data 0 y_plane_size) (fun y =>
      outcome_bind (copy_to_image src 0 y) (fun src =>
      match src_pix_fmt with
      | AV_PIX_FMT_NV12 =>
          outcome_bind (vector_range input_data y_plane_size size) (fun uv =>
          copy_to_image src 1 uv)
      | AV_PIX_FMT_YUV420P =>
          let uv_plane_size := y_plane_size / 4 in
          outcome_bind
            (vector_range input_data y_plane_size (y_plane_size + uv_plane_size))
            (fun u =>
          outcome_bind (copy_to_image src 1 u) (fun src =>
          outcome_bind
            (vector_range input_data (y_plane_size + uv_plane_size) size)
            (fun v =>
          copy_to_image src 2 v)))
      | _ => Ret src
      end))
  end.

(** "Copy from destination frame to output buffer"; [output] has been
    resized. *)
Definition drain_destination (dst : Image) (dst_pix_fmt : AVPixelFormat)
    (output : bytes) (width height : Z) : outcome bytes :=
  let y_plane_size := to_size_t (int_mul width height) in
  match dst_pix_fmt with
  | AV_PIX_FMT_NV12 =>
      outcome_bind (read_from_image dst 0 y_plane_size) (fun y =>
      outcome_bind (memcpy output 0 y 0 y_plane_size) (fun output =>
      outcome_bind (read_from_image dst 1 (y_plane_size / 2)) (fun uv =>
      memcpy output y_plane_size uv 0 (y_plane_size / 2))))
  | AV_PIX_FMT_YUV420P =>
      let uv_plane_size := y_plane_size / 4 in
      outcome_bind (read_from_image dst 0 y_plane_size) (fun y =>
      outcome_bind (memcpy output 0 y 0 y_plane_size) (fun output =>
      outcome_bind (read_from_image dst 1 uv_plane_size) (fun u =>
      outcome_bind (memcpy output y_plane_size u 0 uv_plane_size) (fun output =>
      outcome_bind (read_from_image dst 2 uv_plane_size) (fun v =>
      memcpy output (y_plane_size + uv_plane_size) v 0 uv_plane_size)))))
  | _ => Ret output
  end.

(** [ConvertFormat]; [output_data] is the vector the caller passes by
    reference, and the result carries its final value.  A [resize] past
    [PTRDIFF_MAX] leaves by [std::length_error]: no result either. *)
Definition ConvertFormat (self : t) (input_data output_data : bytes)
    (target_format : ImageFormat.t) (width height : Z)
    : outcome (bool * t * bytes) :=
  if negb (initialized_ self) || (Z.of_nat (length input_data) =? 0)
  then Ret (false, self, output_data)
  else
    let src_format := DetectFormat input_data width height in
    if bool_decide (src_format = ImageFormat.UNKNOWN)
    then Ret (false, self, output_data)
    else if ((width <=? 0) || (height <=? 0))
            && negb (DetectDimensions input_data src_format width height)
    then Ret (false, self, output_data)
    else
      match source_pixel_format src_format with
      | None => Ret (false, self, output_data)
      | Some src_pix_fmt =>
      match target_pixel_format target_format with
      | None => Ret (false, self, output_data)
      | Some dst_pix_fmt =>
          if bool_decide (src_format = target_format)
          then Ret (true, self, input_data)
          else
            let ctx :=
              sws_getCachedContext (ctx_ self)
                {| srcW := width; srcH := height; srcFormat := src_pix_fmt;
                   dstW := width; dstH := height; dstFormat := dst_pix_fmt;
                   sws_flags := SWS_BILINEAR |} in
            let self := {| initialized_ := initialized_ self; ctx_ := ctx |} in
            match ctx with
            | None => Ret (false, self, output_data)
            | Some sws =>
                match av_frame_alloc with
                | None => Ret (false, self, output_data)
                | Some _ =>
                    let src_alloc := av_image_alloc width height src_pix_fmt 1 in
                    if fst src_alloc <? 0 then Ret (false, self, output_data)
                    else
                      let dst_alloc := av_image_alloc width height dst_pix_fmt 1 in
                      if fst dst_alloc <? 0 then Ret (false, self, output_data)
                      else
                        outcome_bind
                          (fill_source (snd src_alloc) src_pix_fmt input_data
                             width height)
                          (fun src =>
                        let scaled := sws_scale sws src 0 height (snd dst_alloc) in
                        if fst scaled <=? 0 then Ret (false, self, output_data)
                        else
                          let output_size :=
                            to_size_t (int_div (int_mul (int_mul width height) 3) 2) in
                          if 9223372036854775807 <? output_size then Undefined
                          else
                            let output :=
                              vector_resize output_data (Z.to_nat output_size) in
                            outcome_bind
                              (drain_destination (snd scaled) dst_pix_fmt output
                                 width height)
                              (fun output => Ret (true, self, output)))
                end
            end
      end
      end.

Definition ConvertToNV12 (self : t) (input_data output_nv12 : bytes)
    (width height : Z) : outcome (bool * t * bytes) :=
  ConvertFormat self input_data output_nv12 ImageFormat.NV12 width height.

Definition ConvertToYUV420 (self : t) (input_data output_yuv420 : bytes)
    (width height : Z) : outcome (bool * t * bytes) :=
  ConvertFormat self input_data output_yuv420 ImageFormat.YUV420P width height.

(** What a caller can do with an object between two conversions. *)
Inductive call : Type :=
| CallConvertToNV12 (input_data output : bytes) (width height : Z)
| CallConvertToYUV420 (input_data output : bytes) (width height : Z).

(** The object after a history of calls on a fresh one; [None] once a call
    had no defined result. *)
Fixpoint after (history : list call) (self : t) : option t :=
  match history with
  | [] => Some self
  | c :: rest =>
      let r :=
        match c with
        | CallConvertToNV12 i o w h => ConvertToNV12 self i o w h
        | CallConvertToYUV420 i o w h => ConvertToYUV420 self i o w h
        end in
      match r with
      | Ret (_, self', _) => after rest self'
      | _ => None
      end
  end.

(** What the caller of a conversion sees: the result and the output
    vector, not the object. *)
Definition observed (o : outcome (bool * t * bytes)) : outcome (bool * bytes) :=
  outcome_bind o (fun '(r, _, output) => Ret (r, output)).

End WithLibrary.
Arguments t {S}.
End ImageUtils.

(** * h264_decoder.h, h264_decoder.cc: [H264Decoder::Create] *)

Module H264DecoderConfig.

Record t : Type := mk {
  width : Z;
  height : Z;
  thread_count : Z;
  low_delay : bool;
  skip_loop_filter : bool;
  skip_frame : bool;
  error_concealment : bool;
  skip_idct : bool;
  error_recognition : Z;
  skip_frames_after_flush : Z;
  max_refs : Z;
  slice_threads : bool;
  frame_threads : bool;
  qp_min : Z;
  qp_max : Z;
  max_b_frames : Z;
  extradata : bytes;
  pixel_format : Z;
  delay : Z;
  refs : Z;
  profile : Z;
  level : Z;
  output_in_display_order : bool;
  strict_std_compliance : bool;
  log_level : Z
}.

Definition default : t := {|
  width := 0;
  height := 0;
  thread_count := 0;
  low_delay := false;
  skip_loop_filter := false;
  skip_frame := false;
  error_concealment := false;
  skip_idct := false;
  error_recognition := 0;
  skip_frames_after_flush := 0;
  max_refs := 0;
  slice_threads := false;
  frame_threads := true;
  qp_min := 0;
  qp_max := 0;
  max_b_frames := 0;
  extradata := [];
  pixel_format := (-1);
  delay := 0;
  refs := 0;
  profile := (-1);
  level := (-1);
  output_in_display_order := true;
  strict_std_compliance := false;
  log_level := (-8)
|}.

End H264DecoderConfig.

(** [class H264DecoderInstance] as far as [Create] uses it: the
    constructor, [Initialize] and the destructor.  [old_registration_api]
    is the preprocessor test
    [LIBAVCODEC_VERSION_INT < AV_VERSION_INT(58, 9, 100)]. *)
Class H264DecoderInstance : Type := {
  DecoderInstance : Type;
  decoder_new : H264DecoderConfig.t -> DecoderInstance;
  decoder_Initialize : DecoderInstance -> (bool * DecoderInstance) * trace;
  decoder_destroy : DecoderInstance -> unit * trace;
  old_registration_api : bool
}.

Module H264Decoder.
Section WithLibrary.
Context `{D : H264DecoderInstance}.

(** The function-local statics of [Create] other than the mutex. *)
Record statics : Type := { ffmpeg_initialized : bool }.

(** The statics before the first call. *)
Definition statics_init : statics := {| ffmpeg_initialized := false |}.

Definition init_mutex : string := "init_mutex".

(** The block guarded by [std::lock_guard<std::mutex> lock(init_mutex)]:
    the constructor of the guard locks, its destructor at the end of the
    block unlocks. *)
Definition guarded_initialization (st : statics) : M statics :=
  do* emit (E_mutex_lock init_mutex) in
  let* st :=
    (if negb (ffmpeg_initialized st) then
       do* (if old_registration_api then emit E_av_register_all else pure tt) in
       pure {| ffmpeg_initialized := true |}
     else pure st) in
  do* emit (E_mutex_unlock init_mutex) in
  pure st.

Definition Create (st : statics) (config : H264DecoderConfig.t)
    : M (option DecoderInstance * statics) :=
  let* st := guarded_initialization st in
  let* (ok, decoder) := called (decoder_Initialize (decoder_new config)) in
  if negb ok then
    do* called (decoder_destroy decoder) in
    pure (None, st)
  else pure (Some decoder, st).

End WithLibrary.
End H264Decoder.

(** The synchronisation operations in a trace. *)
Definition is_synchronization (e : Event) : bool :=
  match e with
  | E_mutex_lock _ | E_mutex_unlock _ => true
  | _ => false
  end.

Definition unsynchronized (e : Event) : Prop := is_synchronization e = false.

Definition synchronization_free (tr : trace) : Prop := Forall unsynchronized tr.

(** * The configuration structs of the other encoders

    hevc_encoder.h, vp8_encoder.h, vp9_encoder.h, av1_encoder.h and the
    headers under accelerated/.  The facade fills these in and hands them
    to the encoder's [Create]. *)

Module HEVCPreset.
Inductive t : Type :=
  ULTRAFAST | SUPERFAST | VERYFAST | FASTER | FAST | MEDIUM | SLOW | SLOWER
| VERYSLOW | PLACEBO.
End HEVCPreset.

Module HEVCProfile.
Inductive t : Type := MAIN | MAIN_10 | MAIN_STILL_PICTURE | REXT.
End HEVCProfile.

Module RateControlMode.
Inductive t : Type := CRF | CQP | ABR | CBR.
End RateControlMode.

Module HEVCTier.
Inductive t : Type := MAIN | HIGH.
End HEVCTier.

Module HEVCTune.
Inductive t : Type :=
  NONE | PSNR | SSIM | GRAIN | ZEROLATENCY | FASTDECODE | ANIMATION.
End HEVCTune.

Module HEVCEncoderConfig.

Record t : Type := mk {
  width : Z;
  height : Z;
  bitrate : Z;
  framerate : Z;
  preset : HEVCPreset.t;
  profile : HEVCProfile.t;
  tier : HEVCTier.t;
  level : Q;
  rc_mode : RateControlMode.t;
  crf : Z;
  qp : Z;
  max_bitrate : Z;
  buffer_size : Z;
  vbv_maxrate : Z;
  vbv_bufsize : Z;
  keyint_max : Z;
  keyint_min : Z;
  scenecut : Z;
  open_gop : bool;
  bframes : Z;
  b_pyramid : bool;
  tune : HEVCTune.t;
  aq_mode : bool;
  aq_strength : Z;
  psy : bool;
  psy_rd : Z;
  psy_rdoq : Z;
  me_range : Z;
  subme : bool;
  subme_level : Z;
  me_method : Z;
  slice_max_size : Z;
  slice_max_count : Z;
  threads : Z;
  deblock : bool;
  deblock_alpha : Z;
  deblock_beta : Z;
  sao : bool;
  repeat_headers : bool;
  annexb : bool;
  log_level : Z;
  strong_intra_smoothing : bool;
  constrained_intra : bool;
  cu_lossless : bool;
  early_skip : bool;
  vui_parameters : bool;
  fullrange : bool;
  frames : Z
}.

(** The default member initializers of the struct. *)
Definition default : t := {|
  width := 0;
  height := 0;
  bitrate := 0;
  framerate := 0;
  preset := HEVCPreset.MEDIUM;
  profile := HEVCProfile.MAIN;
  tier := HEVCTier.MAIN;
  level := 0.0%Q;
  rc_mode := RateControlMode.ABR;
  crf := 23;
  qp := 23;
  max_bitrate := 0;
  buffer_size := 0;
  vbv_maxrate := 0;
  vbv_bufsize := 0;
  keyint_max := 250;
  keyint_min := 25;
  scenecut := 40;
  open_gop := false;
  bframes := 4;
  b_pyramid := true;
  tune := HEVCTune.NONE;
  aq_mode := true;
  aq_strength := 1;
  psy := true;
  psy_rd := 1;
  psy_rdoq := 1;
  me_range := 57;
  subme := true;
  subme_level := 3;
  me_method := 1;
  slice_max_size := 0;
  slice_max_count := 0;
  threads := 0;
  deblock := true;
  deblock_alpha := 0;
  deblock_beta := 0;
  sao := true;
  repeat_headers := false;
  annexb := true;
  log_level := (-1);
  strong_intra_smoothing := true;
  constrained_intra := false;
  cu_lossless := false;
  early_skip := true;
  vui_parameters := true;
  fullrange := false;
  frames := 0
|}.

Definition set_width (v : Z) (c : t) : t := {|
  width := v; height := height c; bitrate := bitrate c;
  framerate := framerate c; preset := preset c; profile := profile c;
  tier := tier c; level := level c; rc_mode := rc_mode c; crf := crf c;
  qp := qp c; max_bitrate := max_bitrate c; buffer_size := buffer_size c;
  vbv_maxrate := vbv_maxrate c; vbv_bufsize := vbv_bufsize c;
  keyint_max := keyint_max c; keyint_min := keyint_min c;
  scenecut := scenecut c; open_gop := open_gop c; bframes := bframes c;
  b_pyramid := b_pyramid c; tune := tune c; aq_mode := aq_mode c;
  aq_strength := aq_strength c; psy := psy c; psy_rd := psy_rd c;
  psy_rdoq := psy_rdoq c; me_range := me_range c; subme := subme c;
  subme_level := subme_level c; me_method := me_method c;
  slice_max_size := slice_max_size c; slice_max_count := slice_max_count c;
  threads := threads c; deblock := deblock c;
  deblock_alpha := deblock_alpha c; deblock_beta := deblock_beta c;
  sao := sao c; repeat_headers := repeat_headers c; annexb := annexb c;
  log_level := log_level c;
  strong_intra_smoothing := strong_intra_smoothing c;
  constrained_intra := constrained_intra c; cu_lossless := cu_lossless c;
  early_skip := early_skip c; vui_parameters := vui_parameters c;
  fullrange := fullrange c; frames := frames c
|}.

Definition set_height (v : Z) (c : t) : t := {|
  width := width c; height := v; bitrate := bitrate c;
  framerate := framerate c; preset := preset c; profile := profile c;
  tier := tier c; level := level c; rc_mode := rc_mode c; crf := crf c;
  qp := qp c; max_bitrate := max_bitrate c; buffer_size := buffer_size c;
  vbv_maxrate := vbv_maxrate c; vbv_bufsize := vbv_bufsize c;
  keyint_max := keyint_max c; keyint_min := keyint_min c;
  scenecut := scenecut c; open_gop := open_gop c; bframes := bframes c;
  b_pyramid := b_pyramid c; tune := tune c; aq_mode := aq_mode c;
  aq_strength := aq_strength c; psy := psy c; psy_rd := psy_rd c;
  psy_rdoq := psy_rdoq c; me_range := me_range c; subme := subme c;
  subme_level := subme_level c; me_method := me_method c;
  slice_max_size := slice_max_size c; slice_max_count := slice_max_count c;
  threads := threads c; deblock := deblock c;
  deblock_alpha := deblock_alpha c; deblock_beta := deblock_beta c;
  sao := sao c; repeat_headers := repeat_headers c; annexb := annexb c;
  log_level := log_level c;
  strong_intra_smoothing := strong_intra_smoothing c;
  constrained_intra := constrained_intra c; cu_lossless := cu_lossless c;
  early_skip := early_skip c; vui_parameters := vui_parameters c;
  fullrange := fullrange c; frames := frames c
|}.

Definition set_bitrate (v : Z) (c : t) : t := {|
  width := width c; height := height c; bitrate := v;
  framerate := framerate c; preset := preset c; profile := profile c;
  tier := tier c; level := level c; rc_mode := rc_mode c; crf := crf c;
  qp := qp c; max_bitrate := max_bitrate c; buffer_size := buffer_size c;
  vbv_maxrate := vbv_maxrate c; vbv_bufsize := vbv_bufsize c;
  keyint_max := keyint_max c; keyint_min := keyint_min c;
  scenecut := scenecut c; open_gop := open_gop c; bframes := bframes c;
  b_pyramid := b_pyramid c; tune := tune c; aq_mode := aq_mode c;
  aq_strength := aq_strength c; psy := psy c; psy_rd := psy_rd c;
  psy_rdoq := psy_rdoq c; me_range := me_range c; subme := subme c;
  subme_level := subme_level c; me_method := me_method c;
  slice_max_size := slice_max_size c; slice_max_count := slice_max_count c;
  threads := threads c; deblock := deblock c;
  deblock_alpha := deblock_alpha c; deblock_beta := deblock_beta c;
  sao := sao c; repeat_headers := repeat_headers c; annexb := annexb c;
  log_level := log_level c;
  strong_intra_smoothing := strong_intra_smoothing c;
  constrained_intra := constrained_intra c; cu_lossless := cu_lossless c;
  early_skip := early_skip c; vui_parameters := vui_parameters c;
  fullrange := fullrange c; frames := frames c
|}.

Definition set_framerate (v : Z) (c : t) : t := {|
  width := width c; height := height c; bitrate := bitrate c; framerate := v;
  preset := preset c; profile := profile c; tier := tier c; level := level c;
  rc_mode := rc_mode c; crf := crf c; qp := qp c;
  max_bitrate := max_bitrate c; buffer_size := buffer_size c;
  vbv_maxrate := vbv_maxrate c; vbv_bufsize := vbv_bufsize c;
  keyint_max := keyint_max c; keyint_min := keyint_min c;
  scenecut := scenecut c; open_gop := open_gop c; bframes := bframes c;
  b_pyramid := b_pyramid c; tune := tune c; aq_mode := aq_mode c;
  aq_strength := aq_strength c; psy := psy c; psy_rd := psy_rd c;
  psy_rdoq := psy_rdoq c; me_range := me_range c; subme := subme c;
  subme_level := subme_level c; me_method := me_method c;
  slice_max_size := slice_max_size c; slice_max_count := slice_max_count c;
  threads := threads c; deblock := deblock c;
  deblock_alpha := deblock_alpha c; deblock_beta := deblock_beta c;
  sao := sao c; repeat_headers := repeat_headers c; annexb := annexb c;
  log_level := log_level c;
  strong_intra_smoothing := strong_intra_smoothing c;
  constrained_intra := constrained_intra c; cu_lossless := cu_lossless c;
  early_skip := early_skip c; vui_parameters := vui_parameters c;
  fullrange := fullrange c; frames := frames c
|}.

Definition set_preset (v : HEVCPreset.t) (c : t) : t := {|
  width := width c; height := height c; bitrate := bitrate c;
  framerate := framerate c; preset := v; profile := profile c;
  tier := tier c; level := level c; rc_mode := rc_mode c; crf := crf c;
  qp := qp c; max_bitrate := max_bitrate c; buffer_size := buffer_size c;
  vbv_maxrate := vbv_maxrate c; vbv_bufsize := vbv_bufsize c;
  keyint_max := keyint_max c; keyint_min := keyint_min c;
  scenecut := scenecut c; open_gop := open_gop c; bframes := bframes c;
  b_pyramid := b_pyramid c; tune := tune c; aq_mode := aq_mode c;
  aq_strength := aq_strength c; psy := psy c; psy_rd := psy_rd c;
  psy_rdoq := psy_rdoq c; me_range := me_range c; subme := subme c;
  subme_level := subme_level c; me_method := me_method c;
  slice_max_size := slice_max_size c; slice_max_count := slice_max_count c;
  threads := threads c; deblock := deblock c;
  deblock_alpha := deblock_alpha c; deblock_beta := deblock_beta c;
  sao := sao c; repeat_headers := repeat_headers c; annexb := annexb c;
  log_level := log_level c;
  strong_intra_smoothing := strong_intra_smoothing c;
  constrained_intra := constrained_intra c; cu_lossless := cu_lossless c;
  early_skip := early_skip c; vui_parameters := vui_parameters c;
  fullrange := fullrange c; frames := frames c
|}.

Definition set_profile (v : HEVCProfile.t) (c : t) : t := {|
  width := width c; height := height c; bitrate := bitrate c;
  framerate := framerate c; preset := preset c; profile := v; tier := tier c;
  level := level c; rc_mode := rc_mode c; crf := crf c; qp := qp c;
  max_bitrate := max_bitrate c; buffer_size := buffer_size c;
  vbv_maxrate := vbv_maxrate c; vbv_bufsize := vbv_bufsize c;
  keyint_max := keyint_max c; keyint_min := keyint_min c;
  scenecut := scenecut c; open_gop := open_gop c; bframes := bframes c;
  b_pyramid := b_pyramid c; tune := tune c; aq_mode := aq_mode c;
  aq_strength := aq_strength c; psy := psy c; psy_rd := psy_rd c;
  psy_rdoq := psy_rdoq c; me_range := me_range c; subme := subme c;
  subme_level := subme_level c; me_method := me_method c;
  slice_max_size := slice_max_size c; slice_max_count := slice_max_count c;
  threads := threads c; deblock := deblock c;
  deblock_alpha := deblock_alpha c; deblock_beta := deblock_beta c;
  sao := sao c; repeat_headers := repeat_headers c; annexb := annexb c;
  log_level := log_level c;
  strong_intra_smoothing := strong_intra_smoothing c;
  constrained_intra := constrained_intra c; cu_lossless := cu_lossless c;
  early_skip := early_skip c; vui_parameters := vui_parameters c;
  fullrange := fullrange c; frames := frames c
|}.

Definition set_keyint_max (v : Z) (c : t) : t := {|
  width := width c; height := height c; bitrate := bitrate c;
  framerate := framerate c; preset := preset c; profile := profile c;
  tier := tier c; level := level c; rc_mode := rc_mode c; crf := crf c;
  qp := qp c; max_bitrate := max_bitrate c; buffer_size := buffer_size c;
  vbv_maxrate := vbv_maxrate c; vbv_bufsize := vbv_bufsize c;
  keyint_max := v; keyint_min := keyint_min c; scenecut := scenecut c;
  open_gop := open_gop c; bframes := bframes c; b_pyramid := b_pyramid c;
  tune := tune c; aq_mode := aq_mode c; aq_strength := aq_strength c;
  psy := psy c; psy_rd := psy_rd c; psy_rdoq := psy_rdoq c;
  me_range := me_range c; subme := subme c; subme_level := subme_level c;
  me_method := me_method c; slice_max_size := slice_max_size c;
  slice_max_count := slice_max_count c; threads := threads c;
  deblock := deblock c; deblock_alpha := deblock_alpha c;
  deblock_beta := deblock_beta c; sao := sao c;
  repeat_headers := repeat_headers c; annexb := annexb c;
  log_level := log_level c;
  strong_intra_smoothing := strong_intra_smoothing c;
  constrained_intra := constrained_intra c; cu_lossless := cu_lossless c;
  early_skip := early_skip c; vui_parameters := vui_parameters c;
  fullrange := fullrange c; frames := frames c
|}.

Definition set_crf (v : Z) (c : t) : t := {|
  width := width c; height := height c; bitrate := bitrate c;
  framerate := framerate c; preset := preset c; profile := profile c;
  tier := tier c; level := level c; rc_mode := rc_mode c; crf := v;
  qp := qp c; max_bitrate := max_bitrate c; buffer_size := buffer_size c;
  vbv_maxrate := vbv_maxrate c; vbv_bufsize := vbv_bufsize c;
  keyint_max := keyint_max c; keyint_min := keyint_min c;
  scenecut := scenecut c; open_gop := open_gop c; bframes := bframes c;
  b_pyramid := b_pyramid c; tune := tune c; aq_mode := aq_mode c;
  aq_strength := aq_strength c; psy := psy c; psy_rd := psy_rd c;
  psy_rdoq := psy_rdoq c; me_range := me_range c; subme := subme c;
  subme_level := subme_level c; me_method := me_method c;
  slice_max_size := slice_max_size c; slice_max_count := slice_max_count c;
  threads := threads c; deblock := deblock c;
  deblock_alpha := deblock_alpha c; deblock_beta := deblock_beta c;
  sao := sao c; repeat_headers := repeat_headers c; annexb := annexb c;
  log_level := log_level c;
  strong_intra_smoothing := strong_intra_smoothing c;
  constrained_intra := constrained_intra c; cu_lossless := cu_lossless c;
  early_skip := early_skip c; vui_parameters := vui_parameters c;
  fullrange := fullrange c; frames := frames c
|}.

Definition set_rc_mode (v : RateControlMode.t) (c : t) : t := {|
  width := width c; height := height c; bitrate := bitrate c;
  framerate := framerate c; preset := preset c; profile := profile c;
  tier := tier c; level := level c; rc_mode := v; crf := crf c; qp := qp c;
  max_bitrate := max_bitrate c; buffer_size := buffer_size c;
  vbv_maxrate := vbv_maxrate c; vbv_bufsize := vbv_bufsize c;
  keyint_max := keyint_max c; keyint_min := keyint_min c;
  scenecut := scenecut c; open_gop := open_gop c; bframes := bframes c;
  b_pyramid := b_pyramid c; tune := tune c; aq_mode := aq_mode c;
  aq_strength := aq_strength c; psy := psy c; psy_rd := psy_rd c;
  psy_rdoq := psy_rdoq c; me_range := me_range c; subme := subme c;
  subme_level := subme_level c; me_method := me_method c;
  slice_max_size := slice_max_size c; slice_max_count := slice_max_count c;
  threads := threads c; deblock := deblock c;
  deblock_alpha := deblock_alpha c; deblock_beta := deblock_beta c;
  sao := sao c; repeat_headers := repeat_headers c; annexb := annexb c;
  log_level := log_level c;
  strong_intra_smoothing := strong_intra_smoothing c;
  constrained_intra := constrained_intra c; cu_lossless := cu_lossless c;
  early_skip := early_skip c; vui_parameters := vui_parameters c;
  fullrange := fullrange c; frames := frames c
|}.

Definition set_bframes (v : Z) (c : t) : t := {|
  width := width c; height := height c; bitrate := bitrate c;
  framerate := framerate c; preset := preset c; profile := profile c;
  tier := tier c; level := level c; rc_mode := rc_mode c; crf := crf c;
  qp := qp c; max_bitrate := max_bitrate c; buffer_size := buffer_size c;
  vbv_maxrate := vbv_maxrate c; vbv_bufsize := vbv_bufsize c;
  keyint_max := keyint_max c; keyint_min := keyint_min c;
  scenecut := scenecut c; open_gop := open_gop c; bframes := v;
  b_pyramid := b_pyramid c; tune := tune c; aq_mode := aq_mode c;
  aq_strength := aq_strength c; psy := psy c; psy_rd := psy_rd c;
  psy_rdoq := psy_rdoq c; me_range := me_range c; subme := subme c;
  subme_level := subme_level c; me_method := me_method c;
  slice_max_size := slice_max_size c; slice_max_count := slice_max_count c;
  threads := threads c; deblock := deblock c;
  deblock_alpha := deblock_alpha c; deblock_beta := deblock_beta c;
  sao := sao c; repeat_headers := repeat_headers c; annexb := annexb c;
  log_level := log_level c;
  strong_intra_smoothing := strong_intra_smoothing c;
  constrained_intra := constrained_intra c; cu_lossless := cu_lossless c;
  early_skip := early_skip c; vui_parameters := vui_parameters c;
  fullrange := fullrange c; frames := frames c
|}.

Definition set_threads (v : Z) (c : t) : t := {|
  width := width c; height := height c; bitrate := bitrate c;
  framerate := framerate c; preset := preset c; profile := profile c;
  tier := tier c; level := level c; rc_mode := rc_mode c; crf := crf c;
  qp := qp c; max_bitrate := max_bitrate c; buffer_size := buffer_size c;
  vbv_maxrate := vbv_maxrate c; vbv_bufsize := vbv_bufsize c;
  keyint_max := keyint_max c; keyint_min := keyint_min c;
  scenecut := scenecut c; open_gop := open_gop c; bframes := bframes c;
  b_pyramid := b_pyramid c; tune := tune c; aq_mode := aq_mode c;
  aq_strength := aq_strength c; psy := psy c; psy_rd := psy_rd c;
  psy_rdoq := psy_rdoq c; me_range := me_range c; subme := subme c;
  subme_level := subme_level c; me_method := me_method c;
  slice_max_size := slice_max_size c; slice_max_count := slice_max_count c;
  threads := v; deblock := deblock c; deblock_alpha := deblock_alpha c;
  deblock_beta := deblock_beta c; sao := sao c;
  repeat_headers := repeat_headers c; annexb := annexb c;
  log_level := log_level c;
  strong_intra_smoothing := strong_intra_smoothing c;
  constrained_intra := constrained_intra c; cu_lossless := cu_lossless c;
  early_skip := early_skip c; vui_parameters := vui_parameters c;
  fullrange := fullrange c; frames := frames c
|}.

End HEVCEncoderConfig.

Module VP8EncoderConfig.

Module RateControlMode.
Inductive t : Type := RC_MODE_VBR | RC_MODE_CBR | RC_MODE_CQ.
End RateControlMode.

Module Deadline.
Inductive t : Type :=
  DEADLINE_BEST_QUALITY | DEADLINE_GOOD_QUALITY | DEADLINE_REALTIME.
End Deadline.

Record t : Type := mk {
  width : Z;
  height : Z;
  bitrate : Z;
  framerate : Z;
  quality : Z;
  min_quantizer : Z;
  max_quantizer : Z;
  buffer_size : Z;
  buffer_initial_size : Q;
  buffer_optimal_size : Q;
  keyframe_interval : Z;
  keyframe_min_interval : Z;
  auto_keyframe : bool;
  thread_count : Z;
  rc_mode : RateControlMode.t;
  error_resilient : bool;
  deadline : Deadline.t;
  cpu_used : Z;
  noise_sensitivity : Z;
  sharpness : Z;
  static_threshold : Z;
  token_partitions : Z;
  arnr_enabled : bool;
  arnr_max_frames : Z;
  arnr_strength : Z;
  arnr_type : Z;
  lag_in_frames : Z;
  two_pass_encoding : bool;
  stats_file : string
}.

(** The member initializers of the default constructor. *)
Definition default : t := {|
  width := 640;
  height := 480;
  bitrate := 1000000;
  framerate := 30;
  quality := 10;
  min_quantizer := 4;
  max_quantizer := 63;
  buffer_size := 0;
  buffer_initial_size := 0.9%Q;
  buffer_optimal_size := 0.75%Q;
  keyframe_interval := 300;
  keyframe_min_interval := 0;
  auto_keyframe := true;
  thread_count := 0;
  rc_mode := RateControlMode.RC_MODE_VBR;
  error_resilient := false;
  deadline := Deadline.DEADLINE_GOOD_QUALITY;
  cpu_used := 0;
  noise_sensitivity := 0;
  sharpness := 0;
  static_threshold := 0;
  token_partitions := 0;
  arnr_enabled := false;
  arnr_max_frames := 0;
  arnr_strength := 3;
  arnr_type := 1;
  lag_in_frames := 0;
  two_pass_encoding := false;
  stats_file := ""
|}.

Definition set_width (v : Z) (c : t) : t := {|
  width := v; height := height c; bitrate := bitrate c;
  framerate := framerate c; quality := quality c;
  min_quantizer := min_quantizer c; max_quantizer := max_quantizer c;
  buffer_size := buffer_size c; buffer_initial_size := buffer_initial_size c;
  buffer_optimal_size := buffer_optimal_size c;
  keyframe_interval := keyframe_interval c;
  keyframe_min_interval := keyframe_min_interval c;
  auto_keyframe := auto_keyframe c; thread_count := thread_count c;
  rc_mode := rc_mode c; error_resilient := error_resilient c;
  deadline := deadline c; cpu_used := cpu_used c;
  noise_sensitivity := noise_sensitivity c; sharpness := sharpness c;
  static_threshold := static_threshold c;
  token_partitions := token_partitions c; arnr_enabled := arnr_enabled c;
  arnr_max_frames := arnr_max_frames c; arnr_strength := arnr_strength c;
  arnr_type := arnr_type c; lag_in_frames := lag_in_frames c;
  two_pass_encoding := two_pass_encoding c; stats_file := stats_file c
|}.

Definition set_height (v : Z) (c : t) : t := {|
  width := width c; height := v; bitrate := bitrate c;
  framerate := framerate c; quality := quality c;
  min_quantizer := min_quantizer c; max_quantizer := max_quantizer c;
  buffer_size := buffer_size c; buffer_initial_size := buffer_initial_size c;
  buffer_optimal_size := buffer_optimal_size c;
  keyframe_interval := keyframe_interval c;
  keyframe_min_interval := keyframe_min_interval c;
  auto_keyframe := auto_keyframe c; thread_count := thread_count c;
  rc_mode := rc_mode c; error_resilient := error_resilient c;
  deadline := deadline c; cpu_used := cpu_used c;
  noise_sensitivity := noise_sensitivity c; sharpness := sharpness c;
  static_threshold := static_threshold c;
  token_partitions := token_partitions c; arnr_enabled := arnr_enabled c;
  arnr_max_frames := arnr_max_frames c; arnr_strength := arnr_strength c;
  arnr_type := arnr_type c; lag_in_frames := lag_in_frames c;
  two_pass_encoding := two_pass_encoding c; stats_file := stats_file c
|}.

Definition set_bitrate (v : Z) (c : t) : t := {|
  width := width c; height := height c; bitrate := v;
  framerate := framerate c; quality := quality c;
  min_quantizer := min_quantizer c; max_quantizer := max_quantizer c;
  buffer_size := buffer_size c; buffer_initial_size := buffer_initial_size c;
  buffer_optimal_size := buffer_optimal_size c;
  keyframe_interval := keyframe_interval c;
  keyframe_min_interval := keyframe_min_interval c;
  auto_keyframe := auto_keyframe c; thread_count := thread_count c;
  rc_mode := rc_mode c; error_resilient := error_resilient c;
  deadline := deadline c; cpu_used := cpu_used c;
  noise_sensitivity := noise_sensitivity c; sharpness := sharpness c;
  static_threshold := static_threshold c;
  token_partitions := token_partitions c; arnr_enabled := arnr_enabled c;
  arnr_max_frames := arnr_max_frames c; arnr_strength := arnr_strength c;
  arnr_type := arnr_type c; lag_in_frames := lag_in_frames c;
  two_pass_encoding := two_pass_encoding c; stats_file := stats_file c
|}.

Definition set_framerate (v : Z) (c : t) : t := {|
  width := width c; height := height c; bitrate := bitrate c; framerate := v;
  quality := quality c; min_quantizer := min_quantizer c;
  max_quantizer := max_quantizer c; buffer_size := buffer_size c;
  buffer_initial_size := buffer_initial_size c;
  buffer_optimal_size := buffer_optimal_size c;
  keyframe_interval := keyframe_interval c;
  keyframe_min_interval := keyframe_min_interval c;
  auto_keyframe := auto_keyframe c; thread_count := thread_count c;
  rc_mode := rc_mode c; error_resilient := error_resilient c;
  deadline := deadline c; cpu_used := cpu_used c;
  noise_sensitivity := noise_sensitivity c; sharpness := sharpness c;
  static_threshold := static_threshold c;
  token_partitions := token_partitions c; arnr_enabled := arnr_enabled c;
  arnr_max_frames := arnr_max_frames c; arnr_strength := arnr_strength c;
  arnr_type := arnr_type c; lag_in_frames := lag_in_frames c;
  two_pass_encoding := two_pass_encoding c; stats_file := stats_file c
|}.

Definition set_quality (v : Z) (c : t) : t := {|
  width := width c; height := height c; bitrate := bitrate c;
  framerate := framerate c; quality := v; min_quantizer := min_quantizer c;
  max_quantizer := max_quantizer c; buffer_size := buffer_size c;
  buffer_initial_size := buffer_initial_size c;
  buffer_optimal_size := buffer_optimal_size c;
  keyframe_interval := keyframe_interval c;
  keyframe_min_interval := keyframe_min_interval c;
  auto_keyframe := auto_keyframe c; thread_count := thread_count c;
  rc_mode := rc_mode c; error_resilient := error_resilient c;
  deadline := deadline c; cpu_used := cpu_used c;
  noise_sensitivity := noise_sensitivity c; sharpness := sharpness c;
  static_threshold := static_threshold c;
  token_partitions := token_partitions c; arnr_enabled := arnr_enabled c;
  arnr_max_frames := arnr_max_frames c; arnr_strength := arnr_strength c;
  arnr_type := arnr_type c; lag_in_frames := lag_in_frames c;
  two_pass_encoding := two_pass_encoding c; stats_file := stats_file c
|}.

Definition set_keyframe_interval (v : Z) (c : t) : t := {|
  width := width c; height := height c; bitrate := bitrate c;
  framerate := framerate c; quality := quality c;
  min_quantizer := min_quantizer c; max_quantizer := max_quantizer c;
  buffer_size := buffer_size c; buffer_initial_size := buffer_initial_size c;
  buffer_optimal_size := buffer_optimal_size c; keyframe_interval := v;
  keyframe_min_interval := keyframe_min_interval c;
  auto_keyframe := auto_keyframe c; thread_count := thread_count c;
  rc_mode := rc_mode c; error_resilient := error_resilient c;
  deadline := deadline c; cpu_used := cpu_used c;
  noise_sensitivity := noise_sensitivity c; sharpness := sharpness c;
  static_threshold := static_threshold c;
  token_partitions := token_partitions c; arnr_enabled := arnr_enabled c;
  arnr_max_frames := arnr_max_frames c; arnr_strength := arnr_strength c;
  arnr_type := arnr_type c; lag_in_frames := lag_in_frames c;
  two_pass_encoding := two_pass_encoding c; stats_file := stats_file c
|}.

Definition set_rc_mode (v : RateControlMode.t) (c : t) : t := {|
  width := width c; height := height c; bitrate := bitrate c;
  framerate := framerate c; quality := quality c;
  min_quantizer := min_quantizer c; max_quantizer := max_quantizer c;
  buffer_size := buffer_size c; buffer_initial_size := buffer_initial_size c;
  buffer_optimal_size := buffer_optimal_size c;
  keyframe_interval := keyframe_interval c;
  keyframe_min_interval := keyframe_min_interval c;
  auto_keyframe := auto_keyframe c; thread_count := thread_count c;
  rc_mode := v; error_resilient := error_resilient c; deadline := deadline c;
  cpu_used := cpu_used c; noise_sensitivity := noise_sensitivity c;
  sharpness := sharpness c; static_threshold := static_threshold c;
  token_partitions := token_partitions c; arnr_enabled := arnr_enabled c;
  arnr_max_frames := arnr_max_frames c; arnr_strength := arnr_strength c;
  arnr_type := arnr_type c; lag_in_frames := lag_in_frames c;
  two_pass_encoding := two_pass_encoding c; stats_file := stats_file c
|}.

Definition set_thread_count (v : Z) (c : t) : t := {|
  width := width c; height := height c; bitrate := bitrate c;
  framerate := framerate c; quality := quality c;
  min_quantizer := min_quantizer c; max_quantizer := max_quantizer c;
  buffer_size := buffer_size c; buffer_initial_size := buffer_initial_size c;
  buffer_optimal_size := buffer_optimal_size c;
  keyframe_interval := keyframe_interval c;
  keyframe_min_interval := keyframe_min_interval c;
  auto_keyframe := auto_keyframe c; thread_count := v; rc_mode := rc_mode c;
  error_resilient := error_resilient c; deadline := deadline c;
  cpu_used := cpu_used c; noise_sensitivity := noise_sensitivity c;
  sharpness := sharpness c; static_threshold := static_threshold c;
  token_partitions := token_partitions c; arnr_enabled := arnr_enabled c;
  arnr_max_frames := arnr_max_frames c; arnr_strength := arnr_strength c;
  arnr_type := arnr_type c; lag_in_frames := lag_in_frames c;
  two_pass_encoding := two_pass_encoding c; stats_file := stats_file c
|}.

End VP8EncoderConfig.

Module VP9Quality.
Inductive t : Type := REALTIME | GOOD | BEST.
End VP9Quality.

Module VP9Profile.
Inductive t : Type := PROFILE_0 | PROFILE_1 | PROFILE_2 | PROFILE_3.
End VP9Profile.

Module VP9EncoderConfig.

Record t : Type := mk {
  width : Z;
  height : Z;
  bitrate : Z;
  framerate : Z;
  use_cbr : bool;
  max_bitrate : Z;
  min_bitrate : Z;
  buffer_size : Z;
  buffer_initial_size : Z;
  quality : VP9Quality.t;
  crf : Z;
  speed : Z;
  lossless : bool;
  keyframe_interval : Z;
  auto_alt_ref : bool;
  lag_in_frames : Z;
  tile_columns : Z;
  tile_rows : Z;
  frame_parallel : bool;
  threads : Z;
  error_resilient : bool;
  arnr_enabled : bool;
  arnr_strength : Z;
  arnr_max_frames : Z;
  profile : VP9Profile.t;
  bit_depth : Z;
  roi_enabled : bool;
  svc_enabled : bool;
  svc_layers : Z;
  svc_temporal_layers : Z;
  aq_mode : bool;
  undershoot_pct : Z;
  overshoot_pct : Z;
  max_intra_bitrate_pct : Z;
  max_inter_bitrate_pct : Z;
  row_mt : bool
}.

(** The default member initializers of the struct. *)
Definition default : t := {|
  width := 0;
  height := 0;
  bitrate := 0;
  framerate := 30;
  use_cbr := false;
  max_bitrate := 0;
  min_bitrate := 0;
  buffer_size := 0;
  buffer_initial_size := 0;
  quality := VP9Quality.GOOD;
  crf := 23;
  speed := 0;
  lossless := false;
  keyframe_interval := 120;
  auto_alt_ref := true;
  lag_in_frames := 25;
  tile_columns := 0;
  tile_rows := 0;
  frame_parallel := false;
  threads := 0;
  error_resilient := false;
  arnr_enabled := false;
  arnr_strength := 3;
  arnr_max_frames := 7;
  profile := VP9Profile.PROFILE_0;
  bit_depth := 8;
  roi_enabled := false;
  svc_enabled := false;
  svc_layers := 1;
  svc_temporal_layers := 1;
  aq_mode := true;
  undershoot_pct := 100;
  overshoot_pct := 100;
  max_intra_bitrate_pct := 0;
  max_inter_bitrate_pct := 0;
  row_mt := true
|}.

Definition set_width (v : Z) (c : t) : t := {|
  width := v; height := height c; bitrate := bitrate c;
  framerate := framerate c; use_cbr := use_cbr c;
  max_bitrate := max_bitrate c; min_bitrate := min_bitrate c;
  buffer_size := buffer_size c; buffer_initial_size := buffer_initial_size c;
  quality := quality c; crf := crf c; speed := speed c;
  lossless := lossless c; keyframe_interval := keyframe_interval c;
  auto_alt_ref := auto_alt_ref c; lag_in_frames := lag_in_frames c;
  tile_columns := tile_columns c; tile_rows := tile_rows c;
  frame_parallel := frame_parallel c; threads := threads c;
  error_resilient := error_resilient c; arnr_enabled := arnr_enabled c;
  arnr_strength := arnr_strength c; arnr_max_frames := arnr_max_frames c;
  profile := profile c; bit_depth := bit_depth c;
  roi_enabled := roi_enabled c; svc_enabled := svc_enabled c;
  svc_layers := svc_layers c; svc_temporal_layers := svc_temporal_layers c;
  aq_mode := aq_mode c; undershoot_pct := undershoot_pct c;
  overshoot_pct := overshoot_pct c;
  max_intra_bitrate_pct := max_intra_bitrate_pct c;
  max_inter_bitrate_pct := max_inter_bitrate_pct c; row_mt := row_mt c
|}.

Definition set_height (v : Z) (c : t) : t := {|
  width := width c; height := v; bitrate := bitrate c;
  framerate := framerate c; use_cbr := use_cbr c;
  max_bitrate := max_bitrate c; min_bitrate := min_bitrate c;
  buffer_size := buffer_size c; buffer_initial_size := buffer_initial_size c;
  quality := quality c; crf := crf c; speed := speed c;
  lossless := lossless c; keyframe_interval := keyframe_interval c;
  auto_alt_ref := auto_alt_ref c; lag_in_frames := lag_in_frames c;
  tile_columns := tile_columns c; tile_rows := tile_rows c;
  frame_parallel := frame_parallel c; threads := threads c;
  error_resilient := error_resilient c; arnr_enabled := arnr_enabled c;
  arnr_strength := arnr_strength c; arnr_max_frames := arnr_max_frames c;
  profile := profile c; bit_depth := bit_depth c;
  roi_enabled := roi_enabled c; svc_enabled := svc_enabled c;
  svc_layers := svc_layers c; svc_temporal_layers := svc_temporal_layers c;
  aq_mode := aq_mode c; undershoot_pct := undershoot_pct c;
  overshoot_pct := overshoot_pct c;
  max_intra_bitrate_pct := max_intra_bitrate_pct c;
  max_inter_bitrate_pct := max_inter_bitrate_pct c; row_mt := row_mt c
|}.

Definition set_bitrate (v : Z) (c : t) : t := {|
  width := width c; height := height c; bitrate := v;
  framerate := framerate c; use_cbr := use_cbr c;
  max_bitrate := max_bitrate c; min_bitrate := min_bitrate c;
  buffer_size := buffer_size c; buffer_initial_size := buffer_initial_size c;
  quality := quality c; crf := crf c; speed := speed c;
  lossless := lossless c; keyframe_interval := keyframe_interval c;
  auto_alt_ref := auto_alt_ref c; lag_in_frames := lag_in_frames c;
  tile_columns := tile_columns c; tile_rows := tile_rows c;
  frame_parallel := frame_parallel c; threads := threads c;
  error_resilient := error_resilient c; arnr_enabled := arnr_enabled c;
  arnr_strength := arnr_strength c; arnr_max_frames := arnr_max_frames c;
  profile := profile c; bit_depth := bit_depth c;
  roi_enabled := roi_enabled c; svc_enabled := svc_enabled c;
  svc_layers := svc_layers c; svc_temporal_layers := svc_temporal_layers c;
  aq_mode := aq_mode c; undershoot_pct := undershoot_pct c;
  overshoot_pct := overshoot_pct c;
  max_intra_bitrate_pct := max_intra_bitrate_pct c;
  max_inter_bitrate_pct := max_inter_bitrate_pct c; row_mt := row_mt c
|}.

Definition set_framerate (v : Z) (c : t) : t := {|
  width := width c; height := height c; bitrate := bitrate c; framerate := v;
  use_cbr := use_cbr c; max_bitrate := max_bitrate c;
  min_bitrate := min_bitrate c; buffer_size := buffer_size c;
  buffer_initial_size := buffer_initial_size c; quality := quality c;
  crf := crf c; speed := speed c; lossless := lossless c;
  keyframe_interval := keyframe_interval c; auto_alt_ref := auto_alt_ref c;
  lag_in_frames := lag_in_frames c; tile_columns := tile_columns c;
  tile_rows := tile_rows c; frame_parallel := frame_parallel c;
  threads := threads c; error_resilient := error_resilient c;
  arnr_enabled := arnr_enabled c; arnr_strength := arnr_strength c;
  arnr_max_frames := arnr_max_frames c; profile := profile c;
  bit_depth := bit_depth c; roi_enabled := roi_enabled c;
  svc_enabled := svc_enabled c; svc_layers := svc_layers c;
  svc_temporal_layers := svc_temporal_layers c; aq_mode := aq_mode c;
  undershoot_pct := undershoot_pct c; overshoot_pct := overshoot_pct c;
  max_intra_bitrate_pct := max_intra_bitrate_pct c;
  max_inter_bitrate_pct := max_inter_bitrate_pct c; row_mt := row_mt c
|}.

Definition set_crf (v : Z) (c : t) : t := {|
  width := width c; height := height c; bitrate := bitrate c;
  framerate := framerate c; use_cbr := use_cbr c;
  max_bitrate := max_bitrate c; min_bitrate := min_bitrate c;
  buffer_size := buffer_size c; buffer_initial_size := buffer_initial_size c;
  quality := quality c; crf := v; speed := speed c; lossless := lossless c;
  keyframe_interval := keyframe_interval c; auto_alt_ref := auto_alt_ref c;
  lag_in_frames := lag_in_frames c; tile_columns := tile_columns c;
  tile_rows := tile_rows c; frame_parallel := frame_parallel c;
  threads := threads c; error_resilient := error_resilient c;
  arnr_enabled := arnr_enabled c; arnr_strength := arnr_strength c;
  arnr_max_frames := arnr_max_frames c; profile := profile c;
  bit_depth := bit_depth c; roi_enabled := roi_enabled c;
  svc_enabled := svc_enabled c; svc_layers := svc_layers c;
  svc_temporal_layers := svc_temporal_layers c; aq_mode := aq_mode c;
  undershoot_pct := undershoot_pct c; overshoot_pct := overshoot_pct c;
  max_intra_bitrate_pct := max_intra_bitrate_pct c;
  max_inter_bitrate_pct := max_inter_bitrate_pct c; row_mt := row_mt c
|}.

Definition set_keyframe_interval (v : Z) (c : t) : t := {|
  width := width c; height := height c; bitrate := bitrate c;
  framerate := framerate c; use_cbr := use_cbr c;
  max_bitrate := max_bitrate c; min_bitrate := min_bitrate c;
  buffer_size := buffer_size c; buffer_initial_size := buffer_initial_size c;
  quality := quality c; crf := crf c; speed := speed c;
  lossless := lossless c; keyframe_interval := v;
  auto_alt_ref := auto_alt_ref c; lag_in_frames := lag_in_frames c;
  tile_columns := tile_columns c; tile_rows := tile_rows c;
  frame_parallel := frame_parallel c; threads := threads c;
  error_resilient := error_resilient c; arnr_enabled := arnr_enabled c;
  arnr_strength := arnr_strength c; arnr_max_frames := arnr_max_frames c;
  profile := profile c; bit_depth := bit_depth c;
  roi_enabled := roi_enabled c; svc_enabled := svc_enabled c;
  svc_layers := svc_layers c; svc_temporal_layers := svc_temporal_layers c;
  aq_mode := aq_mode c; undershoot_pct := undershoot_pct c;
  overshoot_pct := overshoot_pct c;
  max_intra_bitrate_pct := max_intra_bitrate_pct c;
  max_inter_bitrate_pct := max_inter_bitrate_pct c; row_mt := row_mt c
|}.

Definition set_use_cbr (v : bool) (c : t) : t := {|
  width := width c; height := height c; bitrate := bitrate c;
  framerate := framerate c; use_cbr := v; max_bitrate := max_bitrate c;
  min_bitrate := min_bitrate c; buffer_size := buffer_size c;
  buffer_initial_size := buffer_initial_size c; quality := quality c;
  crf := crf c; speed := speed c; lossless := lossless c;
  keyframe_interval := keyframe_interval c; auto_alt_ref := auto_alt_ref c;
  lag_in_frames := lag_in_frames c; tile_columns := tile_columns c;
  tile_rows := tile_rows c; frame_parallel := frame_parallel c;
  threads := threads c; error_resilient := error_resilient c;
  arnr_enabled := arnr_enabled c; arnr_strength := arnr_strength c;
  arnr_max_frames := arnr_max_frames c; profile := profile c;
  bit_depth := bit_depth c; roi_enabled := roi_enabled c;
  svc_enabled := svc_enabled c; svc_layers := svc_layers c;
  svc_temporal_layers := svc_temporal_layers c; aq_mode := aq_mode c;
  undershoot_pct := undershoot_pct c; overshoot_pct := overshoot_pct c;
  max_intra_bitrate_pct := max_intra_bitrate_pct c;
  max_inter_bitrate_pct := max_inter_bitrate_pct c; row_mt := row_mt c
|}.

Definition set_threads (v : Z) (c : t) : t := {|
  width := width c; height := height c; bitrate := bitrate c;
  framerate := framerate c; use_cbr := use_cbr c;
  max_bitrate := max_bitrate c; min_bitrate := min_bitrate c;
  buffer_size := buffer_size c; buffer_initial_size := buffer_initial_size c;
  quality := quality c; crf := crf c; speed := speed c;
  lossless := lossless c; keyframe_interval := keyframe_interval c;
  auto_alt_ref := auto_alt_ref c; lag_in_frames := lag_in_frames c;
  tile_columns := tile_columns c; tile_rows := tile_rows c;
  frame_parallel := frame_parallel c; threads := v;
  error_resilient := error_resilient c; arnr_enabled := arnr_enabled c;
  arnr_strength := arnr_strength c; arnr_max_frames := arnr_max_frames c;
  profile := profile c; bit_depth := bit_depth c;
  roi_enabled := roi_enabled c; svc_enabled := svc_enabled c;
  svc_layers := svc_layers c; svc_temporal_layers := svc_temporal_layers c;
  aq_mode := aq_mode c; undershoot_pct := undershoot_pct c;
  overshoot_pct := overshoot_pct c;
  max_intra_bitrate_pct := max_intra_bitrate_pct c;
  max_inter_bitrate_pct := max_inter_bitrate_pct c; row_mt := row_mt c
|}.

Definition set_tile_columns (v : Z) (c : t) : t := {|
  width := width c; height := height c; bitrate := bitrate c;
  framerate := framerate c; use_cbr := use_cbr c;
  max_bitrate := max_bitrate c; min_bitrate := min_bitrate c;
  buffer_size := buffer_size c; buffer_initial_size := buffer_initial_size c;
  quality := quality c; crf := crf c; speed := speed c;
  lossless := lossless c; keyframe_interval := keyframe_interval c;
  auto_alt_ref := auto_alt_ref c; lag_in_frames := lag_in_frames c;
  tile_columns := v; tile_rows := tile_rows c;
  frame_parallel := frame_parallel c; threads := threads c;
  error_resilient := error_resilient c; arnr_enabled := arnr_enabled c;
  arnr_strength := arnr_strength c; arnr_max_frames := arnr_max_frames c;
  profile := profile c; bit_depth := bit_depth c;
  roi_enabled := roi_enabled c; svc_enabled := svc_enabled c;
  svc_layers := svc_layers c; svc_temporal_layers := svc_temporal_layers c;
  aq_mode := aq_mode c; undershoot_pct := undershoot_pct c;
  overshoot_pct := overshoot_pct c;
  max_intra_bitrate_pct := max_intra_bitrate_pct c;
  max_inter_bitrate_pct := max_inter_bitrate_pct c; row_mt := row_mt c
|}.

Definition set_tile_rows (v : Z) (c : t) : t := {|
  width := width c; height := height c; bitrate := bitrate c;
  framerate := framerate c; use_cbr := use_cbr c;
  max_bitrate := max_bitrate c; min_bitrate := min_bitrate c;
  buffer_size := buffer_size c; buffer_initial_size := buffer_initial_size c;
  quality := quality c; crf := crf c; speed := speed c;
  lossless := lossless c; keyframe_interval := keyframe_interval c;
  auto_alt_ref := auto_alt_ref c; lag_in_frames := lag_in_frames c;
  tile_columns := tile_columns c; tile_rows := v;
  frame_parallel := frame_parallel c; threads := threads c;
  error_resilient := error_resilient c; arnr_enabled := arnr_enabled c;
  arnr_strength := arnr_strength c; arnr_max_frames := arnr_max_frames c;
  profile := profile c; bit_depth := bit_depth c;
  roi_enabled := roi_enabled c; svc_enabled := svc_enabled c;
  svc_layers := svc_layers c; svc_temporal_layers := svc_temporal_layers c;
  aq_mode := aq_mode c; undershoot_pct := undershoot_pct c;
  overshoot_pct := overshoot_pct c;
  max_intra_bitrate_pct := max_intra_bitrate_pct c;
  max_inter_bitrate_pct := max_inter_bitrate_pct c; row_mt := row_mt c
|}.

Definition set_quality (v : VP9Quality.t) (c : t) : t := {|
  width := width c; height := height c; bitrate := bitrate c;
  framerate := framerate c; use_cbr := use_cbr c;
  max_bitrate := max_bitrate c; min_bitrate := min_bitrate c;
  buffer_size := buffer_size c; buffer_initial_size := buffer_initial_size c;
  quality := v; crf := crf c; speed := speed c; lossless := lossless c;
  keyframe_interval := keyframe_interval c; auto_alt_ref := auto_alt_ref c;
  lag_in_frames := lag_in_frames c; tile_columns := tile_columns c;
  tile_rows := tile_rows c; frame_parallel := frame_parallel c;
  threads := threads c; error_resilient := error_resilient c;
  arnr_enabled := arnr_enabled c; arnr_strength := arnr_strength c;
  arnr_max_frames := arnr_max_frames c; profile := profile c;
  bit_depth := bit_depth c; roi_enabled := roi_enabled c;
  svc_enabled := svc_enabled c; svc_layers := svc_layers c;
  svc_temporal_layers := svc_temporal_layers c; aq_mode := aq_mode c;
  undershoot_pct := undershoot_pct c; overshoot_pct := overshoot_pct c;
  max_intra_bitrate_pct := max_intra_bitrate_pct c;
  max_inter_bitrate_pct := max_inter_bitrate_pct c; row_mt := row_mt c
|}.

Definition set_profile (v : VP9Profile.t) (c : t) : t := {|
  width := width c; height := height c; bitrate := bitrate c;
  framerate := framerate c; use_cbr := use_cbr c;
  max_bitrate := max_bitrate c; min_bitrate := min_bitrate c;
  buffer_size := buffer_size c; buffer_initial_size := buffer_initial_size c;
  quality := quality c; crf := crf c; speed := speed c;
  lossless := lossless c; keyframe_interval := keyframe_interval c;
  auto_alt_ref := auto_alt_ref c; lag_in_frames := lag_in_frames c;
  tile_columns := tile_columns c; tile_rows := tile_rows c;
  frame_parallel := frame_parallel c; threads := threads c;
  error_resilient := error_resilient c; arnr_enabled := arnr_enabled c;
  arnr_strength := arnr_strength c; arnr_max_frames := arnr_max_frames c;
  profile := v; bit_depth := bit_depth c; roi_enabled := roi_enabled c;
  svc_enabled := svc_enabled c; svc_layers := svc_layers c;
  svc_temporal_layers := svc_temporal_layers c; aq_mode := aq_mode c;
  undershoot_pct := undershoot_pct c; overshoot_pct := overshoot_pct c;
  max_intra_bitrate_pct := max_intra_bitrate_pct c;
  max_inter_bitrate_pct := max_inter_bitrate_pct c; row_mt := row_mt c
|}.

End VP9EncoderConfig.

Module AV1SpeedPreset.
Inductive t : Type := SLOWEST | SLOWER | SLOW | MEDIUM | FAST | FASTER | FASTEST.
End AV1SpeedPreset.

Module AV1TuneMode.
Inductive t : Type := NONE | PSNR | SSIM | VMAF | FILM_GRAIN.
End AV1TuneMode.

Module AV1RateControlMode.
Inductive t : Type := CRF | CBR | VBR | CQP.
End AV1RateControlMode.

Module AV1TileConfig.
Inductive t : Type := AUTO | SINGLE | MAXIMUM.
End AV1TileConfig.

Module AV1EncoderConfig.

Record t : Type := mk {
  width : Z;
  height : Z;
  bitrate : Z;
  framerate : Z;
  keyframe_interval : Z;
  threads : Z;
  crf : Z;
  speed_preset : AV1SpeedPreset.t;
  tune_mode : AV1TuneMode.t;
  rc_mode : AV1RateControlMode.t;
  tile_config : AV1TileConfig.t;
  qp : Z;
  min_q : Z;
  max_q : Z;
  vbr_target_percentage : Z;
  bitrate_undershoot : Z;
  bitrate_overshoot : Z;
  tile_columns : Z;
  tile_rows : Z;
  row_mt : Z;
  max_intra_rate : Z;
  use_fixed_qp_offsets : bool;
  keyframe_qp_offset : Z;
  max_reference_frames : Z;
  arnr_strength : Z;
  arnr_maxframes : Z;
  enable_cdef : bool;
  enable_restoration : bool;
  enable_film_grain : bool;
  film_grain_strength : Z;
  enable_tpl : bool;
  color_range : Z;
  enable_superblock_split : bool;
  enable_rect_partitions : bool;
  enable_1to4_partitions : bool;
  enable_cfl : bool;
  error_resilient_mode : bool;
  frame_parallel_decoding : bool;
  tune_content : bool;
  content_type : string
}.

(** [width], [height], [bitrate] and [framerate] have no initializer: an
    object is described once they are assigned. *)
Definition init (width0 height0 bitrate0 framerate0 : Z) : t := {|
  width := width0;
  height := height0;
  bitrate := bitrate0;
  framerate := framerate0;
  keyframe_interval := 120;
  threads := 4;
  crf := 23;
  speed_preset := AV1SpeedPreset.MEDIUM;
  tune_mode := AV1TuneMode.NONE;
  rc_mode := AV1RateControlMode.CRF;
  tile_config := AV1TileConfig.AUTO;
  qp := 30;
  min_q := 0;
  max_q := 63;
  vbr_target_percentage := 70;
  bitrate_undershoot := 95;
  bitrate_overshoot := 105;
  tile_columns := 0;
  tile_rows := 0;
  row_mt := 1;
  max_intra_rate := 0;
  use_fixed_qp_offsets := false;
  keyframe_qp_offset := 0;
  max_reference_frames := 3;
  arnr_strength := 3;
  arnr_maxframes := 7;
  enable_cdef := true;
  enable_restoration := true;
  enable_film_grain := false;
  film_grain_strength := 0;
  enable_tpl := true;
  color_range := 0;
  enable_superblock_split := true;
  enable_rect_partitions := true;
  enable_1to4_partitions := true;
  enable_cfl := true;
  error_resilient_mode := false;
  frame_parallel_decoding := false;
  tune_content := false;
  content_type := "default"
|}.

Definition set_speed_preset (v : AV1SpeedPreset.t) (c : t) : t := {|
  width := width c; height := height c; bitrate := bitrate c;
  framerate := framerate c; keyframe_interval := keyframe_interval c;
  threads := threads c; crf := crf c; speed_preset := v;
  tune_mode := tune_mode c; rc_mode := rc_mode c;
  tile_config := tile_config c; qp := qp c; min_q := min_q c;
  max_q := max_q c; vbr_target_percentage := vbr_target_percentage c;
  bitrate_undershoot := bitrate_undershoot c;
  bitrate_overshoot := bitrate_overshoot c; tile_columns := tile_columns c;
  tile_rows := tile_rows c; row_mt := row_mt c;
  max_intra_rate := max_intra_rate c;
  use_fixed_qp_offsets := use_fixed_qp_offsets c;
  keyframe_qp_offset := keyframe_qp_offset c;
  max_reference_frames := max_reference_frames c;
  arnr_strength := arnr_strength c; arnr_maxframes := arnr_maxframes c;
  enable_cdef := enable_cdef c; enable_restoration := enable_restoration c;
  enable_film_grain := enable_film_grain c;
  film_grain_strength := film_grain_strength c; enable_tpl := enable_tpl c;
  color_range := color_range c;
  enable_superblock_split := enable_superblock_split c;
  enable_rect_partitions := enable_rect_partitions c;
  enable_1to4_partitions := enable_1to4_partitions c;
  enable_cfl := enable_cfl c; error_resilient_mode := error_resilient_mode c;
  frame_parallel_decoding := frame_parallel_decoding c;
  tune_content := tune_content c; content_type := content_type c
|}.

Definition set_keyframe_interval (v : Z) (c : t) : t := {|
  width := width c; height := height c; bitrate := bitrate c;
  framerate := framerate c; keyframe_interval := v; threads := threads c;
  crf := crf c; speed_preset := speed_preset c; tune_mode := tune_mode c;
  rc_mode := rc_mode c; tile_config := tile_config c; qp := qp c;
  min_q := min_q c; max_q := max_q c;
  vbr_target_percentage := vbr_target_percentage c;
  bitrate_undershoot := bitrate_undershoot c;
  bitrate_overshoot := bitrate_overshoot c; tile_columns := tile_columns c;
  tile_rows := tile_rows c; row_mt := row_mt c;
  max_intra_rate := max_intra_rate c;
  use_fixed_qp_offsets := use_fixed_qp_offsets c;
  keyframe_qp_offset := keyframe_qp_offset c;
  max_reference_frames := max_reference_frames c;
  arnr_strength := arnr_strength c; arnr_maxframes := arnr_maxframes c;
  enable_cdef := enable_cdef c; enable_restoration := enable_restoration c;
  enable_film_grain := enable_film_grain c;
  film_grain_strength := film_grain_strength c; enable_tpl := enable_tpl c;
  color_range := color_range c;
  enable_superblock_split := enable_superblock_split c;
  enable_rect_partitions := enable_rect_partitions c;
  enable_1to4_partitions := enable_1to4_partitions c;
  enable_cfl := enable_cfl c; error_resilient_mode := error_resilient_mode c;
  frame_parallel_decoding := frame_parallel_decoding c;
  tune_content := tune_content c; content_type := content_type c
|}.

Definition set_rc_mode (v : AV1RateControlMode.t) (c : t) : t := {|
  width := width c; height := height c; bitrate := bitrate c;
  framerate := framerate c; keyframe_interval := keyframe_interval c;
  threads := threads c; crf := crf c; speed_preset := speed_preset c;
  tune_mode := tune_mode c; rc_mode := v; tile_config := tile_config c;
  qp := qp c; min_q := min_q c; max_q := max_q c;
  vbr_target_percentage := vbr_target_percentage c;
  bitrate_undershoot := bitrate_undershoot c;
  bitrate_overshoot := bitrate_overshoot c; tile_columns := tile_columns c;
  tile_rows := tile_rows c; row_mt := row_mt c;
  max_intra_rate := max_intra_rate c;
  use_fixed_qp_offsets := use_fixed_qp_offsets c;
  keyframe_qp_offset := keyframe_qp_offset c;
  max_reference_frames := max_reference_frames c;
  arnr_strength := arnr_strength c; arnr_maxframes := arnr_maxframes c;
  enable_cdef := enable_cdef c; enable_restoration := enable_restoration c;
  enable_film_grain := enable_film_grain c;
  film_grain_strength := film_grain_strength c; enable_tpl := enable_tpl c;
  color_range := color_range c;
  enable_superblock_split := enable_superblock_split c;
  enable_rect_partitions := enable_rect_partitions c;
  enable_1to4_partitions := enable_1to4_partitions c;
  enable_cfl := enable_cfl c; error_resilient_mode := error_resilient_mode c;
  frame_parallel_decoding := frame_parallel_decoding c;
  tune_content := tune_content c; content_type := content_type c
|}.

Definition set_crf (v : Z) (c : t) : t := {|
  width := width c; height := height c; bitrate := bitrate c;
  framerate := framerate c; keyframe_interval := keyframe_interval c;
  threads := threads c; crf := v; speed_preset := speed_preset c;
  tune_mode := tune_mode c; rc_mode := rc_mode c;
  tile_config := tile_config c; qp := qp c; min_q := min_q c;
  max_q := max_q c; vbr_target_percentage := vbr_target_percentage c;
  bitrate_undershoot := bitrate_undershoot c;
  bitrate_overshoot := bitrate_overshoot c; tile_columns := tile_columns c;
  tile_rows := tile_rows c; row_mt := row_mt c;
  max_intra_rate := max_intra_rate c;
  use_fixed_qp_offsets := use_fixed_qp_offsets c;
  keyframe_qp_offset := keyframe_qp_offset c;
  max_reference_frames := max_reference_frames c;
  arnr_strength := arnr_strength c; arnr_maxframes := arnr_maxframes c;
  enable_cdef := enable_cdef c; enable_restoration := enable_restoration c;
  enable_film_grain := enable_film_grain c;
  film_grain_strength := film_grain_strength c; enable_tpl := enable_tpl c;
  color_range := color_range c;
  enable_superblock_split := enable_superblock_split c;
  enable_rect_partitions := enable_rect_partitions c;
  enable_1to4_partitions := enable_1to4_partitions c;
  enable_cfl := enable_cfl c; error_resilient_mode := error_resilient_mode c;
  frame_parallel_decoding := frame_parallel_decoding c;
  tune_content := tune_content c; content_type := content_type c
|}.

Definition set_threads (v : Z) (c : t) : t := {|
  width := width c; height := height c; bitrate := bitrate c;
  framerate := framerate c; keyframe_interval := keyframe_interval c;
  threads := v; crf := crf c; speed_preset := speed_preset c;
  tune_mode := tune_mode c; rc_mode := rc_mode c;
  tile_config := tile_config c; qp := qp c; min_q := min_q c;
  max_q := max_q c; vbr_target_percentage := vbr_target_percentage c;
  bitrate_undershoot := bitrate_undershoot c;
  bitrate_overshoot := bitrate_overshoot c; tile_columns := tile_columns c;
  tile_rows := tile_rows c; row_mt := row_mt c;
  max_intra_rate := max_intra_rate c;
  use_fixed_qp_offsets := use_fixed_qp_offsets c;
  keyframe_qp_offset := keyframe_qp_offset c;
  max_reference_frames := max_reference_frames c;
  arnr_strength := arnr_strength c; arnr_maxframes := arnr_maxframes c;
  enable_cdef := enable_cdef c; enable_restoration := enable_restoration c;
  enable_film_grain := enable_film_grain c;
  film_grain_strength := film_grain_strength c; enable_tpl := enable_tpl c;
  color_range := color_range c;
  enable_superblock_split := enable_superblock_split c;
  enable_rect_partitions := enable_rect_partitions c;
  enable_1to4_partitions := enable_1to4_partitions c;
  enable_cfl := enable_cfl c; error_resilient_mode := error_resilient_mode c;
  frame_parallel_decoding := frame_parallel_decoding c;
  tune_content := tune_content c; content_type := content_type c
|}.

Definition set_tile_columns (v : Z) (c : t) : t := {|
  width := width c; height := height c; bitrate := bitrate c;
  framerate := framerate c; keyframe_interval := keyframe_interval c;
  threads := threads c; crf := crf c; speed_preset := speed_preset c;
  tune_mode := tune_mode c; rc_mode := rc_mode c;
  tile_config := tile_config c; qp := qp c; min_q := min_q c;
  max_q := max_q c; vbr_target_percentage := vbr_target_percentage c;
  bitrate_undershoot := bitrate_undershoot c;
  bitrate_overshoot := bitrate_overshoot c; tile_columns := v;
  tile_rows := tile_rows c; row_mt := row_mt c;
  max_intra_rate := max_intra_rate c;
  use_fixed_qp_offsets := use_fixed_qp_offsets c;
  keyframe_qp_offset := keyframe_qp_offset c;
  max_reference_frames := max_reference_frames c;
  arnr_strength := arnr_strength c; arnr_maxframes := arnr_maxframes c;
  enable_cdef := enable_cdef c; enable_restoration := enable_restoration c;
  enable_film_grain := enable_film_grain c;
  film_grain_strength := film_grain_strength c; enable_tpl := enable_tpl c;
  color_range := color_range c;
  enable_superblock_split := enable_superblock_split c;
  enable_rect_partitions := enable_rect_partitions c;
  enable_1to4_partitions := enable_1to4_partitions c;
  enable_cfl := enable_cfl c; error_resilient_mode := error_resilient_mode c;
  frame_parallel_decoding := frame_parallel_decoding c;
  tune_content := tune_content c; content_type := content_type c
|}.

Definition set_tile_rows (v : Z) (c : t) : t := {|
  width := width c; height := height c; bitrate := bitrate c;
  framerate := framerate c; keyframe_interval := keyframe_interval c;
  threads := threads c; crf := crf c; speed_preset := speed_preset c;
  tune_mode := tune_mode c; rc_mode := rc_mode c;
  tile_config := tile_config c; qp := qp c; min_q := min_q c;
  max_q := max_q c; vbr_target_percentage := vbr_target_percentage c;
  bitrate_undershoot := bitrate_undershoot c;
  bitrate_overshoot := bitrate_overshoot c; tile_columns := tile_columns c;
  tile_rows := v; row_mt := row_mt c; max_intra_rate := max_intra_rate c;
  use_fixed_qp_offsets := use_fixed_qp_offsets c;
  keyframe_qp_offset := keyframe_qp_offset c;
  max_reference_frames := max_reference_frames c;
  arnr_strength := arnr_strength c; arnr_maxframes := arnr_maxframes c;
  enable_cdef := enable_cdef c; enable_restoration := enable_restoration c;
  enable_film_grain := enable_film_grain c;
  film_grain_strength := film_grain_strength c; enable_tpl := enable_tpl c;
  color_range := color_range c;
  enable_superblock_split := enable_superblock_split c;
  enable_rect_partitions := enable_rect_partitions c;
  enable_1to4_partitions := enable_1to4_partitions c;
  enable_cfl := enable_cfl c; error_resilient_mode := error_resilient_mode c;
  frame_parallel_decoding := frame_parallel_decoding c;
  tune_content := tune_content c; content_type := content_type c
|}.

End AV1EncoderConfig.

Module NvidiaH264EncoderConfig.

Record t : Type := mk {
  width : Z;
  height : Z;
  bitrate : Z;
  framerate : Z;
  gop_length : Z;
  low_latency : bool;
  quality_preset : Z;
  max_b_frames : Z;
  use_cbr : bool
}.

(** [width], [height], [bitrate] and [framerate] have no initializer: an
    object is described once they are assigned. *)
Definition init (width0 height0 bitrate0 framerate0 : Z) : t := {|
  width := width0;
  height := height0;
  bitrate := bitrate0;
  framerate := framerate0;
  gop_length := 30;
  low_latency := false;
  quality_preset := 4;
  max_b_frames := 0;
  use_cbr := true
|}.

Definition set_gop_length (v : Z) (c : t) : t := {|
  width := width c; height := height c; bitrate := bitrate c;
  framerate := framerate c; gop_length := v; low_latency := low_latency c;
  quality_preset := quality_preset c; max_b_frames := max_b_frames c;
  use_cbr := use_cbr c
|}.

Definition set_max_b_frames (v : Z) (c : t) : t := {|
  width := width c; height := height c; bitrate := bitrate c;
  framerate := framerate c; gop_length := gop_length c;
  low_latency := low_latency c; quality_preset := quality_preset c;
  max_b_frames := v; use_cbr := use_cbr c
|}.

Definition set_use_cbr (v : bool) (c : t) : t := {|
  width := width c; height := height c; bitrate := bitrate c;
  framerate := framerate c; gop_length := gop_length c;
  low_latency := low_latency c; quality_preset := quality_preset c;
  max_b_frames := max_b_frames c; use_cbr := v
|}.

End NvidiaH264EncoderConfig.

Module NvidiaAV1EncoderConfig.

Record t : Type := mk {
  width : Z;
  height : Z;
  bitrate : Z;
  framerate : Z;
  gop_length : Z;
  low_latency : bool;
  quality_preset : Z;
  use_cbr : bool;
  max_num_ref_frames : Z;
  enable_film_grain : bool;
  tile_columns : Z;
  tile_rows : Z
}.

(** [width], [height], [bitrate] and [framerate] have no initializer: an
    object is described once they are assigned. *)
Definition init (width0 height0 bitrate0 framerate0 : Z) : t := {|
  width := width0;
  height := height0;
  bitrate := bitrate0;
  framerate := framerate0;
  gop_length := 30;
  low_latency := false;
  quality_preset := 4;
  use_cbr := true;
  max_num_ref_frames := 4;
  enable_film_grain := false;
  tile_columns := 0;
  tile_rows := 0
|}.

Definition set_gop_length (v : Z) (c : t) : t := {|
  width := width c; height := height c; bitrate := bitrate c;
  framerate := framerate c; gop_length := v; low_latency := low_latency c;
  quality_preset := quality_preset c; use_cbr := use_cbr c;
  max_num_ref_frames := max_num_ref_frames c;
  enable_film_grain := enable_film_grain c; tile_columns := tile_columns c;
  tile_rows := tile_rows c
|}.

Definition set_use_cbr (v : bool) (c : t) : t := {|
  width := width c; height := height c; bitrate := bitrate c;
  framerate := framerate c; gop_length := gop_length c;
  low_latency := low_latency c; quality_preset := quality_preset c;
  use_cbr := v; max_num_ref_frames := max_num_ref_frames c;
  enable_film_grain := enable_film_grain c; tile_columns := tile_columns c;
  tile_rows := tile_rows c
|}.

Definition set_tile_columns (v : Z) (c : t) : t := {|
  width := width c; height := height c; bitrate := bitrate c;
  framerate := framerate c; gop_length := gop_length c;
  low_latency := low_latency c; quality_preset := quality_preset c;
  use_cbr := use_cbr c; max_num_ref_frames := max_num_ref_frames c;
  enable_film_grain := enable_film_grain c; tile_columns := v;
  tile_rows := tile_rows c
|}.

Definition set_tile_rows (v : Z) (c : t) : t := {|
  width := width c; height := height c; bitrate := bitrate c;
  framerate := framerate c; gop_length := gop_length c;
  low_latency := low_latency c; quality_preset := quality_preset c;
  use_cbr := use_cbr c; max_num_ref_frames := max_num_ref_frames c;
  enable_film_grain := enable_film_grain c; tile_columns := tile_columns c;
  tile_rows := v
|}.

End NvidiaAV1EncoderConfig.

(** * media_video_encoder.h *)

Module PixelFormat.
Inductive t : Type := YUV420 | NV12.
End PixelFormat.

(** [enum class CodecType].  The enumeration has the underlying type [int]
    and every [int] is a value of it; the sources keep a [default:] branch
    for the values that are no enumerator, and so does the model. *)
Module CodecType.
Definition t : Type := Z.
Definition H264 : t := 0.
Definition HEVC : t := 1.
Definition VP8 : t := 2.
Definition VP9 : t := 3.
Definition AV1 : t := 4.
Definition is_enumerator (c : t) : bool := (0 <=? c) && (c <=? 4).
End CodecType.

Module codec.

Module H264Params.

Record t : Type := mk {
  preset : string;
  profile : string;
  level : string;
  keyframe_interval : Z;
  max_b_frames : Z;
  constant_bitrate : bool;
  crf : Z;
  threads : Z
}.

(** The default member initializers of the struct. *)
Definition default : t := {|
  preset := "medium";
  profile := "high";
  level := "4.1";
  keyframe_interval := 120;
  max_b_frames := 2;
  constant_bitrate := false;
  crf := 23;
  threads := 0
|}.

End H264Params.

Module HEVCParams.

Record t : Type := mk {
  preset : string;
  profile : string;
  level : string;
  keyframe_interval : Z;
  crf : Z;
  constant_bitrate : bool;
  max_b_frames : Z;
  threads : Z
}.

(** The default member initializers of the struct. *)
Definition default : t := {|
  preset := "medium";
  profile := "main";
  level := "4.1";
  keyframe_interval := 120;
  crf := 28;
  constant_bitrate := false;
  max_b_frames := 4;
  threads := 0
|}.

End HEVCParams.

Module VP8Params.

Record t : Type := mk {
  quality : Z;
  keyframe_interval : Z;
  constant_bitrate : bool;
  threads : Z
}.

(** The default member initializers of the struct. *)
Definition default : t := {|
  quality := 10;
  keyframe_interval := 120;
  constant_bitrate := false;
  threads := 0
|}.

End VP8Params.

Module VP9Params.

Record t : Type := mk {
  quality : Z;
  speed : string;
  profile : string;
  keyframe_interval : Z;
  constant_bitrate : bool;
  threads : Z;
  tile_columns : Z;
  tile_rows : Z
}.

(** The default member initializers of the struct. *)
Definition default : t := {|
  quality := 23;
  speed := "good";
  profile := "0";
  keyframe_interval := 120;
  constant_bitrate := false;
  threads := 0;
  tile_columns := 0;
  tile_rows := 0
|}.

End VP9Params.

Module AV1Params.

Record t : Type := mk {
  speed : Z;
  profile : string;
  keyframe_interval : Z;
  constant_bitrate : bool;
  crf : Z;
  threads : Z;
  tile_columns : Z;
  tile_rows : Z
}.

(** The default member initializers of the struct. *)
Definition default : t := {|
  speed := 4;
  profile := "main";
  keyframe_interval := 120;
  constant_bitrate := false;
  crf := 30;
  threads := 0;
  tile_columns := 0;
  tile_rows := 0
|}.

End AV1Params.

(** The object behind a [std::unique_ptr<codec::BaseCodecParams>], by its
    dynamic type.  [Base] is an object that is of none of the five derived
    structs ([BaseCodecParams] is not abstract). *)
Inductive BaseCodecParams : Type :=
| Base
| IsH264Params (p : H264Params.t)
| IsHEVCParams (p : HEVCParams.t)
| IsVP8Params (p : VP8Params.t)
| IsVP9Params (p : VP9Params.t)
| IsAV1Params (p : AV1Params.t).

End codec.

Module VideoEncoderConfig.

Record t : Type := mk {
  gpu_acceleration : bool;
  input_format : PixelFormat.t;
  output_codec : CodecType.t;
  width : Z;
  height : Z;
  bitrate : Z;
  framerate : Z;
  codec_params : option codec.BaseCodecParams
}.

(** [VideoEncoderConfig() = default]. *)
Definition default : t := {|
  gpu_acceleration := false;
  input_format := PixelFormat.YUV420;
  output_codec := CodecType.H264;
  width := 1920;
  height := 1080;
  bitrate := 5000000;
  framerate := 30;
  codec_params := None
|}.

Definition set_codec_params (p : option codec.BaseCodecParams) (c : t) : t := {|
  gpu_acceleration := gpu_acceleration c;
  input_format := input_format c;
  output_codec := output_codec c;
  width := width c;
  height := height c;
  bitrate := bitrate c;
  framerate := framerate c;
  codec_params := p
|}.

Definition SetH264Params (params : codec.H264Params.t) (c : t) : t :=
  set_codec_params (Some (codec.IsH264Params params)) c.
Definition SetHEVCParams (params : codec.HEVCParams.t) (c : t) : t :=
  set_codec_params (Some (codec.IsHEVCParams params)) c.
Definition SetVP8Params (params : codec.VP8Params.t) (c : t) : t :=
  set_codec_params (Some (codec.IsVP8Params params)) c.
Definition SetVP9Params (params : codec.VP9Params.t) (c : t) : t :=
  set_codec_params (Some (codec.IsVP9Params params)) c.
Definition SetAV1Params (params : codec.AV1Params.t) (c : t) : t :=
  set_codec_params (Some (codec.IsAV1Params params)) c.

(** The [switch (output_codec)] of the copy constructor, entered when
    [other.codec_params] is not null.  Each case copies
    [*static_cast<const codec::XParams*>(other.codec_params.get())] without
    looking at the dynamic type: the cast, and the copy made through it, is
    defined only when the object is an [XParams].  A value that is no
    enumerator matches no case and leaves the new [codec_params] null. *)
Definition copy_params (output_codec : CodecType.t) (p : codec.BaseCodecParams)
    : outcome (option codec.BaseCodecParams) :=
  match output_codec with
  | 0 => match p with codec.IsH264Params x => Ret (Some (codec.IsH264Params x))
                    | _ => Undefined end
  | 1 => match p with codec.IsHEVCParams x => Ret (Some (codec.IsHEVCParams x))
                    | _ => Undefined end
  | 2 => match p with codec.IsVP8Params x => Ret (Some (codec.IsVP8Params x))
                    | _ => Undefined end
  | 3 => match p with codec.IsVP9Params x => Ret (Some (codec.IsVP9Params x))
                    | _ => Undefined end
  | 4 => match p with codec.IsAV1Params x => Ret (Some (codec.IsAV1Params x))
                    | _ => Undefined end
  | _ => Ret None
  end.

(** [VideoEncoderConfig(const VideoEncoderConfig& other)]. *)
Definition copy (other : t) : outcome t :=
  outcome_bind
    (match codec_params other with
     | Some p => copy_params (output_codec other) p
     | None => Ret None
     end)
    (fun params =>
       Ret {| gpu_acceleration := gpu_acceleration other;
              input_format := input_format other;
              output_codec := output_codec other;
              width := width other;
              height := height other;
              bitrate := bitrate other;
              framerate := framerate other;
              codec_params := params |}).

(** The configurations the copy constructor reproduces: [codec_params] is
    null, or [output_codec] is an enumerator and the object is of the struct
    that belongs to it. *)
Definition params_match_codec (c : t) : bool :=
  match codec_params c with
  | None => true
  | Some p =>
      match output_codec c, p with
      | 0, codec.IsH264Params _ => true
      | 1, codec.IsHEVCParams _ => true
      | 2, codec.IsVP8Params _ => true
      | 3, codec.IsVP9Params _ => true
      | 4, codec.IsAV1Params _ => true
      | _, _ => false
      end
  end.

End VideoEncoderConfig.

(** * The encoders behind the facade that are not modelled in detail

    hevc_encoder.cc, vp8_encoder.cc, vp9_encoder.cc, av1_encoder.cc,
    nvidia_h264_encoder.cc and nvidia_av1_encoder.cc enter only through the
    member functions the facade calls.  Each returns its result, the new
    state of the encoder object and of the output vector, and the library
    calls it made. *)
Class Encoders : Type := {
  HEVCEncoder : Type;
  HEVCEncoder_Create : HEVCEncoderConfig.t -> option HEVCEncoder * trace;
  HEVCEncoder_EncodeYUV420 :
    HEVCEncoder -> bytes -> vector_ptr -> Z * HEVCEncoder * vector_ptr * trace;
  HEVCEncoder_Flush : HEVCEncoder -> vector_ptr -> Z * HEVCEncoder * vector_ptr * trace;
  HEVCEncoder_UpdateParams : HEVCEncoder -> Z -> Z -> bool * HEVCEncoder * trace;

  VP8Encoder : Type;
  VP8Encoder_Create : VP8EncoderConfig.t -> option VP8Encoder * trace;
  VP8Encoder_EncodeYUV420 :
    VP8Encoder -> bytes -> vector_ptr -> Z * VP8Encoder * vector_ptr * trace;

  VP9Encoder : Type;
  VP9Encoder_Create : VP9EncoderConfig.t -> option VP9Encoder * trace;
  VP9Encoder_EncodeYUV420 :
    VP9Encoder -> bytes -> vector_ptr -> bool * VP9Encoder * vector_ptr * trace;
  VP9Encoder_UpdateBitrate : VP9Encoder -> Z -> bool * VP9Encoder * trace;
  VP9Encoder_UpdateFramerate : VP9Encoder -> Z -> bool * VP9Encoder * trace;

  AV1Encoder : Type;
  AV1Encoder_Create : AV1EncoderConfig.t -> option AV1Encoder * trace;
  AV1Encoder_EncodeYUV420 :
    AV1Encoder -> bytes -> vector_ptr -> bool * AV1Encoder * vector_ptr * trace;
  AV1Encoder_Flush : AV1Encoder -> vector_ptr -> bool * AV1Encoder * vector_ptr * trace;

  NvidiaH264Encoder : Type;
  NvidiaH264Encoder_Create :
    NvidiaH264EncoderConfig.t -> option NvidiaH264Encoder * trace;
  NvidiaH264Encoder_EncodeYUV420 :
    NvidiaH264Encoder -> bytes -> vector_ptr
    -> bool * NvidiaH264Encoder * vector_ptr * trace;
  NvidiaH264Encoder_EncodeNV12 :
    NvidiaH264Encoder -> bytes -> vector_ptr
    -> bool * NvidiaH264Encoder * vector_ptr * trace;

  NvidiaAV1Encoder : Type;
  NvidiaAV1Encoder_Create :
    NvidiaAV1EncoderConfig.t -> option NvidiaAV1Encoder * trace;
  NvidiaAV1Encoder_EncodeYUV420 :
    NvidiaAV1Encoder -> bytes -> vector_ptr
    -> bool * NvidiaAV1Encoder * vector_ptr * trace;
  NvidiaAV1Encoder_EncodeNV12 :
    NvidiaAV1Encoder -> bytes -> vector_ptr
    -> bool * NvidiaAV1Encoder * vector_ptr * trace
}.

(** * media_video_encoder.cc *)

(** The member functions [class VideoEncoder] defines itself. *)
Module VideoEncoderBase.
Definition EncodeNV12 : bool := false.
Definition Flush : bool := true.
Definition UpdateBitrate : bool := false.
Definition UpdateFramerate : bool := false.
End VideoEncoderBase.

Module H264EncoderImpl.
Section WithLibrary.
Context `{L : FFmpeg}.

Record t : Type := {
  config_ : VideoEncoderConfig.t;
  h264_config_ : H264EncoderConfig.t;
  encoder_ : option H264EncoderInstance.t
}.

(** The constructor body up to the call of [H264Encoder::Create]: the
    assignments to the default-constructed [h264_config_]. *)
Definition marshal (config : VideoEncoderConfig.t) : H264EncoderConfig.t :=
  let c := H264EncoderConfig.default in
  let c := H264EncoderConfig.set_width (VideoEncoderConfig.width config) c in
  let c := H264EncoderConfig.set_height (VideoEncoderConfig.height config) c in
  let c := H264EncoderConfig.set_bitrate (VideoEncoderConfig.bitrate config) c in
  let c := H264EncoderConfig.set_framerate (VideoEncoderConfig.framerate config) c in
  match VideoEncoderConfig.codec_params config with
  | Some (codec.IsH264Params advanced) =>
      let c := H264EncoderConfig.set_preset (codec.H264Params.preset advanced) c in
      let c := H264EncoderConfig.set_profile (codec.H264Params.profile advanced) c in
      let c := H264EncoderConfig.set_level (codec.H264Params.level advanced) c in
      let c :=
        H264EncoderConfig.set_gop_size (codec.H264Params.keyframe_interval advanced) c in
      let c :=
        H264EncoderConfig.set_max_b_frames (codec.H264Params.max_b_frames advanced) c in
      let c :=
        H264EncoderConfig.set_constant_bitrate
          (codec.H264Params.constant_bitrate advanced) c in
      let c := H264EncoderConfig.set_crf (codec.H264Params.crf advanced) c in
      H264EncoderConfig.set_threads (codec.H264Params.threads advanced) c
  | _ => c
  end.

(** [H264EncoderImpl(config)]: the member initializer [config_(config)]
    runs the copy constructor first. *)
Definition new (config : VideoEncoderConfig.t) : M t :=
  let* config_copy := lift (VideoEncoderConfig.copy config) in
  let h264_config := marshal config in
  let* encoder := H264Encoder.Create h264_config in
  pure {| config_ := config_copy; h264_config_ := h264_config; encoder_ := encoder |}.

Definition with_encoder (self : t) (e : H264EncoderInstance.t) : t :=
  {| config_ := config_ self; h264_config_ := h264_config_ self; encoder_ := Some e |}.

Definition EncodeYUV420 (fuel : nat) (self : t) (yuv_data : bytes)
    (encoded_frame : vector_ptr) : M (bool * t * vector_ptr) :=
  match encoder_ self with
  | None => pure (false, self, encoded_frame)
  | Some e =>
      let* (r, e, out) := H264EncoderInstance.EncodeYUV420 fuel e yuv_data encoded_frame in
      pure (r, with_encoder self e, out)
  end.

Definition Flush (fuel : nat) (self : t) (encoded_frame : vector_ptr)
    : M (bool * t * vector_ptr) :=
  match encoder_ self with
  | None => pure (false, self, encoded_frame)
  | Some e =>
      let* (r, e, out) := H264EncoderInstance.Flush fuel e encoded_frame in
      pure (r, with_encoder self e, out)
  end.

Definition UpdateBitrate (self : t) (new_bitrate : Z) : M (bool * t) :=
  match encoder_ self with
  | None => pure (false, self)
  | Some e =>
      let new_config := H264EncoderConfig.set_bitrate new_bitrate (h264_config_ self) in
      let* (r, e) := H264EncoderInstance.Reconfigure e new_config in
      pure (r, with_encoder self e)
  end.

Definition GetConfig (self : t) : outcome VideoEncoderConfig.t :=
  VideoEncoderConfig.copy (config_ self).

End WithLibrary.
Arguments t {L}.
End H264EncoderImpl.

Module HEVCEncoderImpl.
Section WithLibrary.
Context `{E : Encoders}.

Record t : Type := {
  config_ : VideoEncoderConfig.t;
  hevc_config_ : HEVCEncoderConfig.t;
  encoder_ : option HEVCEncoder
}.

Definition preset_of (preset : string) (c : HEVCEncoderConfig.t) : HEVCEncoderConfig.t :=
  if String.eqb preset "ultrafast" then HEVCEncoderConfig.set_preset HEVCPreset.ULTRAFAST c
  else if String.eqb preset "superfast" then HEVCEncoderConfig.set_preset HEVCPreset.SUPERFAST c
  else if String.eqb preset "veryfast" then HEVCEncoderConfig.set_preset HEVCPreset.VERYFAST c
  else if String.eqb preset "faster" then HEVCEncoderConfig.set_preset HEVCPreset.FASTER c
  else if String.eqb preset "fast" then HEVCEncoderConfig.set_preset HEVCPreset.FAST c
  else if String.eqb preset "medium" then HEVCEncoderConfig.set_preset HEVCPreset.MEDIUM c
  else if String.eqb preset "slow" then HEVCEncoderConfig.set_preset HEVCPreset.SLOW c
  else if String.eqb preset "slower" then HEVCEncoderConfig.set_preset HEVCPreset.SLOWER c
  else if String.eqb preset "veryslow" then HEVCEncoderConfig.set_preset HEVCPreset.VERYSLOW c
  else if String.eqb preset "placebo" then HEVCEncoderConfig.set_preset HEVCPreset.PLACEBO c
  else c.

Definition profile_of (profile : string) (c : HEVCEncoderConfig.t) : HEVCEncoderConfig.t :=
  if String.eqb profile "main" then HEVCEncoderConfig.set_profile HEVCProfile.MAIN c
  else if String.eqb profile "main10" then HEVCEncoderConfig.set_profile HEVCProfile.MAIN_10 c
  else if String.eqb profile "main-still-picture"
  then HEVCEncoderConfig.set_profile HEVCProfile.MAIN_STILL_PICTURE c
  else if String.eqb profile "rext" then HEVCEncoderConfig.set_profile HEVCProfile.REXT c
  else c.

Definition marshal (config : VideoEncoderConfig.t) : HEVCEncoderConfig.t :=
  let c := HEVCEncoderConfig.default in
  let c := HEVCEncoderConfig.set_width (VideoEncoderConfig.width config) c in
  let c := HEVCEncoderConfig.set_height (VideoEncoderConfig.height config) c in
  let c := HEVCEncoderConfig.set_bitrate (VideoEncoderConfig.bitrate config) c in
  let c := HEVCEncoderConfig.set_framerate (VideoEncoderConfig.framerate config) c in
  match VideoEncoderConfig.codec_params config with
  | Some (codec.IsHEVCParams advanced) =>
      let c := preset_of (codec.HEVCParams.preset advanced) c in
      let c := profile_of (codec.HEVCParams.profile advanced) c in
      let c :=
        HEVCEncoderConfig.set_keyint_max (codec.HEVCParams.keyframe_interval advanced) c in
      let c := HEVCEncoderConfig.set_crf (codec.HEVCParams.crf advanced) c in
      let c :=
        HEVCEncoderConfig.set_rc_mode
          (if codec.HEVCParams.constant_bitrate advanced
           then RateControlMode.CBR else RateControlMode.CRF) c in
      let c := HEVCEncoderConfig.set_bframes (codec.HEVCParams.max_b_frames advanced) c in
      HEVCEncoderConfig.set_threads (codec.HEVCParams.threads advanced) c
  | _ => c
  end.

Definition new (config : VideoEncoderConfig.t) : M t :=
  let* config_copy := lift (VideoEncoderConfig.copy config) in
  let hevc_config := marshal config in
  let* encoder := called (HEVCEncoder_Create hevc_config) in
  pure {| config_ := config_copy; hevc_config_ := hevc_config; encoder_ := encoder |}.

Definition with_encoder (self : t) (e : HEVCEncoder) : t :=
  {| config_ := config_ self; hevc_config_ := hevc_config_ self; encoder_ := Some e |}.

Definition EncodeYUV420 (self : t) (yuv_data : bytes) (encoded_frame : vector_ptr)
    : M (bool * t * vector_ptr) :=
  match encoder_ self with
  | None => pure (false, self, encoded_frame)
  | Some e =>
      let* (r, e, out) := called (HEVCEncoder_EncodeYUV420 e yuv_data encoded_frame) in
      pure (r =? 1, with_encoder self e, out)
  end.

Definition Flush (self : t) (encoded_frame : vector_ptr) : M (bool * t * vector_ptr) :=
  match encoder_ self with
  | None => pure (false, self, encoded_frame)
  | Some e =>
      let* (r, e, out) := called (HEVCEncoder_Flush e encoded_frame) in
      pure (r =? 1, with_encoder self e, out)
  end.

Definition UpdateParams (self : t) (new_bitrate new_framerate : Z) : M (bool * t) :=
  match encoder_ self with
  | None => pure (false, self)
  | Some e =>
      let* (r, e) := called (HEVCEncoder_UpdateParams e new_bitrate new_framerate) in
      pure (r, with_encoder self e)
  end.

Definition UpdateBitrate (self : t) (new_bitrate : Z) : M (bool * t) :=
  UpdateParams self new_bitrate (HEVCEncoderConfig.framerate (hevc_config_ self)).

Definition UpdateFramerate (self : t) (new_framerate : Z) : M (bool * t) :=
  UpdateParams self (HEVCEncoderConfig.bitrate (hevc_config_ self)) new_framerate.

Definition GetConfig (self : t) : outcome VideoEncoderConfig.t :=
  VideoEncoderConfig.copy (config_ self).

End WithLibrary.
Arguments t {E}.
End HEVCEncoderImpl.

Module VP8EncoderImpl.
Section WithLibrary.
Context `{E : Encoders}.

Record t : Type := {
  config_ : VideoEncoderConfig.t;
  vp8_config_ : VP8EncoderConfig.t;
  encoder_ : option VP8Encoder
}.

Definition marshal (config : VideoEncoderConfig.t) : VP8EncoderConfig.t :=
  let c := VP8EncoderConfig.default in
  let c := VP8EncoderConfig.set_width (VideoEncoderConfig.width config) c in
  let c := VP8EncoderConfig.set_height (VideoEncoderConfig.height config) c in
  let c := VP8EncoderConfig.set_bitrate (VideoEncoderConfig.bitrate config) c in
  let c := VP8EncoderConfig.set_framerate (VideoEncoderConfig.framerate config) c in
  match VideoEncoderConfig.codec_params config with
  | Some (codec.IsVP8Params advanced) =>
      let c := VP8EncoderConfig.set_quality (codec.VP8Params.quality advanced) c in
      let c :=
        VP8EncoderConfig.set_keyframe_interval
          (codec.VP8Params.keyframe_interval advanced) c in
      let c :=
        VP8EncoderConfig.set_rc_mode
          (if codec.VP8Params.constant_bitrate advanced
           then VP8EncoderConfig.RateControlMode.RC_MODE_CBR
           else VP8EncoderConfig.RateControlMode.RC_MODE_VBR) c in
      VP8EncoderConfig.set_thread_count (codec.VP8Params.threads advanced) c
  | _ => c
  end.

Definition new (config : VideoEncoderConfig.t) : M t :=
  let* config_copy := lift (VideoEncoderConfig.copy config) in
  let vp8_config := marshal config in
  let* encoder := called (VP8Encoder_Create vp8_config) in
  pure {| config_ := config_copy; vp8_config_ := vp8_config; encoder_ := encoder |}.

Definition with_encoder (self : t) (e : VP8Encoder) : t :=
  {| config_ := config_ self; vp8_config_ := vp8_config_ self; encoder_ := Some e |}.

Definition EncodeYUV420 (self : t) (yuv_data : bytes) (encoded_frame : vector_ptr)
    : M (bool * t * vector_ptr) :=
  match encoder_ self with
  | None => pure (false, self, encoded_frame)
  | Some e =>
      let* (r, e, out) := called (VP8Encoder_EncodeYUV420 e yuv_data encoded_frame) in
      pure (0 <? r, with_encoder self e, out)
  end.

Definition GetConfig (self : t) : outcome VideoEncoderConfig.t :=
  VideoEncoderConfig.copy (config_ self).

End WithLibrary.
Arguments t {E}.
End VP8EncoderImpl.

Module VP9EncoderImpl.
Section WithLibrary.
Context `{E : Encoders}.

Record t : Type := {
  config_ : VideoEncoderConfig.t;
  vp9_config_ : VP9EncoderConfig.t;
  encoder_ : option VP9Encoder
}.

Definition quality_of (speed : string) (c : VP9EncoderConfig.t) : VP9EncoderConfig.t :=
  if String.eqb speed "realtime" then VP9EncoderConfig.set_quality VP9Quality.REALTIME c
  else if String.eqb speed "good" then VP9EncoderConfig.set_quality VP9Quality.GOOD c
  else if String.eqb speed "best" then VP9EncoderConfig.set_quality VP9Quality.BEST c
  else c.

Definition profile_of (profile : string) (c : VP9EncoderConfig.t) : VP9EncoderConfig.t :=
  if String.eqb profile "0" then VP9EncoderConfig.set_profile VP9Profile.PROFILE_0 c
  else if String.eqb profile "1" then VP9EncoderConfig.set_profile VP9Profile.PROFILE_1 c
  else if String.eqb profile "2" then VP9EncoderConfig.set_profile VP9Profile.PROFILE_2 c
  else if String.eqb profile "3" then VP9EncoderConfig.set_profile VP9Profile.PROFILE_3 c
  else c.

Definition marshal (config : VideoEncoderConfig.t) : VP9EncoderConfig.t :=
  let c := VP9EncoderConfig.default in
  let c := VP9EncoderConfig.set_width (VideoEncoderConfig.width config) c in
  let c := VP9EncoderConfig.set_height (VideoEncoderConfig.height config) c in
  let c := VP9EncoderConfig.set_bitrate (VideoEncoderConfig.bitrate config) c in
  let c := VP9EncoderConfig.set_framerate (VideoEncoderConfig.framerate config) c in
  match VideoEncoderConfig.codec_params config with
  | Some (codec.IsVP9Params advanced) =>
      let c := VP9EncoderConfig.set_crf (codec.VP9Params.quality advanced) c in
      let c :=
        VP9EncoderConfig.set_keyframe_interval
          (codec.VP9Params.keyframe_interval advanced) c in
      let c := VP9EncoderConfig.set_use_cbr (codec.VP9Params.constant_bitrate advanced) c in
      let c := VP9EncoderConfig.set_threads (codec.VP9Params.threads advanced) c in
      let c := VP9EncoderConfig.set_tile_columns (codec.VP9Params.tile_columns advanced) c in
      let c := VP9EncoderConfig.set_tile_rows (codec.VP9Params.tile_rows advanced) c in
      let c := quality_of (codec.VP9Params.speed advanced) c in
      profile_of (codec.VP9Params.profile advanced) c
  | _ => c
  end.

Definition new (config : VideoEncoderConfig.t) : M t :=
  let* config_copy := lift (VideoEncoderConfig.copy config) in
  let vp9_config := marshal config in
  let* encoder := called (VP9Encoder_Create vp9_config) in
  pure {| config_ := config_copy; vp9_config_ := vp9_config; encoder_ := encoder |}.

Definition with_encoder (self : t) (e : VP9Encoder) : t :=
  {| config_ := config_ self; vp9_config_ := vp9_config_ self; encoder_ := Some e |}.

Definition EncodeYUV420 (self : t) (yuv_data : bytes) (encoded_frame : vector_ptr)
    : M (bool * t * vector_ptr) :=
  match encoder_ self with
  | None => pure (false, self, encoded_frame)
  | Some e =>
      let* (r, e, out) := called (VP9Encoder_EncodeYUV420 e yuv_data encoded_frame) in
      pure (r, with_encoder self e, out)
  end.

Definition UpdateBitrate (self : t) (new_bitrate : Z) : M (bool * t) :=
  match encoder_ self with
  | None => pure (false, self)
  | Some e =>
      let* (r, e) := called (VP9Encoder_UpdateBitrate e new_bitrate) in
      pure (r, with_encoder self e)
  end.

Definition UpdateFramerate (self : t) (new_framerate : Z) : M (bool * t) :=
  match encoder_ self with
  | None => pure (false, self)
  | Some e =>
      let* (r, e) := called (VP9Encoder_UpdateFramerate e new_framerate) in
      pure (r, with_encoder self e)
  end.

Definition GetConfig (self : t) : outcome VideoEncoderConfig.t :=
  VideoEncoderConfig.copy (config_ self).

End WithLibrary.
Arguments t {E}.
End VP9EncoderImpl.

Module AV1EncoderImpl.
Section WithLibrary.
Context `{E : Encoders}.

Record t : Type := {
  config_ : VideoEncoderConfig.t;
  av1_config_ : AV1EncoderConfig.t;
  encoder_ : option AV1Encoder
}.

(** The [switch (advanced.speed)] under [speed >= 0 && speed <= 10]. *)
Definition speed_preset_of (speed : Z) (c : AV1EncoderConfig.t) : AV1EncoderConfig.t :=
  if (0 <=? speed) && (speed <=? 10) then
    match speed with
    | 0 => AV1EncoderConfig.set_speed_preset AV1SpeedPreset.SLOWEST c
    | 1 => AV1EncoderConfig.set_speed_preset AV1SpeedPreset.SLOWER c
    | 2 => AV1EncoderConfig.set_speed_preset AV1SpeedPreset.SLOW c
    | 3 | 4 => AV1EncoderConfig.set_speed_preset AV1SpeedPreset.MEDIUM c
    | 5 | 6 => AV1EncoderConfig.set_speed_preset AV1SpeedPreset.FAST c
    | 7 | 8 => AV1EncoderConfig.set_speed_preset AV1SpeedPreset.FASTER c
    | 9 | 10 => AV1EncoderConfig.set_speed_preset AV1SpeedPreset.FASTEST c
    | _ => c
    end
  else c.

Definition marshal (config : VideoEncoderConfig.t) : AV1EncoderConfig.t :=
  let c :=
    AV1EncoderConfig.init (VideoEncoderConfig.width config)
      (VideoEncoderConfig.height config) (VideoEncoderConfig.bitrate config)
      (VideoEncoderConfig.framerate config) in
  match VideoEncoderConfig.codec_params config with
  | Some (codec.IsAV1Params advanced) =>
      let c := speed_preset_of (codec.AV1Params.speed advanced) c in
      let c :=
        AV1EncoderConfig.set_keyframe_interval
          (codec.AV1Params.keyframe_interval advanced) c in
      let c :=
        AV1EncoderConfig.set_rc_mode
          (if codec.AV1Params.constant_bitrate advanced
           then AV1RateControlMode.CBR else AV1RateControlMode.CRF) c in
      let c := AV1EncoderConfig.set_crf (codec.AV1Params.crf advanced) c in
      let c := AV1EncoderConfig.set_threads (codec.AV1Params.threads advanced) c in
      let c := AV1EncoderConfig.set_tile_columns (codec.AV1Params.tile_columns advanced) c in
      AV1EncoderConfig.set_tile_rows (codec.AV1Params.tile_rows advanced) c
  | _ => c
  end.

Definition new (config : VideoEncoderConfig.t) : M t :=
  let* config_copy := lift (VideoEncoderConfig.copy config) in
  let av1_config := marshal config in
  let* encoder := called (AV1Encoder_Create av1_config) in
  pure {| config_ := config_copy; av1_config_ := av1_config; encoder_ := encoder |}.

Definition with_encoder (self : t) (e : AV1Encoder) : t :=
  {| config_ := config_ self; av1_config_ := av1_config_ self; encoder_ := Some e |}.

Definition EncodeYUV420 (self : t) (yuv_data : bytes) (encoded_frame : vector_ptr)
    : M (bool * t * vector_ptr) :=
  match encoder_ self with
  | None => pure (false, self, encoded_frame)
  | Some e =>
      let* (r, e, out) := called (AV1Encoder_EncodeYUV420 e yuv_data encoded_frame) in
      pure (r, with_encoder self e, out)
  end.

Definition Flush (self : t) (encoded_frame : vector_ptr) : M (bool * t * vector_ptr) :=
  match encoder_ self with
  | None => pure (false, self, encoded_frame)
  | Some e =>
      let* (r, e, out) := called (AV1Encoder_Flush e encoded_frame) in
      pure (r, with_encoder self e, out)
  end.

Definition GetConfig (self : t) : outcome VideoEncoderConfig.t :=
  VideoEncoderConfig.copy (config_ self).

End WithLibrary.
Arguments t {E}.
End AV1EncoderImpl.

Module NvidiaH264EncoderImpl.
Section WithLibrary.
Context `{E : Encoders}.

Record t : Type := {
  config_ : VideoEncoderConfig.t;
  nvidia_config_ : NvidiaH264EncoderConfig.t;
  encoder_ : option NvidiaH264Encoder
}.

Definition marshal (config : VideoEncoderConfig.t) : NvidiaH264EncoderConfig.t :=
  let c :=
    NvidiaH264EncoderConfig.init (VideoEncoderConfig.width config)
      (VideoEncoderConfig.height config) (VideoEncoderConfig.bitrate config)
      (VideoEncoderConfig.framerate config) in
  match VideoEncoderConfig.codec_params config with
  | Some (codec.IsH264Params advanced) =>
      let c :=
        NvidiaH264EncoderConfig.set_gop_length
          (codec.H264Params.keyframe_interval advanced) c in
      let c :=
        NvidiaH264EncoderConfig.set_max_b_frames
          (codec.H264Params.max_b_frames advanced) c in
      NvidiaH264EncoderConfig.set_use_cbr (codec.H264Params.constant_bitrate advanced) c
  | _ => c
  end.

Definition new (config : VideoEncoderConfig.t) : M t :=
  let* config_copy := lift (VideoEncoderConfig.copy config) in
  let nvidia_config := marshal config in
  let* encoder := called (NvidiaH264Encoder_Create nvidia_config) in
  pure {| config_ := config_copy; nvidia_config_ := nvidia_config;
          encoder_ := encoder |}.

Definition with_encoder (self : t) (e : NvidiaH264Encoder) : t :=
  {| config_ := config_ self; nvidia_config_ := nvidia_config_ self;
     encoder_ := Some e |}.

Definition EncodeYUV420 (self : t) (yuv_data : bytes) (encoded_frame : vector_ptr)
    : M (bool * t * vector_ptr) :=
  match encoder_ self with
  | None => pure (false, self, encoded_frame)
  | Some e =>
      let* (r, e, out) :=
        called (NvidiaH264Encoder_EncodeYUV420 e yuv_data encoded_frame) in
      pure (r, with_encoder self e, out)
  end.

Definition EncodeNV12 (self : t) (nv12_data : bytes) (encoded_frame : vector_ptr)
    : M (bool * t * vector_ptr) :=
  match encoder_ self with
  | None => pure (false, self, encoded_frame)
  | Some e =>
      let* (r, e, out) :=
        called (NvidiaH264Encoder_EncodeNV12 e nv12_data encoded_frame) in
      pure (r, with_encoder self e, out)
  end.

Definition GetConfig (self : t) : outcome VideoEncoderConfig.t :=
  VideoEncoderConfig.copy (config_ self).

End WithLibrary.
Arguments t {E}.
End NvidiaH264EncoderImpl.

Module NvidiaHEVCEncoderImpl.
Section WithLibrary.
Context `{L : FFmpeg}.

Record t : Type := {
  config_ : VideoEncoderConfig.t;
  nvidia_config_ : NvidiaHEVCEncoderConfig.t;
  encoder_ : option NvidiaHEVCEncoder.t
}.

Definition marshal (config : VideoEncoderConfig.t) : NvidiaHEVCEncoderConfig.t :=
  let c :=
    NvidiaHEVCEncoderConfig.init (VideoEncoderConfig.width config)
      (VideoEncoderConfig.height config) (VideoEncoderConfig.bitrate config)
      (VideoEncoderConfig.framerate config) in
  match VideoEncoderConfig.codec_params config with
  | Some (codec.IsHEVCParams advanced) =>
      let c :=
        NvidiaHEVCEncoderConfig.set_gop_length
          (codec.HEVCParams.keyframe_interval advanced) c in
      let c :=
        NvidiaHEVCEncoderConfig.set_max_b_frames
          (codec.HEVCParams.max_b_frames advanced) c in
      NvidiaHEVCEncoderConfig.set_use_cbr (codec.HEVCParams.constant_bitrate advanced) c
  | _ => c
  end.

Definition new (config : VideoEncoderConfig.t) : M t :=
  let* config_copy := lift (VideoEncoderConfig.copy config) in
  let nvidia_config := marshal config in
  let* encoder := NvidiaHEVCEncoder.Create nvidia_config in
  pure {| config_ := config_copy; nvidia_config_ := nvidia_config;
          encoder_ := encoder |}.

Definition with_encoder (self : t) (e : NvidiaHEVCEncoder.t) : t :=
  {| config_ := config_ self; nvidia_config_ := nvidia_config_ self;
     encoder_ := Some e |}.

Definition EncodeYUV420 (self : t) (yuv_data : bytes) (encoded_frame : vector_ptr)
    : M (bool * t * vector_ptr) :=
  match encoder_ self with
  | None => pure (false, self, encoded_frame)
  | Some e =>
      let* (r, e, out) := NvidiaHEVCEncoder.EncodeYUV420 e yuv_data encoded_frame in
      pure (r, with_encoder self e, out)
  end.

Definition EncodeNV12 (self : t) (nv12_data : bytes) (encoded_frame : vector_ptr)
    : M (bool * t * vector_ptr) :=
  match encoder_ self with
  | None => pure (false, self, encoded_frame)
  | Some e =>
      let* (r, e, out) := NvidiaHEVCEncoder.EncodeNV12 e nv12_data encoded_frame in
      pure (r, with_encoder self e, out)
  end.

Definition GetConfig (self : t) : outcome VideoEncoderConfig.t :=
  VideoEncoderConfig.copy (config_ self).

End WithLibrary.
Arguments t {L}.
End NvidiaHEVCEncoderImpl.

Module NvidiaAV1EncoderImpl.
Section WithLibrary.
Context `{E : Encoders}.

Record t : Type := {
  config_ : VideoEncoderConfig.t;
  nvidia_config_ : NvidiaAV1EncoderConfig.t;
  encoder_ : option NvidiaAV1Encoder
}.

Definition marshal (config : VideoEncoderConfig.t) : NvidiaAV1EncoderConfig.t :=
  let c :=
    NvidiaAV1EncoderConfig.init (VideoEncoderConfig.width config)
      (VideoEncoderConfig.height config) (VideoEncoderConfig.bitrate config)
      (VideoEncoderConfig.framerate config) in
  match VideoEncoderConfig.codec_params config with
  | Some (codec.IsAV1Params advanced) =>
      let c :=
        NvidiaAV1EncoderConfig.set_gop_length
          (codec.AV1Params.keyframe_interval advanced) c in
      let c :=
        NvidiaAV1EncoderConfig.set_use_cbr (codec.AV1Params.constant_bitrate advanced) c in
      let c :=
        NvidiaAV1EncoderConfig.set_tile_columns (codec.AV1Params.tile_columns advanced) c in
      NvidiaAV1EncoderConfig.set_tile_rows (codec.AV1Params.tile_rows advanced) c
  | _ => c
  end.

Definition new (config : VideoEncoderConfig.t) : M t :=
  let* config_copy := lift (VideoEncoderConfig.copy config) in
  let nvidia_config := marshal config in
  let* encoder := called (NvidiaAV1Encoder_Create nvidia_config) in
  pure {| config_ := config_copy; nvidia_config_ := nvidia_config;
          encoder_ := encoder |}.

Definition with_encoder (self : t) (e : NvidiaAV1Encoder) : t :=
  {| config_ := config_ self; nvidia_config_ := nvidia_config_ self;
     encoder_ := Some e |}.

Definition EncodeYUV420 (self : t) (yuv_data : bytes) (encoded_frame : vector_ptr)
    : M (bool * t * vector_ptr) :=
  match encoder_ self with
  | None => pure (false, self, encoded_frame)
  | Some e =>
      let* (r, e, out) :=
        called (NvidiaAV1Encoder_EncodeYUV420 e yuv_data encoded_frame) in
      pure (r, with_encoder self e, out)
  end.

Definition EncodeNV12 (self : t) (nv12_data : bytes) (encoded_frame : vector_ptr)
    : M (bool * t * vector_ptr) :=
  match encoder_ self with
  | None => pure (false, self, encoded_frame)
  | Some e =>
      let* (r, e, out) :=
        called (NvidiaAV1Encoder_EncodeNV12 e nv12_data encoded_frame) in
      pure (r, with_encoder self e, out)
  end.

Definition GetConfig (self : t) : outcome VideoEncoderConfig.t :=
  VideoEncoderConfig.copy (config_ self).

End WithLibrary.
Arguments t {E}.
End NvidiaAV1EncoderImpl.

(** [class VideoEncoder]: an object behind a [std::unique_ptr<VideoEncoder>]
    by its dynamic type, the virtual member functions and [Create]. *)
Module VideoEncoder.
Section WithLibrary.
Context `{L : FFmpeg} `{E : Encoders}.

Inductive t : Type :=
| IsH264EncoderImpl (o : H264EncoderImpl.t)
| IsHEVCEncoderImpl (o : HEVCEncoderImpl.t)
| IsVP8EncoderImpl (o : VP8EncoderImpl.t)
| IsVP9EncoderImpl (o : VP9EncoderImpl.t)
| IsAV1EncoderImpl (o : AV1EncoderImpl.t)
| IsNvidiaH264EncoderImpl (o : NvidiaH264EncoderImpl.t)
| IsNvidiaHEVCEncoderImpl (o : NvidiaHEVCEncoderImpl.t)
| IsNvidiaAV1EncoderImpl (o : NvidiaAV1EncoderImpl.t).

(** [return std::unique_ptr<VideoEncoder>(new Impl(config))]. *)
Definition make {A} (inj : A -> t) (constructed : M A) : M (option t) :=
  let* o := constructed in
  pure (Some (inj o)).

(** The software [switch (codec)]. *)
Definition create_software (config : VideoEncoderConfig.t) : M (option t) :=
  match VideoEncoderConfig.output_codec config with
  | 0 => make IsH264EncoderImpl (H264EncoderImpl.new config)
  | 1 => make IsHEVCEncoderImpl (HEVCEncoderImpl.new config)
  | 2 => make IsVP8EncoderImpl (VP8EncoderImpl.new config)
  | 3 => make IsVP9EncoderImpl (VP9EncoderImpl.new config)
  | 4 => make IsAV1EncoderImpl (AV1EncoderImpl.new config)
  | _ => pure None
  end.

Definition Create (config : VideoEncoderConfig.t) : M (option t) :=
  let codec := VideoEncoderConfig.output_codec config in
  let use_gpu := VideoEncoderConfig.gpu_acceleration config in
  if use_gpu then
    match codec with
    | 0 => make IsNvidiaH264EncoderImpl (NvidiaH264EncoderImpl.new config)
    | 1 => make IsNvidiaHEVCEncoderImpl (NvidiaHEVCEncoderImpl.new config)
    | 4 => make IsNvidiaAV1EncoderImpl (NvidiaAV1EncoderImpl.new config)
    | _ => create_software config
    end
  else create_software config.

Definition wrapped {A B} (inj : A -> t) (m : M (B * A * vector_ptr))
    : M (B * t * vector_ptr) :=
  let* (r, o, out) := m in
  pure (r, inj o, out).

Definition wrapped2 {A B} (inj : A -> t) (m : M (B * A)) : M (B * t) :=
  let* (r, o) := m in
  pure (r, inj o).

Definition EncodeYUV420 (fuel : nat) (self : t) (yuv_data : bytes)
    (encoded_frame : vector_ptr) : M (bool * t * vector_ptr) :=
  match self with
  | IsH264EncoderImpl o =>
      wrapped IsH264EncoderImpl (H264EncoderImpl.EncodeYUV420 fuel o yuv_data encoded_frame)
  | IsHEVCEncoderImpl o =>
      wrapped IsHEVCEncoderImpl (HEVCEncoderImpl.EncodeYUV420 o yuv_data encoded_frame)
  | IsVP8EncoderImpl o =>
      wrapped IsVP8EncoderImpl (VP8EncoderImpl.EncodeYUV420 o yuv_data encoded_frame)
  | IsVP9EncoderImpl o =>
      wrapped IsVP9EncoderImpl (VP9EncoderImpl.EncodeYUV420 o yuv_data encoded_frame)
  | IsAV1EncoderImpl o =>
      wrapped IsAV1EncoderImpl (AV1EncoderImpl.EncodeYUV420 o yuv_data encoded_frame)
  | IsNvidiaH264EncoderImpl o =>
      wrapped IsNvidiaH264EncoderImpl
        (NvidiaH264EncoderImpl.EncodeYUV420 o yuv_data encoded_frame)
  | IsNvidiaHEVCEncoderImpl o =>
      wrapped IsNvidiaHEVCEncoderImpl
        (NvidiaHEVCEncoderImpl.EncodeYUV420 o yuv_data encoded_frame)
  | IsNvidiaAV1EncoderImpl o =>
      wrapped IsNvidiaAV1EncoderImpl
        (NvidiaAV1EncoderImpl.EncodeYUV420 o yuv_data encoded_frame)
  end.

Definition EncodeNV12 (self : t) (nv12_data : bytes) (encoded_frame : vector_ptr)
    : M (bool * t * vector_ptr) :=
  match self with
  | IsNvidiaH264EncoderImpl o =>
      wrapped IsNvidiaH264EncoderImpl
        (NvidiaH264EncoderImpl.EncodeNV12 o nv12_data encoded_frame)
  | IsNvidiaHEVCEncoderImpl o =>
      wrapped IsNvidiaHEVCEncoderImpl
        (NvidiaHEVCEncoderImpl.EncodeNV12 o nv12_data encoded_frame)
  | IsNvidiaAV1EncoderImpl o =>
      wrapped IsNvidiaAV1EncoderImpl
        (NvidiaAV1EncoderImpl.EncodeNV12 o nv12_data encoded_frame)
  | _ => pure (VideoEncoderBase.EncodeNV12, self, encoded_frame)
  end.

Definition Flush (fuel : nat) (self : t) (encoded_frame : vector_ptr)
    : M (bool * t * vector_ptr) :=
  match self with
  | IsH264EncoderImpl o =>
      wrapped IsH264EncoderImpl (H264EncoderImpl.Flush fuel o encoded_frame)
  | IsHEVCEncoderImpl o =>
      wrapped IsHEVCEncoderImpl (HEVCEncoderImpl.Flush o encoded_frame)
  | IsAV1EncoderImpl o =>
      wrapped IsAV1EncoderImpl (AV1EncoderImpl.Flush o encoded_frame)
  | _ => pure (VideoEncoderBase.Flush, self, encoded_frame)
  end.

Definition UpdateBitrate (self : t) (new_bitrate : Z) : M (bool * t) :=
  match self with
  | IsH264EncoderImpl o =>
      wrapped2 IsH264EncoderImpl (H264EncoderImpl.UpdateBitrate o new_bitrate)
  | IsHEVCEncoderImpl o =>
      wrapped2 IsHEVCEncoderImpl (HEVCEncoderImpl.UpdateBitrate o new_bitrate)
  | IsVP9EncoderImpl o =>
      wrapped2 IsVP9EncoderImpl (VP9EncoderImpl.UpdateBitrate o new_bitrate)
  | _ => pure (VideoEncoderBase.UpdateBitrate, self)
  end.

Definition UpdateFramerate (self : t) (new_framerate : Z) : M (bool * t) :=
  match self with
  | IsHEVCEncoderImpl o =>
      wrapped2 IsHEVCEncoderImpl (HEVCEncoderImpl.UpdateFramerate o new_framerate)
  | IsVP9EncoderImpl o =>
      wrapped2 IsVP9EncoderImpl (VP9EncoderImpl.UpdateFramerate o new_framerate)
  | _ => pure (VideoEncoderBase.UpdateFramerate, self)
  end.

Definition GetConfig (self : t) : outcome VideoEncoderConfig.t :=
  match self with
  | IsH264EncoderImpl o => H264EncoderImpl.GetConfig o
  | IsHEVCEncoderImpl o => HEVCEncoderImpl.GetConfig o
  | IsVP8EncoderImpl o => VP8EncoderImpl.GetConfig o
  | IsVP9EncoderImpl o => VP9EncoderImpl.GetConfig o
  | IsAV1EncoderImpl o => AV1EncoderImpl.GetConfig o
  | IsNvidiaH264EncoderImpl o => NvidiaH264EncoderImpl.GetConfig o
  | IsNvidiaHEVCEncoderImpl o => NvidiaHEVCEncoderImpl.GetConfig o
  | IsNvidiaAV1EncoderImpl o => NvidiaAV1EncoderImpl.GetConfig o
  end.

(** [!encoder_]: the codec-specific [Create] returned null when the object
    was constructed. *)
Definition encoder_is_null (self : t) : bool :=
  match self with
  | IsH264EncoderImpl o => is_null (H264EncoderImpl.encoder_ o)
  | IsHEVCEncoderImpl o => is_null (HEVCEncoderImpl.encoder_ o)
  | IsVP8EncoderImpl o => is_null (VP8EncoderImpl.encoder_ o)
  | IsVP9EncoderImpl o => is_null (VP9EncoderImpl.encoder_ o)
  | IsAV1EncoderImpl o => is_null (AV1EncoderImpl.encoder_ o)
  | IsNvidiaH264EncoderImpl o => is_null (NvidiaH264EncoderImpl.encoder_ o)
  | IsNvidiaHEVCEncoderImpl o => is_null (NvidiaHEVCEncoderImpl.encoder_ o)
  | IsNvidiaAV1EncoderImpl o => is_null (NvidiaAV1EncoderImpl.encoder_ o)
  end.

End WithLibrary.
Arguments t {L E}.
End VideoEncoder.

(** * Properties of programs in [M] *)

(** Every library call a run makes satisfies [P]. *)
Definition emits {A} (P : Event -> Prop) (m : M A) : Prop :=
  forall a tr, m = Ret (a, tr) -> Forall P tr.

(** The program returns, with a result that satisfies [Q]. *)
Definition returns {A} (Q : A -> Prop) (m : M A) : Prop :=
  exists a tr, m = Ret (a, tr) /\ Q a.

(** An event that hands over no packet. *)
Definition no_packet (e : Event) : Prop :=
  match e with
  | E_receive_packet _ _ => False
  | _ => True
  end.

(** * The dispatch of [VideoEncoder::Create], as the specification words it *)

(** The eight wrapper classes of media_video_encoder.cc. *)
Inductive Wrapper : Type :=
| SoftwareH264 | SoftwareHEVC | SoftwareVP8 | SoftwareVP9 | SoftwareAV1
| NvidiaH264 | NvidiaHEVC | NvidiaAV1.

#[global] Instance Wrapper_eq_dec : EqDecision Wrapper.
Proof. solve_decision. Defined.

(** "With gpu_acceleration true the NVIDIA wrapper for H264, HEVC and AV1,
    the corresponding software wrapper for VP8 and VP9; with
    gpu_acceleration false the software wrapper for each of the five codec
    types."  A value that is none of the five selects nothing. *)
Definition spec_selected_wrapper (gpu_acceleration : bool) (output_codec : CodecType.t)
    : option Wrapper :=
  if decide (output_codec = CodecType.H264)
  then Some (if gpu_acceleration then NvidiaH264 else SoftwareH264)
  else if decide (output_codec = CodecType.HEVC)
  then Some (if gpu_acceleration then NvidiaHEVC else SoftwareHEVC)
  else if decide (output_codec = CodecType.VP8) then Some SoftwareVP8
  else if decide (output_codec = CodecType.VP9) then Some SoftwareVP9
  else if decide (output_codec = CodecType.AV1)
  then Some (if gpu_acceleration then NvidiaAV1 else SoftwareAV1)
  else None.

Section WithLibrary.
Context `{L : FFmpeg} `{E : Encoders}.

(** The dynamic type of an encoder object. *)
Definition wrapper_class (self : VideoEncoder.t) : Wrapper :=
  match self with
  | VideoEncoder.IsH264EncoderImpl _ => SoftwareH264
  | VideoEncoder.IsHEVCEncoderImpl _ => SoftwareHEVC
  | VideoEncoder.IsVP8EncoderImpl _ => SoftwareVP8
  | VideoEncoder.IsVP9EncoderImpl _ => SoftwareVP9
  | VideoEncoder.IsAV1EncoderImpl _ => SoftwareAV1
  | VideoEncoder.IsNvidiaH264EncoderImpl _ => NvidiaH264
  | VideoEncoder.IsNvidiaHEVCEncoderImpl _ => NvidiaHEVC
  | VideoEncoder.IsNvidiaAV1EncoderImpl _ => NvidiaAV1
  end.

(** [std::unique_ptr<VideoEncoder>(new W(config))] for a wrapper class. *)
Definition construct (w : Wrapper) (config : VideoEncoderConfig.t)
    : M (option VideoEncoder.t) :=
  match w with
  | SoftwareH264 =>
      VideoEncoder.make VideoEncoder.IsH264EncoderImpl (H264EncoderImpl.new config)
  | SoftwareHEVC =>
      VideoEncoder.make VideoEncoder.IsHEVCEncoderImpl (HEVCEncoderImpl.new config)
  | SoftwareVP8 =>
      VideoEncoder.make VideoEncoder.IsVP8EncoderImpl (VP8EncoderImpl.new config)
  | SoftwareVP9 =>
      VideoEncoder.make VideoEncoder.IsVP9EncoderImpl (VP9EncoderImpl.new config)
  | SoftwareAV1 =>
      VideoEncoder.make VideoEncoder.IsAV1EncoderImpl (AV1EncoderImpl.new config)
  | NvidiaH264 =>
      VideoEncoder.make VideoEncoder.IsNvidiaH264EncoderImpl
        (NvidiaH264EncoderImpl.new config)
  | NvidiaHEVC =>
      VideoEncoder.make VideoEncoder.IsNvidiaHEVCEncoderImpl
        (NvidiaHEVCEncoderImpl.new config)
  | NvidiaAV1 =>
      VideoEncoder.make VideoEncoder.IsNvidiaAV1EncoderImpl
        (NvidiaAV1EncoderImpl.new config)
  end.

(** The wrapper classes that inherit [VideoEncoder::Flush], which returns
    [true]. *)
Definition inherits_Flush (w : Wrapper) : bool :=
  match w with
  | SoftwareH264 | SoftwareHEVC | SoftwareAV1 => false
  | _ => true
  end.

(** What a caller sees of an encoder object whose codec-specific [Create]
    came back null: the four member functions that every wrapper either
    guards with [if (!encoder_) return false] or inherits from
    [VideoEncoder] return [false]; [Flush] returns [false] where the
    wrapper overrides it and [true] where [VideoEncoder::Flush] is
    inherited.  None of them calls the library or changes the object or the
    output vector. *)
Definition answers_without_encoder (enc : VideoEncoder.t) : Prop :=
  forall (fuel : nat) (data : bytes) (encoded_frame : vector_ptr) (n : Z),
    VideoEncoder.EncodeYUV420 fuel enc data encoded_frame
    = Ret ((false, enc, encoded_frame), [])
    /\ VideoEncoder.EncodeNV12 enc data encoded_frame
       = Ret ((false, enc, encoded_frame), [])
    /\ VideoEncoder.UpdateBitrate enc n = Ret ((false, enc), [])
    /\ VideoEncoder.UpdateFramerate enc n = Ret ((false, enc), [])
    /\ VideoEncoder.Flush fuel enc encoded_frame
       = Ret ((inherits_Flush (wrapper_class enc), enc, encoded_frame), []).

Definition wraps_config (config : VideoEncoderConfig.t)
    (r : option VideoEncoder.t) : Prop :=
  exists enc, r = Some enc
    /\ VideoEncoder.GetConfig enc = Ret config
    /\ (VideoEncoder.encoder_is_null enc = true -> answers_without_encoder enc).

End WithLibrary.

(** * The scaling context [ImageUtils] retains *)

Section WithScaler.
Context `{S : Swscale}.

(** A retained context is one [sws_getContext] returns for the parameters
    it carries. *)
Definition context_is_fresh (self : ImageUtils.t) : Prop :=
  match ImageUtils.ctx_ self with
  | Some c => sws_getContext (sws_params c) = Some c
  | None => True
  end.

End WithScaler.

(** * A small executable library

    An instance of [FFmpeg] to run the wrappers on: every lookup and
    allocation succeeds, a frame gets three planes of [width * height]
    bytes, and the "codec" queues the first two planes of each frame it is
    sent as two packets and hands them out one per
    [avcodec_receive_packet]. *)

Module ToyLibrary.

Definition blank_context : AVCodecContext (list bytes) := {|
  ctx_width := 0; ctx_height := 0; ctx_bit_rate := 0;
  ctx_time_base := {| num := 0; den := 1 |};
  ctx_framerate := {| num := 0; den := 1 |};
  ctx_gop_size := 12; ctx_max_b_frames := 0;
  ctx_pix_fmt := AV_PIX_FMT_NONE; ctx_sample_fmt := AV_SAMPLE_FMT_NONE;
  ctx_refs := 1; ctx_thread_count := 1; ctx_slices := 0; ctx_keyint_min := 0;
  ctx_trellis := 0; ctx_rc_max_rate := 0; ctx_rc_buffer_size := 0;
  ctx_flags := 0; priv_data := []
|}.

Definition with_queue (ctx : AVCodecContext (list bytes)) (q : list bytes)
    : AVCodecContext (list bytes) := {|
  ctx_width := ctx_width ctx; ctx_height := ctx_height ctx;
  ctx_bit_rate := ctx_bit_rate ctx; ctx_time_base := ctx_time_base ctx;
  ctx_framerate := ctx_framerate ctx; ctx_gop_size := ctx_gop_size ctx;
  ctx_max_b_frames := ctx_max_b_frames ctx; ctx_pix_fmt := ctx_pix_fmt ctx;
  ctx_sample_fmt := ctx_sample_fmt ctx; ctx_refs := ctx_refs ctx;
  ctx_thread_count := ctx_thread_count ctx; ctx_slices := ctx_slices ctx;
  ctx_keyint_min := ctx_keyint_min ctx; ctx_trellis := ctx_trellis ctx;
  ctx_rc_max_rate := ctx_rc_max_rate ctx;
  ctx_rc_buffer_size := ctx_rc_buffer_size ctx;
  ctx_flags := ctx_flags ctx; priv_data := q
|}.

Definition get_buffer (frame : AVFrame) : AVFrame :=
  let plane :=
    replicate (Z.to_nat (frame_width frame * frame_height frame)) Byte.x00 in
  {| frame_format := frame_format frame;
     frame_width := frame_width frame;
     frame_height := frame_height frame;
     frame_pts := frame_pts frame;
     frame_planes := [plane; plane; plane] |}.

Definition send_frame (ctx : AVCodecContext (list bytes)) (frame : option AVFrame)
    : Z * AVCodecContext (list bytes) :=
  match frame with
  | Some f => (0, with_queue ctx (priv_data ctx ++ take 2 (frame_planes f)))
  | None => (0, ctx)
  end.

Definition receive_packet (ctx : AVCodecContext (list bytes))
    : Z * bytes * AVCodecContext (list bytes) :=
  match priv_data ctx with
  | [] => (AVERROR_EAGAIN, [], ctx)
  | p :: q => (0, p, with_queue ctx q)
  end.

Definition library : FFmpeg := {|
  AVCodec := unit;
  Priv := list bytes;
  avcodec_find_encoder := fun _ => Some tt;
  avcodec_find_encoder_by_name := fun _ => Some tt;
  avcodec_alloc_context3 := fun _ => Some blank_context;
  av_opt_set := fun p _ _ => (0, p);
  avcodec_open2 := fun ctx _ => (0, ctx);
  av_frame_alloc :=
    Some {| frame_format := AV_PIX_FMT_NONE; frame_width := 0;
            frame_height := 0; frame_pts := 0; frame_planes := [] |};
  av_frame_get_buffer := fun f _ => (0, get_buffer f);
  av_frame_make_writable := fun f => (0, f);
  av_packet_alloc := Some {| packet_data := [] |};
  avcodec_send_frame := send_frame;
  avcodec_receive_packet := receive_packet;
  snprintf_1f := fun _ _ => "1.0"
|}.

(** A 2x2 encoder configuration and a frame for it. *)
Definition config_2x2 : H264EncoderConfig.t :=
  H264EncoderConfig.set_height 2
    (H264EncoderConfig.set_width 2 H264EncoderConfig.default).

Definition frame_2x2 : bytes :=
  [Byte.x01; Byte.x02; Byte.x03; Byte.x04; Byte.x05; Byte.x06].

(** The encoder that [H264Encoder::Create] returns for [config_2x2]. *)
Definition instance_2x2 : @H264EncoderInstance.t library :=
  Eval vm_compute in
    match @H264Encoder.Create library config_2x2 with
    | Ret (Some e, _) => e
    | _ => @H264EncoderInstance.new library config_2x2
    end.

(** The encoder that [NvidiaHEVCEncoder::Create] returns for a 2x2
    picture. *)
Definition nvidia_2x2 : @NvidiaHEVCEncoder.t library :=
  Eval vm_compute in
    let config := NvidiaHEVCEncoderConfig.init 2 2 1000 30 in
    match @NvidiaHEVCEncoder.Create library config with
    | Ret (Some e, _) => e
    | _ => @NvidiaHEVCEncoder.new library config
    end.

(** A scaler: a context is its parameters, pictures are one buffer of
    [4 * width * height] bytes with planes at 0, [width * height] and
    [width * height * 5 / 4], and "scaling" copies the source buffer. *)
Definition image_alloc (width height : Z) (fmt : AVPixelFormat) (align : Z)
    : Z * Image :=
  let size := 4 * width * height in
  (size,
   {| image_buffer := replicate (Z.to_nat size) Byte.x00;
      image_data :=
        [Some 0; Some (width * height); Some (width * height * 5 / 4); None];
      image_linesize := [width; width; width; 0] |}).

Definition swscale : Swscale := {|
  SwsContext := SwsParams;
  sws_params := fun c => c;
  sws_getContext := fun p => Some p;
  sws_getCachedContext :=
    fun old p =>
      match old with
      | Some c => if decide (c = p) then Some c else Some p
      | None => Some p
      end;
  sws_scale :=
    fun _ src _ h dst =>
      (h, {| image_buffer := image_buffer src;
             image_data := image_data dst;
             image_linesize := image_linesize dst |});
  av_image_alloc := image_alloc
|}.

(** A 2x2 RGB picture. *)
Definition rgb_2x2 : bytes :=
  [Byte.x0a; Byte.x0b; Byte.x0c; Byte.x14; Byte.x15; Byte.x16;
   Byte.x1e; Byte.x1f; Byte.x20; Byte.x28; Byte.x29; Byte.x2a].

(** A resampler library on which every call succeeds. *)
Definition swresample : Swresample := {|
  SwrContext := list (string * Z);
  new_channel_layout_api := true;
  av_get_default_channel_layout := fun n => if n =? 1 then 4 else 3;
  swr_alloc := Some [];
  av_opt_set_chlayout_default := fun s key n => s ++ [(key, n)];
  av_opt_set_int := fun s key v => s ++ [(key, v)];
  av_opt_set_sample_fmt := fun s key _ => s ++ [(key, 0)];
  swr_init := fun s => (0, s);
  av_strerror := fun _ => "error"
|}.

(** An Opus encoder object as [Initialize] leaves it, as far as the
    resampler set-up reads it. *)
Definition opus_context : AVCodecContext (list bytes) := {|
  ctx_width := 0; ctx_height := 0; ctx_bit_rate := 96000;
  ctx_time_base := {| num := 0; den := 1 |};
  ctx_framerate := {| num := 0; den := 1 |};
  ctx_gop_size := 12; ctx_max_b_frames := 0;
  ctx_pix_fmt := AV_PIX_FMT_NONE; ctx_sample_fmt := AV_SAMPLE_FMT_FLT;
  ctx_refs := 1; ctx_thread_count := 1; ctx_slices := 0; ctx_keyint_min := 0;
  ctx_trellis := 0; ctx_rc_max_rate := 0; ctx_rc_buffer_size := 0;
  ctx_flags := 0; priv_data := []
|}.

Definition opus_encoder : @OPUSEncoderImpl.t library swresample :=
  @OPUSEncoderImpl.Build_t library swresample
    OPUSEncoderConfig.default (Some tt) (Some opus_context) None
    (Some {| packet_data := [] |}) None AV_SAMPLE_FMT_NONE "" 960 0.

(** Encoders whose [Create] always returns null. *)
Definition no_encoders : Encoders := {|
  HEVCEncoder := unit;
  HEVCEncoder_Create := fun _ => (None, []);
  HEVCEncoder_EncodeYUV420 := fun e _ out => (0, e, out, []);
  HEVCEncoder_Flush := fun e out => (0, e, out, []);
  HEVCEncoder_UpdateParams := fun e _ _ => (false, e, []);
  VP8Encoder := unit;
  VP8Encoder_Create := fun _ => (None, []);
  VP8Encoder_EncodeYUV420 := fun e _ out => (0, e, out, []);
  VP9Encoder := unit;
  VP9Encoder_Create := fun _ => (None, []);
  VP9Encoder_EncodeYUV420 := fun e _ out => (false, e, out, []);
  VP9Encoder_UpdateBitrate := fun e _ => (false, e, []);
  VP9Encoder_UpdateFramerate := fun e _ => (false, e, []);
  AV1Encoder := unit;
  AV1Encoder_Create := fun _ => (None, []);
  AV1Encoder_EncodeYUV420 := fun e _ out => (false, e, out, []);
  AV1Encoder_Flush := fun e out => (false, e, out, []);
  NvidiaH264Encoder := unit;
  NvidiaH264Encoder_Create := fun _ => (None, []);
  NvidiaH264Encoder_EncodeYUV420 := fun e _ out => (false, e, out, []);
  NvidiaH264Encoder_EncodeNV12 := fun e _ out => (false, e, out, []);
  NvidiaAV1Encoder := unit;
  NvidiaAV1Encoder_Create := fun _ => (None, []);
  NvidiaAV1Encoder_EncodeYUV420 := fun e _ out => (false, e, out, []);
  NvidiaAV1Encoder_EncodeNV12 := fun e _ out => (false, e, out, [])
|}.

(** A library without any H.264 or NVENC encoder: every lookup fails. *)
Definition library_without_codecs : FFmpeg := {|
  AVCodec := unit;
  Priv := list bytes;
  avcodec_find_encoder := fun _ => None;
  avcodec_find_encoder_by_name := fun _ => None;
  avcodec_alloc_context3 := fun _ => Some blank_context;
  av_opt_set := fun p _ _ => (0, p);
  avcodec_open2 := fun ctx _ => (0, ctx);
  av_frame_alloc := None;
  av_frame_get_buffer := fun f _ => (0, get_buffer f);
  av_frame_make_writable := fun f => (0, f);
  av_packet_alloc := None;
  avcodec_send_frame := send_frame;
  avcodec_receive_packet := receive_packet;
  snprintf_1f := fun _ _ => "1.0"
|}.

(** A decoder whose [Initialize] succeeds without a library call. *)
Definition decoder : H264DecoderInstance := {|
  DecoderInstance := H264DecoderConfig.t;
  decoder_new := fun c => c;
  decoder_Initialize := fun d => ((true, d), []);
  decoder_destroy := fun _ => (tt, []);
  old_registration_api := false
|}.

End ToyLibrary.

(** * Further vocabulary for traces *)

(** An event that hands no frame to the codec. *)
Definition no_frame (e : Event) : Prop :=
  match e with
  | E_send_frame _ _ => False
  | _ => True
  end.

(** * What a call on an encoder object may not change *)

Section FacadeVocabulary.
Context `{L : FFmpeg} `{E : Encoders}.

(** [enc'] is the object [enc] as far as a caller can tell it apart from
    others: it answers [GetConfig] alike, is of the same wrapper class and
    has an encoder behind it exactly when [enc] has. *)
Definition same_identity (enc enc' : VideoEncoder.t) : Prop :=
  VideoEncoder.GetConfig enc' = VideoEncoder.GetConfig enc
  /\ wrapper_class enc' = wrapper_class enc
  /\ VideoEncoder.encoder_is_null enc' = VideoEncoder.encoder_is_null enc.

(** One call of a member function takes the object [enc] to [enc']. *)
Definition facade_step (enc enc' : VideoEncoder.t) : Prop :=
  (exists fuel data out r out' evs,
     VideoEncoder.EncodeYUV420 fuel enc data out = Ret ((r, enc', out'), evs))
  \/ (exists data out r out' evs,
        VideoEncoder.EncodeNV12 enc data out = Ret ((r, enc', out'), evs))
  \/ (exists fuel out r out' evs,
        VideoEncoder.Flush fuel enc out = Ret ((r, enc', out'), evs))
  \/ (exists n r evs, VideoEncoder.UpdateBitrate enc n = Ret ((r, enc'), evs))
  \/ (exists n r evs, VideoEncoder.UpdateFramerate enc n = Ret ((r, enc'), evs)).

(** Any number of calls, one after the other. *)
Inductive after_calls : VideoEncoder.t -> VideoEncoder.t -> Prop :=
| calls_none (enc : VideoEncoder.t) : after_calls enc enc
| calls_more (enc mid enc' : VideoEncoder.t) :
    facade_step enc mid -> after_calls mid enc' -> after_calls enc enc'.

End FacadeVocabulary.

(** * More toy objects *)

Module ToyObjects.

(** The software H264 wrapper around the toy encoder for 2x2 pictures. *)
Definition wrapper_2x2 : @H264EncoderImpl.t ToyLibrary.library :=
  @H264EncoderImpl.Build_t ToyLibrary.library
    (VideoEncoderConfig.mk false PixelFormat.YUV420 CodecType.H264 2 2 5000000 30 None)
    ToyLibrary.config_2x2 (Some ToyLibrary.instance_2x2).

End ToyObjects.

(** * h264_decoder.cc: [class H264DecoderInstance], decoding

    The decoding half of the class: [IsInitialized], [Reset],
    [DecodeToYUV420] and [GetFrameDimensions].  The decoder calls into
    libavcodec are state passing on the codec context; they are not among
    the recorded events. *)

(** A decoded picture as [avcodec_receive_frame] leaves it in an [AVFrame]:
    [data[i]] is the buffer behind the plane pointer, from the pointer on,
    and [linesize[i]] the distance between two rows. *)
Record DecodedFrame : Type := {
  decoded_width : Z;
  decoded_height : Z;
  decoded_data : list bytes;
  decoded_linesize : list Z
}.

Module H264DecoderLibrary.

(** [avcodec_send_packet] is given the [data] of the packet, [None] for
    the null packet of flush mode; [avcodec_receive_frame] returns what it
    left in the frame. *)
Class t : Type := {
  AVCodecContext : Type;
  avcodec_flush_buffers : AVCodecContext -> AVCodecContext;
  avcodec_send_packet : AVCodecContext -> option bytes -> Z * AVCodecContext;
  avcodec_receive_frame : AVCodecContext -> Z * DecodedFrame * AVCodecContext
}.

End H264DecoderLibrary.

Module H264DecoderImpl.
Section WithLibrary.
Context `{D : H264DecoderLibrary.t}.

(** The data members the decoding half reads and writes. *)
Record t : Type := {
  config_ : H264DecoderConfig.t;
  codec_context_ : option H264DecoderLibrary.AVCodecContext;
  frame_ : option DecodedFrame;
  packet_ : option (option bytes);
  initialized_ : bool;
  frame_width_ : Z;
  frame_height_ : Z
}.

Definition IsInitialized (self : t) : bool := initialized_ self.

(** [GetFrameDimensions(&width, &height)] with both pointers set. *)
Definition GetFrameDimensions (self : t) : Z * Z :=
  (frame_width_ self, frame_height_ self).

Definition with_decoding (self : t) (ctx : H264DecoderLibrary.AVCodecContext)
    (frame : option DecodedFrame) (packet : option bytes) (width height : Z) : t := {|
  config_ := config_ self;
  codec_context_ := Some ctx;
  frame_ := frame;
  packet_ := Some packet;
  initialized_ := initialized_ self;
  frame_width_ := width;
  frame_height_ := height
|}.

(** [frame->data[plane]] and [frame->linesize[plane]]. *)
Definition plane_data (frame : DecodedFrame) (plane : nat) : outcome bytes :=
  match decoded_data frame !! plane with
  | Some buf => Ret buf
  | None => Undefined
  end.

Definition plane_linesize (frame : DecodedFrame) (plane : nat) : outcome Z :=
  match decoded_linesize frame !! plane with
  | Some linesize => Ret linesize
  | None => Undefined
  end.

(** What [packet_->data] is set to: the bytes of [*h264_frame], or null for
    a null pointer and for an empty vector. *)
Definition packet_data_for (h264_frame : option bytes) : option bytes :=
  match h264_frame with
  | Some (b :: data) => Some (b :: data)
  | _ => None
  end.

(** [for (int i = 0; i < uv_height; i++)
       memcpy(yuv + base + i * uv_stride, plane + i * linesize, uv_stride)],
    from row [i] on, [rows] rows to go. *)
Fixpoint copy_rows (rows : nat) (i : Z) (yuv_frame : bytes) (base : Z)
    (plane : bytes) (linesize uv_stride : Z) : outcome bytes :=
  match rows with
  | O => Ret yuv_frame
  | S rows' =>
      outcome_bind
        (memcpy yuv_frame (base + int_mul i uv_stride) plane (int_mul i linesize)
           uv_stride)
        (fun yuv_frame =>
           copy_rows rows' (i + 1) yuv_frame base plane linesize uv_stride)
  end.

(** [DecodeToYUV420(yuv_frame, h264_frame)]: the result, the object and the
    vector behind [yuv_frame] afterwards.  A [resize] to a negative [int],
    an enormous [size_t], leaves by an exception: no result. *)
Definition DecodeToYUV420 (self : t) (yuv_frame : bytes) (h264_frame : option bytes)
    : outcome (Z * t * bytes) :=
  if negb (initialized_ self) then Ret (-1, self, yuv_frame)
  else
    match packet_ self, codec_context_ self with
    | None, _ | _, None => Undefined
    | Some _, Some ctx =>
        let packet := packet_data_for h264_frame in
        let sent := H264DecoderLibrary.avcodec_send_packet ctx packet in
        let self := with_decoding self (snd sent) (frame_ self) packet
                      (frame_width_ self) (frame_height_ self) in
        if fst sent <? 0 then Ret (fst sent, self, yuv_frame)
        else
          match frame_ self with
          | None => Undefined
          | Some _ =>
              let received := H264DecoderLibrary.avcodec_receive_frame (snd sent) in
              let ret := fst (fst received) in
              let frame := snd (fst received) in
              let self := with_decoding self (snd received) (Some frame) packet
                            (frame_width_ self) (frame_height_ self) in
              if ret <? 0 then
                if ret =? AVERROR_EAGAIN then Ret (0, self, yuv_frame)
                else if ret =? AVERROR_EOF then Ret (0, self, yuv_frame)
                else Ret (ret, self, yuv_frame)
              else
                let w := decoded_width frame in
                let h := decoded_height frame in
                let self := with_decoding self (snd received) (Some frame) packet w h in
                let yuv_size := int_div (int_mul (int_mul w h) 3) 2 in
                if yuv_size <? 0 then Undefined
                else
                  let yuv_frame := vector_resize yuv_frame (Z.to_nat yuv_size) in
                  let y_size := int_mul w h in
                  outcome_bind (plane_data frame 0) (fun y_plane =>
                  outcome_bind (memcpy yuv_frame 0 y_plane 0 y_size) (fun yuv_frame =>
                  let uv_stride := int_div w 2 in
                  let uv_height := int_div h 2 in
                  let u_size := int_mul uv_stride uv_height in
                  let copy_chroma (plane : nat) (base : Z) (yuv_frame : bytes) :=
                    if 0 <? uv_height then
                      outcome_bind (plane_data frame plane) (fun buf =>
                      outcome_bind (plane_linesize frame plane) (fun linesize =>
                      copy_rows (Z.to_nat uv_height) 0 yuv_frame base buf linesize
                        uv_stride))
                    else Ret yuv_frame in
                  outcome_bind (copy_chroma 1%nat y_size yuv_frame) (fun yuv_frame =>
                  outcome_bind (copy_chroma 2%nat (y_size + u_size) yuv_frame)
                    (fun yuv_frame => Ret (1, self, yuv_frame)))))
          end
    end.

(** The [for] loop of [Reset]: [DecodeToYUV420(dummy, nullptr)] on a fresh
    empty vector, [n] times. *)
Fixpoint skip_frames (n : nat) (self : t) : outcome t :=
  match n with
  | O => Ret self
  | S n' =>
      outcome_bind (DecodeToYUV420 self [] None) (fun '(_, self, _) =>
      skip_frames n' self)
  end.

Definition Reset (self : t) : outcome t :=
  match codec_context_ self with
  | None => Ret self
  | Some ctx =>
      let self := {|
        config_ := config_ self;
        codec_context_ := Some (H264DecoderLibrary.avcodec_flush_buffers ctx);
        frame_ := frame_ self;
        packet_ := packet_ self;
        initialized_ := initialized_ self;
        frame_width_ := frame_width_ self;
        frame_height_ := frame_height_ self |} in
      skip_frames (Z.to_nat (H264DecoderConfig.skip_frames_after_flush (config_ self)))
        self
  end.

End WithLibrary.
Arguments t {D}.
End H264DecoderImpl.

(** The rows of a plane without the line padding: [rows] rows of [stride]
    bytes from row [first] on, row [r] starting at byte [r * linesize]. *)
Definition packed_rows (plane : bytes) (linesize stride first rows : nat) : bytes :=
  concat (map (fun r => take stride (drop (r * linesize) plane)) (seq first rows)).

(** * opus_encoder.cc: [class OPUSEncoderImpl], encoding

    [EncodeInternal] and the three entry points in front of it.
    [swr_convert] is state passing on the resampler and on the planes of
    the frame; it is not among the recorded events. *)

(** [swr_convert(swr, out, out_count, in, in_count)] with [in[0]] pointing
    at the given bytes: the result, the resampler and the planes behind
    [out] afterwards. *)
Class SwresampleConvert `{R : Swresample} : Type := {
  swr_convert : SwrContext -> list bytes -> Z -> bytes -> Z
                -> Z * SwrContext * list bytes
}.

Module OPUSEncoding.
Section WithLibrary.
Context `{L : FFmpeg} `{R : Swresample} `{C : !SwresampleConvert}.

Import OPUSEncoderImpl.

Definition with_error (self : t) (last_error : string) : t := {|
  config_ := config_ self;
  codec_ := codec_ self;
  context_ := context_ self;
  frame_ := frame_ self;
  packet_ := packet_ self;
  swr_ctx_ := swr_ctx_ self;
  last_input_format_ := last_input_format_ self;
  last_error_ := last_error;
  frame_size_ := frame_size_ self;
  pts_ := pts_ self
|}.

Definition with_encoding (self : t) (context : option (AVCodecContext Priv))
    (frame : option AVFrame) (packet : option AVPacket)
    (swr : option SwrContext) (pts : Z) : t := {|
  config_ := config_ self;
  codec_ := codec_ self;
  context_ := context;
  frame_ := frame;
  packet_ := packet;
  swr_ctx_ := swr;
  last_input_format_ := last_input_format_ self;
  last_error_ := last_error_ self;
  frame_size_ := frame_size_ self;
  pts_ := pts
|}.

Definition set_planes (frame : AVFrame) (planes : list bytes) : AVFrame := {|
  frame_format := frame_format frame;
  frame_width := frame_width frame;
  frame_height := frame_height frame;
  frame_pts := frame_pts frame;
  frame_planes := planes
|}.

(** [EncodeInternal(pcm_data, frame, input_format, is_input_packed)]: the
    result, the object and the vector behind [frame] afterwards. *)
Definition EncodeInternal (self : t) (pcm_data : bytes) (frame : vector_ptr)
    (input_format : AVSampleFormat) (is_input_packed : bool)
    : M (Z * t * vector_ptr) :=
  match context_ self, codec_ self, frame_ self, packet_ self with
  | Some _, Some _, Some _, Some _ =>
      match frame with
      | None => pure (0, with_error self "Output frame buffer is null", frame)
      | Some out =>
          let* (ready, self) := InitializeResampler self input_format is_input_packed in
          if negb ready then pure (0, self, frame)
          else
            let* av_frame := deref (frame_ self) in
            let writable := av_frame_make_writable av_frame in
            do* emit (E_frame_make_writable (fst writable)) in
            let av_frame := snd writable in
            let self :=
              with_encoding self (context_ self) (Some av_frame) (packet_ self)
                (swr_ctx_ self) (pts_ self) in
            if fst writable <? 0 then
              pure (0,
                    with_error self
                      ("Could not make frame writable: " +:+ av_strerror (fst writable)),
                    frame)
            else
              let bytes_per_sample := GetBytesPerSample input_format in
              if bytes_per_sample =? 0 then
                pure (0, with_error self "Invalid sample format", frame)
              else
                let num_channels := OPUSEncoderConfig.channels (config_ self) in
                let divisor := to_size_t (bytes_per_sample * to_size_t num_channels) in
                if divisor =? 0 then undefined
                else
                  let samples_in_input :=
                    wrap_int (Z.of_nat (length pcm_data) / divisor) in
                  if samples_in_input <? frame_size_ self then
                    pure (0,
                          with_error self "Not enough input data for a full frame",
                          frame)
                  else
                    let* converted :=
                      match swr_ctx_ self with
                      | Some swr =>
                          if is_input_packed then
                            let done :=
                              swr_convert swr (frame_planes av_frame) (frame_size_ self)
                                pcm_data (frame_size_ self) in
                            let ret := fst (fst done) in
                            let av_frame := set_planes av_frame (snd done) in
                            let self :=
                              with_encoding self (context_ self) (Some av_frame)
                                (packet_ self) (Some (snd (fst done))) (pts_ self) in
                            if ret <? 0 then
                              pure (inl
                                (with_error self
                                   ("Error during sample format conversion: "
                                    +:+ av_strerror ret)))
                            else pure (inr (self, av_frame))
                          else
                            pure (inl
                              (with_error self
                                 "Planar input format not supported in this implementation"))
                      | None =>
                          let* context := deref (context_ self) in
                          let data_size :=
                            to_size_t
                              (to_size_t (int_mul (frame_size_ self) num_channels)
                               * GetBytesPerSample (ctx_sample_fmt context)) in
                          if Z.of_nat (length pcm_data) <? data_size then
                            pure (inl (with_error self "Input data size too small"))
                          else
                            let* av_frame := copy_to_plane av_frame 0 pcm_data 0 data_size in
                            pure (inr (self, av_frame))
                      end in
                    match converted with
                    | inl self => pure (0, self, frame)
                    | inr (self, av_frame) =>
                        let av_frame := set_pts av_frame (pts_ self) in
                        let self :=
                          with_encoding self (context_ self) (Some av_frame)
                            (packet_ self) (swr_ctx_ self)
                            (pts_ self + frame_size_ self) in
                        let* context := deref (context_ self) in
                        let sent := avcodec_send_frame context (Some av_frame) in
                        do* emit (E_send_frame (Some av_frame) (fst sent)) in
                        let self :=
                          with_encoding self (Some (snd sent)) (frame_ self)
                            (packet_ self) (swr_ctx_ self) (pts_ self) in
                        if fst sent <? 0 then
                          pure (0,
                                with_error self
                                  ("Error sending frame to encoder: "
                                   +:+ av_strerror (fst sent)),
                                frame)
                        else
                          let received := avcodec_receive_packet (snd sent) in
                          let ret := fst (fst received) in
                          let data := snd (fst received) in
                          do* emit (E_receive_packet ret data) in
                          let self :=
                            with_encoding self (Some (snd received)) (frame_ self)
                              (Some {| packet_data := if ret <? 0 then [] else data |})
                              (swr_ctx_ self) (pts_ self) in
                          if (ret =? AVERROR_EAGAIN) || (ret =? AVERROR_EOF) then
                            pure (0, with_error self "Encoder needs more frames", frame)
                          else if ret <? 0 then
                            pure (0,
                                  with_error self
                                    ("Error encoding audio frame: " +:+ av_strerror ret),
                                  frame)
                          else
                            let resized := vector_resize out (length data) in
                            let* out := lift (memcpy resized 0 data 0
                                                (Z.of_nat (length data))) in
                            do* emit E_packet_unref in
                            let self :=
                              with_encoding self (context_ self) (frame_ self)
                                (Some {| packet_data := [] |}) (swr_ctx_ self)
                                (pts_ self) in
                            pure (1, self, Some out)
                    end
      end
  | _, _, _, _ =>
      pure (0, with_error self "Encoder not properly initialized", frame)
  end.

Definition EncodePCM_S16LE (self : t) (pcm_data : bytes) (frame : vector_ptr)
    : M (Z * t * vector_ptr) :=
  EncodeInternal self pcm_data frame AV_SAMPLE_FMT_S16 true.

Definition EncodePCM_U8 (self : t) (pcm_data : bytes) (frame : vector_ptr)
    : M (Z * t * vector_ptr) :=
  EncodeInternal self pcm_data frame AV_SAMPLE_FMT_U8 true.

Definition EncodePCM_F32BE (self : t) (pcm_data : bytes) (frame : vector_ptr)
    : M (Z * t * vector_ptr) :=
  EncodeInternal self pcm_data frame AV_SAMPLE_FMT_FLT false.

Definition GetLastError (self : t) : string := last_error_ self.

End WithLibrary.
End OPUSEncoding.

(** * Instances for the decoder and for the Opus encoder

    A decoder library whose codec context is the queue of packets it was
    sent: each packet comes back as a 4x4 picture whose luma plane is the
    packet, cut or padded to 16 bytes, and whose chroma planes have rows of
    two bytes at a line size of four.  A resampler whose conversion stores
    the input in both planes. *)

Module ToyDecoding.

Definition chroma (b : byte) : bytes :=
  [b; b; Byte.xff; Byte.xff; b; b; Byte.xff; Byte.xff].

Definition picture_of (packet : bytes) : DecodedFrame := {|
  decoded_width := 4;
  decoded_height := 4;
  decoded_data := [vector_resize packet 16; chroma Byte.x80; chroma Byte.x90];
  decoded_linesize := [4; 4; 4]
|}.

Definition no_picture : DecodedFrame := {|
  decoded_width := 0;
  decoded_height := 0;
  decoded_data := [];
  decoded_linesize := []
|}.

Definition library : H264DecoderLibrary.t := {|
  H264DecoderLibrary.AVCodecContext := list bytes;
  H264DecoderLibrary.avcodec_flush_buffers := fun _ => [];
  H264DecoderLibrary.avcodec_send_packet := fun q packet =>
    match packet with
    | Some data => (0, q ++ [data])
    | None => (0, q)
    end;
  H264DecoderLibrary.avcodec_receive_frame := fun q =>
    match q with
    | [] => (AVERROR_EAGAIN, no_picture, [])
    | data :: q => (0, picture_of data, q)
    end
|}.

(** A decoder as [Initialize] leaves it. *)
Definition decoder : @H264DecoderImpl.t library :=
  @H264DecoderImpl.Build_t library H264DecoderConfig.default (Some [])
    (Some no_picture) (Some None) true 0 0.

Definition packet_16 : bytes :=
  [Byte.x01; Byte.x02; Byte.x03; Byte.x04; Byte.x05; Byte.x06; Byte.x07; Byte.x08;
   Byte.x09; Byte.x0a; Byte.x0b; Byte.x0c; Byte.x0d; Byte.x0e; Byte.x0f; Byte.x10].

End ToyDecoding.

Module ToyResampling.

Definition convert : @SwresampleConvert ToyLibrary.swresample := {|
  swr_convert := fun swr _ out_count in_data _ => (out_count, swr, [in_data; in_data])
|}.

(** An Opus encoder as [Initialize] leaves it, for frames of two samples. *)
Definition opus_encoder : @OPUSEncoderImpl.t ToyLibrary.library ToyLibrary.swresample :=
  @OPUSEncoderImpl.Build_t ToyLibrary.library ToyLibrary.swresample
    OPUSEncoderConfig.default (Some tt) (Some ToyLibrary.opus_context)
    (Some {| frame_format := AV_PIX_FMT_NONE; frame_width := 0; frame_height := 0;
             frame_pts := 0; frame_planes := [[]] |})
    (Some {| packet_data := [] |}) None AV_SAMPLE_FMT_NONE "" 2 0.

Definition pcm_two_samples : bytes :=
  [Byte.x01; Byte.x02; Byte.x03; Byte.x04; Byte.x05; Byte.x06; Byte.x07; Byte.x08].

End ToyResampling.

(** * What the library hands out

    The packets a codec context hands out when it is asked again and again,
    up to its first refusal: the refusing result, the payloads in order and
    the context afterwards.  This is read off [avcodec_receive_packet]
    alone. *)

Section WithLibrary.
Context `{L : FFmpeg}.

Fixpoint library_packets (fuel : nat) (ctx : AVCodecContext Priv)
    : option (Z * list bytes * AVCodecContext Priv) :=
  match fuel with
  | O => None
  | S fuel' =>
      let received := avcodec_receive_packet ctx in
      if fst (fst received) <? 0
      then Some (fst (fst received), [], snd received)
      else
        match library_packets fuel' (snd received) with
        | Some (last, packets, ctx') =>
            Some (last, snd (fst received) :: packets, ctx')
        | None => None
        end
  end.

(** The library takes [submitted] from [ctx], hands out [packets] and then
    asks for more input or reports the end of the stream, leaving [ctx']. *)
Definition hands_out (fuel : nat) (ctx : AVCodecContext Priv)
    (submitted : option AVFrame) (packets : list bytes)
    (ctx' : AVCodecContext Priv) : Prop :=
  0 <= fst (avcodec_send_frame ctx submitted)
  /\ exists last,
       library_packets fuel (snd (avcodec_send_frame ctx submitted))
       = Some (last, packets, ctx')
       /\ (last = AVERROR_EAGAIN \/ last = AVERROR_EOF).

End WithLibrary.

(** * A resampler that converts the sample format only

    The options of such a conversion set on a resampler through the
    library: the default layout for [channels] channels and the rate
    [sample_rate] on both sides, the formats [in_fmt] and [out_fmt]. *)

Section WithResampler.
Context `{R : Swresample}.

Definition with_default_layout (swr : SwrContext) (side : string) (channels : Z)
    : SwrContext :=
  if new_channel_layout_api
  then av_opt_set_chlayout_default swr (side +:+ "_chlayout") channels
  else
    av_opt_set_int
      (av_opt_set_int swr (side +:+ "_channel_layout")
         (av_get_default_channel_layout channels))
      (side +:+ "_channels") channels.

Definition converting_format_only (swr : SwrContext) (channels sample_rate : Z)
    (in_fmt out_fmt : AVSampleFormat) : SwrContext :=
  let swr := with_default_layout swr "in" channels in
  let swr := av_opt_set_int swr "in_sample_rate" sample_rate in
  let swr := av_opt_set_sample_fmt swr "in_sample_fmt" in_fmt in
  let swr := with_default_layout swr "out" channels in
  let swr := av_opt_set_int swr "out_sample_rate" sample_rate in
  av_opt_set_sample_fmt swr "out_sample_fmt" out_fmt.

End WithResampler.

(** * The operations of the wrapper classes

    The public operations of the classes whose library calls are recorded:
    [H264Encoder] (h264_encoder.h), [NvidiaHEVCEncoder]
    (nvidia_hevc_encoder.h), [OPUSEncoder] (opus_encoder.h), the facade
    [VideoEncoder] (media_video_encoder.h) and [H264Decoder::Create]
    (h264_decoder.h), each with its arguments. *)

Module Operation.
Section WithLibrary.
Context `{L : FFmpeg} `{R : Swresample} `{C : !SwresampleConvert} `{E : Encoders}
  `{D : H264DecoderInstance}.

Inductive t : Type :=
| H264Encoder_Create (config : H264EncoderConfig.t)
| H264Encoder_EncodeYUV420 (fuel : nat) (self : H264EncoderInstance.t)
    (yuv_data : bytes) (output_frame : vector_ptr)
| H264Encoder_Flush (fuel : nat) (self : H264EncoderInstance.t)
    (output_frame : vector_ptr)
| H264Encoder_Reconfigure (self : H264EncoderInstance.t) (config : H264EncoderConfig.t)
| H264Encoder_destructor (self : H264EncoderInstance.t)
| NvidiaHEVCEncoder_Create (config : NvidiaHEVCEncoderConfig.t)
| NvidiaHEVCEncoder_EncodeYUV420 (self : NvidiaHEVCEncoder.t) (yuv_data : bytes)
    (encoded_frame : vector_ptr)
| NvidiaHEVCEncoder_EncodeNV12 (self : NvidiaHEVCEncoder.t) (nv12_data : bytes)
    (encoded_frame : vector_ptr)
| NvidiaHEVCEncoder_destructor (self : NvidiaHEVCEncoder.t)
| OPUSEncoder_EncodePCM_S16LE (self : OPUSEncoderImpl.t) (pcm_data : bytes)
    (frame : vector_ptr)
| OPUSEncoder_EncodePCM_U8 (self : OPUSEncoderImpl.t) (pcm_data : bytes)
    (frame : vector_ptr)
| OPUSEncoder_EncodePCM_F32BE (self : OPUSEncoderImpl.t) (pcm_data : bytes)
    (frame : vector_ptr)
| VideoEncoder_Create (config : VideoEncoderConfig.t)
| VideoEncoder_EncodeYUV420 (fuel : nat) (self : VideoEncoder.t) (yuv_data : bytes)
    (encoded_frame : vector_ptr)
| VideoEncoder_EncodeNV12 (self : VideoEncoder.t) (nv12_data : bytes)
    (encoded_frame : vector_ptr)
| VideoEncoder_Flush (fuel : nat) (self : VideoEncoder.t) (encoded_frame : vector_ptr)
| VideoEncoder_UpdateBitrate (self : VideoEncoder.t) (new_bitrate : Z)
| VideoEncoder_UpdateFramerate (self : VideoEncoder.t) (new_framerate : Z)
| H264Decoder_Create (st : H264Decoder.statics) (config : H264DecoderConfig.t).

(** The library calls of a run, in order. *)
Definition calls_of {A} (m : M A) : outcome trace :=
  outcome_bind m (fun r => Ret (snd r)).

Definition calls (op : t) : outcome trace :=
  match op with
  | H264Encoder_Create config => calls_of (H264Encoder.Create config)
  | H264Encoder_EncodeYUV420 fuel self yuv_data output_frame =>
      calls_of (H264EncoderInstance.EncodeYUV420 fuel self yuv_data output_frame)
  | H264Encoder_Flush fuel self output_frame =>
      calls_of (H264EncoderInstance.Flush fuel self output_frame)
  | H264Encoder_Reconfigure self config =>
      calls_of (H264EncoderInstance.Reconfigure self config)
  | H264Encoder_destructor self => calls_of (H264EncoderInstance.Cleanup self)
  | NvidiaHEVCEncoder_Create config => calls_of (NvidiaHEVCEncoder.Create config)
  | NvidiaHEVCEncoder_EncodeYUV420 self yuv_data encoded_frame =>
      calls_of (NvidiaHEVCEncoder.EncodeYUV420 self yuv_data encoded_frame)
  | NvidiaHEVCEncoder_EncodeNV12 self nv12_data encoded_frame =>
      calls_of (NvidiaHEVCEncoder.EncodeNV12 self nv12_data encoded_frame)
  | NvidiaHEVCEncoder_destructor self => calls_of (NvidiaHEVCEncoder.destroy self)
  | OPUSEncoder_EncodePCM_S16LE self pcm_data frame =>
      calls_of (OPUSEncoding.EncodePCM_S16LE self pcm_data frame)
  | OPUSEncoder_EncodePCM_U8 self pcm_data frame =>
      calls_of (OPUSEncoding.EncodePCM_U8 self pcm_data frame)
  | OPUSEncoder_EncodePCM_F32BE self pcm_data frame =>
      calls_of (OPUSEncoding.EncodePCM_F32BE self pcm_data frame)
  | VideoEncoder_Create config => calls_of (VideoEncoder.Create config)
  | VideoEncoder_EncodeYUV420 fuel self yuv_data encoded_frame =>
      calls_of (VideoEncoder.EncodeYUV420 fuel self yuv_data encoded_frame)
  | VideoEncoder_EncodeNV12 self nv12_data encoded_frame =>
      calls_of (VideoEncoder.EncodeNV12 self nv12_data encoded_frame)
  | VideoEncoder_Flush fuel self encoded_frame =>
      calls_of (VideoEncoder.Flush fuel self encoded_frame)
  | VideoEncoder_UpdateBitrate self new_bitrate =>
      calls_of (VideoEncoder.UpdateBitrate self new_bitrate)
  | VideoEncoder_UpdateFramerate self new_framerate =>
      calls_of (VideoEncoder.UpdateFramerate self new_framerate)
  | H264Decoder_Create st config => calls_of (H264Decoder.Create st config)
  end.

Definition is_H264Decoder_Create (op : t) : bool :=
  match op with
  | H264Decoder_Create _ _ => true
  | _ => false
  end.

End WithLibrary.
End Operation.

(** The encoders behind the facade that are not modelled in detail take no
    lock in any of the member functions the facade calls. *)
Definition Encoders_unsynchronized `{E : Encoders} : Prop :=
  (forall c, synchronization_free (snd (HEVCEncoder_Create c)))
  /\ (forall e d o, synchronization_free (snd (HEVCEncoder_EncodeYUV420 e d o)))
  /\ (forall e o, synchronization_free (snd (HEVCEncoder_Flush e o)))
  /\ (forall e b f, synchronization_free (snd (HEVCEncoder_UpdateParams e b f)))
  /\ (forall c, synchronization_free (snd (VP8Encoder_Create c)))
  /\ (forall e d o, synchronization_free (snd (VP8Encoder_EncodeYUV420 e d o)))
  /\ (forall c, synchronization_free (snd (VP9Encoder_Create c)))
  /\ (forall e d o, synchronization_free (snd (VP9Encoder_EncodeYUV420 e d o)))
  /\ (forall e b, synchronization_free (snd (VP9Encoder_UpdateBitrate e b)))
  /\ (forall e f, synchronization_free (snd (VP9Encoder_UpdateFramerate e f)))
  /\ (forall c, synchronization_free (snd (AV1Encoder_Create c)))
  /\ (forall e d o, synchronization_free (snd (AV1Encoder_EncodeYUV420 e d o)))
  /\ (forall e o, synchronization_free (snd (AV1Encoder_Flush e o)))
  /\ (forall c, synchronization_free (snd (NvidiaH264Encoder_Create c)))
  /\ (forall e d o, synchronization_free (snd (NvidiaH264Encoder_EncodeYUV420 e d o)))
  /\ (forall e d o, synchronization_free (snd (NvidiaH264Encoder_EncodeNV12 e d o)))
  /\ (forall c, synchronization_free (snd (NvidiaAV1Encoder_Create c)))
  /\ (forall e d o, synchronization_free (snd (NvidiaAV1Encoder_EncodeYUV420 e d o)))
  /\ (forall e d o, synchronization_free (snd (NvidiaAV1Encoder_EncodeNV12 e d o))).

(** * Lemmas *)

(** ** The outcome of a sequence of steps *)

#[global] Arguments bind : simpl never.
#[global] Arguments pure : simpl never.
#[global] Arguments emit : simpl never.
#[global] Arguments lift : simpl never.
#[global] Arguments called : simpl never.

Lemma bind_Ret_inv {A B} (m : M A) (f : A -> M B) (b : B) (tr : trace) :
  bind m f = Ret (b, tr) ->
  exists a t1 t2, m = Ret (a, t1) /\ f a = Ret (b, t2) /\ tr = t1 ++ t2.
Proof.
  unfold bind. destruct m as [[a t1]| |]; try discriminate.
  destruct (f a) as [[b' t2]| |] eqn:Hf; try discriminate.
  intros [= <- <-]. eauto 6.
Qed.

Lemma bind_Ret {A B} (a : A) (t1 : trace) (f : A -> M B) :
  bind (Ret (a, t1)) f =
  match f a with
  | Ret (b, t2) => Ret (b, t1 ++ t2)
  | Undefined => Undefined
  | OutOfFuel => OutOfFuel
  end.
Proof. reflexivity. Qed.

Lemma bind_pure {A B} (a : A) (f : A -> M B) : bind (pure a) f = f a.
Proof. unfold bind, pure. destruct (f a) as [[b t]| |]; reflexivity. Qed.

Lemma pure_inv {A} (a b : A) (tr : trace) : pure a = Ret (b, tr) -> b = a /\ tr = [].
Proof. unfold pure. intros [= <- <-]. auto. Qed.

Lemma emit_inv (e : Event) (u : unit) (tr : trace) : emit e = Ret (u, tr) -> tr = [e].
Proof. unfold emit. intros H. inversion H. reflexivity. Qed.

Lemma deref_inv {A} (p : option A) (a : A) (tr : trace) :
  deref p = Ret (a, tr) -> p = Some a /\ tr = [].
Proof.
  destruct p; simpl; [|discriminate].
  intros H. apply pure_inv in H as [-> ->]. auto.
Qed.

Lemma lift_inv {A} (o : outcome A) (a : A) (tr : trace) :
  lift o = Ret (a, tr) -> o = Ret a /\ tr = [].
Proof.
  destruct o; unfold lift; simpl; try discriminate.
  intros [= <- <-]. auto.
Qed.

Lemma called_inv {A} (r : A * trace) (a : A) (tr : trace) :
  called r = Ret (a, tr) -> r = (a, tr).
Proof. unfold called. intros [= <-]. reflexivity. Qed.

Lemma free_if_set_inv {A} (p : option A) (e : Event) (u : unit) (tr : trace) :
  free_if_set p e = Ret (u, tr) -> tr = (if is_null p then [] else [e]).
Proof.
  destruct p; simpl; intros H.
  - apply emit_inv in H. exact H.
  - apply pure_inv in H as [_ ->]. reflexivity.
Qed.

(** Take a successful run apart, one step at a time. *)
Ltac step_in H :=
  match type of H with
  | bind _ _ = Ret _ =>
      let a := fresh "a" in
      let t1 := fresh "t" in
      let t2 := fresh "t" in
      let H1 := fresh "Hstep" in
      let Ht := fresh "Htr" in
      apply bind_Ret_inv in H as (a & t1 & t2 & H1 & H & Ht);
      step_in H1
  | pure _ = Ret _ =>
      let E1 := fresh "E" in
      let E2 := fresh "E" in
      apply pure_inv in H as [E1 E2]
  | emit _ = Ret _ => apply emit_inv in H
  | deref _ = Ret _ =>
      let E1 := fresh "E" in
      let E2 := fresh "E" in
      apply deref_inv in H as [E1 E2]
  | lift _ = Ret _ =>
      let E1 := fresh "E" in
      let E2 := fresh "E" in
      apply lift_inv in H as [E1 E2]
  | called _ = Ret _ => apply called_inv in H
  | free_if_set _ _ = Ret _ => apply free_if_set_inv in H
  | undefined = Ret _ => discriminate H
  | out_of_fuel = Ret _ => discriminate H
  | Undefined = Ret _ => discriminate H
  | OutOfFuel = Ret _ => discriminate H
  | _ => idtac
  end.

(** Take apart every run among the hypotheses, as far as the program is
    a straight line. *)
Ltac steps :=
  repeat match goal with
  | H : bind _ _ = Ret _ |- _ =>
      let a := fresh "a" in
      let t1 := fresh "t" in
      let t2 := fresh "t" in
      let H1 := fresh "Hstep" in
      let Ht := fresh "Htr" in
      apply bind_Ret_inv in H as (a & t1 & t2 & H1 & H & Ht)
  | H : pure _ = Ret _ |- _ =>
      let E1 := fresh "E" in
      let E2 := fresh "E" in
      apply pure_inv in H as [E1 E2]
  | H : emit _ = Ret _ |- _ => apply emit_inv in H
  | H : deref _ = Ret _ |- _ =>
      let E1 := fresh "E" in
      let E2 := fresh "E" in
      apply deref_inv in H as [E1 E2]
  | H : lift _ = Ret _ |- _ =>
      let E1 := fresh "E" in
      let E2 := fresh "E" in
      apply lift_inv in H as [E1 E2]
  | H : called _ = Ret _ |- _ => apply called_inv in H
  | H : free_if_set _ _ = Ret _ |- _ => apply free_if_set_inv in H
  | H : undefined = Ret _ |- _ => discriminate H
  | H : out_of_fuel = Ret _ |- _ => discriminate H
  | H : Undefined = Ret _ |- _ => discriminate H
  | H : OutOfFuel = Ret _ |- _ => discriminate H
  | H : (let '(_, _) := ?x in _) = Ret _ |- _ => destruct x
  end.

(** ** Every event of a run satisfies a property *)

Section Emits.
Context (P : Event -> Prop).

Lemma emits_pure {A} (a : A) : emits P (pure a).
Proof. intros b tr H. apply pure_inv in H as [_ ->]. constructor. Qed.

Lemma emits_emit (e : Event) : P e -> emits P (emit e).
Proof. intros He u tr H. apply emit_inv in H as ->. repeat constructor. exact He. Qed.

Lemma emits_undefined {A} : emits P (@undefined A).
Proof. intros a tr H. discriminate. Qed.

Lemma emits_out_of_fuel {A} : emits P (@out_of_fuel A).
Proof. intros a tr H. discriminate. Qed.

Lemma emits_deref {A} (p : option A) : emits P (deref p).
Proof. intros a tr H. apply deref_inv in H as [_ ->]. constructor. Qed.

Lemma emits_lift {A} (o : outcome A) : emits P (lift o).
Proof. intros a tr H. apply lift_inv in H as [_ ->]. constructor. Qed.

Lemma emits_bind {A B} (m : M A) (f : A -> M B) :
  emits P m -> (forall a, emits P (f a)) -> emits P (bind m f).
Proof.
  intros Hm Hf b tr H.
  apply bind_Ret_inv in H as (a & t1 & t2 & H1 & H2 & ->).
  apply Forall_app. split; [eapply Hm | eapply Hf]; eauto.
Qed.

Lemma emits_free_if_set {A} (p : option A) (e : Event) :
  P e -> emits P (free_if_set p e).
Proof.
  intros He. destruct p; simpl; [apply emits_emit; exact He | apply emits_pure].
Qed.

End Emits.

(** Discharge an [emits] goal by following the structure of the program;
    [tac] decides the property on each event. *)
Ltac emits_with tac :=
  repeat first
    [ apply emits_pure
    | apply emits_undefined
    | apply emits_out_of_fuel
    | apply emits_deref
    | apply emits_lift
    | apply emits_emit; solve [tac]
    | apply emits_free_if_set; solve [tac]
    | solve [tac]
    | apply emits_bind; [| intros ?]
    | match goal with
      | |- emits _ (match ?x with _ => _ end) => destruct x
      | |- emits _ (if ?b then _ else _) => destruct b
      | |- emits _ (let '(_, _) := ?x in _) => destruct x
      end ].

(** ** C integers *)

Lemma wrap_int_in_range (z : Z) : INT_MIN <= z <= INT_MAX -> wrap_int z = z.
Proof.
  unfold wrap_int, INT_MIN, INT_MAX. intros H.
  rewrite Z.mod_small by lia. lia.
Qed.

Lemma to_size_t_small (z : Z) : 0 <= z <= INT_MAX -> to_size_t z = z.
Proof. unfold to_size_t, INT_MAX. intros H. apply Z.mod_small. lia. Qed.

(** [w * h * 3 / 2] in [int] arithmetic, when nothing overflows. *)
Lemma frame_size_in_range (w h : Z) :
  0 <= w -> 0 <= h -> w * h * 3 <= INT_MAX ->
  to_size_t (int_div (int_mul (int_mul w h) 3) 2) = w * h * 3 / 2.
Proof.
  intros Hw Hh Hmax. unfold int_mul, int_div.
  assert (0 <= w * h) by lia.
  assert (Hq : 0 <= w * h * 3 / 2 <= INT_MAX).
  { split; [apply Z.div_pos; lia|].
    apply Z.le_trans with (w * h * 3); [|lia].
    apply Z.div_le_upper_bound; lia. }
  unfold INT_MAX in *.
  rewrite (wrap_int_in_range (w * h)) by (unfold INT_MIN, INT_MAX; lia).
  rewrite (wrap_int_in_range (w * h * 3)) by (unfold INT_MIN, INT_MAX; lia).
  rewrite Z.quot_div_nonneg by lia.
  rewrite wrap_int_in_range by (unfold INT_MIN, INT_MAX; lia).
  apply to_size_t_small. unfold INT_MAX. lia.
Qed.

(** ** Vectors *)

(** [resize] to the old size plus [n] followed by a [memcpy] of [n] bytes
    at the old end is an append. *)
Lemma resize_then_memcpy_appends (out data : bytes) :
  memcpy (vector_resize out (length out + length data)) (Z.of_nat (length out))
    data 0 (Z.of_nat (length data))
  = Ret (out ++ data).
Proof.
  unfold memcpy, vector_resize.
  replace (Z.of_nat (length data) <? 0) with false by (symmetry; apply Z.ltb_ge; lia).
  replace (Z.of_nat (length out) <? 0) with false by (symmetry; apply Z.ltb_ge; lia).
  simpl orb. rewrite !Nat2Z.id. change (Z.to_nat 0) with 0%nat.
  rewrite take_ge by lia.
  replace (length out + length data - length out)%nat with (length data) by lia.
  rewrite drop_0, firstn_all.
  rewrite !length_app, length_replicate.
  rewrite (proj2 (Nat.leb_le _ _)) by lia.
  rewrite (proj2 (Nat.leb_le _ _)) by lia.
  simpl andb. cbv iota.
  rewrite take_app_length.
  rewrite drop_ge by (rewrite length_app, length_replicate; lia).
  rewrite app_nil_r. reflexivity.
Qed.

Lemma received_packets_app (t1 t2 : trace) :
  received_packets (t1 ++ t2) = received_packets t1 ++ received_packets t2.
Proof. unfold received_packets. apply flat_map_app. Qed.

Lemma submitted_frames_app (t1 t2 : trace) :
  submitted_frames (t1 ++ t2) = submitted_frames t1 ++ submitted_frames t2.
Proof. unfold submitted_frames. apply flat_map_app. Qed.

Lemma no_packet_received (tr : trace) :
  Forall no_packet tr -> received_packets tr = [].
Proof.
  induction 1 as [|e tr He _ IH]; [reflexivity|].
  unfold received_packets in *. simpl. rewrite IH.
  destruct e; simpl in *; try reflexivity. contradiction.
Qed.

Section H264EncoderInstanceFacts.
Context `{L : FFmpeg}.

Lemma apply_options_emits (P : Event -> Prop) opts priv :
  (forall k v, P (E_opt_set k v)) -> emits P (apply_options opts priv).
Proof.
  intros HP. revert priv.
  induction opts as [|[k v] opts IH]; intros priv; simpl.
  - apply emits_pure.
  - apply emits_bind; [apply emits_emit, HP | intros _; apply IH].
Qed.

Lemma Cleanup_emits (P : Event -> Prop) self :
  P E_packet_free -> P E_frame_free -> P E_free_context ->
  emits P (H264EncoderInstance.Cleanup self).
Proof.
  intros. unfold H264EncoderInstance.Cleanup. emits_with auto.
Qed.

Lemma Initialize_emits (P : Event -> Prop) self :
  P E_packet_free -> P E_frame_free -> P E_free_context ->
  P (E_find_encoder AV_CODEC_ID_H264) -> P E_alloc_context3 ->
  (forall k v, P (E_opt_set k v)) -> (forall r, P (E_open2 r)) ->
  P E_frame_alloc -> (forall r, P (E_frame_get_buffer r)) -> P E_packet_alloc ->
  emits P (H264EncoderInstance.Initialize self).
Proof.
  intros. unfold H264EncoderInstance.Initialize, H264EncoderInstance.fail_after_cleanup.
  emits_with ltac:(auto using Cleanup_emits, apply_options_emits).
Qed.

End H264EncoderInstanceFacts.

(** ** The software H.264 encoder: what reaches the output vector *)

Section H264EncoderInstanceOutput.
Context `{L : FFmpeg}.

Import H264EncoderInstance.

(** The receive loop appends to the output vector exactly the packets it
    was handed, in the order of the calls. *)
Lemma receive_packets_collects fuel : forall r self out ok self' out' evs,
  receive_packets fuel r self out = Ret ((ok, self', out'), evs) ->
  out' = out ++ concat (received_packets evs).
Proof.
  induction fuel as [|fuel IH]; intros r self out ok self' out' evs H;
    cbn [receive_packets] in H; destruct (r <? 0) eqn:Hr.
  - step_in H. simplify_eq. simpl. symmetry; apply app_nil_r.
  - discriminate.
  - step_in H. simplify_eq. simpl. symmetry; apply app_nil_r.
  - step_in H. step_in H. step_in H. subst.
    destruct (avcodec_receive_packet a) as [[r' data] ctx'].
    cbn [fst snd] in H.
    destruct ((r' =? AVERROR_EAGAIN) || (r' =? AVERROR_EOF)) eqn:Hbreak.
    { assert (Hneg : (r' <? 0) = true).
      { apply orb_true_iff in Hbreak as [Hb|Hb]; apply Z.eqb_eq in Hb;
          rewrite Hb; reflexivity. }
      step_in H. simplify_eq.
      unfold received_packets. simpl. rewrite Hneg. simpl. symmetry; apply app_nil_r. }
    destruct (r' <? 0) eqn:Hneg.
    { step_in H. simplify_eq.
      unfold received_packets. simpl. rewrite Hneg. simpl. symmetry; apply app_nil_r. }
    step_in H. rewrite resize_then_memcpy_appends in *. simplify_eq.
    step_in H. apply IH in H. subst.
    rewrite !received_packets_app.
    unfold received_packets at 1 2 3. simpl. rewrite Hneg. simpl.
    rewrite <- app_assoc. reflexivity.
Qed.

Lemma EncodeFrame_output fuel self frame output_frame self' out' evs :
  EncodeFrame fuel self frame output_frame = Ret ((true, self', out'), evs) ->
  out' = Some (concat (received_packets evs)).
Proof.
  unfold EncodeFrame. intros H.
  step_in H. step_in H. subst.
  destruct ((avcodec_send_frame a frame).1 <? 0).
  { step_in H. discriminate. }
  step_in H. step_in H. destruct a2 as [[ok s] out].
  apply receive_packets_collects in Hstep. step_in H. simplify_eq.
  rewrite !received_packets_app. simpl. rewrite app_nil_r. reflexivity.
Qed.

Lemma Initialize_hands_over_no_packet self r evs :
  Initialize self = Ret (r, evs) -> received_packets evs = [].
Proof.
  intros H. apply no_packet_received.
  eapply (Initialize_emits no_packet); try exact H; simpl; auto.
Qed.

Lemma EncodeYUV420_output fuel self yuv_data output_frame self' out' evs :
  EncodeYUV420 fuel self yuv_data output_frame = Ret ((true, self', out'), evs) ->
  out' = Some (concat (received_packets evs)).
Proof.
  unfold EncodeYUV420. intros H.
  apply bind_Ret_inv in H as ([ready self0] & t1 & t2 & Hinit & H & ->).
  assert (Ht1 : received_packets t1 = []).
  { destruct (initialized_ self).
    - step_in Hinit. subst. reflexivity.
    - eapply Initialize_hands_over_no_packet; eauto. }
  rewrite received_packets_app, Ht1. simpl.
  destruct ready; simpl in H; [|step_in H; discriminate].
  destruct output_frame as [out0|]; [|step_in H; discriminate].
  destruct (negb _); [step_in H; discriminate|].
  step_in H. step_in H. subst.
  destruct ((av_frame_make_writable a).1 <? 0); [step_in H; discriminate|].
  unfold copy_to_plane in H. steps. subst.
  apply EncodeFrame_output in H. subst.
  rewrite !received_packets_app. simpl. reflexivity.
Qed.

Lemma Flush_output fuel self output_frame self' out' evs :
  Flush fuel self output_frame = Ret ((true, self', out'), evs) ->
  out' = Some (concat (received_packets evs)).
Proof.
  unfold Flush. destruct (negb _); intros H.
  - step_in H. discriminate.
  - eapply EncodeFrame_output; eauto.
Qed.

(** The receive loop asks the library until it refuses, and hands on what
    it was given. *)
Lemma receive_packets_drains fuel : forall r self out ok self' out' evs,
  receive_packets fuel r self out = Ret ((ok, self', out'), evs) ->
  0 <= r ->
  exists ctx last packets ctx',
    codec_ctx_ self = Some ctx
    /\ library_packets fuel ctx = Some (last, packets, ctx')
    /\ codec_ctx_ self' = Some ctx'
    /\ frame_ self' = frame_ self
    /\ out' = out ++ concat packets
    /\ (ok = true -> last = AVERROR_EAGAIN \/ last = AVERROR_EOF).
Proof.
  induction fuel as [|fuel IH]; intros r self out ok self' out' evs H Hr;
    cbn [receive_packets] in H;
    replace (r <? 0) with false in H by (symmetry; apply Z.ltb_ge; lia).
  - discriminate.
  - step_in H. step_in H. step_in H. subst.
    match goal with Hc : codec_ctx_ self = Some ?c |- _ => exists c end.
    cbn [library_packets].
    destruct (avcodec_receive_packet a) as [[r' data] ctx1].
    cbn [fst snd] in H |- *.
    destruct ((r' =? AVERROR_EAGAIN) || (r' =? AVERROR_EOF)) eqn:Hbreak.
    { assert (Hlast : r' = AVERROR_EAGAIN \/ r' = AVERROR_EOF).
      { apply orb_true_iff in Hbreak as [Hb|Hb]; apply Z.eqb_eq in Hb; auto. }
      assert (Hneg : (r' <? 0) = true) by (destruct Hlast as [->| ->]; reflexivity).
      rewrite Hneg. step_in H. simplify_eq.
      exists r', [], ctx1. cbn. rewrite app_nil_r. auto 10. }
    destruct (r' <? 0) eqn:Hneg.
    { step_in H. simplify_eq.
      exists r', [], ctx1. cbn. rewrite app_nil_r.
      repeat split; try reflexivity; try assumption. discriminate. }
    step_in H. rewrite resize_then_memcpy_appends in *. simplify_eq.
    step_in H. apply IH in H; [|apply Z.ltb_ge in Hneg; lia].
    destruct H as (ctx & last & packets & ctx' & Hctx & Hlib & Hctx' & Hframe & -> & Hok).
    cbn in Hctx. injection Hctx as <-. rewrite Hlib.
    exists last, (data :: packets), ctx'. cbn [concat].
    rewrite <- app_assoc. auto 10.
Qed.

Lemma EncodeFrame_drains fuel self frame output_frame self' out' evs :
  EncodeFrame fuel self frame output_frame = Ret ((true, self', out'), evs) ->
  exists ctx packets ctx',
    codec_ctx_ self = Some ctx
    /\ hands_out fuel ctx frame packets ctx'
    /\ codec_ctx_ self' = Some ctx'
    /\ frame_ self' = frame_ self
    /\ out' = Some (concat packets).
Proof.
  unfold EncodeFrame, hands_out. intros H.
  step_in H. step_in H. subst.
  destruct ((avcodec_send_frame a frame).1 <? 0) eqn:Hsent.
  { step_in H. discriminate. }
  apply Z.ltb_ge in Hsent.
  step_in H. step_in H. destruct a2 as [[ok s] out].
  step_in H. simplify_eq.
  apply receive_packets_drains in Hstep; [|exact Hsent].
  destruct Hstep as (ctx & last & packets & ctx' & Hctx & Hlib & Hctx' & Hframe & -> & Hok).
  cbn in Hctx. injection Hctx as <-. cbn in Hframe.
  exists a, packets, ctx'.
  split; [assumption|]. split; [split; [exact Hsent | exists last; auto]|].
  split; [exact Hctx'|]. split; [exact Hframe | reflexivity].
Qed.

Lemma EncodeYUV420_drains fuel self yuv_data output_frame self' out' evs :
  EncodeYUV420 fuel self yuv_data output_frame = Ret ((true, self', out'), evs) ->
  exists self0 ctx packets ctx',
    (if initialized_ self then self0 = self
     else exists tr, Initialize self = Ret ((true, self0), tr))
    /\ codec_ctx_ self0 = Some ctx
    /\ frame_ self' <> None
    /\ hands_out fuel ctx (frame_ self') packets ctx'
    /\ codec_ctx_ self' = Some ctx'
    /\ out' = Some (concat packets).
Proof.
  unfold EncodeYUV420. intros H.
  apply bind_Ret_inv in H as ([ready self0] & t1 & t2 & Hinit & H & ->).
  destruct ready; simpl in H; [|step_in H; discriminate].
  assert (Hself0 : if initialized_ self then self0 = self
                   else exists tr, Initialize self = Ret ((true, self0), tr)).
  { destruct (initialized_ self).
    - step_in Hinit. congruence.
    - eauto. }
  destruct output_frame as [out0|]; [|step_in H; discriminate].
  destruct (negb _); [step_in H; discriminate|].
  step_in H. step_in H. subst.
  destruct ((av_frame_make_writable a).1 <? 0); [step_in H; discriminate|].
  unfold copy_to_plane in H. steps. subst.
  apply EncodeFrame_drains in H
    as (ctx & packets & ctx' & Hctx & Hout & Hctx' & Hframe & ->).
  cbn in Hctx, Hframe. rewrite <- Hframe in Hout.
  exists self0, ctx, packets, ctx'.
  split; [exact Hself0|]. split; [exact Hctx|].
  split; [rewrite Hframe; discriminate|].
  split; [exact Hout|]. split; [exact Hctx'|reflexivity].
Qed.

Lemma Flush_drains fuel self output_frame self' out' evs :
  Flush fuel self output_frame = Ret ((true, self', out'), evs) ->
  exists ctx packets ctx',
    codec_ctx_ self = Some ctx
    /\ hands_out fuel ctx None packets ctx'
    /\ codec_ctx_ self' = Some ctx'
    /\ out' = Some (concat packets).
Proof.
  unfold Flush. destruct (negb _); intros H.
  - step_in H. discriminate.
  - apply EncodeFrame_drains in H
      as (ctx & packets & ctx' & Hctx & Hout & Hctx' & _ & ->). eauto 10.
Qed.

End H264EncoderInstanceOutput.

(** C3.  A successful [EncodeYUV420] or [Flush] of the software H.264
    encoder leaves in the output vector exactly the payloads of the packets
    the library handed over during the call, concatenated in the order they
    were received; what the vector held before the call is gone.  The
    packets are those [avcodec_receive_packet] hands out, asked again and
    again on the codec context [avcodec_send_frame] left, until it asks for
    more input or reports the end of the stream: for [EncodeYUV420] after
    the frame the encoder holds was sent to the context of the encoder
    (initialized by the call itself if it was not yet), for [Flush] after
    the null frame was sent. *)
Theorem h264_output_is_concatenation_of_received_packets `{L : FFmpeg}
    (fuel : nat) (self self' : H264EncoderInstance.t) (yuv_data : bytes)
    (output_frame out' : vector_ptr) (evs : trace) :
  (H264EncoderInstance.EncodeYUV420 fuel self yuv_data output_frame
     = Ret ((true, self', out'), evs) ->
   out' = Some (concat (received_packets evs))
   /\ exists self0 ctx packets ctx',
        (if H264EncoderInstance.initialized_ self then self0 = self
         else exists tr,
                H264EncoderInstance.Initialize self = Ret ((true, self0), tr))
        /\ H264EncoderInstance.codec_ctx_ self0 = Some ctx
        /\ H264EncoderInstance.frame_ self' <> None
        /\ hands_out fuel ctx (H264EncoderInstance.frame_ self') packets ctx'
        /\ H264EncoderInstance.codec_ctx_ self' = Some ctx'
        /\ out' = Some (concat packets))
  /\ (H264EncoderInstance.Flush fuel self output_frame
       = Ret ((true, self', out'), evs) ->
      out' = Some (concat (received_packets evs))
      /\ exists ctx packets ctx',
           H264EncoderInstance.codec_ctx_ self = Some ctx
           /\ hands_out fuel ctx None packets ctx'
           /\ H264EncoderInstance.codec_ctx_ self' = Some ctx'
           /\ out' = Some (concat packets)).
Proof.
  split; intros H.
  - split; [eapply EncodeYUV420_output; eauto | eapply EncodeYUV420_drains; eauto].
  - split; [eapply Flush_output; eauto | eapply Flush_drains; eauto].
Qed.

(** ** The software H.264 encoder: the input check *)

(** C9.  On an initialized software H.264 encoder configured for [w] x [h],
    [EncodeYUV420] given a null output pointer, or an input whose size is
    not the [expected_size] the code computes as [w * h * 3 / 2], returns
    [false] having made no library call and with the object, its frame
    counter included, unchanged; a call that does reach the library, or
    that moves the frame counter, was given a non-null output pointer and
    an input of exactly that size.  [expected_size] is [w * h * 3 / 2] in
    the integers whenever the product is within [int]. *)
Theorem h264_encode_rejects_wrong_size_without_side_effect `{L : FFmpeg}
    (fuel : nat) (self : H264EncoderInstance.t) (yuv_data : bytes)
    (output_frame : vector_ptr) :
  let c := H264EncoderInstance.config_ self in
  let w := H264EncoderConfig.width c in
  let h := H264EncoderConfig.height c in
  H264EncoderInstance.initialized_ self = true ->
  (output_frame = None
   \/ Z.of_nat (length yuv_data) <> H264EncoderInstance.expected_size c ->
   H264EncoderInstance.EncodeYUV420 fuel self yuv_data output_frame
   = Ret ((false, self, output_frame), []))
  /\ (forall r self' out' evs,
        H264EncoderInstance.EncodeYUV420 fuel self yuv_data output_frame
        = Ret ((r, self', out'), evs) ->
        evs <> [] \/ H264EncoderInstance.frame_count_ self'
                     <> H264EncoderInstance.frame_count_ self ->
        output_frame <> None
        /\ Z.of_nat (length yuv_data) = H264EncoderInstance.expected_size c)
  /\ (0 <= w -> 0 <= h -> w * h * 3 <= INT_MAX ->
      H264EncoderInstance.expected_size c = w * h * 3 / 2).
Proof.
  intros c w h Hinit.
  assert (Hreject :
    output_frame = None
    \/ Z.of_nat (length yuv_data) <> H264EncoderInstance.expected_size c ->
    H264EncoderInstance.EncodeYUV420 fuel self yuv_data output_frame
    = Ret ((false, self, output_frame), [])).
  { intros Hbad. unfold H264EncoderInstance.EncodeYUV420.
    rewrite Hinit, bind_pure. cbn [negb].
    destruct output_frame as [out|]; [|reflexivity].
    destruct Hbad as [Hbad|Hbad]; [discriminate|].
    apply Z.eqb_neq in Hbad. fold c. rewrite Hbad. reflexivity. }
  split; [exact Hreject|]. split.
  - intros r self' out' evs Hrun Hobs.
    destruct (decide (output_frame = None)) as [Hnull|Hnull].
    { rewrite Hreject in Hrun by auto. injection Hrun as <- <- <- <-.
      destruct Hobs as [Hobs|Hobs]; contradiction. }
    destruct (decide (Z.of_nat (length yuv_data)
                      = H264EncoderInstance.expected_size c)) as [Heq|Hne]; [auto|].
    rewrite Hreject in Hrun by auto. injection Hrun as <- <- <- <-.
    destruct Hobs as [Hobs|Hobs]; contradiction.
  - intros Hw Hh Hmax. unfold H264EncoderInstance.expected_size.
    apply frame_size_in_range; assumption.
Qed.

(** ** Raw buffers *)

Lemma read_at_Ret (buf : bytes) (i : nat) (b : byte) :
  read_at buf (Z.of_nat i) = Ret b <-> buf !! i = Some b.
Proof.
  unfold read_at.
  replace (Z.of_nat i <? 0) with false by (symmetry; apply Z.ltb_ge; lia).
  rewrite Nat2Z.id. destruct (buf !! i); split; intros H; simplify_eq; reflexivity.
Qed.

Lemma write_at_Ret (buf buf' : bytes) (i : nat) (b : byte) :
  write_at buf (Z.of_nat i) b = Ret buf' ->
  (i < length buf)%nat /\ buf' = <[i := b]> buf.
Proof.
  unfold write_at. rewrite Nat2Z.id.
  destruct (Z.of_nat i <? Z.of_nat (length buf)) eqn:Hlt.
  - replace (0 <=? Z.of_nat i) with true by (symmetry; apply Z.leb_le; lia).
    simpl. intros [= <-]. apply Z.ltb_lt in Hlt. split; [lia | reflexivity].
  - rewrite andb_false_r. discriminate.
Qed.

Lemma memcpy_Ret (dst src dst' : bytes) (src_off n : Z) :
  memcpy dst 0 src src_off n = Ret dst' ->
  0 <= n /\ 0 <= src_off
  /\ (Z.to_nat src_off + Z.to_nat n <= length src)%nat
  /\ (Z.to_nat n <= length dst)%nat
  /\ dst' = take (Z.to_nat n) (drop (Z.to_nat src_off) src) ++ drop (Z.to_nat n) dst.
Proof.
  unfold memcpy.
  destruct (n <? 0) eqn:Hn; [discriminate|].
  change (0 <? 0) with false. cbn [orb].
  destruct (src_off <? 0) eqn:Hs; [discriminate|].
  apply Z.ltb_ge in Hn, Hs. change (Z.to_nat 0) with 0%nat. cbn [Nat.add].
  destruct (Z.to_nat src_off + Z.to_nat n <=? length src)%nat eqn:H1; [|discriminate].
  destruct (Z.to_nat n <=? length dst)%nat eqn:H2; [|discriminate].
  cbn [andb]. intros [= <-].
  apply Nat.leb_le in H1, H2. auto 6.
Qed.

(** ** Interleaving *)

Lemma interleaved_length (u v : bytes) :
  length u = length v -> length (interleaved u v) = (2 * length u)%nat.
Proof.
  revert v. induction u as [|a u IH]; intros [|b v] Hlen; simpl in *; try lia.
  rewrite IH by lia. lia.
Qed.

Lemma interleaved_lookup (u v : bytes) (k : nat) :
  length u = length v ->
  interleaved u v !! (2 * k)%nat = u !! k
  /\ interleaved u v !! (2 * k + 1)%nat = v !! k.
Proof.
  revert v k. induction u as [|a u IH]; intros [|b v] k Hlen;
    cbn [length] in Hlen; try lia.
  - split; reflexivity.
  - destruct k as [|k]; [split; reflexivity|].
    replace (2 * S k)%nat with (S (S (2 * k))) by lia.
    replace (S (S (2 * k)) + 1)%nat with (S (S (2 * k + 1))) by lia.
    exact (IH v k ltac:(lia)).
Qed.

(** Each sample of either plane occurs once in the interleaved plane. *)
Lemma interleaved_Permutation (u v : bytes) :
  length u = length v -> interleaved u v ≡ₚ u ++ v.
Proof.
  revert v. induction u as [|a u IH]; intros [|b v] Hlen; simpl in *; try lia.
  - reflexivity.
  - constructor. rewrite IH by lia. apply Permutation_middle.
Qed.

Section Interleave.
Context `{L : FFmpeg}.

Import NvidiaHEVCEncoder.

(** The loop, started at index [k] with [n] iterations to go, rewrites
    exactly the bytes [2k .. 2(k+n)) of the chroma plane, with the [n]
    samples of [U] and of [V] from index [k] on, interleaved. *)
Lemma interleave_uv_spec (n : nat) : forall (k : nat) (input : bytes) (uo vo : nat)
    (uv uv' : bytes),
  interleave_uv n (Z.of_nat k) input (Z.of_nat uo) (Z.of_nat vo) uv = Ret uv' ->
  (n = 0%nat
   \/ (uo + k + n <= length input /\ vo + k + n <= length input
       /\ 2 * (k + n) <= length uv)%nat)
  /\ uv' = take (2 * k) uv
           ++ interleaved (take n (drop (uo + k) input)) (take n (drop (vo + k) input))
           ++ drop (2 * (k + n)) uv.
Proof.
  induction n as [|n IH]; intros k input uo vo uv uv' H; cbn [interleave_uv] in H.
  - injection H as <-. split; [auto|].
    rewrite !take_0. cbn [interleaved app]. rewrite Nat.add_0_r.
    symmetry. apply take_drop.
  - destruct (read_at input (Z.of_nat uo + Z.of_nat k)) as [u| |] eqn:Hu;
      cbn [outcome_bind] in H; try discriminate.
    rewrite <- Nat2Z.inj_add in Hu. apply read_at_Ret in Hu.
    replace (Z.of_nat k * 2) with (Z.of_nat (2 * k)) in H by lia.
    destruct (write_at uv (Z.of_nat (2 * k)) u) as [uv1| |] eqn:Hw1;
      cbn [outcome_bind] in H; try discriminate.
    apply write_at_Ret in Hw1 as [Hlt1 ->].
    destruct (read_at input (Z.of_nat vo + Z.of_nat k)) as [v| |] eqn:Hv;
      cbn [outcome_bind] in H; try discriminate.
    rewrite <- Nat2Z.inj_add in Hv. apply read_at_Ret in Hv.
    replace (Z.of_nat (2 * k) + 1) with (Z.of_nat (2 * k + 1)) in H by lia.
    destruct (write_at (<[(2 * k)%nat := u]> uv) (Z.of_nat (2 * k + 1)) v)
      as [uv2| |] eqn:Hw2; cbn [outcome_bind] in H; try discriminate.
    apply write_at_Ret in Hw2 as [Hlt2 ->]. rewrite length_insert in Hlt2.
    replace (Z.of_nat k + 1) with (Z.of_nat (S k)) in H by lia.
    apply IH in H as (Hlen & ->).
    rewrite !length_insert in Hlen.
    pose proof (lookup_lt_Some _ _ _ Hu) as Hub.
    pose proof (lookup_lt_Some _ _ _ Hv) as Hvb.
    split; [right; lia|].
    rewrite (drop_S _ _ _ Hu), (drop_S _ _ _ Hv).
    rewrite !firstn_cons. cbn [interleaved].
    replace (2 * S k)%nat with (S (S (2 * k))) by lia.
    rewrite (take_S_r _ _ v)
      by (replace (S (2 * k)) with (2 * k + 1)%nat by lia;
          apply list_lookup_insert_eq; rewrite length_insert; lia).
    rewrite take_insert_ge by lia.
    rewrite (take_S_r _ _ u) by (apply list_lookup_insert_eq; lia).
    rewrite take_insert_ge by lia.
    rewrite !drop_insert_lt by lia.
    replace (2 * (S k + n))%nat with (2 * (k + S n))%nat by lia.
    replace (uo + S k)%nat with (S (uo + k)) by lia.
    replace (vo + S k)%nat with (S (vo + k)) by lia.
    rewrite <- !app_assoc. reflexivity.
Qed.


End Interleave.

(** ** The NVIDIA HEVC encoder: the frame it submits *)

Lemma int_div_in_range (y d : Z) :
  0 <= y <= INT_MAX -> 0 < d -> int_div y d = y / d.
Proof.
  intros Hy Hd. unfold int_div. rewrite Z.quot_div_nonneg by lia.
  apply wrap_int_in_range. unfold INT_MIN, INT_MAX in *.
  split; [apply Z.le_trans with 0; [lia | apply Z.div_pos; lia]|].
  apply Z.le_trans with y; [|lia]. apply Z.div_le_upper_bound; nia.
Qed.

(** What the conversion writes, in terms of the two buffers it starts from. *)
Lemma interleave_from_start `{L : FFmpeg} (q n : nat) (input uv uv' : bytes) :
  NvidiaHEVCEncoder.interleave_uv q 0 input (Z.of_nat n) (Z.of_nat (n + q)) uv = Ret uv' ->
  (n <= length input)%nat ->
  let U := take q (drop n input) in
  let V := take q (drop (n + q) input) in
  (n + 2 * q <= length input)%nat /\ (2 * q <= length uv')%nat
  /\ length U = q /\ length V = q
  /\ take (2 * q) uv' = interleaved U V.
Proof.
  intros H Hn U V. change 0 with (Z.of_nat 0) in H.
  apply interleave_uv_spec in H as (Hb & ->).
  rewrite !Nat.add_0_r in *. rewrite take_0. cbn [app]. fold U V.
  assert (Hq : q = 0%nat \/ (n + 2 * q <= length input /\ 2 * q <= length uv)%nat).
  { destruct Hb as [->|(? & ? & ?)]; [left; reflexivity | right; lia]. }
  assert (HU : length U = q).
  { unfold U. rewrite length_take, length_drop. destruct Hq as [->|[? ?]]; lia. }
  assert (HV : length V = q).
  { unfold V. rewrite length_take, length_drop. destruct Hq as [->|[? ?]]; lia. }
  assert (HI : length (interleaved U V) = (2 * q)%nat).
  { rewrite interleaved_length by lia. lia. }
  split; [destruct Hq as [->|[? ?]]; lia|].
  split; [rewrite length_app, HI; lia|].
  split; [exact HU|]. split; [exact HV|].
  rewrite <- HI. apply take_app_length.
Qed.

Section NvidiaHEVCEncodeFrame.
Context `{L : FFmpeg}.

Import NvidiaHEVCEncoder.

(** The frame after the copy of the luma plane and the interleaving loop. *)
Lemma converted_frame_carries_nv12 (n q : nat) (frame_data : bytes) (frame0 : AVFrame)
    (Y0 Y UV0 UV : bytes) (pts : Z) :
  frame_planes frame0 !! 0%nat = Some Y0 ->
  memcpy Y0 0 frame_data 0 (Z.of_nat n) = Ret Y ->
  frame_planes (set_plane frame0 0 Y) !! 1%nat = Some UV0 ->
  interleave_uv q 0 frame_data (Z.of_nat n) (Z.of_nat n + Z.of_nat q) UV0 = Ret UV ->
  carries_as_nv12 n q frame_data (set_pts (set_plane (set_plane frame0 0 Y) 1 UV) pts).
Proof.
  intros H0 Hy H1 Huv.
  apply memcpy_Ret in Hy as (_ & _ & Hin & Hlen & ->).
  rewrite Nat2Z.id in *. change (Z.to_nat 0) with 0%nat in *.
  rewrite drop_0 in *. cbn [Nat.add] in Hin.
  cbn [frame_planes set_plane] in H1.
  rewrite <- Nat2Z.inj_add in Huv.
  apply interleave_from_start in Huv as (Hbound & Hlen' & HU & HV & Htake);
    [|exact Hin].
  cbv zeta in HU, HV, Htake.
  set (Y := take n frame_data ++ drop n Y0) in *.
  exists Y, UV. cbn [frame_planes set_pts set_plane].
  split.
  { rewrite list_lookup_insert_ne by lia.
    apply list_lookup_insert_eq. apply lookup_lt_Some in H0. exact H0. }
  split.
  { apply list_lookup_insert_eq. apply lookup_lt_Some in H1. exact H1. }
  split; [exact Hbound|].
  split; [unfold Y; rewrite length_app, length_take, length_drop; lia|].
  split; [exact Hlen'|].
  split; [unfold Y; rewrite take_app_length'; [reflexivity | rewrite length_take; lia]|].
  split.
  { intros i Hi.
    assert (Hl : UV !! (2 * i)%nat = take (2 * q) UV !! (2 * i)%nat
                 /\ UV !! (2 * i + 1)%nat = take (2 * q) UV !! (2 * i + 1)%nat).
    { rewrite !lookup_take_lt by lia. auto. }
    destruct Hl as [-> ->]. rewrite Htake.
    destruct (interleaved_lookup (take q (drop n frame_data))
                (take q (drop (n + q) frame_data)) i ltac:(lia)) as [-> ->].
    rewrite !lookup_take_lt, !lookup_drop by lia.
    split; [reflexivity|]. split; [reflexivity|].
    split; apply lookup_lt_is_Some; lia. }
  split; [exact Htake|].
  rewrite Htake. apply interleaved_Permutation. lia.
Qed.

(** C4.  [EncodeFrame] on planar YUV420 input for a [w] x [h] encoder whose
    codec context asks for NV12 ([w * h] within [int]): unless
    [av_frame_make_writable] fails, in which case nothing is submitted and
    the call returns [false], exactly one frame is handed to
    [avcodec_send_frame], and it carries the input in NV12 layout: the
    first [w * h] input bytes open plane 0, and plane 1 opens with
    [U[0] V[0] U[1] V[1] ...] for [U] the [w * h / 4] input bytes from
    offset [w * h] and [V] the [w * h / 4] bytes after them, each sample of
    [U] and [V] once. *)
Theorem nvidia_hevc_yuv420_submitted_as_nv12 (self : t) (ctx : AVCodecContext Priv)
    (frame_data : bytes) (encoded_frame : vector_ptr)
    (res : bool * t * vector_ptr) (evs : trace) :
  let w := width_ self in
  let h := height_ self in
  y_plane_size_ self = int_mul w h ->
  0 <= w * h <= INT_MAX ->
  codec_context_ self = Some ctx ->
  ctx_pix_fmt ctx = AV_PIX_FMT_NV12 ->
  EncodeFrame self frame_data encoded_frame false = Ret (res, evs) ->
  (submitted_frames evs = [] /\ res.1.1 = false)
  \/ exists frame,
       submitted_frames evs = [Some frame]
       /\ carries_as_nv12 (Z.to_nat (w * h)) (Z.to_nat (w * h / 4)) frame_data frame.
Proof.
  intros w h Hy Hrange Hctx Hfmt Hrun.
  set (n := Z.to_nat (w * h)). set (q := Z.to_nat (w * h / 4)).
  assert (Hy' : y_plane_size_ self = Z.of_nat n).
  { rewrite Hy. unfold int_mul.
    rewrite wrap_int_in_range by (unfold INT_MIN; lia). unfold n. lia. }
  assert (Hq' : int_div (y_plane_size_ self) 4 = Z.of_nat q).
  { rewrite Hy, int_div_in_range.
    - unfold int_mul. rewrite wrap_int_in_range by (unfold INT_MIN; lia).
      unfold q. rewrite Z2Nat.id; [reflexivity | apply Z.div_pos; lia].
    - unfold int_mul. rewrite wrap_int_in_range by (unfold INT_MIN; lia). lia.
    - lia. }
  unfold EncodeFrame in Hrun.
  apply bind_Ret_inv in Hrun as (out0 & t1 & t2 & Hderef & Hrun & ->).
  apply deref_inv in Hderef as [_ ->].
  apply bind_Ret_inv in Hrun as (frame0 & t1 & t3 & Hderef & Hrun & ->).
  apply deref_inv in Hderef as [Hframe ->].
  apply bind_Ret_inv in Hrun as ([] & t1 & t4 & Hemit & Hrun & ->).
  apply emit_inv in Hemit as ->.
  destruct ((av_frame_make_writable frame0).1 <? 0) eqn:Hwritable.
  { left. apply pure_inv in Hrun as [-> ->]. split; reflexivity. }
  right.
  cbn [codec_context_ with_handles] in Hrun. rewrite Hctx in Hrun.
  cbn [deref] in Hrun. rewrite bind_pure in Hrun.
  apply bind_Ret_inv in Hrun as (frame1 & t1 & t5 & Hcopy & Hrun & ->).
  unfold copy_frame_data in Hcopy.
  cbn [y_plane_size_ with_handles] in Hcopy.
  rewrite Hfmt in Hcopy.
  destruct (decide (AV_PIX_FMT_NV12 = AV_PIX_FMT_NV12)) as [_|Hne];
    [|contradiction].
  unfold copy_to_plane in Hcopy. rewrite Hq', Hy' in Hcopy.
  apply bind_Ret_inv in Hcopy as (frame2 & t6 & t7 & Hluma & Hcopy & ->).
  apply bind_Ret_inv in Hluma as (Y0 & t8 & t9 & HY0 & Hluma & ->).
  apply deref_inv in HY0 as [HY0 ->].
  apply bind_Ret_inv in Hluma as (Y & t8 & t10 & HY & Hluma & ->).
  apply lift_inv in HY as [HY ->].
  apply pure_inv in Hluma as [-> ->].
  apply bind_Ret_inv in Hcopy as (UV0 & t8 & t11 & HUV0 & Hcopy & ->).
  apply deref_inv in HUV0 as [HUV0 ->].
  apply bind_Ret_inv in Hcopy as (UV & t8 & t12 & HUV & Hcopy & ->).
  apply lift_inv in HUV as [HUV ->].
  apply pure_inv in Hcopy as [-> ->].
  rewrite Nat2Z.id in HUV.
  pose proof (converted_frame_carries_nv12 n q frame_data _ _ _ _ _
                (pts_ self) HY0 HY HUV0 HUV) as Hcarries.
  cbn [pts_ with_handles] in Hrun.
  eexists. split; [|exact Hcarries].
  apply bind_Ret_inv in Hrun as ([] & t13 & t14 & Hsend & Hrun & ->).
  apply emit_inv in Hsend as ->.
  assert (Hrest : submitted_frames t14 = []).
  { destruct (_ <? 0) in Hrun; [apply pure_inv in Hrun as [_ ->]; reflexivity|].
    cbn [packet_ with_handles] in Hrun.
    apply bind_Ret_inv in Hrun as (pkt & t15 & t16 & Hpkt & Hrun & ->).
    apply deref_inv in Hpkt as [_ ->].
    apply bind_Ret_inv in Hrun as ([] & t17 & t18 & Hrecv & Hrun & ->).
    apply emit_inv in Hrecv as ->.
    destruct (_ <? 0) in Hrun.
    - destruct (_ || _) in Hrun; apply pure_inv in Hrun as [_ ->]; reflexivity.
    - steps. subst. reflexivity. }
  rewrite !submitted_frames_app, Hrest. reflexivity.
Qed.

End NvidiaHEVCEncodeFrame.

(** ** The Opus encoder: the resampler set-up *)

(** Run a program whose branches have been decided. *)
Ltac run_in H :=
  cbv [bind pure emit deref lift called undefined out_of_fuel free_if_set
       outcome_bind is_null negb andb orb app] in H.

Ltac run :=
  cbv [bind pure emit deref lift called undefined out_of_fuel free_if_set
       outcome_bind is_null negb andb orb app].

Section OpusResampler.
Context `{L : FFmpeg} `{R : Swresample}.

Import OPUSEncoderImpl.

(** The path of [InitializeResampler] past the reuse test, once
    [swr_alloc] has been decided: with a context the options are set and
    [swr_init] decides the result; without one the call fails at once. *)
Ltac fresh_set_up H Halloc :=
  match type of Halloc with
  | swr_alloc = Some _ =>
      let context := fresh "context" in
      let Hcontext := fresh "Hcontext" in
      destruct (context_ _) as [context|] eqn:Hcontext;
        [|destruct new_channel_layout_api; run_in H; discriminate];
      destruct new_channel_layout_api;
        (run_in H;
         match type of H with
         | context [swr_init ?s] =>
             let ret := fresh "ret" in
             let Hret := fresh "Hret" in
             destruct (swr_init s) as [ret ?];
             cbn [fst snd] in H;
             destruct (ret <? 0) eqn:Hret; injection H as <- <- <-;
             (split; [intros _ _; exists context; split; reflexivity|]);
             (split;
              [let Hin := fresh "Hin" in
               intros ? Hin ?; cbn [In] in Hin;
               repeat (destruct Hin as [Hin|Hin]; try discriminate Hin);
               try contradiction;
               injection Hin as <-;
               first [ split; reflexivity
                     | apply Z.ltb_ge in Hret; lia ]
              |]);
             (let Hr := fresh "Hr" in intros Hr; try discriminate Hr);
             (split; [discriminate|]);
             cbn [swr_ctx_ last_input_format_ with_resampler is_null negb andb];
             rewrite bool_decide_eq_true_2 by reflexivity; reflexivity
         end)
  | swr_alloc = None =>
      run_in H; injection H as <- <- <-;
      (split; [intros _ ?; contradiction|]);
      (split; [let Hin := fresh "Hin" in
               intros ? Hin; cbn [In] in Hin;
               repeat (destruct Hin as [Hin|Hin]; try discriminate Hin);
               contradiction|]);
      discriminate
  end.

(** A call of [InitializeResampler] for the input format [fmt] that
    returns:
    - if it sets a resampler up (no resampler yet, or the last one was for
      another format, and [swr_alloc] succeeds), the options it sets are
      those of a pure sample-format conversion: both channel layouts from
      [config_.channels], both sample rates [config_.sample_rate], input
      format [fmt], output format the codec context's;
    - if [swr_init] fails, the call returns [false] and the encoder is left
      without a resampler context;
    - if it returns [true], a repeated call with the same format returns
      [true] at once: no library call, the object unchanged. *)
Lemma InitializeResampler_options_and_reuse (self self' : t) (fmt : AVSampleFormat)
    (packed r : bool) (evs : trace) :
  InitializeResampler self fmt packed = Ret ((r, self'), evs) ->
  (swr_ctx_ self = None \/ last_input_format_ self <> fmt ->
   swr_alloc <> None ->
   exists context,
     context_ self = Some context
     /\ resampler_options evs
        = format_conversion_only (OPUSEncoderConfig.channels (config_ self))
            (OPUSEncoderConfig.sample_rate (config_ self)) fmt (ctx_sample_fmt context))
  /\ (forall ret, In (E_swr_init ret) evs -> ret < 0 ->
      r = false /\ swr_ctx_ self' = None)
  /\ (r = true ->
      swr_ctx_ self' <> None
      /\ InitializeResampler self' fmt packed = Ret ((true, self'), [])).
Proof.
  unfold InitializeResampler, format_conversion_only, set_channel_layout, set_int,
    set_sample_fmt.
  intros H.
  destruct (swr_ctx_ self) as [old|] eqn:Hold;
    [destruct (bool_decide (last_input_format_ self = fmt)) eqn:Hsame|].
  - (* reuse *)
    apply bool_decide_eq_true in Hsame.
    run_in H. injection H as <- <- <-.
    split; [intros [Hnone|Hne]; [discriminate | contradiction]|].
    split; [intros ret []|].
    intros _. split; [rewrite Hold; discriminate|].
    rewrite Hold. cbn [is_null negb andb].
    rewrite bool_decide_eq_true_2 by exact Hsame. reflexivity.
  - apply bool_decide_eq_false in Hsame.
    destruct swr_alloc as [swr|] eqn:Halloc.
    + fresh_set_up H Halloc.
    + fresh_set_up H Halloc.
  - destruct swr_alloc as [swr|] eqn:Halloc.
    + fresh_set_up H Halloc.
    + fresh_set_up H Halloc.
Qed.

End OpusResampler.

(** ** ImageUtils *)

(** The size-based answers of [DetectFormat] need data and positive
    dimensions. *)
Lemma DetectFormat_planar (data : bytes) (width height : Z) (f : ImageFormat.t) :
  ImageUtils.DetectFormat data width height = f ->
  f = ImageFormat.NV12 \/ f = ImageFormat.YUV420P ->
  (Z.of_nat (length data) =? 0) = false /\ (width <=? 0) = false /\ (height <=? 0) = false.
Proof.
  unfold ImageUtils.DetectFormat. intros H Hf.
  destruct (Z.of_nat (length data) =? 0); [destruct Hf; congruence|].
  destruct (_ && _ && _ && _ && _); [destruct Hf; congruence|].
  destruct (_ && _ && _); [destruct Hf; congruence|].
  destruct (0 <? width) eqn:Hw; [|destruct Hf; simpl in H; congruence].
  destruct (0 <? height) eqn:Hh; [|destruct Hf; simpl in H; congruence].
  apply Z.ltb_lt in Hw, Hh.
  repeat split; try reflexivity; apply Z.leb_gt; lia.
Qed.

Section ImageUtilsFacts.
Context `{L : FFmpeg} `{S : Swscale}.

Import ImageUtils.

Lemma ConvertFormat_keeps_initialized (self self' : t) input_data output_data
    output' target_format width height (r : bool) :
  ConvertFormat self input_data output_data target_format width height
  = Ret (r, self', output') ->
  initialized_ self' = initialized_ self.
Proof.
  unfold ConvertFormat.
  repeat first
    [ intros [= <- <- <-]; reflexivity
    | discriminate
    | match goal with
      | |- context [match ?x with _ => _ end] => destruct x eqn:?
      end
    | progress unfold outcome_bind ].
Qed.

(** The constructor sets [initialized_], and no conversion clears it. *)
Lemma after_keeps_initialized (history : list call) : forall self self',
  after history self = Some self' -> initialized_ self' = initialized_ self.
Proof.
  induction history as [|c history IH]; intros self self' H; cbn [after] in H.
  - injection H as <-. reflexivity.
  - destruct c as [i o w h|i o w h];
      [destruct (ConvertToNV12 self i o w h) as [[[r s] out]| |] eqn:Hcall
      |destruct (ConvertToYUV420 self i o w h) as [[[r s] out]| |] eqn:Hcall];
      try discriminate;
      apply ConvertFormat_keeps_initialized in Hcall;
      apply IH in H; congruence.
Qed.

Lemma same_format_is_copied (self : t) (input_data output_data : bytes)
    (target_format : ImageFormat.t) (width height : Z) :
  initialized_ self = true ->
  target_format = ImageFormat.NV12 \/ target_format = ImageFormat.YUV420P ->
  DetectFormat input_data width height = target_format ->
  ConvertFormat self input_data output_data target_format width height
  = Ret (true, self, input_data).
Proof.
  intros Hinit Htarget Hdetect.
  destruct (DetectFormat_planar _ _ _ _ Hdetect Htarget) as (Hne & Hw & Hh).
  unfold ConvertFormat. rewrite Hinit, Hne, Hdetect, Hw, Hh.
  destruct Htarget as [-> | ->]; reflexivity.
Qed.

(** Any target other than NV12 and YUV420P leaves by the default branch of
    the second switch, whatever the input. *)
Lemma other_target_is_rejected (self : t) (input_data output_data : bytes)
    (target_format : ImageFormat.t) (width height : Z) :
  target_format <> ImageFormat.NV12 -> target_format <> ImageFormat.YUV420P ->
  ConvertFormat self input_data output_data target_format width height
  = Ret (false, self, output_data).
Proof.
  intros Hnv12 Hyuv. unfold ConvertFormat.
  destruct (negb _ || _); [reflexivity|].
  destruct (bool_decide _); [reflexivity|].
  destruct (_ && _); [reflexivity|].
  destruct (source_pixel_format _); [|reflexivity].
  destruct target_format; try reflexivity; contradiction.
Qed.

(** C10.  On every [ImageUtils] object (a constructed one, after any calls
    of its public methods): when [DetectFormat] on the input, with the given
    width and height, returns the requested target format, [ConvertFormat],
    and so [ConvertToNV12] and [ConvertToYUV420], returns [true] and the
    output vector is the input vector, byte for byte; the object, its
    scaling context included, is as before, so nothing was converted.  The
    requested target is NV12 or YUV420P: [ConvertFormat] is private and
    these are the targets its two callers pass.  (Handed any other target it
    would return [false] and leave the output vector as it was.) *)
Theorem convert_to_detected_format_copies_input (history : list call) (self : t)
    (input_data output_data : bytes) (width height : Z) :
  after history new = Some self ->
  (forall target_format,
     target_format = ImageFormat.NV12 \/ target_format = ImageFormat.YUV420P ->
     DetectFormat input_data width height = target_format ->
     ConvertFormat self input_data output_data target_format width height
     = Ret (true, self, input_data))
  /\ (DetectFormat input_data width height = ImageFormat.NV12 ->
      ConvertToNV12 self input_data output_data width height
      = Ret (true, self, input_data))
  /\ (DetectFormat input_data width height = ImageFormat.YUV420P ->
      ConvertToYUV420 self input_data output_data width height
      = Ret (true, self, input_data))
  /\ (forall target_format,
        target_format <> ImageFormat.NV12 -> target_format <> ImageFormat.YUV420P ->
        ConvertFormat self input_data output_data target_format width height
        = Ret (false, self, output_data)).
Proof.
  intros Hafter.
  assert (Hinit : initialized_ self = true)
    by (rewrite (after_keeps_initialized _ _ _ Hafter); reflexivity).
  split; [|split; [|split]].
  - intros target. apply same_format_is_copied. exact Hinit.
  - apply same_format_is_copied; auto.
  - apply same_format_is_copied; auto.
  - intros target. apply other_target_is_rejected.
Qed.

Section CachedContext.
(** What libswscale documents for [sws_getCachedContext]: without a context
    it is [sws_getContext]; a context with the requested parameters is
    returned as it is; any other is freed and replaced by what
    [sws_getContext] returns.  And a context carries the parameters it was
    created with. *)
Hypothesis cached_null : forall p, sws_getCachedContext None p = sws_getContext p.
Hypothesis cached_hit :
  forall c p, sws_params c = p -> sws_getCachedContext (Some c) p = Some c.
Hypothesis cached_miss :
  forall c p, sws_params c <> p -> sws_getCachedContext (Some c) p = sws_getContext p.
Hypothesis created_params : forall p c, sws_getContext p = Some c -> sws_params c = p.

Lemma cached_context_is_fresh (self : t) (p : SwsParams) :
  context_is_fresh self -> sws_getCachedContext (ctx_ self) p = sws_getContext p.
Proof.
  unfold context_is_fresh. destruct (ctx_ self) as [c|]; intros Hfresh.
  - destruct (decide (sws_params c = p)) as [<-|Hne].
    + rewrite cached_hit by reflexivity. symmetry. exact Hfresh.
    + apply cached_miss. exact Hne.
  - apply cached_null.
Qed.

Lemma fresh_after_lookup (self : t) (p : SwsParams) :
  context_is_fresh self ->
  context_is_fresh
    {| initialized_ := initialized_ self; ctx_ := sws_getCachedContext (ctx_ self) p |}.
Proof.
  intros Hfresh. unfold context_is_fresh. cbn [ctx_].
  rewrite cached_context_is_fresh by exact Hfresh.
  destruct (sws_getContext p) as [c|] eqn:Hc; [|exact I].
  rewrite (created_params _ _ Hc). exact Hc.
Qed.

Lemma ConvertFormat_keeps_invariant (self self' : t) input_data output_data
    output' target_format width height (r : bool) :
  context_is_fresh self ->
  ConvertFormat self input_data output_data target_format width height
  = Ret (r, self', output') ->
  context_is_fresh self' /\ initialized_ self' = initialized_ self.
Proof.
  intros Hfresh. unfold ConvertFormat.
  pose proof (fresh_after_lookup self) as Hnext.
  repeat first
    [ intros [= <- <- <-]; split; [|reflexivity];
      first [ exact Hfresh
            | apply Hnext; exact Hfresh
            | match goal with
              | E : sws_getCachedContext _ _ = _ |- _ =>
                  rewrite <- E; apply Hnext; exact Hfresh
              end ]
    | discriminate
    | match goal with
      | |- context [match ?x with _ => _ end] => destruct x eqn:?
      end
    | progress unfold outcome_bind ].
Qed.

Lemma after_keeps_invariant (history : list call) : forall self self',
  context_is_fresh self -> after history self = Some self' ->
  context_is_fresh self' /\ initialized_ self' = initialized_ self.
Proof.
  induction history as [|c history IH]; intros self self' Hfresh H; cbn [after] in H.
  - injection H as <-. auto.
  - destruct c as [i o w h|i o w h];
      [destruct (ConvertToNV12 self i o w h) as [[[r s] out]| |] eqn:Hcall
      |destruct (ConvertToYUV420 self i o w h) as [[[r s] out]| |] eqn:Hcall];
      try discriminate;
      apply ConvertFormat_keeps_invariant in Hcall as [Hs Hi]; try exact Hfresh;
      apply IH in H as [Hs' Hi']; try exact Hs; split; congruence.
Qed.

(** Two objects that differ in the retained context only give the same
    result and the same output vector. *)
Lemma ConvertFormat_ignores_retained_context (s1 s2 : t) input_data output_data
    target_format width height :
  context_is_fresh s1 -> context_is_fresh s2 ->
  initialized_ s1 = initialized_ s2 ->
  observed (ConvertFormat s1 input_data output_data target_format width height)
  = observed (ConvertFormat s2 input_data output_data target_format width height).
Proof.
  intros H1 H2 Hinit. unfold ConvertFormat.
  rewrite Hinit. cbv zeta.
  repeat first
    [ reflexivity
    | rewrite (cached_context_is_fresh s1) by assumption
    | rewrite (cached_context_is_fresh s2) by assumption
    | match goal with
      | |- context [if ?b then _ else _] => destruct b
      | |- context [match ?x with _ => _ end] => destruct x eqn:?
      end
    | progress unfold outcome_bind ].
Qed.


End CachedContext.
End ImageUtilsFacts.

Lemma convert_to_detected_format_copies_input_witness :
  ImageUtils.after (L := ToyLibrary.library) (S := ToyLibrary.swscale) [] ImageUtils.new = Some ImageUtils.new
  /\ ImageUtils.DetectFormat (take 6 ToyLibrary.rgb_2x2) 2 2 = ImageFormat.NV12
  /\ ImageUtils.ConvertToNV12 (L := ToyLibrary.library) (S := ToyLibrary.swscale) ImageUtils.new
       (take 6 ToyLibrary.rgb_2x2) [] 2 2
     = Ret (true, ImageUtils.new, take 6 ToyLibrary.rgb_2x2).
Proof.
  split; [reflexivity|]. split; [reflexivity|].
  apply (convert_to_detected_format_copies_input (L := ToyLibrary.library) (S := ToyLibrary.swscale)
           [] ImageUtils.new (take 6 ToyLibrary.rgb_2x2) [] 2 2 eq_refl).
  reflexivity.
Defined.


(** The toy scaler follows the documented contract. *)
Lemma toy_cached_hit (c p : SwsParams) :
  c = p -> sws_getCachedContext (Swscale := ToyLibrary.swscale) (Some c) p = Some c.
Proof. intros ->. cbn. destruct (decide (p = p)); congruence. Qed.

Lemma toy_cached_miss (c p : SwsParams) :
  c <> p -> sws_getCachedContext (Swscale := ToyLibrary.swscale) (Some c) p = Some p.
Proof. intros Hne. cbn. destruct (decide (c = p)); congruence. Qed.

Lemma toy_created_params (p c : SwsParams) : Some p = Some c -> c = p.
Proof. congruence. Qed.


(** ** Programs that return *)

Section Returns.

Lemma returns_pure {A} (Q : A -> Prop) (a : A) : Q a -> returns Q (pure a).
Proof. intros H. exists a, []. split; [reflexivity | exact H]. Qed.

Lemma returns_emit (Q : unit -> Prop) (e : Event) : Q tt -> returns Q (emit e).
Proof. intros H. exists tt, [e]. split; [reflexivity | exact H]. Qed.

Lemma returns_called {A} (Q : A -> Prop) (r : A * trace) :
  Q (fst r) -> returns Q (called r).
Proof. intros H. destruct r as [a tr]. exists a, tr. split; [reflexivity | exact H]. Qed.

Lemma returns_bind {A B} (Q1 : A -> Prop) (Q2 : B -> Prop) (m : M A) (f : A -> M B) :
  returns Q1 m -> (forall a, Q1 a -> returns Q2 (f a)) -> returns Q2 (bind m f).
Proof.
  intros (a & t1 & Hm & Ha) Hf.
  destruct (Hf a Ha) as (b & t2 & Hk & Hb).
  exists b, (t1 ++ t2). split; [|exact Hb].
  unfold bind. rewrite Hm, Hk. reflexivity.
Qed.

Lemma returns_then {A B} (Q : B -> Prop) (m : M A) (f : A -> M B) :
  returns (fun _ => True) m -> (forall a, returns Q (f a)) -> returns Q (bind m f).
Proof. intros Hm Hf. apply (returns_bind (fun _ => True)); auto. Qed.

Lemma returns_weaken {A} (Q1 Q2 : A -> Prop) (m : M A) :
  returns Q1 m -> (forall a, Q1 a -> Q2 a) -> returns Q2 m.
Proof. intros (a & tr & Hm & Ha) H. exists a, tr. auto. Qed.

Lemma returns_free_if_set {A} (p : option A) (e : Event) :
  returns (fun _ => True) (free_if_set p e).
Proof. destruct p; [apply returns_emit | apply returns_pure]; exact I. Qed.

Lemma returns_apply_options `{L : FFmpeg} (opts : list (string * string)) :
  forall priv, returns (fun _ => True) (apply_options opts priv).
Proof.
  induction opts as [|[key value] rest IH]; intros priv; cbn [apply_options].
  - apply returns_pure. exact I.
  - apply returns_then; [apply returns_emit; exact I|]. intros _. apply IH.
Qed.

End Returns.

(** Follow the structure of a program to show that it returns. *)
Ltac returns_step :=
  first
    [ apply returns_pure
    | apply returns_emit
    | apply returns_called
    | apply returns_free_if_set
    | apply returns_apply_options
    | apply returns_then; [| intros ?]
    | match goal with
      | |- returns _ (match ?x with _ => _ end) => destruct x
      | |- returns _ (let '(_, _) := ?x in _) => destruct x
      end ].

(** ** The facade: [VideoEncoder] and its wrappers *)

Section FacadeFacts.
Context `{L : FFmpeg} `{E : Encoders}.

Lemma Cleanup_returns (self : H264EncoderInstance.t) :
  returns (fun _ => True) (H264EncoderInstance.Cleanup self).
Proof. unfold H264EncoderInstance.Cleanup. repeat returns_step; exact I. Qed.

Lemma Initialize_returns (self : H264EncoderInstance.t) :
  returns (fun _ => True) (H264EncoderInstance.Initialize self).
Proof.
  unfold H264EncoderInstance.Initialize, H264EncoderInstance.fail_after_cleanup.
  apply returns_then; [apply Cleanup_returns|]. intros self'.
  repeat first [exact I | apply Cleanup_returns | returns_step].
Qed.

(** [H264Encoder::Create] always comes back, with an encoder or with null. *)
Lemma H264Encoder_Create_returns (config : H264EncoderConfig.t) :
  returns (fun _ => True) (H264Encoder.Create config).
Proof.
  unfold H264Encoder.Create.
  apply returns_then; [apply Initialize_returns|]. intros [ok encoder].
  destruct (negb ok).
  - apply returns_then; [apply Cleanup_returns|]. intros _. apply returns_pure. exact I.
  - apply returns_pure. exact I.
Qed.

Lemma NvidiaHEVCEncoder_Create_returns (config : NvidiaHEVCEncoderConfig.t) :
  returns (fun _ => True) (NvidiaHEVCEncoder.Create config).
Proof.
  unfold NvidiaHEVCEncoder.Create, NvidiaHEVCEncoder.Initialize,
    NvidiaHEVCEncoder.destroy.
  repeat first [exact I | returns_step].
Qed.

(** The copy constructor reproduces a configuration whose [codec_params]
    is null or of the struct its [output_codec] names. *)
Lemma copy_of_matching_config (config : VideoEncoderConfig.t) :
  VideoEncoderConfig.params_match_codec config = true ->
  VideoEncoderConfig.copy config = Ret config.
Proof.
  destruct config as [gpu fmt c w h b f params].
  unfold VideoEncoderConfig.params_match_codec, VideoEncoderConfig.copy.
  cbn [VideoEncoderConfig.codec_params VideoEncoderConfig.output_codec].
  destruct params as [p|]; [|reflexivity].
  destruct c as [|q|q]; try discriminate;
    [ destruct p; try discriminate; reflexivity |].
  destruct q as [[q|q|]|[[q|q|]|[q|q|]|]|]; try discriminate;
    destruct p; try discriminate; reflexivity.
Qed.

Lemma lift_Ret {A B} (a : A) (f : A -> M B) : bind (lift (Ret a)) f = f a.
Proof. apply bind_pure. Qed.

(** The five enumerators. *)
Lemma enumerator_cases (c : CodecType.t) :
  CodecType.is_enumerator c = true ->
  c = CodecType.H264 \/ c = CodecType.HEVC \/ c = CodecType.VP8
  \/ c = CodecType.VP9 \/ c = CodecType.AV1.
Proof.
  unfold CodecType.is_enumerator, CodecType.H264, CodecType.HEVC, CodecType.VP8,
    CodecType.VP9, CodecType.AV1.
  intros H. apply andb_true_iff in H as [H0 H4].
  apply Z.leb_le in H0, H4. lia.
Qed.

(** [Create] written as one table look-up. *)
Lemma Create_constructs_selected (c : VideoEncoderConfig.t) :
  VideoEncoder.Create c
  = match spec_selected_wrapper (VideoEncoderConfig.gpu_acceleration c)
            (VideoEncoderConfig.output_codec c) with
    | Some w => construct w c
    | None => pure None
    end.
Proof.
  unfold VideoEncoder.Create, VideoEncoder.create_software,
    spec_selected_wrapper, CodecType.H264, CodecType.HEVC, CodecType.VP8,
    CodecType.VP9, CodecType.AV1.
  destruct (VideoEncoderConfig.gpu_acceleration c);
    destruct (VideoEncoderConfig.output_codec c) as [|q|q]; try reflexivity;
    destruct q as [[q|q|]|[[q|q|]|[q|q|]|]|]; reflexivity.
Qed.

Lemma constructed_class (w : Wrapper) (c : VideoEncoderConfig.t) r evs :
  construct w c = Ret (r, evs) -> option_map wrapper_class r = Some w.
Proof.
  destruct w; unfold construct, VideoEncoder.make; intros H;
    apply bind_Ret_inv in H as (o & t1 & t2 & _ & H & _);
    apply pure_inv in H as [-> _]; reflexivity.
Qed.

(** The marshaling of [H264EncoderImpl(config)]: the basic fields always
    come from the configuration. *)
Lemma h264_marshal_basic_fields (config : VideoEncoderConfig.t) :
  let c := H264EncoderImpl.marshal config in
  H264EncoderConfig.width c = VideoEncoderConfig.width config
  /\ H264EncoderConfig.height c = VideoEncoderConfig.height config
  /\ H264EncoderConfig.bitrate c = VideoEncoderConfig.bitrate config
  /\ H264EncoderConfig.framerate c = VideoEncoderConfig.framerate config.
Proof.
  unfold H264EncoderImpl.marshal.
  destruct (VideoEncoderConfig.codec_params config) as [[]|]; cbn; auto.
Qed.

(** With an [H264Params] object the advanced fields come from it. *)
Lemma h264_marshal_advanced_fields (config : VideoEncoderConfig.t)
    (advanced : codec.H264Params.t) :
  VideoEncoderConfig.codec_params config = Some (codec.IsH264Params advanced) ->
  let c := H264EncoderImpl.marshal config in
  H264EncoderConfig.preset c = codec.H264Params.preset advanced
  /\ H264EncoderConfig.profile c = codec.H264Params.profile advanced
  /\ H264EncoderConfig.level c = codec.H264Params.level advanced
  /\ H264EncoderConfig.gop_size c = codec.H264Params.keyframe_interval advanced
  /\ H264EncoderConfig.max_b_frames c = codec.H264Params.max_b_frames advanced
  /\ H264EncoderConfig.constant_bitrate c = codec.H264Params.constant_bitrate advanced
  /\ H264EncoderConfig.crf c = codec.H264Params.crf advanced
  /\ H264EncoderConfig.threads c = codec.H264Params.threads advanced.
Proof.
  intros Hparams. unfold H264EncoderImpl.marshal. rewrite Hparams. cbn.
  repeat split; reflexivity.
Qed.

(** Without one, the body of the constructor changes the four basic
    fields of a default [H264EncoderConfig] and nothing else. *)
Lemma h264_marshal_keeps_defaults (config : VideoEncoderConfig.t) :
  (forall advanced,
     VideoEncoderConfig.codec_params config <> Some (codec.IsH264Params advanced)) ->
  H264EncoderImpl.marshal config
  = H264EncoderConfig.set_framerate (VideoEncoderConfig.framerate config)
      (H264EncoderConfig.set_bitrate (VideoEncoderConfig.bitrate config)
         (H264EncoderConfig.set_height (VideoEncoderConfig.height config)
            (H264EncoderConfig.set_width (VideoEncoderConfig.width config)
               H264EncoderConfig.default))).
Proof.
  intros Hparams. unfold H264EncoderImpl.marshal.
  destruct (VideoEncoderConfig.codec_params config) as [[]|]; try reflexivity.
  exfalso. eapply Hparams. reflexivity.
Qed.

(** Where the copy of the configuration into [config_] is defined, the
    constructor hands the marshaled configuration to [H264Encoder::Create]. *)
Lemma h264_constructor_hands_over_marshaled (config copied : VideoEncoderConfig.t) :
  VideoEncoderConfig.copy config = Ret copied ->
  H264EncoderImpl.new config
  = (let* encoder := H264Encoder.Create (H264EncoderImpl.marshal config) in
     pure {| H264EncoderImpl.config_ := copied;
             H264EncoderImpl.h264_config_ := H264EncoderImpl.marshal config;
             H264EncoderImpl.encoder_ := encoder |}).
Proof.
  intros Hcopy. unfold H264EncoderImpl.new. rewrite Hcopy.
  exact (bind_pure copied _).
Qed.

(** C2, what the code does where the claim fails.  [VideoEncoder::Create]
    constructs the H264 wrapper for [output_codec == H264] only, and its
    member initializer [config_(config)] runs the copy constructor of
    [VideoEncoderConfig] before the body.  With a [codec_params] object
    that is not an [H264Params], the copy constructor casts it to
    [H264Params] all the same and copies through the cast: the behaviour of
    the constructor is undefined, and no [H264EncoderConfig] with default
    advanced fields is handed to [H264Encoder::Create]. *)
Theorem h264_wrapper_constructor_undefined_on_foreign_params
    (config : VideoEncoderConfig.t) (p : codec.BaseCodecParams) :
  VideoEncoderConfig.output_codec config = CodecType.H264 ->
  VideoEncoderConfig.codec_params config = Some p ->
  (forall advanced, p <> codec.IsH264Params advanced) ->
  H264EncoderImpl.new config = Undefined
  /\ (VideoEncoderConfig.gpu_acceleration config = false ->
      VideoEncoder.Create config = Undefined).
Proof.
  intros Hcodec Hparams Hforeign.
  assert (Hnew : H264EncoderImpl.new config = Undefined).
  { unfold H264EncoderImpl.new, VideoEncoderConfig.copy.
    rewrite Hparams, Hcodec. destruct p; try reflexivity.
    exfalso. eapply Hforeign. reflexivity. }
  split; [exact Hnew|]. intros Hgpu.
  rewrite Create_constructs_selected, Hgpu, Hcodec.
  cbn [spec_selected_wrapper]. unfold construct, VideoEncoder.make.
  rewrite Hnew. reflexivity.
Qed.

Lemma construct_returns_wrapper (w : Wrapper) (config : VideoEncoderConfig.t) :
  VideoEncoderConfig.params_match_codec config = true ->
  returns (wraps_config config) (construct w config).
Proof.
  intros Hmatch. pose proof (copy_of_matching_config config Hmatch) as Hcopy.
  destruct w; unfold construct, VideoEncoder.make;
    first
      [ progress unfold H264EncoderImpl.new | progress unfold HEVCEncoderImpl.new
      | progress unfold VP8EncoderImpl.new | progress unfold VP9EncoderImpl.new
      | progress unfold AV1EncoderImpl.new | progress unfold NvidiaH264EncoderImpl.new
      | progress unfold NvidiaHEVCEncoderImpl.new | progress unfold NvidiaAV1EncoderImpl.new ];
    rewrite Hcopy;
    match goal with
    | |- context [bind (lift (Ret config)) ?f] =>
        rewrite (bind_pure config f : bind (lift (Ret config)) f = f config)
    end;
    match goal with
    | |- context [H264Encoder.Create ?c] =>
        destruct (H264Encoder_Create_returns c) as (encoder & tr & Hcreate & _)
    | |- context [NvidiaHEVCEncoder.Create ?c] =>
        destruct (NvidiaHEVCEncoder_Create_returns c) as (encoder & tr & Hcreate & _)
    | |- context [called ?r] =>
        destruct r as [encoder tr] eqn:Hcreate; unfold called
    end;
    try rewrite Hcreate;
    eexists _, _; (split; [reflexivity|]);
    eexists; (split; [reflexivity|]);
    (split; [exact Hcopy|]);
    (destruct encoder; [discriminate 1|]);
    intros _ fuel data encoded_frame n; repeat split; reflexivity.
Qed.


(** C8, as the code has it.  For a configuration whose [output_codec] is
    one of the five enumerators and whose [codec_params] is null or of the
    struct that belongs to the codec, [VideoEncoder::Create] returns an
    encoder object, also when the codec-specific [Create] returned null,
    and [GetConfig] on it returns the configuration passed at creation.  On
    an object without encoder, [EncodeYUV420], [EncodeNV12], [UpdateBitrate]
    and [UpdateFramerate] return [false]; [Flush] returns [false] on the
    software H264, HEVC and AV1 wrappers, which override it, and [true] on
    the VP8, VP9 and the three NVIDIA wrappers, which inherit
    [VideoEncoder::Flush]. *)
Theorem create_wraps_null_encoder (config : VideoEncoderConfig.t) :
  CodecType.is_enumerator (VideoEncoderConfig.output_codec config) = true ->
  VideoEncoderConfig.params_match_codec config = true ->
  exists enc evs,
    VideoEncoder.Create config = Ret (Some enc, evs)
    /\ VideoEncoder.GetConfig enc = Ret config
    /\ (VideoEncoder.encoder_is_null enc = true ->
        forall (fuel : nat) (data : bytes) (encoded_frame : vector_ptr) (n : Z),
          VideoEncoder.EncodeYUV420 fuel enc data encoded_frame
          = Ret ((false, enc, encoded_frame), [])
          /\ VideoEncoder.EncodeNV12 enc data encoded_frame
             = Ret ((false, enc, encoded_frame), [])
          /\ VideoEncoder.UpdateBitrate enc n = Ret ((false, enc), [])
          /\ VideoEncoder.UpdateFramerate enc n = Ret ((false, enc), [])
          /\ VideoEncoder.Flush fuel enc encoded_frame
             = Ret ((match wrapper_class enc with
                     | SoftwareH264 | SoftwareHEVC | SoftwareAV1 => false
                     | _ => true
                     end, enc, encoded_frame), [])).
Proof.
  intros Henum Hmatch. rewrite Create_constructs_selected.
  assert (Hsel : exists w,
    spec_selected_wrapper (VideoEncoderConfig.gpu_acceleration config)
      (VideoEncoderConfig.output_codec config) = Some w).
  { destruct (enumerator_cases _ Henum) as [-> | [-> | [-> | [-> | ->]]]];
      destruct (VideoEncoderConfig.gpu_acceleration config); eexists; reflexivity. }
  destruct Hsel as [w ->].
  destruct (construct_returns_wrapper w config Hmatch)
    as (r & evs & Hcreate & enc & -> & Hconfig & Hnull).
  exists enc, evs. split; [exact Hcreate|]. split; [exact Hconfig|].
  exact Hnull.
Qed.

End FacadeFacts.


Lemma h264_wrapper_constructor_undefined_on_foreign_params_witness :
  let config :=
    VideoEncoderConfig.SetVP8Params codec.VP8Params.default VideoEncoderConfig.default in
  VideoEncoderConfig.output_codec config = CodecType.H264
  /\ VideoEncoderConfig.gpu_acceleration config = false
  /\ H264EncoderImpl.new (L := ToyLibrary.library) config = Undefined
  /\ VideoEncoder.Create (L := ToyLibrary.library) (E := ToyLibrary.no_encoders) config
     = Undefined.
Proof.
  intros config. split; [reflexivity|]. split; [reflexivity|].
  destruct (h264_wrapper_constructor_undefined_on_foreign_params
              (L := ToyLibrary.library) (E := ToyLibrary.no_encoders)
              config (codec.IsVP8Params codec.VP8Params.default)
              eq_refl eq_refl ltac:(discriminate)) as [Hnew Hcreate].
  split; [exact Hnew | exact (Hcreate eq_refl)].
Defined.

(** C8, against the claim as worded: a VP8 wrapper whose [VP8Encoder::Create]
    returned null answers [Flush] with [true]. *)
Lemma flush_true_without_encoder :
  let config :=
    VideoEncoderConfig.mk false PixelFormat.YUV420 CodecType.VP8 640 480 1000000 30 None in
  exists enc evs,
    VideoEncoder.Create (L := ToyLibrary.library_without_codecs)
      (E := ToyLibrary.no_encoders) config = Ret (Some enc, evs)
    /\ VideoEncoder.encoder_is_null enc = true
    /\ VideoEncoder.Flush 0 enc (Some []) = Ret ((true, enc, Some []), []).
Proof.
  intros config. eexists _, _. split; [vm_compute; reflexivity|].
  split; reflexivity.
Qed.

Lemma create_wraps_null_encoder_witness :
  let config :=
    VideoEncoderConfig.mk false PixelFormat.YUV420 CodecType.H264 640 480 1000000 30 None in
  exists enc evs,
    VideoEncoder.Create (L := ToyLibrary.library_without_codecs)
      (E := ToyLibrary.no_encoders) config = Ret (Some enc, evs)
    /\ VideoEncoder.GetConfig enc = Ret config.
Proof.
  intros config.
  destruct (create_wraps_null_encoder
              (L := ToyLibrary.library_without_codecs) (E := ToyLibrary.no_encoders)
              config eq_refl eq_refl) as (enc & evs & Hcreate & Hconfig & _).
  exists enc, evs. split; [exact Hcreate | exact Hconfig].
Defined.

(** ** Synchronisation *)

Ltac unsynchronized_call :=
  first [ reflexivity
        | apply Cleanup_emits; reflexivity
        | apply Initialize_emits; reflexivity
        | apply apply_options_emits; reflexivity ].

Section SynchronizationFacts.
Context `{L : FFmpeg}.

Lemma receive_packets_unsynchronized (fuel : nat) :
  forall r self out,
    emits unsynchronized (H264EncoderInstance.receive_packets fuel r self out).
Proof.
  induction fuel as [|fuel IH]; intros r self out;
    cbn [H264EncoderInstance.receive_packets].
  - emits_with unsynchronized_call.
  - emits_with ltac:(first [unsynchronized_call | apply IH]).
Qed.

Lemma EncodeFrame_unsynchronized fuel self frame output_frame :
  emits unsynchronized (H264EncoderInstance.EncodeFrame fuel self frame output_frame).
Proof.
  unfold H264EncoderInstance.EncodeFrame.
  emits_with ltac:(first [unsynchronized_call | apply receive_packets_unsynchronized]).
Qed.

Lemma h264_encoder_unsynchronized :
  (forall self, emits unsynchronized (H264EncoderInstance.Initialize self))
  /\ (forall fuel self yuv_data output_frame,
        emits unsynchronized
          (H264EncoderInstance.EncodeYUV420 fuel self yuv_data output_frame))
  /\ (forall fuel self output_frame,
        emits unsynchronized (H264EncoderInstance.Flush fuel self output_frame))
  /\ (forall self config,
        emits unsynchronized (H264EncoderInstance.Reconfigure self config))
  /\ (forall self, emits unsynchronized (H264EncoderInstance.Cleanup self))
  /\ (forall config, emits unsynchronized (H264Encoder.Create config)).
Proof.
  repeat split; intros.
  - apply Initialize_emits; reflexivity.
  - unfold H264EncoderInstance.EncodeYUV420.
    emits_with ltac:(first [unsynchronized_call | apply EncodeFrame_unsynchronized]).
  - unfold H264EncoderInstance.Flush.
    emits_with ltac:(first [unsynchronized_call | apply EncodeFrame_unsynchronized]).
  - apply Initialize_emits; reflexivity.
  - apply Cleanup_emits; reflexivity.
  - unfold H264Encoder.Create.
    emits_with unsynchronized_call.
Qed.

Lemma nvidia_hevc_encoder_unsynchronized :
  (forall config, emits unsynchronized (NvidiaHEVCEncoder.Create config))
  /\ (forall self frame_data encoded_frame is_nv12,
        emits unsynchronized
          (NvidiaHEVCEncoder.EncodeFrame self frame_data encoded_frame is_nv12))
  /\ (forall self yuv_data encoded_frame,
        emits unsynchronized
          (NvidiaHEVCEncoder.EncodeYUV420 self yuv_data encoded_frame))
  /\ (forall self nv12_data encoded_frame,
        emits unsynchronized
          (NvidiaHEVCEncoder.EncodeNV12 self nv12_data encoded_frame)).
Proof.
  assert (Hframe : forall self frame_data encoded_frame is_nv12,
    emits unsynchronized
      (NvidiaHEVCEncoder.EncodeFrame self frame_data encoded_frame is_nv12)).
  { intros. unfold NvidiaHEVCEncoder.EncodeFrame, NvidiaHEVCEncoder.copy_frame_data,
      copy_to_plane.
    emits_with unsynchronized_call. }
  repeat split; intros.
  - unfold NvidiaHEVCEncoder.Create, NvidiaHEVCEncoder.Initialize,
      NvidiaHEVCEncoder.destroy.
    emits_with unsynchronized_call.
  - apply Hframe.
  - unfold NvidiaHEVCEncoder.EncodeYUV420.
    emits_with ltac:(first [unsynchronized_call | apply Hframe]).
  - unfold NvidiaHEVCEncoder.EncodeNV12.
    emits_with ltac:(first [unsynchronized_call | apply Hframe]).
Qed.

Lemma opus_resampler_unsynchronized `{R : Swresample}
    (self : OPUSEncoderImpl.t) (input_format : AVSampleFormat) (is_input_packed : bool) :
  emits unsynchronized
    (OPUSEncoderImpl.InitializeResampler self input_format is_input_packed).
Proof.
  unfold OPUSEncoderImpl.InitializeResampler, OPUSEncoderImpl.set_channel_layout,
    OPUSEncoderImpl.set_int, OPUSEncoderImpl.set_sample_fmt.
  emits_with unsynchronized_call.
Qed.

End SynchronizationFacts.

Section DecoderFacts.
Context `{D : H264DecoderInstance}.

(** [H264Decoder::Create] run to its end: the guard locks, the registration
    happens on first use with an old libavcodec, the guard unlocks, and
    only then the decoder is constructed and initialized. *)
Lemma H264Decoder_Create_trace (st : H264Decoder.statics) (config : H264DecoderConfig.t) :
  let first_use := negb (H264Decoder.ffmpeg_initialized st) in
  let initialized := decoder_Initialize (decoder_new config) in
  let ok := fst (fst initialized) in
  let decoder := snd (fst initialized) in
  H264Decoder.Create st config
  = Ret ((if ok then Some decoder else None,
          if first_use then {| H264Decoder.ffmpeg_initialized := true |} else st),
         [E_mutex_lock H264Decoder.init_mutex]
         ++ (if first_use && old_registration_api then [E_av_register_all] else [])
         ++ [E_mutex_unlock H264Decoder.init_mutex]
         ++ snd initialized
         ++ (if ok then [] else snd (decoder_destroy decoder))).
Proof.
  unfold H264Decoder.Create, H264Decoder.guarded_initialization.
  destruct (decoder_Initialize (decoder_new config)) as [[ok decoder] t_init].
  destruct (decoder_destroy decoder) as [u t_destroy] eqn:Hdestroy.
  destruct (H264Decoder.ffmpeg_initialized st), old_registration_api, ok;
    unfold bind, pure, emit, called; cbn [negb andb app fst snd];
    rewrite ?Hdestroy, ?app_nil_r; reflexivity.
Qed.

End DecoderFacts.

(** ** The theorems at work on the toy library *)

(** One 2x2 frame through the software H264 encoder: the toy codec hands
    out the luma plane and the first chroma plane of the frame as two
    packets, and the output is the one followed by the other. *)
Lemma h264_output_is_concatenation_of_received_packets_witness :
  exists self' evs ctx packets ctx',
    H264EncoderInstance.EncodeYUV420 (L := ToyLibrary.library) 5
      ToyLibrary.instance_2x2 ToyLibrary.frame_2x2 (Some [Byte.xff])
    = Ret ((true, self',
            Some [Byte.x01; Byte.x02; Byte.x03; Byte.x04;
                  Byte.x05; Byte.x00; Byte.x00; Byte.x00]), evs)
    /\ H264EncoderInstance.codec_ctx_ ToyLibrary.instance_2x2 = Some ctx
    /\ hands_out (L := ToyLibrary.library) 5 ctx (H264EncoderInstance.frame_ self')
         packets ctx'
    /\ concat packets
       = [Byte.x01; Byte.x02; Byte.x03; Byte.x04;
          Byte.x05; Byte.x00; Byte.x00; Byte.x00].
Proof.
  destruct (H264EncoderInstance.EncodeYUV420 (L := ToyLibrary.library) 5
              ToyLibrary.instance_2x2 ToyLibrary.frame_2x2 (Some [Byte.xff]))
    as [[[[r self'] out'] evs]| |] eqn:Hrun; try (vm_compute in Hrun; discriminate Hrun).
  assert (Hr : r = true) by (vm_compute in Hrun; congruence). subst r.
  assert (Hout' : out' = Some [Byte.x01; Byte.x02; Byte.x03; Byte.x04;
                               Byte.x05; Byte.x00; Byte.x00; Byte.x00])
    by (vm_compute in Hrun; congruence).
  destruct (proj1 (h264_output_is_concatenation_of_received_packets
                     (L := ToyLibrary.library) 5 ToyLibrary.instance_2x2 self'
                     ToyLibrary.frame_2x2 (Some [Byte.xff]) out' evs) Hrun)
    as (_ & self0 & ctx & packets & ctx' & Hself0 & Hctx & _ & Hhands & _ & Hpackets).
  cbn in Hself0. subst self0.
  exists self', evs, ctx, packets, ctx'. rewrite Hout'.
  split; [reflexivity|]. split; [exact Hctx|]. split; [exact Hhands|].
  rewrite Hout' in Hpackets. injection Hpackets as <-. reflexivity.
Defined.

(** A frame one byte short is turned away. *)
Lemma h264_encode_rejects_wrong_size_without_side_effect_witness :
  H264EncoderInstance.initialized_ ToyLibrary.instance_2x2 = true
  /\ H264EncoderInstance.EncodeYUV420 (L := ToyLibrary.library) 5
       ToyLibrary.instance_2x2 (take 5 ToyLibrary.frame_2x2) (Some [Byte.xff])
     = Ret ((false, ToyLibrary.instance_2x2, Some [Byte.xff]), [])
  /\ H264EncoderInstance.expected_size
       (H264EncoderInstance.config_ ToyLibrary.instance_2x2) = 6.
Proof.
  split; [reflexivity|].
  destruct (h264_encode_rejects_wrong_size_without_side_effect
              (L := ToyLibrary.library) 5 ToyLibrary.instance_2x2
              (take 5 ToyLibrary.frame_2x2) (Some [Byte.xff]) eq_refl)
    as (Hreject & _ & Hsize).
  split.
  - apply Hreject. right. vm_compute. discriminate.
  - apply Hsize; vm_compute; discriminate.
Defined.

(** A 2x2 planar frame through the NVIDIA HEVC encoder. *)
Lemma nvidia_hevc_yuv420_submitted_as_nv12_witness :
  exists res evs frame,
    NvidiaHEVCEncoder.EncodeFrame (L := ToyLibrary.library) ToyLibrary.nvidia_2x2
      ToyLibrary.frame_2x2 (Some []) false = Ret (res, evs)
    /\ submitted_frames evs = [Some frame]
    /\ carries_as_nv12 4 1 ToyLibrary.frame_2x2 frame.
Proof.
  destruct (NvidiaHEVCEncoder.EncodeFrame (L := ToyLibrary.library)
              ToyLibrary.nvidia_2x2 ToyLibrary.frame_2x2 (Some []) false)
    as [[res evs]| |] eqn:Hrun; try (vm_compute in Hrun; discriminate Hrun).
  destruct (nvidia_hevc_yuv420_submitted_as_nv12 (L := ToyLibrary.library)
              ToyLibrary.nvidia_2x2
              (default ToyLibrary.blank_context
                 (NvidiaHEVCEncoder.codec_context_ ToyLibrary.nvidia_2x2))
              ToyLibrary.frame_2x2 (Some []) res evs) as [[Hnone _] | (frame & Hsub & Hcarries)].
  - reflexivity.
  - vm_compute. split; discriminate.
  - reflexivity.
  - reflexivity.
  - exact Hrun.
  - vm_compute in Hrun. injection Hrun as <- <-. vm_compute in Hnone. discriminate Hnone.
  - exists res, evs, frame. split; [reflexivity|]. split; [exact Hsub | exact Hcarries].
Defined.

(** * Further properties of the wrappers *)

(** ** Copies into the planes of a frame *)

Lemma copy_to_plane_Ret (frame frame' : AVFrame) (plane : nat) (src : bytes)
    (src_off n : Z) (tr : trace) :
  copy_to_plane frame plane src src_off n = Ret (frame', tr) ->
  tr = [] /\ 0 <= n /\ 0 <= src_off
  /\ (Z.to_nat src_off + Z.to_nat n <= length src)%nat
  /\ frame_pts frame' = frame_pts frame
  /\ exists old new,
       frame_planes frame !! plane = Some old
       /\ frame_planes frame' = <[plane := new]> (frame_planes frame)
       /\ length new = length old
       /\ take (Z.to_nat n) new = take (Z.to_nat n) (drop (Z.to_nat src_off) src).
Proof.
  unfold copy_to_plane. intros H. steps. subst.
  match goal with
  | Hm : memcpy _ _ _ _ _ = Ret _ |- _ =>
      apply memcpy_Ret in Hm as (Hn & Hoff & Hsrc & Hdst & ->)
  end.
  repeat split; try assumption.
  eexists _, _. split; [eassumption|]. split; [reflexivity|].
  split.
  - rewrite length_app, length_take, length_drop, length_drop. lia.
  - rewrite take_app_le by (rewrite length_take, length_drop; lia).
    rewrite take_take. f_equal. lia.
Qed.

(** Writing another plane leaves a plane as it is. *)
Lemma lookup_other_plane (planes : list bytes) (i j : nat) (new : bytes) :
  i <> j -> <[i := new]> planes !! j = planes !! j.
Proof. apply list_lookup_insert_ne. Qed.

Lemma lookup_written_plane (planes : list bytes) (i : nat) (old new : bytes) :
  planes !! i = Some old -> <[i := new]> planes !! i = Some new.
Proof.
  intros H. apply lookup_lt_Some in H. rewrite list_lookup_insert.
  case_decide as Hd; [reflexivity|]. exfalso. apply Hd. auto.
Qed.

(** ** The software H.264 encoder: the life cycle of the object *)

Section H264EncoderLifeCycle.
Context `{L : FFmpeg}.

Import H264EncoderInstance.

Lemma Cleanup_result (self self' : t) (evs : trace) :
  Cleanup self = Ret (self', evs) ->
  self' = with_handles self false (frame_count_ self) None None None.
Proof.
  unfold Cleanup. intros H. steps. subst. reflexivity.
Qed.

(** What [Initialize] leaves behind. *)
Lemma Initialize_result (self self' : t) (ok : bool) (evs : trace) :
  Initialize self = Ret ((ok, self'), evs) ->
  config_ self' = config_ self
  /\ initialized_ self' = ok
  /\ (ok = true ->
      frame_count_ self' = Some 0 /\ codec_ self' <> None
      /\ codec_ctx_ self' <> None /\ frame_ self' <> None /\ packet_ self' <> None)
  /\ (ok = false ->
      frame_count_ self' = frame_count_ self
      /\ codec_ctx_ self' = None /\ frame_ self' = None /\ packet_ self' = None).
Proof.
  unfold Initialize, fail_after_cleanup. intros H.
  apply bind_Ret_inv in H as (s0 & t1 & t2 & Hclean & H & ->).
  apply Cleanup_result in Hclean. subst s0.
  repeat first
    [ progress steps
    | match type of H with
      | context [match ?x with _ => _ end] => destruct x eqn:?
      end ];
    repeat match goal with
    | Hc : Cleanup _ = Ret _ |- _ => apply Cleanup_result in Hc
    end;
    simplify_eq; cbn; repeat split; try discriminate; try congruence; auto.
Qed.

Lemma no_frame_submitted (tr : trace) :
  Forall no_frame tr -> submitted_frames tr = [].
Proof.
  induction 1 as [|e tr He _ IH]; [reflexivity|].
  unfold submitted_frames in *. simpl. rewrite IH.
  destruct e; simpl in *; try reflexivity. contradiction.
Qed.

Lemma Initialize_submits_nothing (self : t) r evs :
  Initialize self = Ret (r, evs) -> submitted_frames evs = [].
Proof.
  intros H. apply no_frame_submitted.
  eapply (Initialize_emits no_frame); try exact H; simpl; auto.
Qed.

(** The receive loop touches the codec context and the packet only. *)
Lemma receive_packets_keeps fuel : forall r self out ok self' out' evs,
  receive_packets fuel r self out = Ret ((ok, self', out'), evs) ->
  submitted_frames evs = []
  /\ config_ self' = config_ self /\ initialized_ self' = initialized_ self
  /\ frame_count_ self' = frame_count_ self /\ frame_ self' = frame_ self.
Proof.
  induction fuel as [|fuel IH]; intros r self out ok self' out' evs H;
    cbn [receive_packets] in H; destruct (r <? 0) eqn:Hr;
    try (step_in H; simplify_eq; auto; fail); try discriminate.
  step_in H. step_in H. step_in H. subst.
  destruct (avcodec_receive_packet a) as [[r' data] ctx'].
  cbn [fst snd] in H.
  destruct ((r' =? AVERROR_EAGAIN) || (r' =? AVERROR_EOF)).
  { step_in H. simplify_eq. auto. }
  destruct (r' <? 0).
  { step_in H. simplify_eq. auto. }
  step_in H. step_in H. subst. apply IH in H as (Hs & Hc & Hi & Hn & Hf).
  rewrite !submitted_frames_app, Hs. cbn in *. auto.
Qed.

Lemma EncodeFrame_submits fuel self frame output_frame ok self' out' evs :
  EncodeFrame fuel self frame output_frame = Ret ((ok, self', out'), evs) ->
  submitted_frames evs = [frame]
  /\ config_ self' = config_ self /\ initialized_ self' = initialized_ self
  /\ frame_count_ self' = frame_count_ self /\ frame_ self' = frame_ self.
Proof.
  unfold EncodeFrame. intros H.
  step_in H. step_in H. subst.
  destruct ((avcodec_send_frame a frame).1 <? 0).
  { step_in H. simplify_eq. auto. }
  step_in H. step_in H. destruct a2 as [[ok0 s] out].
  apply receive_packets_keeps in Hstep as (Hs & Hc & Hi & Hn & Hf).
  step_in H. simplify_eq.
  rewrite !submitted_frames_app, Hs. cbn in *. auto.
Qed.

(** The one frame [EncodeYUV420] hands to the codec, if it gets that far. *)
Lemma EncodeYUV420_submission fuel self yuv_data output_frame r self' out' evs :
  EncodeYUV420 fuel self yuv_data output_frame = Ret ((r, self', out'), evs) ->
  let c := config_ self in
  let y_size := int_mul (H264EncoderConfig.width c) (H264EncoderConfig.height c) in
  let u_size :=
    int_mul (int_div (H264EncoderConfig.width c) 2)
      (int_div (H264EncoderConfig.height c) 2) in
  (submitted_frames evs = []
   /\ r = false
   /\ (initialized_ self = true -> frame_count_ self' = frame_count_ self))
  \/ exists count frame p0 p1 p2,
       (if initialized_ self then frame_count_ self = Some count else count = 0)
       /\ output_frame <> None
       /\ Z.of_nat (length yuv_data) = expected_size c
       /\ submitted_frames evs = [Some frame]
       /\ frame_pts frame = count
       /\ frame_count_ self' = Some (int_add count 1)
       /\ frame_planes frame !! 0%nat = Some p0
       /\ frame_planes frame !! 1%nat = Some p1
       /\ frame_planes frame !! 2%nat = Some p2
       /\ 0 <= y_size /\ 0 <= u_size
       /\ (Z.to_nat y_size + Z.to_nat u_size + Z.to_nat u_size <= length yuv_data)%nat
       /\ take (Z.to_nat y_size) p0 = take (Z.to_nat y_size) yuv_data
       /\ take (Z.to_nat u_size) p1
          = take (Z.to_nat u_size) (drop (Z.to_nat y_size) yuv_data)
       /\ take (Z.to_nat u_size) p2
          = take (Z.to_nat u_size) (drop (Z.to_nat y_size + Z.to_nat u_size) yuv_data).
Proof.
  intros H c y_size u_size. unfold EncodeYUV420 in H.
  apply bind_Ret_inv in H as ([ready self0] & t1 & t2 & Hinit & H & ->).
  assert (Hstart : submitted_frames t1 = []
                   /\ config_ self0 = config_ self
                   /\ (initialized_ self = true -> self0 = self)
                   /\ (ready = true ->
                       if initialized_ self then True else frame_count_ self0 = Some 0)).
  { destruct (initialized_ self) eqn:Hi.
    - step_in Hinit. simplify_eq. auto.
    - pose proof (Initialize_submits_nothing _ _ _ Hinit) as Hs.
      apply Initialize_result in Hinit as (Hc & _ & Hok & _).
      repeat split; auto; [discriminate|]. intros ->. apply Hok. reflexivity. }
  destruct Hstart as (Hs1 & Hc & Hsame & Hcount).
  rewrite submitted_frames_app, Hs1. cbn [app].
  destruct ready; cbn [negb] in H;
    [|step_in H; simplify_eq; left;
      (split; [reflexivity|]); (split; [reflexivity|]);
      intros Hi; rewrite (Hsame Hi); reflexivity].
  destruct output_frame as [out0|];
    [|step_in H; simplify_eq; left;
      (split; [reflexivity|]); (split; [reflexivity|]);
      intros Hi; rewrite (Hsame Hi); reflexivity].
  destruct (negb _) eqn:Hsize;
    [step_in H; simplify_eq; left;
     (split; [reflexivity|]); (split; [reflexivity|]);
     intros Hi; rewrite (Hsame Hi); reflexivity|].
  apply negb_false_iff, Z.eqb_eq in Hsize.
  step_in H. step_in H. subst.
  destruct ((av_frame_make_writable a).1 <? 0);
    [step_in H; simplify_eq; left;
     (split; [reflexivity|]); (split; [reflexivity|]);
     intros Hi; rewrite (Hsame Hi); reflexivity|].
  apply bind_Ret_inv in H as (f0 & u1 & u2 & Hcopy0 & H & ->).
  apply bind_Ret_inv in H as (f1 & u3 & u4 & Hcopy1 & H & ->).
  apply bind_Ret_inv in H as (f2 & u5 & u6 & Hcopy2 & H & ->).
  apply bind_Ret_inv in H as (count & u7 & u8 & Hderef & H & ->).
  apply deref_inv in Hderef as [Hcnt ->].
  cbn [frame_count_ with_handles] in Hcnt.
  apply copy_to_plane_Ret in Hcopy0
    as (-> & Hy & _ & Hy_in & Hpts0 & old0 & new0 & Hold0 & Hpl0 & Hlen0 & Hc0).
  apply copy_to_plane_Ret in Hcopy1
    as (-> & Hu & _ & Hu_in & Hpts1 & old1 & new1 & Hold1 & Hpl1 & Hlen1 & Hc1).
  apply copy_to_plane_Ret in Hcopy2
    as (-> & Hv & _ & Hv_in & Hpts2 & old2 & new2 & Hold2 & Hpl2 & Hlen2 & Hc2).
  apply EncodeFrame_submits in H as (Hsub & _ & _ & Hfc & _).
  cbn [frame_count_ with_handles] in Hfc.
  rewrite Hc in *. subst y_size u_size c.
  right. exists count, (set_pts f2 count), new0, new1, new2.
  assert (Hp1 : frame_planes f1 !! 1%nat = Some new1)
    by (rewrite Hpl1; eapply lookup_written_plane; eassumption).
  assert (Hp0 : frame_planes f0 !! 0%nat = Some new0)
    by (rewrite Hpl0; eapply lookup_written_plane; eassumption).
  split.
  { destruct (initialized_ self) eqn:Hi.
    - rewrite <- (Hsame eq_refl). exact Hcnt.
    - specialize (Hcount eq_refl). cbn in Hcount. congruence. }
  split; [discriminate|]. split; [exact Hsize|].
  split; [unfold submitted_frames in Hsub |- *; cbn; exact Hsub|].
  split; [reflexivity|]. split; [exact Hfc|].
  cbn [set_pts frame_planes].
  split; [rewrite Hpl2, lookup_other_plane, Hpl1, lookup_other_plane by lia; exact Hp0|].
  split; [rewrite Hpl2, lookup_other_plane by lia; exact Hp1|].
  split; [rewrite Hpl2; eapply lookup_written_plane; eassumption|].
  split; [exact Hy|]. split; [exact Hu|].
  rewrite Z2Nat.inj_add in Hv_in, Hc2 by assumption.
  split; [lia|]. split; [exact Hc0|]. split; [exact Hc1 | exact Hc2].
Qed.

End H264EncoderLifeCycle.

(** X1.  [H264Encoder::Create] always comes back, and never with a
    half-built object: the encoder it returns keeps the configuration it
    was given, is initialized, holds a codec, a codec context, a frame and a
    packet, and counts its frames from 0; and it returns null exactly when
    [Initialize] on the fresh object fails. *)
Theorem h264_create_returns_ready_encoder_or_null `{L : FFmpeg}
    (config : H264EncoderConfig.t) :
  exists r evs,
    H264Encoder.Create config = Ret (r, evs)
    /\ (forall e, r = Some e ->
        H264EncoderInstance.config_ e = config
        /\ H264EncoderInstance.initialized_ e = true
        /\ H264EncoderInstance.frame_count_ e = Some 0
        /\ H264EncoderInstance.codec_ e <> None
        /\ H264EncoderInstance.codec_ctx_ e <> None
        /\ H264EncoderInstance.frame_ e <> None
        /\ H264EncoderInstance.packet_ e <> None)
    /\ (r = None <->
        exists e evs0,
          H264EncoderInstance.Initialize (H264EncoderInstance.new config)
          = Ret ((false, e), evs0)).
Proof.
  unfold H264Encoder.Create.
  destruct (Initialize_returns (H264EncoderInstance.new config))
    as ([ok e] & t0 & Hinit & _).
  rewrite Hinit, bind_Ret.
  pose proof (Initialize_result _ _ _ _ Hinit) as (Hc & Hi & Hok & _).
  destruct ok; cbn [negb].
  - unfold pure. eexists _, _. split; [rewrite app_nil_r; reflexivity|]. split.
    + intros e' [= <-]. destruct (Hok eq_refl) as (? & ? & ? & ? & ?).
      repeat split; assumption.
    + split; [discriminate|]. intros (e' & evs0 & [=]).
  - destruct (Cleanup_returns e) as (e1 & t1 & Hclean & _).
    rewrite Hclean, bind_Ret. unfold pure.
    eexists _, _. split; [reflexivity|]. split; [discriminate|].
    split; [|reflexivity]. intros _. eauto.
Qed.

(** X2.  [Reconfigure] stores the new configuration before it tries it: after
    the call the object holds the new configuration whether or not the
    codec could be opened with it.  On success the encoder is initialized
    and counts its frames from 0 again; on failure it is left uninitialized
    with no codec context, frame or packet, and nothing of the previous
    set-up is restored. *)
Theorem h264_reconfigure_keeps_new_config_without_rollback `{L : FFmpeg}
    (self self' : H264EncoderInstance.t) (config : H264EncoderConfig.t)
    (ok : bool) (evs : trace) :
  H264EncoderInstance.Reconfigure self config = Ret ((ok, self'), evs) ->
  H264EncoderInstance.GetConfig self' = config
  /\ H264EncoderInstance.initialized_ self' = ok
  /\ (ok = true -> H264EncoderInstance.frame_count_ self' = Some 0)
  /\ (ok = false ->
      H264EncoderInstance.codec_ctx_ self' = None
      /\ H264EncoderInstance.frame_ self' = None
      /\ H264EncoderInstance.packet_ self' = None).
Proof.
  unfold H264EncoderInstance.Reconfigure, H264EncoderInstance.GetConfig. intros H.
  apply Initialize_result in H as (Hc & Hi & Hok & Hfail).
  split; [exact Hc|]. split; [exact Hi|]. split.
  - intros Ht. apply Hok. exact Ht.
  - intros Hf. apply Hfail in Hf as (_ & ? & ? & ?). auto.
Qed.

(** X3.  [EncodeYUV420] stamps each frame it hands to the codec with the
    frame counter and then advances the counter by one, also when the codec
    turns the frame down; a call that is rejected before that hands over no
    frame and leaves the counter alone.  An encoder that is initialized by
    the call itself starts at 0. *)
Theorem h264_frames_are_stamped_with_the_counter `{L : FFmpeg}
    (fuel : nat) (self self' : H264EncoderInstance.t) (yuv_data : bytes)
    (output_frame out' : vector_ptr) (r : bool) (evs : trace) (n : Z) :
  (if H264EncoderInstance.initialized_ self
   then H264EncoderInstance.frame_count_ self = Some n else n = 0) ->
  H264EncoderInstance.EncodeYUV420 fuel self yuv_data output_frame
  = Ret ((r, self', out'), evs) ->
  (submitted_frames evs = [] /\ r = false
   /\ (H264EncoderInstance.initialized_ self = true ->
       H264EncoderInstance.frame_count_ self' = Some n))
  \/ (exists frame,
        submitted_frames evs = [Some frame]
        /\ frame_pts frame = n
        /\ H264EncoderInstance.frame_count_ self' = Some (int_add n 1)).
Proof.
  intros Hn H.
  apply EncodeYUV420_submission in H
    as [(Hs & Hr & Hc) | (count & frame & p0 & p1 & p2 & Hcount & _ & _ & Hs & Hpts & Hc & _)].
  - left. split; [exact Hs|]. split; [exact Hr|]. intros Hi.
    rewrite (Hc Hi). rewrite Hi in Hn. exact Hn.
  - right. exists frame.
    assert (count = n) as -> by (destruct (H264EncoderInstance.initialized_ self); congruence).
    auto.
Qed.

(** X4.  The frame [EncodeYUV420] hands to the codec carries the input
    picture plane by plane: for a [w] x [h] encoder ([w * h * 3] within
    [int], no dimension negative) plane 0 starts with the first [w * h] input bytes, plane 1 with
    the next [(w / 2) * (h / 2)] and plane 2 with the [(w / 2) * (h / 2)]
    after those, all of them inside the input, whose size is [w * h * 3 / 2];
    the output pointer was not null. *)
Theorem h264_submitted_frame_carries_input_planes `{L : FFmpeg}
    (fuel : nat) (self self' : H264EncoderInstance.t) (yuv_data : bytes)
    (output_frame out' : vector_ptr) (r : bool) (evs : trace) (frame : AVFrame) :
  let w := H264EncoderConfig.width (H264EncoderInstance.config_ self) in
  let h := H264EncoderConfig.height (H264EncoderInstance.config_ self) in
  let luma := Z.to_nat (w * h) in
  let chroma := Z.to_nat ((w / 2) * (h / 2)) in
  0 <= w <= INT_MAX -> 0 <= h <= INT_MAX -> w * h * 3 <= INT_MAX ->
  H264EncoderInstance.EncodeYUV420 fuel self yuv_data output_frame
  = Ret ((r, self', out'), evs) ->
  In (Some frame) (submitted_frames evs) ->
  output_frame <> None
  /\ Z.of_nat (length yuv_data) = w * h * 3 / 2
  /\ (luma + chroma + chroma <= length yuv_data)%nat
  /\ exists p0 p1 p2,
       frame_planes frame !! 0%nat = Some p0
       /\ frame_planes frame !! 1%nat = Some p1
       /\ frame_planes frame !! 2%nat = Some p2
       /\ take luma p0 = take luma yuv_data
       /\ take chroma p1 = take chroma (drop luma yuv_data)
       /\ take chroma p2 = take chroma (drop (luma + chroma) yuv_data).
Proof.
  intros w h luma chroma Hw Hh Hmax H Hin.
  assert (Hwh : 0 <= w * h) by lia.
  assert (Hy : int_mul w h = w * h)
    by (apply wrap_int_in_range; unfold INT_MIN, INT_MAX in *; lia).
  assert (Hw2 : int_div w 2 = w / 2) by (apply int_div_in_range; lia).
  assert (Hh2 : int_div h 2 = h / 2) by (apply int_div_in_range; lia).
  assert (Hq : 0 <= (w / 2) * (h / 2) <= w * h).
  { assert (0 <= w / 2 <= w) by (split; [apply Z.div_pos | apply Z.div_le_upper_bound]; lia).
    assert (0 <= h / 2 <= h) by (split; [apply Z.div_pos | apply Z.div_le_upper_bound]; lia).
    nia. }
  assert (Hu : int_mul (int_div w 2) (int_div h 2) = (w / 2) * (h / 2)).
  { rewrite Hw2, Hh2. apply wrap_int_in_range. unfold INT_MIN, INT_MAX in *. lia. }
  apply EncodeYUV420_submission in H
    as [(Hs & _) | (count & frame' & p0 & p1 & p2 & _ & Hout & Hsize & Hs & _ & _
                    & H0 & H1 & H2 & _ & _ & Hfit & Hc0 & Hc1 & Hc2)].
  { rewrite Hs in Hin. destruct Hin. }
  rewrite Hs in Hin. destruct Hin as [[= <-] | []].
  fold w h in Hfit, Hc0, Hc1, Hc2, Hsize. rewrite Hy, Hu in *.
  split; [exact Hout|]. split.
  { rewrite Hsize. unfold H264EncoderInstance.expected_size. fold w h.
    apply frame_size_in_range; lia. }
  split; [exact Hfit|].
  exists p0, p1, p2. auto 10.
Qed.

(** X5.  [Flush] on an initialized encoder hands the codec one null frame,
    the request to drain, and leaves configuration, frame counter and
    frame buffer alone; on an encoder that is not initialized it returns
    [false] without calling the library. *)
Theorem h264_flush_drains_without_counting `{L : FFmpeg}
    (fuel : nat) (self self' : H264EncoderInstance.t)
    (output_frame out' : vector_ptr) (r : bool) (evs : trace) :
  H264EncoderInstance.Flush fuel self output_frame = Ret ((r, self', out'), evs) ->
  (H264EncoderInstance.initialized_ self = false ->
   r = false /\ evs = [] /\ self' = self /\ out' = output_frame)
  /\ (H264EncoderInstance.initialized_ self = true ->
      submitted_frames evs = [None]
      /\ H264EncoderInstance.config_ self' = H264EncoderInstance.config_ self
      /\ H264EncoderInstance.frame_count_ self' = H264EncoderInstance.frame_count_ self
      /\ H264EncoderInstance.frame_ self' = H264EncoderInstance.frame_ self).
Proof.
  unfold H264EncoderInstance.Flush. intros H. split; intros Hi; rewrite Hi in H;
    cbn [negb] in H.
  - apply pure_inv in H as [[= <- <- <-] ->]. auto.
  - apply EncodeFrame_submits in H as (Hs & Hc & _ & Hn & Hf). auto.
Qed.

(** The toy encoder for 2x2 pictures, reconfigured and fed one frame. *)
Lemma h264_reconfigure_keeps_new_config_without_rollback_witness :
  let config := H264EncoderConfig.set_bitrate 64000 ToyLibrary.config_2x2 in
  exists self' evs,
    H264EncoderInstance.Reconfigure (L := ToyLibrary.library)
      ToyLibrary.instance_2x2 config = Ret ((true, self'), evs)
    /\ H264EncoderInstance.GetConfig self' = config
    /\ H264EncoderInstance.frame_count_ self' = Some 0.
Proof.
  intros config.
  destruct (H264EncoderInstance.Reconfigure (L := ToyLibrary.library)
              ToyLibrary.instance_2x2 config)
    as [[[ok self'] evs]| |] eqn:Hrun; try (vm_compute in Hrun; discriminate Hrun).
  assert (Hok : ok = true) by (vm_compute in Hrun; congruence).
  subst ok. exists self', evs. split; [reflexivity|].
  destruct (h264_reconfigure_keeps_new_config_without_rollback
              (L := ToyLibrary.library) ToyLibrary.instance_2x2 self' config true evs Hrun)
    as (Hconfig & _ & Hcount & _).
  split; [exact Hconfig | exact (Hcount eq_refl)].
Defined.

Lemma h264_frames_are_stamped_with_the_counter_witness :
  exists r self' out' evs frame,
    H264EncoderInstance.EncodeYUV420 (L := ToyLibrary.library) 5
      ToyLibrary.instance_2x2 ToyLibrary.frame_2x2 (Some []) = Ret ((r, self', out'), evs)
    /\ submitted_frames evs = [Some frame]
    /\ frame_pts frame = 0
    /\ H264EncoderInstance.frame_count_ self' = Some 1.
Proof.
  destruct (H264EncoderInstance.EncodeYUV420 (L := ToyLibrary.library) 5
              ToyLibrary.instance_2x2 ToyLibrary.frame_2x2 (Some []))
    as [[[[r self'] out'] evs]| |] eqn:Hrun; try (vm_compute in Hrun; discriminate Hrun).
  destruct (h264_frames_are_stamped_with_the_counter (L := ToyLibrary.library) 5
              ToyLibrary.instance_2x2 self' ToyLibrary.frame_2x2 (Some []) out' r evs 0
              eq_refl Hrun) as [(Hnone & _) | (frame & Hsub & Hpts & Hcount)].
  - exfalso. vm_compute in Hrun. injection Hrun as <- <- <- <-.
    vm_compute in Hnone. discriminate Hnone.
  - exists r, self', out', evs, frame. split; [reflexivity|]. auto.
Defined.

Lemma h264_submitted_frame_carries_input_planes_witness :
  exists r self' out' evs frame p0,
    H264EncoderInstance.EncodeYUV420 (L := ToyLibrary.library) 5
      ToyLibrary.instance_2x2 ToyLibrary.frame_2x2 (Some []) = Ret ((r, self', out'), evs)
    /\ In (Some frame) (submitted_frames evs)
    /\ frame_planes frame !! 0%nat = Some p0
    /\ take 4 p0 = take 4 ToyLibrary.frame_2x2.
Proof.
  destruct (H264EncoderInstance.EncodeYUV420 (L := ToyLibrary.library) 5
              ToyLibrary.instance_2x2 ToyLibrary.frame_2x2 (Some []))
    as [[[[r self'] out'] evs]| |] eqn:Hrun; try (vm_compute in Hrun; discriminate Hrun).
  destruct (submitted_frames evs) as [|[frame|] rest] eqn:Hsub;
    try (exfalso; vm_compute in Hrun; injection Hrun as <- <- <- <-;
         vm_compute in Hsub; discriminate Hsub).
  assert (Hin : In (Some frame) (submitted_frames evs))
    by (rewrite Hsub; left; reflexivity).
  destruct (h264_submitted_frame_carries_input_planes (L := ToyLibrary.library) 5
              ToyLibrary.instance_2x2 self' ToyLibrary.frame_2x2 (Some []) out' r evs frame)
    as (_ & _ & _ & p0 & p1 & p2 & H0 & _ & _ & Hluma & _); try exact Hrun; try exact Hin;
    try (vm_compute; split; discriminate); try (vm_compute; discriminate).
  exists r, self', out', evs, frame, p0. split; [reflexivity|]. auto.
Defined.

Lemma h264_flush_drains_without_counting_witness :
  exists r self' out' evs,
    H264EncoderInstance.Flush (L := ToyLibrary.library) 5 ToyLibrary.instance_2x2 (Some [])
    = Ret ((r, self', out'), evs)
    /\ submitted_frames evs = [None]
    /\ H264EncoderInstance.frame_count_ self' = Some 0.
Proof.
  destruct (H264EncoderInstance.Flush (L := ToyLibrary.library) 5
              ToyLibrary.instance_2x2 (Some []))
    as [[[[r self'] out'] evs]| |] eqn:Hrun; try (vm_compute in Hrun; discriminate Hrun).
  destruct (h264_flush_drains_without_counting (L := ToyLibrary.library) 5
              ToyLibrary.instance_2x2 self' (Some []) out' r evs Hrun) as [_ Hinit].
  destruct (Hinit eq_refl) as (Hsub & _ & Hcount & _).
  exists r, self', out', evs. split; [reflexivity|]. split; [exact Hsub|].
  rewrite Hcount. reflexivity.
Defined.

(** ** The NVIDIA HEVC encoder: one frame in, at most one packet out *)

Section NvidiaHEVCEncoderCalls.
Context `{L : FFmpeg}.

Import NvidiaHEVCEncoder.

Lemma copy_frame_data_trace self ctx frame frame_data is_nv12 frame' tr :
  copy_frame_data self ctx frame frame_data is_nv12 = Ret (frame', tr) ->
  tr = [] /\ frame_pts frame' = frame_pts frame.
Proof.
  unfold copy_frame_data. intros H.
  destruct is_nv12; [|destruct (decide _)];
    repeat match goal with
    | H : bind (copy_to_plane _ _ _ _ _) _ = Ret _ |- _ =>
        let f := fresh "f" in
        let Hc := fresh "Hc" in
        apply bind_Ret_inv in H as (f & ? & ? & Hc & H & ->);
        apply copy_to_plane_Ret in Hc as (-> & _ & _ & _ & Hc & _)
    | H : copy_to_plane _ _ _ _ _ = Ret _ |- _ =>
        apply copy_to_plane_Ret in H as (-> & _ & _ & _ & H & _)
    end;
    try (split; [reflexivity | congruence]).
  steps. subst. split; [reflexivity|]. cbn. congruence.
Qed.

(** [EncodeFrame] from its first statement to its last. *)
Lemma EncodeFrame_shape self frame_data encoded_frame is_nv12 r self' out' evs :
  EncodeFrame self frame_data encoded_frame is_nv12 = Ret ((r, self', out'), evs) ->
  encoded_frame <> None
  /\ width_ self' = width_ self /\ height_ self' = height_ self
  /\ frame_size_ self' = frame_size_ self /\ y_plane_size_ self' = y_plane_size_ self
  /\ initialized_ self' = initialized_ self
  /\ frame_ self <> None
  /\ ((submitted_frames evs = [] /\ received_packets evs = [] /\ r = false
       /\ out' = Some [] /\ pts_ self' = pts_ self)
      \/ exists frame0 ctx frame1,
           frame_ self = Some frame0
           /\ codec_context_ self = Some ctx
           /\ copy_frame_data self ctx (snd (av_frame_make_writable frame0))
                frame_data is_nv12 = Ret (frame1, [])
           /\ submitted_frames evs = [Some (set_pts frame1 (pts_ self))]
           /\ pts_ self' = pts_ self + 1
           /\ out' = Some (concat (received_packets evs))
           /\ (length (received_packets evs) <= 1)%nat
           /\ (r = false -> received_packets evs = [])).
Proof.
  unfold EncodeFrame. intros Hrun.
  apply bind_Ret_inv in Hrun as (out0 & t1 & t2 & Hderef & Hrun & ->).
  apply deref_inv in Hderef as [Hout ->].
  apply bind_Ret_inv in Hrun as (frame0 & t1 & t3 & Hderef & Hrun & ->).
  apply deref_inv in Hderef as [Hframe ->].
  apply bind_Ret_inv in Hrun as ([] & t1 & t4 & Hemit & Hrun & ->).
  apply emit_inv in Hemit as ->.
  split; [rewrite Hout; discriminate|].
  destruct ((av_frame_make_writable frame0).1 <? 0) eqn:Hwritable.
  { apply pure_inv in Hrun as [[= -> -> ->] ->]. cbn.
    repeat (split; [first [reflexivity | rewrite Hframe; discriminate]|]).
    left. repeat split; reflexivity. }
  cbn [codec_context_ with_handles] in Hrun.
  apply bind_Ret_inv in Hrun as (ctx & t1 & t5 & Hderef & Hrun & ->).
  apply deref_inv in Hderef as [Hctx ->].
  apply bind_Ret_inv in Hrun as (frame1 & t1 & t5' & Hcopy & Hrun & ->).
  pose proof (copy_frame_data_trace _ _ _ _ _ _ _ Hcopy) as [-> _].
  cbn [pts_ with_handles frame_ packet_ codec_context_ initialized_] in Hrun.
  apply bind_Ret_inv in Hrun as ([] & t13 & t14 & Hsend & Hrun & ->).
  apply emit_inv in Hsend as ->.
  assert (Hrest : submitted_frames t14 = []
    /\ width_ self' = width_ self /\ height_ self' = height_ self
    /\ frame_size_ self' = frame_size_ self /\ y_plane_size_ self' = y_plane_size_ self
    /\ initialized_ self' = initialized_ self
    /\ pts_ self' = pts_ self + 1
    /\ out' = Some (concat (received_packets t14))
    /\ (length (received_packets t14) <= 1)%nat
    /\ (r = false -> received_packets t14 = [])).
  { destruct (_ <? 0) in Hrun.
    { apply pure_inv in Hrun as [[= -> -> ->] ->]. cbn. repeat split; auto. }
    apply bind_Ret_inv in Hrun as (pkt & t15 & t16 & Hpkt & Hrun & ->).
    apply deref_inv in Hpkt as [_ ->].
    apply bind_Ret_inv in Hrun as ([] & t17 & t18 & Hrecv & Hrun & ->).
    apply emit_inv in Hrecv as ->.
    destruct (avcodec_receive_packet _) as [[ret data] ctx'] eqn:Hreceived.
    cbn [fst snd] in Hrun.
    destruct (ret <? 0) eqn:Hret.
    - destruct (_ || _) in Hrun; apply pure_inv in Hrun as [[= -> -> ->] ->];
        unfold received_packets; cbn; rewrite Hret; cbn; repeat split; auto.
    - apply bind_Ret_inv in Hrun as (out & t19 & t20 & Hcopy_out & Hrun & ->).
      apply lift_inv in Hcopy_out as [Hcopy_out ->].
      pose proof (resize_then_memcpy_appends [] data) as Hwhole.
      cbn [length Nat.add app] in Hwhole. change (Z.of_nat 0) with 0 in Hwhole.
      rewrite Hwhole in Hcopy_out. injection Hcopy_out as <-.
      steps. simplify_eq.
      unfold received_packets; cbn; rewrite Hret; cbn. rewrite app_nil_r.
      repeat split; auto. discriminate. }
  destruct Hrest as (Hs & Hw & Hh & Hfs & Hy & Hi & Hp & Ho & Hlen & Hfalse).
  repeat (split; [first [assumption | rewrite Hframe; discriminate]|]).
  right. exists frame0, ctx, frame1.
  split; [exact Hframe|]. split; [exact Hctx|]. split.
  { erewrite <- Hcopy. unfold copy_frame_data. reflexivity. }
  unfold submitted_frames, received_packets in *. cbn.
  rewrite Hs. auto 10.
Qed.

Lemma nvidia_Initialize_result (self self' : t) config (ok : bool) (evs : trace) :
  Initialize self config = Ret ((ok, self'), evs) ->
  width_ self' = width_ self /\ height_ self' = height_ self
  /\ frame_size_ self' = frame_size_ self /\ y_plane_size_ self' = y_plane_size_ self
  /\ pts_ self' = pts_ self
  /\ (ok = true ->
      initialized_ self' = true /\ codec_context_ self' <> None
      /\ frame_ self' <> None /\ packet_ self' <> None)
  /\ (ok = false -> initialized_ self' = initialized_ self).
Proof.
  unfold Initialize. intros H.
  repeat first
    [ progress steps
    | match type of H with
      | context [match ?x with _ => _ end] => destruct x eqn:?
      end ];
    simplify_eq; cbn; repeat split; try discriminate; auto.
Qed.

End NvidiaHEVCEncoderCalls.

(** X6.  [NvidiaHEVCEncoder::Create] always comes back, with null or with
    an encoder that is initialized, holds a codec context, a frame and a
    packet, has taken width and height from the configuration, has
    computed the luma plane size and the frame size from them and starts
    its timestamps at 0. *)
Theorem nvidia_hevc_create_returns_ready_encoder_or_null `{L : FFmpeg}
    (config : NvidiaHEVCEncoderConfig.t) :
  exists r evs,
    NvidiaHEVCEncoder.Create config = Ret (r, evs)
    /\ forall e, r = Some e ->
        NvidiaHEVCEncoder.initialized_ e = true
        /\ NvidiaHEVCEncoder.codec_context_ e <> None
        /\ NvidiaHEVCEncoder.frame_ e <> None
        /\ NvidiaHEVCEncoder.packet_ e <> None
        /\ NvidiaHEVCEncoder.width_ e = NvidiaHEVCEncoderConfig.width config
        /\ NvidiaHEVCEncoder.height_ e = NvidiaHEVCEncoderConfig.height config
        /\ NvidiaHEVCEncoder.y_plane_size_ e
           = int_mul (NvidiaHEVCEncoderConfig.width config)
               (NvidiaHEVCEncoderConfig.height config)
        /\ NvidiaHEVCEncoder.frame_size_ e
           = int_div (int_mul (NvidiaHEVCEncoder.y_plane_size_ e) 3) 2
        /\ NvidiaHEVCEncoder.pts_ e = 0.
Proof.
  destruct (NvidiaHEVCEncoder_Create_returns config) as (r & evs & Hcreate & _).
  exists r, evs. split; [exact Hcreate|]. intros e ->.
  unfold NvidiaHEVCEncoder.Create in Hcreate.
  apply bind_Ret_inv in Hcreate as ([ok e0] & t1 & t2 & Hinit & H & ->).
  apply nvidia_Initialize_result in Hinit as (Hw & Hh & Hf & Hy & Hp & Hok & _).
  destruct ok; cbn [negb] in H; [|steps; discriminate].
  apply pure_inv in H as [[= ->] _].
  destruct (Hok eq_refl) as (? & ? & ? & ?).
  rewrite Hw, Hh, Hf, Hy, Hp. cbn. repeat split; assumption.
Qed.

(** X7.  [EncodeYUV420] and [EncodeNV12] of the NVIDIA HEVC encoder turn
    away, with [false] and nothing touched, an encoder that is not
    initialized and an input shorter than the frame size.  A call they
    accept hands the codec at most one frame and asks it for at most one
    packet: the output vector is that packet, or empty when the codec has
    none ready or a step failed (it is cleared first, so a failure does
    not leave the previous content); the output pointer was not null. *)
Theorem nvidia_hevc_encode_returns_at_most_one_packet `{L : FFmpeg}
    (self self' : NvidiaHEVCEncoder.t) (data : bytes)
    (encoded_frame out' : vector_ptr) (r : bool) (evs : trace) :
  NvidiaHEVCEncoder.EncodeYUV420 self data encoded_frame = Ret ((r, self', out'), evs)
  \/ NvidiaHEVCEncoder.EncodeNV12 self data encoded_frame = Ret ((r, self', out'), evs) ->
  (NvidiaHEVCEncoder.initialized_ self = false
   \/ Z.of_nat (length data) < to_size_t (NvidiaHEVCEncoder.frame_size_ self) ->
   r = false /\ evs = [] /\ self' = self /\ out' = encoded_frame)
  /\ (NvidiaHEVCEncoder.initialized_ self = true ->
      to_size_t (NvidiaHEVCEncoder.frame_size_ self) <= Z.of_nat (length data) ->
      encoded_frame <> None
      /\ out' = Some (concat (received_packets evs))
      /\ (length (received_packets evs) <= 1)%nat
      /\ (length (submitted_frames evs) <= 1)%nat
      /\ (r = false -> out' = Some [])).
Proof.
  intros H.
  assert (Hcases :
    (NvidiaHEVCEncoder.initialized_ self = false
     \/ Z.of_nat (length data) < to_size_t (NvidiaHEVCEncoder.frame_size_ self)) /\
    pure (false, self, encoded_frame) = Ret ((r, self', out'), evs)
    \/ (NvidiaHEVCEncoder.initialized_ self = true
        /\ to_size_t (NvidiaHEVCEncoder.frame_size_ self) <= Z.of_nat (length data))
       /\ exists is_nv12,
            NvidiaHEVCEncoder.EncodeFrame self data encoded_frame is_nv12
            = Ret ((r, self', out'), evs)).
  { unfold NvidiaHEVCEncoder.EncodeYUV420, NvidiaHEVCEncoder.EncodeNV12 in H.
    destruct (NvidiaHEVCEncoder.initialized_ self); cbn [negb orb] in H.
    - destruct (Z.of_nat (length data) <? _) eqn:Hshort.
      + left. apply Z.ltb_lt in Hshort. split; [auto|]. destruct H; assumption.
      + right. apply Z.ltb_ge in Hshort. split; [auto|]. destruct H; eauto.
    - left. split; [auto|]. destruct H; assumption. }
  destruct Hcases as [[Hbad Hrun] | [[Hi Hlen] [is_nv12 Hrun]]].
  - apply pure_inv in Hrun as [[= -> -> ->] ->].
    split; [auto|]. intros Hi Hlen. exfalso. destruct Hbad as [Hu|Hs]; [congruence|lia].
  - split; [intros [Hu|Hs]; [congruence|lia]|]. intros _ _.
    apply EncodeFrame_shape in Hrun
      as (Hout & _ & _ & _ & _ & _ & _
          & [(Hs & Hp & Hr & Ho & _) | (f0 & ctx & f1 & _ & _ & _ & Hs & _ & Ho & Hone & Hfalse)]).
    + rewrite Hs, Hp, Ho. cbn.
      split; [exact Hout|]. split; [reflexivity|]. split; [lia|]. split; [lia|].
      intros _. reflexivity.
    + rewrite Hs. cbn. split; [exact Hout|]. split; [exact Ho|].
      split; [exact Hone|]. split; [lia|].
      intros Hr. rewrite Ho, (Hfalse Hr). reflexivity.
Qed.

(** X8.  A call the NVIDIA HEVC encoder accepts stamps the frame it hands
    to the codec with [pts_] and advances [pts_] by one, whether or not
    the codec takes the frame; if the frame buffer cannot be made writable
    nothing is handed over and [pts_] stays.  Width, height, plane size,
    frame size and the initialized flag never change. *)
Theorem nvidia_hevc_frames_are_stamped_with_pts `{L : FFmpeg}
    (self self' : NvidiaHEVCEncoder.t) (data : bytes)
    (encoded_frame out' : vector_ptr) (r : bool) (evs : trace) :
  NvidiaHEVCEncoder.EncodeYUV420 self data encoded_frame = Ret ((r, self', out'), evs)
  \/ NvidiaHEVCEncoder.EncodeNV12 self data encoded_frame = Ret ((r, self', out'), evs) ->
  ((submitted_frames evs = [] /\ r = false
    /\ NvidiaHEVCEncoder.pts_ self' = NvidiaHEVCEncoder.pts_ self)
   \/ exists frame,
        submitted_frames evs = [Some frame]
        /\ frame_pts frame = NvidiaHEVCEncoder.pts_ self
        /\ NvidiaHEVCEncoder.pts_ self' = NvidiaHEVCEncoder.pts_ self + 1)
  /\ NvidiaHEVCEncoder.width_ self' = NvidiaHEVCEncoder.width_ self
  /\ NvidiaHEVCEncoder.height_ self' = NvidiaHEVCEncoder.height_ self
  /\ NvidiaHEVCEncoder.y_plane_size_ self' = NvidiaHEVCEncoder.y_plane_size_ self
  /\ NvidiaHEVCEncoder.frame_size_ self' = NvidiaHEVCEncoder.frame_size_ self
  /\ NvidiaHEVCEncoder.initialized_ self' = NvidiaHEVCEncoder.initialized_ self.
Proof.
  intros H.
  assert (Hcases :
    pure (false, self, encoded_frame) = Ret ((r, self', out'), evs)
    \/ exists is_nv12,
         NvidiaHEVCEncoder.EncodeFrame self data encoded_frame is_nv12
         = Ret ((r, self', out'), evs)).
  { unfold NvidiaHEVCEncoder.EncodeYUV420, NvidiaHEVCEncoder.EncodeNV12 in H.
    destruct (_ || _) in H; destruct H; eauto. }
  destruct Hcases as [Hrun | [is_nv12 Hrun]].
  - apply pure_inv in Hrun as [[= -> -> ->] ->]. split; [left|]; auto.
  - apply EncodeFrame_shape in Hrun
      as (_ & Hw & Hh & Hf & Hy & Hi & _
          & [(Hs & _ & Hr & _ & Hp) | (f0 & ctx & f1 & _ & _ & _ & Hs & Hp & _)]).
    + split; [left|]; auto.
    + split; [right; eexists; split; [exact Hs|]; split; [reflexivity | exact Hp]|]. auto.
Qed.

(** X9.  The frame [EncodeNV12] hands to the codec carries the input as it
    is laid out: plane 0 starts with the first [y_plane_size_] input bytes
    and plane 1 with the [y_plane_size_ / 2] bytes after them, both read
    inside the input. *)
Theorem nvidia_hevc_nv12_frame_is_copied_plane_by_plane `{L : FFmpeg}
    (self self' : NvidiaHEVCEncoder.t) (nv12_data : bytes)
    (encoded_frame out' : vector_ptr) (r : bool) (evs : trace) (frame : AVFrame) :
  let luma := Z.to_nat (NvidiaHEVCEncoder.y_plane_size_ self) in
  let chroma := Z.to_nat (NvidiaHEVCEncoder.y_plane_size_ self / 2) in
  0 <= NvidiaHEVCEncoder.y_plane_size_ self <= INT_MAX ->
  NvidiaHEVCEncoder.EncodeNV12 self nv12_data encoded_frame = Ret ((r, self', out'), evs) ->
  In (Some frame) (submitted_frames evs) ->
  (luma + chroma <= length nv12_data)%nat
  /\ exists p0 p1,
       frame_planes frame !! 0%nat = Some p0
       /\ frame_planes frame !! 1%nat = Some p1
       /\ take luma p0 = take luma nv12_data
       /\ take chroma p1 = take chroma (drop luma nv12_data).
Proof.
  intros luma chroma Hy H Hin.
  unfold NvidiaHEVCEncoder.EncodeNV12 in H.
  destruct (_ || _) in H.
  { apply pure_inv in H as [_ ->]. destruct Hin. }
  apply EncodeFrame_shape in H
    as (_ & _ & _ & _ & _ & _ & _
        & [(Hs & _) | (f0 & ctx & f1 & _ & _ & Hcopy & Hs & _)]);
    rewrite Hs in Hin; [destruct Hin|].
  destruct Hin as [[= <-] | []].
  unfold NvidiaHEVCEncoder.copy_frame_data in Hcopy.
  rewrite (int_div_in_range _ 2) in Hcopy by lia.
  apply bind_Ret_inv in Hcopy as (fy & t1 & t2 & Hluma & Hchroma & _).
  apply copy_to_plane_Ret in Hluma
    as (_ & _ & _ & Hy_in & _ & old0 & new0 & Hold0 & Hpl0 & _ & Hc0).
  apply copy_to_plane_Ret in Hchroma
    as (_ & _ & _ & Huv_in & _ & old1 & new1 & Hold1 & Hpl1 & _ & Hc1).
  fold luma in Hy_in, Hc0, Huv_in, Hc1. fold chroma in Huv_in, Hc1.
  split; [exact Huv_in|].
  exists new0, new1. cbn [set_pts frame_planes].
  split; [rewrite Hpl1, lookup_other_plane, Hpl0 by lia;
          eapply lookup_written_plane; eassumption|].
  split; [rewrite Hpl1; eapply lookup_written_plane; eassumption|].
  split; [exact Hc0 | exact Hc1].
Qed.

(** The toy NVIDIA encoder for 2x2 pictures, fed one frame. *)
Lemma nvidia_hevc_encode_returns_at_most_one_packet_witness :
  exists r self' out' evs,
    NvidiaHEVCEncoder.EncodeNV12 (L := ToyLibrary.library) ToyLibrary.nvidia_2x2
      ToyLibrary.frame_2x2 (Some [Byte.xff]) = Ret ((r, self', out'), evs)
    /\ out' = Some (concat (received_packets evs))
    /\ NvidiaHEVCEncoder.EncodeNV12 (L := ToyLibrary.library) ToyLibrary.nvidia_2x2
         (take 5 ToyLibrary.frame_2x2) (Some [Byte.xff])
       = Ret ((false, ToyLibrary.nvidia_2x2, Some [Byte.xff]), []).
Proof.
  destruct (NvidiaHEVCEncoder.EncodeNV12 (L := ToyLibrary.library) ToyLibrary.nvidia_2x2
              ToyLibrary.frame_2x2 (Some [Byte.xff]))
    as [[[[r self'] out'] evs]| |] eqn:Hrun; try (vm_compute in Hrun; discriminate Hrun).
  destruct (nvidia_hevc_encode_returns_at_most_one_packet (L := ToyLibrary.library)
              ToyLibrary.nvidia_2x2 self' ToyLibrary.frame_2x2 (Some [Byte.xff]) out' r evs
              (or_intror Hrun)) as [_ Haccepted].
  destruct Haccepted as (_ & Hout & _); [reflexivity | vm_compute; discriminate |].
  exists r, self', out', evs. split; [reflexivity|]. split; [exact Hout|].
  destruct (NvidiaHEVCEncoder.EncodeNV12 (L := ToyLibrary.library) ToyLibrary.nvidia_2x2
              (take 5 ToyLibrary.frame_2x2) (Some [Byte.xff]))
    as [[[[r2 self2] out2] evs2]| |] eqn:Hshort;
    try (vm_compute in Hshort; discriminate Hshort).
  destruct (nvidia_hevc_encode_returns_at_most_one_packet (L := ToyLibrary.library)
              ToyLibrary.nvidia_2x2 self2 (take 5 ToyLibrary.frame_2x2) (Some [Byte.xff])
              out2 r2 evs2 (or_intror Hshort)) as [Hrejected _].
  destruct Hrejected as (-> & -> & -> & ->); [right; vm_compute; reflexivity|].
  reflexivity.
Defined.

Lemma nvidia_hevc_frames_are_stamped_with_pts_witness :
  exists r self' out' evs frame,
    NvidiaHEVCEncoder.EncodeYUV420 (L := ToyLibrary.library) ToyLibrary.nvidia_2x2
      ToyLibrary.frame_2x2 (Some []) = Ret ((r, self', out'), evs)
    /\ submitted_frames evs = [Some frame]
    /\ frame_pts frame = 0
    /\ NvidiaHEVCEncoder.pts_ self' = 1.
Proof.
  destruct (NvidiaHEVCEncoder.EncodeYUV420 (L := ToyLibrary.library) ToyLibrary.nvidia_2x2
              ToyLibrary.frame_2x2 (Some []))
    as [[[[r self'] out'] evs]| |] eqn:Hrun; try (vm_compute in Hrun; discriminate Hrun).
  destruct (nvidia_hevc_frames_are_stamped_with_pts (L := ToyLibrary.library)
              ToyLibrary.nvidia_2x2 self' ToyLibrary.frame_2x2 (Some []) out' r evs
              (or_introl Hrun)) as [[(Hnone & _) | (frame & Hsub & Hpts & Hnext)] _].
  - exfalso. vm_compute in Hrun. injection Hrun as <- <- <- <-.
    vm_compute in Hnone. discriminate Hnone.
  - exists r, self', out', evs, frame. split; [reflexivity|]. auto.
Defined.

Lemma nvidia_hevc_nv12_frame_is_copied_plane_by_plane_witness :
  exists r self' out' evs frame p1,
    NvidiaHEVCEncoder.EncodeNV12 (L := ToyLibrary.library) ToyLibrary.nvidia_2x2
      ToyLibrary.frame_2x2 (Some []) = Ret ((r, self', out'), evs)
    /\ In (Some frame) (submitted_frames evs)
    /\ frame_planes frame !! 1%nat = Some p1
    /\ take 2 p1 = [Byte.x05; Byte.x06].
Proof.
  destruct (NvidiaHEVCEncoder.EncodeNV12 (L := ToyLibrary.library) ToyLibrary.nvidia_2x2
              ToyLibrary.frame_2x2 (Some []))
    as [[[[r self'] out'] evs]| |] eqn:Hrun; try (vm_compute in Hrun; discriminate Hrun).
  destruct (submitted_frames evs) as [|[frame|] rest] eqn:Hsub;
    try (exfalso; vm_compute in Hrun; injection Hrun as <- <- <- <-;
         vm_compute in Hsub; discriminate Hsub).
  assert (Hin : In (Some frame) (submitted_frames evs))
    by (rewrite Hsub; left; reflexivity).
  destruct (nvidia_hevc_nv12_frame_is_copied_plane_by_plane (L := ToyLibrary.library)
              ToyLibrary.nvidia_2x2 self' ToyLibrary.frame_2x2 (Some []) out' r evs frame)
    as (_ & p0 & p1 & _ & H1 & _ & Hchroma); try exact Hrun; try exact Hin;
    try (vm_compute; split; discriminate).
  exists r, self', out', evs, frame, p1. split; [reflexivity|]. auto.
Defined.

(** ** ImageUtils: dimensions, failures and the size of the result *)

Lemma memcpy_length (dst src dst' : bytes) (dst_off src_off n : Z) :
  memcpy dst dst_off src src_off n = Ret dst' -> length dst' = length dst.
Proof.
  unfold memcpy. destruct (_ || _); [discriminate|].
  destruct (_ && _) eqn:Hfit; [|discriminate]. intros [= <-].
  apply andb_true_iff in Hfit as [Hs Hd]. apply Nat.leb_le in Hs, Hd.
  rewrite !length_app, !length_take, !length_drop. lia.
Qed.

Section ImageUtilsResults.
Context `{L : FFmpeg} `{S : Swscale}.

Import ImageUtils.

Lemma drain_destination_length dst fmt output width height output' :
  drain_destination dst fmt output width height = Ret output' ->
  length output' = length output.
Proof.
  unfold drain_destination, outcome_bind. intros H.
  repeat match type of H with
  | context [match ?x with _ => _ end] => destruct x eqn:?; try discriminate
  end;
  repeat match goal with
  | Hm : memcpy _ _ _ _ _ = Ret _ |- _ => apply memcpy_length in Hm
  end; simplify_eq; congruence.
Qed.

(** X10.  Without a positive width and a positive height nothing is
    converted: [ConvertFormat], and with it [ConvertToNV12] and
    [ConvertToYUV420], returns [false] and leaves the object and the output
    vector as they were, whatever the input; in particular with the
    default arguments [width = 0], [height = 0]. *)
Theorem convert_needs_positive_dimensions (self : t) (input_data output_data : bytes)
    (target_format : ImageFormat.t) (width height : Z) :
  width <= 0 \/ height <= 0 ->
  ConvertFormat self input_data output_data target_format width height
  = Ret (false, self, output_data)
  /\ ConvertToNV12 self input_data output_data width height
     = Ret (false, self, output_data)
  /\ ConvertToYUV420 self input_data output_data width height
     = Ret (false, self, output_data).
Proof.
  intros Hdim.
  assert (H : forall target,
    ConvertFormat self input_data output_data target width height
    = Ret (false, self, output_data)).
  { intros target. unfold ConvertFormat.
    destruct (negb _ || _); [reflexivity|].
    destruct (bool_decide _); [reflexivity|].
    assert (Hguard : (width <=? 0) || (height <=? 0) = true).
    { apply orb_true_iff. destruct Hdim; [left | right]; apply Z.leb_le; assumption. }
    assert (Hdetect : forall f, DetectDimensions input_data f width height = false).
    { intros f. unfold DetectDimensions.
      replace ((0 <? width) && (0 <? height)) with false; [reflexivity|].
      symmetry. apply andb_false_iff.
      destruct Hdim; [left | right]; apply Z.ltb_ge; assumption. }
    rewrite Hguard, Hdetect. reflexivity. }
  split; [apply H|]. split; apply H.
Qed.

(** X11.  A conversion that returns [false] has not touched the output
    vector; one that returns [true] leaves in it exactly
    [width * height * 3 / 2] bytes (the size of a 4:2:0 picture, as the
    code computes it in [int]), both when it converted and when it copied
    an input that already had the requested format. *)
Theorem convert_result_size (self self' : t) (input_data output_data output' : bytes)
    (target_format : ImageFormat.t) (width height : Z) (r : bool) :
  ConvertFormat self input_data output_data target_format width height
  = Ret (r, self', output') ->
  (r = false -> output' = output_data)
  /\ (r = true ->
      Z.of_nat (length output')
      = to_size_t (int_div (int_mul (int_mul width height) 3) 2)).
Proof.
  unfold ConvertFormat. intros H.
  destruct (negb _ || _); [injection H as <- <- <-; split; [auto | discriminate]|].
  destruct (bool_decide _); [injection H as <- <- <-; split; [auto | discriminate]|].
  destruct (_ && _); [injection H as <- <- <-; split; [auto | discriminate]|].
  destruct (source_pixel_format _) as [src_fmt|];
    [|injection H as <- <- <-; split; [auto | discriminate]].
  destruct (target_pixel_format target_format) as [dst_fmt|] eqn:Htarget;
    [|injection H as <- <- <-; split; [auto | discriminate]].
  destruct (bool_decide _) eqn:Hsame.
  { injection H as <- <- <-. split; [discriminate|]. intros _.
    apply bool_decide_eq_true in Hsame.
    assert (Hplanar : target_format = ImageFormat.NV12
                      \/ target_format = ImageFormat.YUV420P)
      by (destruct target_format; try discriminate; auto).
    clear Htarget. revert Hsame Hplanar. unfold DetectFormat.
    repeat match goal with
    | |- context [if ?b then _ else _] => destruct b eqn:?
    end; intros <- [|]; try discriminate;
    match goal with
    | Hs : (Z.of_nat (length input_data) =? to_size_t (int_div _ _)) = true |- _ =>
        apply Z.eqb_eq in Hs; exact Hs
    end. }
  destruct (sws_getCachedContext _ _);
    [|injection H as <- <- <-; split; [auto | discriminate]].
  destruct av_frame_alloc; [|injection H as <- <- <-; split; [auto | discriminate]].
  destruct (_ <? 0); [injection H as <- <- <-; split; [auto | discriminate]|].
  destruct (_ <? 0); [injection H as <- <- <-; split; [auto | discriminate]|].
  unfold outcome_bind in H.
  destruct (fill_source _ _ _ _ _); try discriminate.
  destruct (_ <=? 0); [injection H as <- <- <-; split; [auto | discriminate]|].
  destruct (9223372036854775807 <? _) eqn:Hbig; [discriminate|].
  destruct (drain_destination _ _ _ _ _) eqn:Hdrain; try discriminate.
  injection H as <- <- <-. split; [discriminate|]. intros _.
  apply drain_destination_length in Hdrain. rewrite Hdrain.
  unfold vector_resize. rewrite length_app, length_take, length_replicate.
  assert (0 <= to_size_t (int_div (int_mul (int_mul width height) 3) 2))
    by (unfold to_size_t; apply Z.mod_pos_bound; lia).
  lia.
Qed.

(** X12.  For a packed source, RGB or RGBA as [DetectFormat] decides,
    [ConvertFormat] copies the whole input vector to plane 0 of the source
    picture without comparing sizes.  Once the scaling context and the two
    pictures are there, an input longer than what is left of the picture
    buffer behind the plane pointer (a JPEG or PNG file, detected by its
    header, can have any length) is written past the end of the buffer:
    the call has no defined result. *)
Theorem convert_overruns_picture_with_long_packed_input (self : t)
    (input_data output_data : bytes) (target_format : ImageFormat.t)
    (width height : Z) (src_fmt dst_fmt : AVPixelFormat) (c : SwsContext)
    (frame : AVFrame) (off : Z) :
  initialized_ self = true ->
  0 < width -> 0 < height ->
  DetectFormat input_data width height = ImageFormat.RGB
  \/ DetectFormat input_data width height = ImageFormat.RGBA ->
  source_pixel_format (DetectFormat input_data width height) = Some src_fmt ->
  target_pixel_format target_format = Some dst_fmt ->
  sws_getCachedContext (ctx_ self)
    {| srcW := width; srcH := height; srcFormat := src_fmt;
       dstW := width; dstH := height; dstFormat := dst_fmt;
       sws_flags := SWS_BILINEAR |} = Some c ->
  av_frame_alloc = Some frame ->
  0 <= fst (av_image_alloc width height src_fmt 1) ->
  0 <= fst (av_image_alloc width height dst_fmt 1) ->
  image_data (snd (av_image_alloc width height src_fmt 1)) !! 0%nat = Some (Some off) ->
  Z.of_nat (length (image_buffer (snd (av_image_alloc width height src_fmt 1)))) - off
  < Z.of_nat (length input_data) ->
  ConvertFormat self input_data output_data target_format width height = Undefined.
Proof.
  intros Hinit Hw Hh Hpacked Hsrc Hdst Hctx Hframe Hsrc_alloc Hdst_alloc Hplane Hlong.
  unfold ConvertFormat. rewrite Hinit. cbn [negb orb].
  destruct (Z.of_nat (length input_data) =? 0) eqn:Hempty.
  { exfalso. apply Z.eqb_eq in Hempty. unfold DetectFormat in Hpacked.
    rewrite Hempty in Hpacked. cbn in Hpacked. destruct Hpacked; discriminate. }
  rewrite bool_decide_eq_false_2 by (destruct Hpacked as [-> | ->]; discriminate).
  replace (width <=? 0) with false by (symmetry; apply Z.leb_gt; lia).
  replace (height <=? 0) with false by (symmetry; apply Z.leb_gt; lia).
  cbn [orb andb]. rewrite Hsrc, Hdst.
  rewrite bool_decide_eq_false_2
    by (destruct Hpacked as [-> | ->]; destruct target_format; discriminate).
  rewrite Hctx, Hframe.
  replace (_ <? 0) with false by (symmetry; apply Z.ltb_ge; lia).
  replace (_ <? 0) with false by (symmetry; apply Z.ltb_ge; lia).
  assert (Hfill : fill_source (snd (av_image_alloc width height src_fmt 1)) src_fmt
                    input_data width height = Undefined).
  { assert (Hfmt : src_fmt = AV_PIX_FMT_RGB24 \/ src_fmt = AV_PIX_FMT_RGBA)
      by (destruct Hpacked as [Hd | Hd]; rewrite Hd in Hsrc; injection Hsrc as <-; auto).
    assert (Hcopy : copy_to_image (snd (av_image_alloc width height src_fmt 1)) 0
                      input_data = Undefined).
    { unfold copy_to_image. rewrite Hplane. unfold memcpy.
      destruct (_ || _); [reflexivity|].
      destruct (_ && _) eqn:Hfit; [|reflexivity].
      exfalso. apply andb_true_iff in Hfit as [_ Hfit]. apply Nat.leb_le in Hfit.
      rewrite Nat2Z.id in Hfit. lia. }
    destruct Hfmt as [-> | ->]; exact Hcopy. }
  rewrite Hfill. reflexivity.
Qed.

End ImageUtilsResults.

Lemma convert_needs_positive_dimensions_witness :
  ImageUtils.ConvertToNV12 (L := ToyLibrary.library) (S := ToyLibrary.swscale)
    ImageUtils.new ToyLibrary.rgb_2x2 [] 0 0
  = Ret (false, ImageUtils.new, []).
Proof.
  apply (convert_needs_positive_dimensions (L := ToyLibrary.library)
           (S := ToyLibrary.swscale) ImageUtils.new ToyLibrary.rgb_2x2 []
           ImageFormat.NV12 0 0).
  left. lia.
Defined.

Lemma convert_result_size_witness :
  exists self' output',
    ImageUtils.ConvertFormat (L := ToyLibrary.library) (S := ToyLibrary.swscale)
      ImageUtils.new ToyLibrary.rgb_2x2 [] ImageFormat.NV12 2 2
    = Ret (true, self', output')
    /\ Z.of_nat (length output') = 6.
Proof.
  destruct (ImageUtils.ConvertFormat (L := ToyLibrary.library) (S := ToyLibrary.swscale)
              ImageUtils.new ToyLibrary.rgb_2x2 [] ImageFormat.NV12 2 2)
    as [[[r self'] output']| |] eqn:Hrun; try (vm_compute in Hrun; discriminate Hrun).
  assert (Hr : r = true) by (vm_compute in Hrun; congruence).
  subst r. exists self', output'. split; [reflexivity|].
  destruct (convert_result_size (L := ToyLibrary.library) (S := ToyLibrary.swscale)
              ImageUtils.new self' ToyLibrary.rgb_2x2 [] output' ImageFormat.NV12 2 2
              true Hrun) as [_ Hsize].
  exact (Hsize eq_refl).
Defined.

(** A file that starts like a JPEG, 24 bytes long, offered as a 1x1
    picture. *)
Lemma convert_overruns_picture_with_long_packed_input_witness :
  let input := Byte.xff :: Byte.xd8 :: replicate 22 Byte.x00 in
  ImageUtils.DetectFormat input 1 1 = ImageFormat.RGB
  /\ ImageUtils.ConvertToNV12 (L := ToyLibrary.library) (S := ToyLibrary.swscale)
       ImageUtils.new input [] 1 1 = Undefined.
Proof.
  intros input. split; [reflexivity|].
  eapply (convert_overruns_picture_with_long_packed_input (L := ToyLibrary.library)
            (S := ToyLibrary.swscale) ImageUtils.new input [] ImageFormat.NV12 1 1
            AV_PIX_FMT_RGB24 AV_PIX_FMT_NV12);
    try reflexivity; try (vm_compute; discriminate); try lia.
  left. reflexivity.
Defined.

(** ** The facade: what the calls keep and what they pass on *)

Section FacadeCalls.
Context `{L : FFmpeg} `{E : Encoders}.

(** Undo the wrapping of a result by the dynamic type. *)
Ltac through_wrapper H :=
  lazymatch type of H with
  | VideoEncoder.wrapped _ _ = Ret _ =>
      unfold VideoEncoder.wrapped in H;
      apply bind_Ret_inv in H as ([[? ?] ?] & ? & ? & ? & H & ->);
      apply pure_inv in H as [H ->]; injection H as ? ? ?; subst
  | VideoEncoder.wrapped2 _ _ = Ret _ =>
      unfold VideoEncoder.wrapped2 in H;
      apply bind_Ret_inv in H as ([? ?] & ? & ? & ? & H & ->);
      apply pure_inv in H as [H ->]; injection H as ? ?; subst
  | pure _ = Ret _ =>
      apply pure_inv in H as [H ->];
      first [ injection H as ? ? ? | injection H as ? ? ]; subst
  end.

Lemma same_identity_refl enc : same_identity enc enc.
Proof. repeat split. Qed.

(** The member functions of the wrappers, one shape for all: with no
    encoder the object is returned as it is, with one the call goes to it
    and the object is rebuilt around what comes back. *)
Ltac wrapper_call H :=
  match type of H with
  | match ?e with _ => _ end = Ret _ =>
      let He := fresh "Hencoder" in
      destruct e eqn:He;
      [ apply bind_Ret_inv in H as (? & ? & ? & _ & H & _);
        repeat match type of H with
        | (let '(_, _) := ?x in _) = Ret _ => destruct x
        end
      | ];
      apply pure_inv in H as [H _];
      first [ injection H as ? ? ? | injection H as ? ? ]; subst;
      unfold same_identity; cbn; rewrite ?He; repeat split
  end.

Ltac unfold_member H :=
  repeat first
    [ progress unfold H264EncoderImpl.EncodeYUV420, H264EncoderImpl.Flush,
        H264EncoderImpl.UpdateBitrate in H
    | progress unfold HEVCEncoderImpl.EncodeYUV420, HEVCEncoderImpl.Flush,
        HEVCEncoderImpl.UpdateBitrate, HEVCEncoderImpl.UpdateFramerate,
        HEVCEncoderImpl.UpdateParams in H
    | progress unfold VP8EncoderImpl.EncodeYUV420 in H
    | progress unfold VP9EncoderImpl.EncodeYUV420, VP9EncoderImpl.UpdateBitrate,
        VP9EncoderImpl.UpdateFramerate in H
    | progress unfold AV1EncoderImpl.EncodeYUV420, AV1EncoderImpl.Flush in H
    | progress unfold NvidiaH264EncoderImpl.EncodeYUV420,
        NvidiaH264EncoderImpl.EncodeNV12 in H
    | progress unfold NvidiaHEVCEncoderImpl.EncodeYUV420,
        NvidiaHEVCEncoderImpl.EncodeNV12 in H
    | progress unfold NvidiaAV1EncoderImpl.EncodeYUV420,
        NvidiaAV1EncoderImpl.EncodeNV12 in H ].

Ltac member_keeps H :=
  through_wrapper H;
  first
    [ apply same_identity_refl
    | match goal with
      | Hc : _ = Ret _ |- _ => unfold_member Hc; wrapper_call Hc
      end ].

Lemma EncodeYUV420_keeps fuel enc data out r enc' out' evs :
  VideoEncoder.EncodeYUV420 fuel enc data out = Ret ((r, enc', out'), evs) ->
  same_identity enc enc'.
Proof.
  intros H. destruct enc; cbn [VideoEncoder.EncodeYUV420] in H; member_keeps H.
Qed.

Lemma EncodeNV12_keeps enc data out r enc' out' evs :
  VideoEncoder.EncodeNV12 enc data out = Ret ((r, enc', out'), evs) ->
  same_identity enc enc'.
Proof.
  intros H. destruct enc; cbn [VideoEncoder.EncodeNV12] in H; member_keeps H.
Qed.

Lemma Flush_keeps fuel enc out r enc' out' evs :
  VideoEncoder.Flush fuel enc out = Ret ((r, enc', out'), evs) ->
  same_identity enc enc'.
Proof.
  intros H. destruct enc; cbn [VideoEncoder.Flush] in H; member_keeps H.
Qed.

Lemma UpdateBitrate_keeps enc n r enc' evs :
  VideoEncoder.UpdateBitrate enc n = Ret ((r, enc'), evs) ->
  same_identity enc enc'.
Proof.
  intros H. destruct enc; cbn [VideoEncoder.UpdateBitrate] in H; member_keeps H.
Qed.

Lemma UpdateFramerate_keeps enc n r enc' evs :
  VideoEncoder.UpdateFramerate enc n = Ret ((r, enc'), evs) ->
  same_identity enc enc'.
Proof.
  intros H. destruct enc; cbn [VideoEncoder.UpdateFramerate] in H; member_keeps H.
Qed.

Lemma facade_step_keeps enc enc' : facade_step enc enc' -> same_identity enc enc'.
Proof.
  intros [(? & ? & ? & ? & ? & ? & H) | [(? & ? & ? & ? & ? & H)
         | [(? & ? & ? & ? & ? & H) | [(? & ? & ? & H) | (? & ? & ? & H)]]]].
  - eapply EncodeYUV420_keeps; eassumption.
  - eapply EncodeNV12_keeps; eassumption.
  - eapply Flush_keeps; eassumption.
  - eapply UpdateBitrate_keeps; eassumption.
  - eapply UpdateFramerate_keeps; eassumption.
Qed.

(** X13.  Whatever calls are made on an encoder object that
    [VideoEncoder::Create] returned for a configuration (whose [codec_params]
    is null or of the struct of its codec), in any number and order and
    whatever they return, [GetConfig] goes on returning the configuration
    passed at creation, bitrate and framerate updates included; the object
    stays of its wrapper class, and an object without an encoder behind it
    never gets one (nor loses one it has). *)
Theorem facade_calls_keep_the_creation_config (config : VideoEncoderConfig.t)
    (enc enc' : VideoEncoder.t) (evs : trace) :
  VideoEncoderConfig.params_match_codec config = true ->
  VideoEncoder.Create config = Ret (Some enc, evs) ->
  after_calls enc enc' ->
  VideoEncoder.GetConfig enc' = Ret config
  /\ Some (wrapper_class enc')
     = spec_selected_wrapper (VideoEncoderConfig.gpu_acceleration config)
         (VideoEncoderConfig.output_codec config)
  /\ VideoEncoder.encoder_is_null enc' = VideoEncoder.encoder_is_null enc.
Proof.
  intros Hmatch Hcreate Hcalls.
  assert (Hsame : same_identity enc enc').
  { clear Hcreate.
    induction Hcalls as [enc | enc mid enc' Hstep _ IH]; [apply same_identity_refl|].
    apply facade_step_keeps in Hstep as (Hc & Hw & Hn).
    destruct IH as (Hc' & Hw' & Hn').
    repeat split; congruence. }
  destruct Hsame as (Hc & Hw & Hn).
  rewrite Create_constructs_selected in Hcreate.
  destruct (spec_selected_wrapper _ _) as [w|] eqn:Hsel;
    [|apply pure_inv in Hcreate as [[=] _]].
  pose proof (constructed_class _ _ _ _ Hcreate) as Hclass. cbn in Hclass.
  destruct (construct_returns_wrapper w config Hmatch)
    as (r0 & evs0 & Hrun & enc0 & -> & Hconfig & _).
  rewrite Hrun in Hcreate. injection Hcreate as -> ->.
  split; [congruence|]. split; [congruence | exact Hn].
Qed.

(** A successful call on the software H264 wrapper is a successful call on
    the encoder behind it. *)
Lemma h264_wrapper_call_reaches_encoder (fuel : nat) (o : H264EncoderImpl.t)
    (data : bytes) (encoded_frame out' : vector_ptr) (enc' : VideoEncoder.t)
    (evs : trace) :
  VideoEncoder.EncodeYUV420 fuel (VideoEncoder.IsH264EncoderImpl o) data encoded_frame
    = Ret ((true, enc', out'), evs)
  \/ VideoEncoder.Flush fuel (VideoEncoder.IsH264EncoderImpl o) encoded_frame
     = Ret ((true, enc', out'), evs) ->
  exists e e',
    H264EncoderImpl.encoder_ o = Some e
    /\ enc' = VideoEncoder.IsH264EncoderImpl (H264EncoderImpl.with_encoder o e')
    /\ (H264EncoderInstance.EncodeYUV420 fuel e data encoded_frame
          = Ret ((true, e', out'), evs)
        \/ H264EncoderInstance.Flush fuel e encoded_frame = Ret ((true, e', out'), evs)).
Proof.
  intros H.
  cbn [VideoEncoder.EncodeYUV420 VideoEncoder.Flush] in H.
  destruct H as [H | H];
    through_wrapper H;
    match goal with Hc : _ = Ret _ |- _ => unfold_member Hc; rename Hc into Hcall end;
    (destruct (H264EncoderImpl.encoder_ o) as [e|];
     [|apply pure_inv in Hcall as [[=] _]]);
    apply bind_Ret_inv in Hcall as ([[r1 e1] o1] & t1 & t2 & Hrun & Hcall & ->);
    apply pure_inv in Hcall as [Hcall ->]; injection Hcall as ? ? ?; subst;
    exists e, e1; rewrite !app_nil_r; auto.
Qed.


(** X15.  [UpdateBitrate] on the software H264 wrapper reconfigures the
    encoder behind it with the H264 configuration marshaled at creation in
    which the bitrate alone is replaced, and returns whether the encoder is
    initialized afterwards.  The wrapper's own copies, [h264_config_] and
    [config_], are not updated: a later [UpdateBitrate] starts from the
    creation-time values again.  Without an encoder it returns [false] and
    calls nothing. *)
Theorem h264_wrapper_update_bitrate_reconfigures_from_creation_config
    (o o' : H264EncoderImpl.t) (new_bitrate : Z) (r : bool) (evs : trace) :
  H264EncoderImpl.UpdateBitrate o new_bitrate = Ret ((r, o'), evs) ->
  H264EncoderImpl.h264_config_ o' = H264EncoderImpl.h264_config_ o
  /\ H264EncoderImpl.config_ o' = H264EncoderImpl.config_ o
  /\ (H264EncoderImpl.encoder_ o = None -> r = false /\ o' = o /\ evs = [])
  /\ (H264EncoderImpl.encoder_ o <> None ->
      exists e',
        H264EncoderImpl.encoder_ o' = Some e'
        /\ H264EncoderInstance.GetConfig e'
           = H264EncoderConfig.set_bitrate new_bitrate (H264EncoderImpl.h264_config_ o)
        /\ H264EncoderInstance.initialized_ e' = r).
Proof.
  unfold H264EncoderImpl.UpdateBitrate. intros H.
  destruct (H264EncoderImpl.encoder_ o) as [e|] eqn:He.
  - apply bind_Ret_inv in H as ([r1 e1] & t1 & t2 & Hrun & H & ->).
    apply pure_inv in H as [H ->]. injection H as -> ->.
    unfold H264EncoderInstance.Reconfigure in Hrun.
    apply Initialize_result in Hrun as (Hc & Hi & _).
    cbn. repeat split; try discriminate.
    intros _. exists e1. repeat split; assumption.
  - apply pure_inv in H as [H ->]. injection H as -> ->.
    repeat split; auto. intros Hn. contradiction.
Qed.

(** X16.  For a configuration whose [output_codec] is one of the five
    enumerators, [VideoEncoder::Create] has a defined result, and then a
    non-null one, exactly when [codec_params] is null or of the struct that
    belongs to [output_codec]; with any other params object every one of
    the eight wrapper constructors runs into the unchecked cast of the copy
    constructor. *)
Theorem create_is_defined_iff_params_match (config : VideoEncoderConfig.t) :
  CodecType.is_enumerator (VideoEncoderConfig.output_codec config) = true ->
  (VideoEncoderConfig.params_match_codec config = true ->
   exists enc evs, VideoEncoder.Create config = Ret (Some enc, evs))
  /\ (VideoEncoderConfig.params_match_codec config = false ->
      VideoEncoder.Create config = Undefined).
Proof.
  intros Henum. rewrite Create_constructs_selected.
  assert (Hsel : exists w,
    spec_selected_wrapper (VideoEncoderConfig.gpu_acceleration config)
      (VideoEncoderConfig.output_codec config) = Some w).
  { destruct (enumerator_cases _ Henum) as [-> | [-> | [-> | [-> | ->]]]];
      destruct (VideoEncoderConfig.gpu_acceleration config); eexists; reflexivity. }
  destruct Hsel as [w ->]. split; intros Hmatch.
  - destruct (construct_returns_wrapper w config Hmatch)
      as (r & evs & Hrun & enc & -> & _).
    eauto.
  - assert (Hcopy : VideoEncoderConfig.copy config = Undefined).
    { unfold VideoEncoderConfig.params_match_codec in Hmatch.
      unfold VideoEncoderConfig.copy.
      destruct (VideoEncoderConfig.codec_params config) as [p|]; [|discriminate].
      destruct (enumerator_cases _ Henum) as [Hc | [Hc | [Hc | [Hc | Hc]]]];
        rewrite Hc in *; destruct p; try discriminate; reflexivity. }
    destruct w; unfold construct, VideoEncoder.make;
      first
        [ progress unfold H264EncoderImpl.new | progress unfold HEVCEncoderImpl.new
        | progress unfold VP8EncoderImpl.new | progress unfold VP9EncoderImpl.new
        | progress unfold AV1EncoderImpl.new | progress unfold NvidiaH264EncoderImpl.new
        | progress unfold NvidiaHEVCEncoderImpl.new
        | progress unfold NvidiaAV1EncoderImpl.new ];
      rewrite Hcopy; reflexivity.
Qed.

End FacadeCalls.

(** X17.  The copy constructor of [VideoEncoderConfig], where it is
    defined, copies the seven plain members as they are and gives the copy
    a params object of the struct its [output_codec] names, or none: so a
    copy can always be copied again, and copying it changes nothing any
    more.  For an [output_codec] that is none of the five enumerators the
    params object is dropped. *)
Theorem config_copy_can_be_copied_again (c c' : VideoEncoderConfig.t) :
  VideoEncoderConfig.copy c = Ret c' ->
  VideoEncoderConfig.set_codec_params None c' = VideoEncoderConfig.set_codec_params None c
  /\ VideoEncoderConfig.params_match_codec c' = true
  /\ VideoEncoderConfig.copy c' = Ret c'
  /\ (CodecType.is_enumerator (VideoEncoderConfig.output_codec c) = true -> c' = c)
  /\ (CodecType.is_enumerator (VideoEncoderConfig.output_codec c) = false ->
      VideoEncoderConfig.codec_params c' = None).
Proof.
  destruct c as [gpu fmt codec w h b f params].
  unfold VideoEncoderConfig.copy, VideoEncoderConfig.copy_params, outcome_bind.
  cbn [VideoEncoderConfig.codec_params VideoEncoderConfig.output_codec].
  intros H.
  assert (Hc' : exists params',
    c' = VideoEncoderConfig.mk gpu fmt codec w h b f params'
    /\ VideoEncoderConfig.params_match_codec
         (VideoEncoderConfig.mk gpu fmt codec w h b f params') = true
    /\ (CodecType.is_enumerator codec = true -> params' = params)
    /\ (CodecType.is_enumerator codec = false -> params' = None)).
  { assert (Hfinish : forall params',
      (CodecType.is_enumerator codec = true ->
       params' = params
       /\ VideoEncoderConfig.params_match_codec
            (VideoEncoderConfig.mk gpu fmt codec w h b f params') = true) ->
      (CodecType.is_enumerator codec = false -> params' = None) ->
      exists p',
        VideoEncoderConfig.mk gpu fmt codec w h b f params'
        = VideoEncoderConfig.mk gpu fmt codec w h b f p'
        /\ VideoEncoderConfig.params_match_codec
             (VideoEncoderConfig.mk gpu fmt codec w h b f p') = true
        /\ (CodecType.is_enumerator codec = true -> p' = params)
        /\ (CodecType.is_enumerator codec = false -> p' = None)).
    { intros params' Hyes Hno. exists params'. split; [reflexivity|].
      destruct (CodecType.is_enumerator codec) eqn:He.
      - destruct (Hyes eq_refl) as [-> Hm]. auto.
      - rewrite (Hno eq_refl). repeat split; auto. discriminate. }
    assert (Hnot : forall q : positive,
      CodecType.is_enumerator (Z.pos q) = true -> (q <= 4)%positive).
    { intros q He. unfold CodecType.is_enumerator in He.
      apply andb_true_iff in He as [_ He]. apply Z.leb_le in He. lia. }
    destruct params as [p|];
      [|injection H as <-; apply Hfinish; [intros _; split; reflexivity | reflexivity]].
    destruct codec as [|q|q].
    - destruct p; try discriminate; injection H as <-;
        (apply Hfinish; [intros _; split; reflexivity | discriminate]).
    - destruct q as [[q|q|]|[[q|q|]|[q|q|]|]|];
        try (injection H as <-; apply Hfinish;
             [intros He; apply Hnot in He; lia | reflexivity]);
        destruct p; try discriminate; injection H as <-;
        (apply Hfinish; [intros _; split; reflexivity | discriminate]).
    - injection H as <-. apply Hfinish; [discriminate | reflexivity]. }
  destruct Hc' as (params' & -> & Hmatch & Henum & Hnot).
  split; [reflexivity|]. split; [exact Hmatch|].
  split; [apply copy_of_matching_config; exact Hmatch|].
  split.
  - intros He. rewrite (Henum He). reflexivity.
  - intros He. cbn. apply Hnot. exact He.
Qed.

(** A software H264 wrapper for 2x2 pictures on the toy library. *)
Lemma facade_calls_keep_the_creation_config_witness :
  let config :=
    VideoEncoderConfig.mk false PixelFormat.YUV420 CodecType.H264 2 2 64000 30 None in
  exists enc evs r enc' evs',
    VideoEncoder.Create (L := ToyLibrary.library) (E := ToyLibrary.no_encoders) config
    = Ret (Some enc, evs)
    /\ VideoEncoder.UpdateBitrate enc 32000 = Ret ((r, enc'), evs')
    /\ VideoEncoder.GetConfig enc' = Ret config.
Proof.
  intros config.
  destruct (VideoEncoder.Create (L := ToyLibrary.library) (E := ToyLibrary.no_encoders)
              config) as [[[enc|] evs]| |] eqn:Hcreate;
    try (vm_compute in Hcreate; discriminate Hcreate).
  destruct (VideoEncoder.UpdateBitrate enc 32000) as [[[r enc'] evs']| |] eqn:Hupdate;
    try (exfalso; vm_compute in Hcreate; injection Hcreate as <- <-;
         vm_compute in Hupdate; discriminate Hupdate).
  exists enc, evs, r, enc', evs'.
  split; [reflexivity|]. split; [exact Hupdate|].
  apply (facade_calls_keep_the_creation_config (L := ToyLibrary.library)
           (E := ToyLibrary.no_encoders) config enc enc' evs eq_refl Hcreate).
  eapply calls_more; [|apply calls_none].
  right. right. right. left. exists 32000, r, evs'. exact Hupdate.
Defined.


Lemma h264_wrapper_update_bitrate_reconfigures_from_creation_config_witness :
  exists r o' evs e',
    H264EncoderImpl.UpdateBitrate (L := ToyLibrary.library) ToyObjects.wrapper_2x2 32000
    = Ret ((r, o'), evs)
    /\ H264EncoderImpl.encoder_ o' = Some e'
    /\ H264EncoderConfig.bitrate (H264EncoderInstance.GetConfig e') = 32000
    /\ H264EncoderConfig.bitrate (H264EncoderImpl.h264_config_ o') = 5000000.
Proof.
  destruct (H264EncoderImpl.UpdateBitrate (L := ToyLibrary.library)
              ToyObjects.wrapper_2x2 32000)
    as [[[r o'] evs]| |] eqn:Hrun; try (vm_compute in Hrun; discriminate Hrun).
  destruct (h264_wrapper_update_bitrate_reconfigures_from_creation_config
              (L := ToyLibrary.library) ToyObjects.wrapper_2x2 o' 32000 r evs Hrun)
    as (Hkept & _ & _ & Hset).
  destruct Hset as (e' & He' & Hconfig & _); [discriminate|].
  exists r, o', evs, e'. split; [reflexivity|]. split; [exact He'|].
  rewrite Hconfig, Hkept. split; reflexivity.
Defined.

Lemma create_is_defined_iff_params_match_witness :
  (exists enc evs,
     VideoEncoder.Create (L := ToyLibrary.library) (E := ToyLibrary.no_encoders)
       VideoEncoderConfig.default = Ret (Some enc, evs))
  /\ VideoEncoder.Create (L := ToyLibrary.library) (E := ToyLibrary.no_encoders)
       (VideoEncoderConfig.SetAV1Params codec.AV1Params.default
          (VideoEncoderConfig.mk true PixelFormat.NV12 CodecType.HEVC 64 64 1000 30 None))
     = Undefined.
Proof.
  split.
  - apply (create_is_defined_iff_params_match (L := ToyLibrary.library)
             (E := ToyLibrary.no_encoders) VideoEncoderConfig.default eq_refl).
    reflexivity.
  - apply (create_is_defined_iff_params_match (L := ToyLibrary.library)
             (E := ToyLibrary.no_encoders)
             (VideoEncoderConfig.SetAV1Params codec.AV1Params.default
                (VideoEncoderConfig.mk true PixelFormat.NV12 CodecType.HEVC 64 64 1000 30
                   None)) eq_refl).
    reflexivity.
Defined.

Lemma config_copy_can_be_copied_again_witness :
  let c := VideoEncoderConfig.SetVP9Params codec.VP9Params.default
             (VideoEncoderConfig.mk false PixelFormat.YUV420 CodecType.VP9 64 64 1000 30 None) in
  VideoEncoderConfig.copy c = Ret c.
Proof.
  intros c.
  exact (proj1 (proj2 (proj2 (config_copy_can_be_copied_again c c eq_refl)))).
Defined.

(** * The H.264 decoder *)

Lemma memcpy_fits (dst src : bytes) (dst_off src_off n : Z) :
  0 <= n -> 0 <= dst_off -> 0 <= src_off ->
  src_off + n <= Z.of_nat (length src) ->
  dst_off + n <= Z.of_nat (length dst) ->
  memcpy dst dst_off src src_off n
  = Ret (take (Z.to_nat dst_off) dst
         ++ take (Z.to_nat n) (drop (Z.to_nat src_off) src)
         ++ drop (Z.to_nat dst_off + Z.to_nat n) dst).
Proof.
  intros Hn Hd Hs Hsrc Hdst. unfold memcpy.
  replace (n <? 0) with false by (symmetry; apply Z.ltb_ge; lia).
  replace (dst_off <? 0) with false by (symmetry; apply Z.ltb_ge; lia).
  replace (src_off <? 0) with false by (symmetry; apply Z.ltb_ge; lia).
  cbn [orb].
  replace (_ && _)%bool with true; [reflexivity|].
  symmetry. apply andb_true_iff. split; apply Nat.leb_le; lia.
Qed.

Lemma packed_rows_length (plane : bytes) (linesize stride first rows : nat) :
  (forall r, first <= r < first + rows -> r * linesize + stride <= length plane)%nat ->
  length (packed_rows plane linesize stride first rows) = (rows * stride)%nat.
Proof.
  unfold packed_rows. revert first. induction rows as [|rows IH]; intros first Hfit.
  - reflexivity.
  - cbn [seq map concat]. rewrite length_app, IH.
    + rewrite length_take, length_drop. specialize (Hfit first). lia.
    + intros r Hr. apply Hfit. lia.
Qed.

Lemma packed_rows_step (plane : bytes) (linesize stride first rows : nat) :
  packed_rows plane linesize stride first (S rows)
  = take stride (drop (first * linesize) plane)
    ++ packed_rows plane linesize stride (S first) rows.
Proof. reflexivity. Qed.

(** The chroma loop stores the rows one after the other. *)
Lemma copy_rows_packs (rows : nat) :
  forall (i : Z) (out : bytes) (base : Z) (plane : bytes) (linesize stride : Z),
  0 <= i -> 0 <= base -> 0 <= linesize -> 0 <= stride ->
  (i + Z.of_nat rows) * stride <= INT_MAX ->
  (i + Z.of_nat rows) * linesize <= INT_MAX ->
  base + (i + Z.of_nat rows) * stride <= Z.of_nat (length out) ->
  (forall r, i <= r < i + Z.of_nat rows ->
     r * linesize + stride <= Z.of_nat (length plane)) ->
  H264DecoderImpl.copy_rows rows i out base plane linesize stride
  = Ret (take (Z.to_nat (base + i * stride)) out
         ++ packed_rows plane (Z.to_nat linesize) (Z.to_nat stride) (Z.to_nat i) rows
         ++ drop (Z.to_nat (base + (i + Z.of_nat rows) * stride)) out).
Proof.
  induction rows as [|rows IH];
    intros i out base plane linesize stride Hi Hbase Hls Hstride Hmax Hmaxl Hout Hplane.
  - cbn [H264DecoderImpl.copy_rows packed_rows seq map concat app].
    replace (i + Z.of_nat 0) with i by lia. now rewrite take_drop.
  - cbn [H264DecoderImpl.copy_rows].
    assert (Hrow : i * linesize + stride <= Z.of_nat (length plane))
      by (apply Hplane; lia).
    assert (His : int_mul i stride = i * stride).
    { apply wrap_int_in_range. unfold INT_MIN, INT_MAX in *. nia. }
    assert (Hil : int_mul i linesize = i * linesize).
    { apply wrap_int_in_range. unfold INT_MIN, INT_MAX in *. nia. }
    rewrite His, Hil.
    rewrite memcpy_fits by nia. cbn [outcome_bind].
    set (d := Z.to_nat (base + i * stride)).
    set (k := Z.to_nat stride).
    set (row := take k (drop (Z.to_nat (i * linesize)) plane)).
    assert (Hlen_row : length row = k).
    { unfold row. rewrite length_take, length_drop. subst k. nia. }
    assert (Hd : (d + k <= length out)%nat) by (subst d k; nia).
    rewrite IH; try lia.
    + f_equal.
      replace (Z.to_nat (base + (i + 1) * stride)) with (d + k)%nat by (subst d k; nia).
      replace (Z.to_nat (base + (i + 1 + Z.of_nat rows) * stride))
        with (d + k + (rows * k))%nat by (subst d k; nia).
      replace (Z.to_nat (base + (i + Z.of_nat (S rows)) * stride))
        with (d + k + (rows * k))%nat by (subst d k; nia).
      rewrite packed_rows_step.
      replace (Z.to_nat (i + 1)) with (S (Z.to_nat i)) by lia.
      replace (Z.to_nat i * Z.to_nat linesize)%nat with (Z.to_nat (i * linesize)) by nia.
      fold k. fold row.
      assert (Htake : take (d + k) (take d out ++ row ++ drop (d + k) out)
                      = take d out ++ row).
      { rewrite app_assoc. apply take_app_length'.
        rewrite length_app, length_take. lia. }
      assert (Hdrop : drop (d + k + rows * k) (take d out ++ row ++ drop (d + k) out)
                      = drop (d + k + rows * k) out).
      { assert (Hlen : length (take d out ++ row) = (d + k)%nat)
          by (rewrite length_app, length_take; lia).
        rewrite app_assoc, drop_app_ge by lia.
        rewrite drop_drop, Hlen. f_equal; lia. }
      rewrite Htake, Hdrop. now rewrite <- !app_assoc.
    + rewrite !length_app, length_take, length_drop. fold row. rewrite Hlen_row. nia.
    + intros r Hr. apply Hplane. lia.
Qed.

Lemma vector_resize_length (v : bytes) (n : nat) : length (vector_resize v n) = n.
Proof.
  unfold vector_resize. rewrite length_app, length_take, length_replicate. lia.
Qed.

Lemma outcome_bind_Ret_inv {A B} (m : outcome A) (f : A -> outcome B) (b : B) :
  outcome_bind m f = Ret b -> exists a, m = Ret a /\ f a = Ret b.
Proof. destruct m as [a| |]; cbn; [eauto | discriminate | discriminate]. Qed.

Section ChromaLoop.
Import H264DecoderImpl.

(** One chroma plane: the guarded loop of [DecodeToYUV420]. *)
Lemma chroma_rows_copied (frame : DecodedFrame) (plane : nat) (buf : bytes)
    (linesize : Z) (out : bytes) (base stride rows : Z) :
  decoded_data frame !! plane = Some buf ->
  decoded_linesize frame !! plane = Some linesize ->
  0 <= base -> 0 <= linesize -> 0 <= stride -> 0 <= rows ->
  rows * stride <= INT_MAX ->
  rows * linesize <= INT_MAX ->
  base + rows * stride <= Z.of_nat (length out) ->
  (forall r, 0 <= r < rows -> r * linesize + stride <= Z.of_nat (length buf)) ->
  (if 0 <? rows then
     outcome_bind (plane_data frame plane) (fun buf =>
     outcome_bind (plane_linesize frame plane) (fun linesize =>
     copy_rows (Z.to_nat rows) 0 out base buf linesize stride))
   else Ret out)
  = Ret (take (Z.to_nat base) out
         ++ packed_rows buf (Z.to_nat linesize) (Z.to_nat stride) 0 (Z.to_nat rows)
         ++ drop (Z.to_nat base
                  + length (packed_rows buf (Z.to_nat linesize) (Z.to_nat stride) 0
                              (Z.to_nat rows))) out).
Proof.
  intros Hbuf Hls Hbase Hl Hs Hrows Hmax Hmaxl Hout Hfit.
  assert (Hlen : length (packed_rows buf (Z.to_nat linesize) (Z.to_nat stride) 0
                           (Z.to_nat rows))
                 = (Z.to_nat rows * Z.to_nat stride)%nat).
  { apply packed_rows_length. intros r Hr.
    specialize (Hfit (Z.of_nat r)). nia. }
  rewrite Hlen.
  destruct (0 <? rows) eqn:Hpos.
  - unfold plane_data, plane_linesize. rewrite Hbuf, Hls. cbn [outcome_bind].
    assert (Hback : 0 + Z.of_nat (Z.to_nat rows) = rows) by lia.
    rewrite copy_rows_packs
      by (rewrite ?Hback; first [lia | assumption | (intros r Hr; apply Hfit; lia)]).
    rewrite Hback. do 3 f_equal; [f_equal; lia|]. f_equal. nia.
  - apply Z.ltb_ge in Hpos. replace rows with 0 by lia.
    change (Z.to_nat 0) with 0%nat. unfold packed_rows.
    cbn [seq map concat app Nat.mul]. rewrite Nat.add_0_r. now rewrite take_drop.
Qed.

End ChromaLoop.

Section Decoding.
Context `{D : H264DecoderLibrary.t}.

Import H264DecoderImpl.

(** What a call can change: the codec context, the frame and the packet
    always; the frame dimensions and the output only with a result of 1. *)
Lemma DecodeToYUV420_cases (self self' : t) (yuv_frame out : bytes)
    (h264_frame : option bytes) (r : Z) :
  DecodeToYUV420 self yuv_frame h264_frame = Ret (r, self', out) ->
  initialized_ self' = initialized_ self
  /\ config_ self' = config_ self
  /\ (r = 1
      \/ r <= 0 /\ out = yuv_frame /\ frame_width_ self' = frame_width_ self
         /\ frame_height_ self' = frame_height_ self)
  /\ (initialized_ self = false -> r = -1 /\ self' = self).
Proof.
  unfold DecodeToYUV420. destruct (initialized_ self) eqn:Hinit; cbn [negb].
  - destruct (packet_ self) as [packet|]; [|discriminate].
    destruct (codec_context_ self) as [ctx|]; [|discriminate].
    cbv zeta. cbn [frame_ with_decoding].
    destruct (fst _ <? 0) eqn:Hsent.
    { intros [= <- <- <-]. apply Z.ltb_lt in Hsent. cbn.
      repeat split; try assumption; try discriminate. right. repeat split. lia. }
    destruct (frame_ self) as [old|]; [|discriminate].
    destruct (fst (fst _) <? 0) eqn:Hret.
    { apply Z.ltb_lt in Hret.
      destruct (_ =? AVERROR_EAGAIN);
        [|destruct (_ =? AVERROR_EOF)]; intros [= <- <- <-]; cbn;
        repeat split; try assumption; try discriminate; right; repeat split; lia. }
    destruct (int_div _ 2 <? 0); [discriminate|].
    intros H.
    apply outcome_bind_Ret_inv in H as (y & _ & H).
    apply outcome_bind_Ret_inv in H as (out0 & _ & H).
    apply outcome_bind_Ret_inv in H as (out1 & _ & H).
    apply outcome_bind_Ret_inv in H as (out2 & _ & H).
    injection H as <- <- <-. cbn.
    repeat split; try assumption; try discriminate. now left.
  - intros [= <- <- <-]. repeat split; try reflexivity; try assumption.
    right. repeat split. lia.
Qed.

(** X18.  When the library takes the packet and hands out a picture of
    [w] x [h] pixels whose planes are large enough, [DecodeToYUV420]
    returns 1, reports [w] x [h] as the frame dimensions and leaves in the
    output vector the first [w * h] bytes of plane 0 as one block (the line
    size of plane 0 is not read), then the [h / 2] rows of [w / 2] bytes
    of plane 1 and of plane 2 without their line padding, then what the
    resized vector held beyond them. *)
Theorem h264_decoder_packs_decoded_picture
    (self : t) (yuv_frame : bytes) (h264_frame : option bytes)
    (ctx ctx1 ctx2 : H264DecoderLibrary.AVCodecContext)
    (old_frame : DecodedFrame) (old_packet : option bytes)
    (sent ret : Z) (frame : DecodedFrame) (y u v : bytes) (ls1 ls2 : Z) :
  initialized_ self = true ->
  codec_context_ self = Some ctx ->
  frame_ self = Some old_frame ->
  packet_ self = Some old_packet ->
  H264DecoderLibrary.avcodec_send_packet ctx (packet_data_for h264_frame)
    = (sent, ctx1) ->
  0 <= sent ->
  H264DecoderLibrary.avcodec_receive_frame ctx1 = (ret, frame, ctx2) ->
  0 <= ret ->
  0 <= decoded_width frame <= INT_MAX ->
  0 <= decoded_height frame <= INT_MAX ->
  decoded_width frame * decoded_height frame * 3 <= INT_MAX ->
  decoded_data frame !! 0%nat = Some y ->
  decoded_data frame !! 1%nat = Some u ->
  decoded_data frame !! 2%nat = Some v ->
  decoded_linesize frame !! 1%nat = Some ls1 ->
  decoded_linesize frame !! 2%nat = Some ls2 ->
  decoded_width frame * decoded_height frame <= Z.of_nat (length y) ->
  0 <= ls1 -> 0 <= ls2 ->
  decoded_height frame / 2 * ls1 <= INT_MAX ->
  decoded_height frame / 2 * ls2 <= INT_MAX ->
  (forall r, 0 <= r < decoded_height frame / 2 ->
     r * ls1 + decoded_width frame / 2 <= Z.of_nat (length u)) ->
  (forall r, 0 <= r < decoded_height frame / 2 ->
     r * ls2 + decoded_width frame / 2 <= Z.of_nat (length v)) ->
  exists self',
    DecodeToYUV420 self yuv_frame h264_frame
    = Ret (1, self',
           take (Z.to_nat (decoded_width frame * decoded_height frame)) y
           ++ packed_rows u (Z.to_nat ls1) (Z.to_nat (decoded_width frame / 2)) 0
                (Z.to_nat (decoded_height frame / 2))
           ++ packed_rows v (Z.to_nat ls2) (Z.to_nat (decoded_width frame / 2)) 0
                (Z.to_nat (decoded_height frame / 2))
           ++ drop (Z.to_nat (decoded_width frame * decoded_height frame
                              + 2 * (decoded_width frame / 2
                                     * (decoded_height frame / 2))))
                (vector_resize yuv_frame
                   (Z.to_nat (decoded_width frame * decoded_height frame * 3 / 2))))
    /\ GetFrameDimensions self' = (decoded_width frame, decoded_height frame)
    /\ IsInitialized self' = true.
Proof.
  intros Hinit Hctx Hframe Hpacket Hsend Hsent Hrecv Hret Hw Hh Hsize
    Hy Hu Hv Hls1 Hls2 Hylen Hl1 Hl2 Hm1 Hm2 Hulen Hvlen.
  set (w := decoded_width frame) in *. set (h := decoded_height frame) in *.
  assert (Hwh : 0 <= w * h <= INT_MAX) by (unfold INT_MAX in *; nia).
  assert (Hw2 : 0 <= w / 2) by (apply Z.div_pos; lia).
  assert (Hh2 : 0 <= h / 2) by (apply Z.div_pos; lia).
  assert (Hw2' : 2 * (w / 2) <= w) by (apply Z.mul_div_le; lia).
  assert (Hh2' : 2 * (h / 2) <= h) by (apply Z.mul_div_le; lia).
  assert (Hu_size : 0 <= w / 2 * (h / 2) /\ 4 * (w / 2 * (h / 2)) <= w * h) by nia.
  assert (Hyuv : 0 <= w * h * 3 / 2) by (apply Z.div_pos; lia).
  assert (Htotal : w * h + 2 * (w / 2 * (h / 2)) <= w * h * 3 / 2).
  { apply Z.div_le_lower_bound; lia. }
  assert (Hmul : int_mul w h = w * h).
  { apply wrap_int_in_range. unfold INT_MIN, INT_MAX in *. lia. }
  assert (Hmul3 : int_mul (w * h) 3 = w * h * 3).
  { apply wrap_int_in_range. unfold INT_MIN, INT_MAX in *. lia. }
  assert (Hdiv : int_div (w * h * 3) 2 = w * h * 3 / 2).
  { apply int_div_in_range; unfold INT_MAX in *; lia. }
  assert (Hdw : int_div w 2 = w / 2) by (apply int_div_in_range; lia).
  assert (Hdh : int_div h 2 = h / 2) by (apply int_div_in_range; lia).
  assert (Hmulu : int_mul (w / 2) (h / 2) = w / 2 * (h / 2)).
  { apply wrap_int_in_range. unfold INT_MIN, INT_MAX in *. lia. }
  unfold DecodeToYUV420. rewrite Hinit. cbn [negb]. rewrite Hpacket, Hctx.
  cbv zeta. rewrite Hsend. cbn [fst snd frame_ with_decoding].
  replace (sent <? 0) with false by (symmetry; apply Z.ltb_ge; lia).
  rewrite Hframe, Hrecv. cbn [fst snd].
  replace (ret <? 0) with false by (symmetry; apply Z.ltb_ge; lia).
  fold w h. rewrite Hmul, Hmul3, Hdiv, Hdw, Hdh, Hmulu.
  replace (w * h * 3 / 2 <? 0) with false by (symmetry; apply Z.ltb_ge; lia).
  unfold plane_data at 1. rewrite Hy. cbn [outcome_bind].
  rewrite memcpy_fits by (rewrite ?vector_resize_length; lia).
  cbn [outcome_bind]. change (Z.to_nat 0) with 0%nat.
  rewrite take_0, drop_0. cbn [app Nat.add].
  set (R := vector_resize yuv_frame (Z.to_nat (w * h * 3 / 2))).
  assert (HR : length R = Z.to_nat (w * h * 3 / 2)) by apply vector_resize_length.
  set (Y := take (Z.to_nat (w * h)) y).
  assert (HY : length Y = Z.to_nat (w * h)).
  { subst Y. rewrite length_take. lia. }
  set (U := packed_rows u (Z.to_nat ls1) (Z.to_nat (w / 2)) 0 (Z.to_nat (h / 2))).
  set (V := packed_rows v (Z.to_nat ls2) (Z.to_nat (w / 2)) 0 (Z.to_nat (h / 2))).
  assert (HU : length U = (Z.to_nat (h / 2) * Z.to_nat (w / 2))%nat).
  { apply packed_rows_length. intros r Hr. specialize (Hulen (Z.of_nat r)). nia. }
  assert (HV : length V = (Z.to_nat (h / 2) * Z.to_nat (w / 2))%nat).
  { apply packed_rows_length. intros r Hr. specialize (Hvlen (Z.of_nat r)). nia. }
  rewrite (chroma_rows_copied frame 1 u ls1) ;
    [ | assumption | assumption | lia | lia | lia | lia | nia | lia
      | rewrite length_app, length_drop, HY, HR; nia | assumption ].
  cbn [outcome_bind]. fold U.
  rewrite (chroma_rows_copied frame 2 v ls2) ;
    [ | assumption | assumption | lia | lia | lia | lia | nia | lia
      | rewrite !length_app, !length_drop, !length_take, !length_app, length_drop,
          HY, HR, HU; nia
      | assumption ].
  cbn [outcome_bind]. fold V.
  eexists. split; [|split].
  - do 2 f_equal.
    set (a := Z.to_nat (w * h)) in *.
    replace (Z.to_nat (w * h + w / 2 * (h / 2))) with (a + length U)%nat
      by (rewrite HU; subst a; nia).
    replace (Z.to_nat (w * h + 2 * (w / 2 * (h / 2))))
      with (a + length U + length V)%nat by (rewrite HU, HV; subst a; nia).
    rewrite (take_app_length' Y) by (symmetry; exact HY).
    rewrite (drop_app_ge Y) by lia. rewrite drop_drop.
    replace (a + (a + length U - length Y))%nat with (a + length U)%nat by lia.
    assert (HYU : length (Y ++ U) = (a + length U)%nat)
      by (rewrite length_app; lia).
    rewrite (app_assoc Y U).
    rewrite (take_app_length' (Y ++ U)) by (symmetry; exact HYU).
    rewrite (drop_app_ge (Y ++ U)) by lia. rewrite drop_drop.
    rewrite <- !app_assoc. do 3 f_equal. rewrite HYU. f_equal. lia.
  - reflexivity.
  - cbn. exact Hinit.
Qed.

(** X19.  A call that does not return 1 returns 0 or a negative value,
    leaves the output vector as it was and reports the same frame
    dimensions as before; a decoder that is not initialized answers -1 and
    is not changed at all. *)
Theorem h264_decoder_without_picture_changes_nothing
    (self self' : t) (yuv_frame out : bytes) (h264_frame : option bytes) (r : Z) :
  DecodeToYUV420 self yuv_frame h264_frame = Ret (r, self', out) ->
  (r = 1 \/ r <= 0)
  /\ (r <> 1 ->
      out = yuv_frame /\ GetFrameDimensions self' = GetFrameDimensions self)
  /\ (IsInitialized self = false -> r = -1 /\ self' = self).
Proof.
  intros H. apply DecodeToYUV420_cases in H as (_ & _ & Hcases & Hoff).
  split; [|split].
  - destruct Hcases as [->|[Hr _]]; [now left | now right].
  - intros Hr. destruct Hcases as [->|(_ & -> & Hw & Hh)]; [contradiction|].
    split; [reflexivity|]. unfold GetFrameDimensions. now rewrite Hw, Hh.
  - exact Hoff.
Qed.

Lemma skip_frames_keeps (n : nat) :
  forall self self' : t,
  skip_frames n self = Ret self' ->
  initialized_ self' = initialized_ self /\ config_ self' = config_ self.
Proof.
  induction n as [|n IH]; intros self self'; cbn [skip_frames].
  - intros [= <-]. auto.
  - intros H. apply outcome_bind_Ret_inv in H as ([[r self1] out] & Hcall & H).
    apply DecodeToYUV420_cases in Hcall as (Hi & Hc & _).
    apply IH in H as [Hi' Hc']. split; congruence.
Qed.

(** X20.  [Reset] changes neither the configuration nor whether the
    decoder is initialized, and the pictures it skips are handed to nobody.
    With no frames to skip it also keeps the frame dimensions: they are
    still those of the last picture decoded before the reset. *)
Theorem h264_decoder_reset_keeps_configuration (self self' : t) :
  Reset self = Ret self' ->
  IsInitialized self' = IsInitialized self
  /\ config_ self' = config_ self
  /\ (H264DecoderConfig.skip_frames_after_flush (config_ self) <= 0 ->
      GetFrameDimensions self' = GetFrameDimensions self).
Proof.
  unfold Reset, IsInitialized. destruct (codec_context_ self) as [ctx|].
  - intros H. split; [|split].
    + apply skip_frames_keeps in H as [Hi _]. exact Hi.
    + apply skip_frames_keeps in H as [_ Hc]. exact Hc.
    + intros Hskip. cbn [config_] in H.
      replace (Z.to_nat _) with 0%nat in H by lia.
      cbn [skip_frames] in H. injection H as <-. reflexivity.
  - intros [= <-]. auto.
Qed.

End Decoding.

Lemma h264_decoder_packs_decoded_picture_witness :
  exists self',
    H264DecoderImpl.DecodeToYUV420 (D := ToyDecoding.library) ToyDecoding.decoder []
      (Some ToyDecoding.packet_16)
    = Ret (1, self',
           ToyDecoding.packet_16
           ++ replicate 4 Byte.x80 ++ replicate 4 Byte.x90)
    /\ H264DecoderImpl.GetFrameDimensions self' = (4, 4).
Proof.
  destruct (h264_decoder_packs_decoded_picture (D := ToyDecoding.library)
              ToyDecoding.decoder [] (Some ToyDecoding.packet_16)
              [] [ToyDecoding.packet_16] [] ToyDecoding.no_picture None 0 0
              (ToyDecoding.picture_of ToyDecoding.packet_16)
              (vector_resize ToyDecoding.packet_16 16)
              (ToyDecoding.chroma Byte.x80) (ToyDecoding.chroma Byte.x90) 4 4)
    as (self' & Hrun & Hdims & _);
    try reflexivity; try (vm_compute; discriminate);
    try (split; vm_compute; discriminate);
    try (cbn [ToyDecoding.picture_of decoded_height decoded_width];
         intros r Hr; change (4 / 2) with 2 in *; vm_compute length; lia).
  exists self'. split; [|exact Hdims].
  rewrite Hrun. reflexivity.
Defined.

Lemma h264_decoder_without_picture_changes_nothing_witness :
  exists self',
    H264DecoderImpl.DecodeToYUV420 (D := ToyDecoding.library) ToyDecoding.decoder
      ToyDecoding.packet_16 None
    = Ret (0, self', ToyDecoding.packet_16)
    /\ H264DecoderImpl.GetFrameDimensions self' = (0, 0).
Proof.
  destruct (H264DecoderImpl.DecodeToYUV420 (D := ToyDecoding.library)
              ToyDecoding.decoder ToyDecoding.packet_16 None)
    as [[[r self'] out]| |] eqn:Hrun; try (vm_compute in Hrun; discriminate Hrun).
  assert (Hr : r = 0) by (vm_compute in Hrun; injection Hrun as <- _ _; reflexivity).
  destruct (h264_decoder_without_picture_changes_nothing (D := ToyDecoding.library)
              ToyDecoding.decoder self' ToyDecoding.packet_16 out None r Hrun)
    as (_ & Hsame & _).
  destruct Hsame as [-> Hdims]; [rewrite Hr; discriminate|].
  exists self'. rewrite Hr. split; [reflexivity|]. rewrite Hdims. reflexivity.
Defined.

Lemma h264_decoder_reset_keeps_configuration_witness :
  exists self',
    H264DecoderImpl.Reset (D := ToyDecoding.library) ToyDecoding.decoder = Ret self'
    /\ H264DecoderImpl.IsInitialized self' = true
    /\ H264DecoderImpl.GetFrameDimensions self' = (0, 0).
Proof.
  destruct (H264DecoderImpl.Reset (D := ToyDecoding.library) ToyDecoding.decoder)
    as [self'| |] eqn:Hrun; try (vm_compute in Hrun; discriminate Hrun).
  destruct (h264_decoder_reset_keeps_configuration (D := ToyDecoding.library)
              ToyDecoding.decoder self' Hrun) as (Hinit & Hconfig & Hdims).
  exists self'. split; [reflexivity|]. split; [exact Hinit|].
  apply Hdims. vm_compute. discriminate.
Defined.

(** * The Opus encoder: encoding *)

Lemma resize_then_memcpy_replaces (out data : bytes) :
  memcpy (vector_resize out (length data)) 0 data 0 (Z.of_nat (length data)) = Ret data.
Proof.
  rewrite memcpy_fits by (rewrite ?vector_resize_length; lia).
  change (Z.to_nat 0) with 0%nat. rewrite take_0, drop_0, Nat2Z.id. cbn [app Nat.add].
  rewrite firstn_all, drop_ge by (rewrite vector_resize_length; lia).
  now rewrite app_nil_r.
Qed.

Lemma no_packet_no_frame_nil :
  Forall no_frame [] /\ Forall no_packet [].
Proof. split; constructor. Qed.

Section OpusEncoding.
Context `{L : FFmpeg} `{R : Swresample} `{C : !SwresampleConvert}.

Import OPUSEncoderImpl OPUSEncoding.

(** [InitializeResampler] touches the resampler, the format it was set up
    for and the error text only, submits nothing and receives nothing, and
    leaves a resampler behind when it returns [true]. *)
Lemma InitializeResampler_effect (self self' : t) (fmt : AVSampleFormat)
    (packed ready : bool) (tr : trace) :
  InitializeResampler self fmt packed = Ret ((ready, self'), tr) ->
  self' = with_resampler self (swr_ctx_ self') (last_input_format_ self')
            (last_error_ self')
  /\ (ready = true -> swr_ctx_ self' <> None)
  /\ submitted_frames tr = [] /\ received_packets tr = [].
Proof.
  unfold InitializeResampler, set_channel_layout, set_int, set_sample_fmt.
  destruct (negb (is_null (swr_ctx_ self)) && _) eqn:Hreuse.
  - intros H. apply pure_inv in H as [[= -> ->] ->].
    apply andb_true_iff in Hreuse as [Hset _].
    split; [destruct self; reflexivity|]. split; [|split; reflexivity].
    intros _ Hnone. rewrite Hnone in Hset. discriminate.
  - destruct swr_alloc as [swr|].
    + destruct (context_ self) as [context|];
        [|destruct new_channel_layout_api, (swr_ctx_ self); intros H; run_in H;
          discriminate].
      destruct new_channel_layout_api, (swr_ctx_ self); intros H; run_in H;
        match type of H with
        | context [swr_init ?s] => destruct (swr_init s) as [ret swr']
        end;
        cbn [fst snd] in H; destruct (ret <? 0); injection H as <- <- <-;
        (split; [reflexivity|]); (split; [|split; reflexivity]);
        cbn; congruence.
    + destruct (swr_ctx_ self); intros H; run_in H; injection H as <- <- <-;
        (split; [reflexivity|]); (split; [|split; reflexivity]); discriminate.
Qed.

(** Every way out of [EncodeInternal]. *)
Lemma EncodeInternal_cases (self self' : t) (pcm_data : bytes)
    (frame frame' : vector_ptr) (fmt : AVSampleFormat) (packed : bool)
    (r : Z) (tr : trace) :
  EncodeInternal self pcm_data frame fmt packed = Ret ((r, self', frame'), tr) ->
  config_ self' = config_ self
  /\ frame_size_ self' = frame_size_ self
  /\ ((r = 0 /\ frame' = frame /\ submitted_frames tr = []
       /\ received_packets tr = [] /\ pts_ self' = pts_ self)
      \/ (packed = true
          /\ (exists f, submitted_frames tr = [Some f] /\ frame_pts f = pts_ self)
          /\ pts_ self' = pts_ self + frame_size_ self
          /\ ((r = 0 /\ frame' = frame /\ received_packets tr = [])
              \/ (r = 1 /\ frame <> None
                  /\ exists data, received_packets tr = [data]
                                  /\ frame' = Some data)))).
Proof.
  unfold EncodeInternal.
  destruct (context_ self) as [context|] eqn:Hcontext;
    [|intros H; apply pure_inv in H as [[= -> -> ->] ->]; auto 10].
  destruct (codec_ self) as [codec|];
    [|intros H; apply pure_inv in H as [[= -> -> ->] ->]; auto 10].
  destruct (frame_ self) as [av_frame|] eqn:Hframe;
    [|intros H; apply pure_inv in H as [[= -> -> ->] ->]; auto 10].
  destruct (packet_ self) as [packet|];
    [|intros H; apply pure_inv in H as [[= -> -> ->] ->]; auto 10].
  destruct frame as [out|];
    [|intros H; apply pure_inv in H as [[= -> -> ->] ->]; auto 10].
  intros H.
  apply bind_Ret_inv in H as ([ready self1] & t1 & t2 & Hinit & H & ->).
  apply InitializeResampler_effect in Hinit as (Hself1 & Hswr & Hsub1 & Hrecv1).
  assert (Hconfig1 : config_ self1 = config_ self) by (rewrite Hself1; reflexivity).
  assert (Hsize1 : frame_size_ self1 = frame_size_ self) by (rewrite Hself1; reflexivity).
  assert (Hpts1 : pts_ self1 = pts_ self) by (rewrite Hself1; reflexivity).
  assert (Hframe1 : frame_ self1 = Some av_frame) by (rewrite Hself1; exact Hframe).
  assert (Hcontext1 : context_ self1 = Some context)
    by (rewrite Hself1; exact Hcontext).
  clear Hself1.
  destruct ready; cbn [negb] in H;
    [|apply pure_inv in H as [[= -> -> ->] ->]; rewrite app_nil_r; auto 10].
  destruct (swr_ctx_ self1) as [swr|] eqn:Hswr1; [clear Hswr|now destruct Hswr].
  rewrite Hframe1 in H. unfold deref at 1 in H. rewrite bind_pure in H.
  destruct (av_frame_make_writable av_frame) as [wret wframe]. cbn [fst snd] in H.
  apply bind_Ret_inv in H as (u & t3 & t4 & Hemit & H & ->).
  apply emit_inv in Hemit as ->.
  cbn [config_ frame_size_ swr_ctx_ context_ packet_ pts_ frame_ with_encoding
       with_error] in H.
  rewrite ?Hswr1, ?Hcontext1, ?Hsize1, ?Hpts1, ?Hconfig1 in H.
  assert (Hquiet : forall e,
            submitted_frames [e] = [] -> received_packets [e] = [] ->
            submitted_frames (t1 ++ [e] ++ []) = []
            /\ received_packets (t1 ++ [e] ++ []) = []).
  { intros e He1 He2.
    rewrite submitted_frames_app, received_packets_app, Hsub1, Hrecv1. auto. }
  specialize (Hquiet (E_frame_make_writable wret) eq_refl eq_refl) as [Hsub2 Hrecv2].
  destruct (wret <? 0);
    [apply pure_inv in H as [[= -> -> ->] ->]; auto 10|].
  destruct (GetBytesPerSample fmt =? 0);
    [apply pure_inv in H as [[= -> -> ->] ->]; auto 10|].
  destruct (to_size_t _ =? 0); [discriminate H|].
  destruct (wrap_int _ <? frame_size_ self);
    [apply pure_inv in H as [[= -> -> ->] ->]; auto 10|].
  apply bind_Ret_inv in H as (converted & t5 & t6 & Hconv & H & ->).
  destruct packed;
    [|apply pure_inv in Hconv as [-> ->];
      apply pure_inv in H as [[= -> -> ->] ->]; auto 10].
  destruct (swr_convert swr (frame_planes wframe) (frame_size_ self) pcm_data
              (frame_size_ self)) as [[cret swr'] planes].
  cbn [fst snd] in Hconv.
  destruct (cret <? 0); apply pure_inv in Hconv as [-> ->];
    [apply pure_inv in H as [[= -> -> ->] ->]; auto 10|].
  cbn [config_ frame_size_ swr_ctx_ context_ packet_ pts_ frame_ with_encoding
       with_error] in H.
  rewrite ?Hsize1 in H.
  unfold deref at 1 in H. rewrite bind_pure in H.
  set (sent_frame := set_pts (set_planes wframe planes) (pts_ self)) in H.
  destruct (avcodec_send_frame context (Some sent_frame)) as [sret context1].
  cbn [fst snd] in H.
  apply bind_Ret_inv in H as (u1 & t7 & t8 & Hemit & H & ->).
  apply emit_inv in Hemit as ->.
  assert (Hsent : forall t,
            submitted_frames t = [] ->
            submitted_frames
              (t1 ++ [E_frame_make_writable wret] ++ [] ++
               [E_send_frame (Some sent_frame) sret] ++ t)
            = [Some sent_frame]).
  { intros t Ht. rewrite !submitted_frames_app, Hsub1, Ht. reflexivity. }
  assert (Hgot : forall t,
            received_packets
              (t1 ++ [E_frame_make_writable wret] ++ [] ++
               [E_send_frame (Some sent_frame) sret] ++ t)
            = received_packets t).
  { intros t. rewrite !received_packets_app, Hrecv1. reflexivity. }
  assert (Hrest :
            config_ self' = config_ self
            /\ frame_size_ self' = frame_size_ self
            /\ pts_ self' = pts_ self + frame_size_ self
            /\ submitted_frames t8 = []
            /\ ((r = 0 /\ frame' = Some out /\ received_packets t8 = [])
                \/ (r = 1 /\ exists data, received_packets t8 = [data]
                                          /\ frame' = Some data))).
  { destruct (sret <? 0);
      [apply pure_inv in H as [[= -> -> ->] ->]; auto 10|].
    destruct (avcodec_receive_packet context1) as [[rret data] context2].
    cbn [fst snd] in H.
    apply bind_Ret_inv in H as (u2 & t9 & t10 & Hemit & H & ->).
    apply emit_inv in Hemit as ->.
    assert (Hfailed : rret < 0 ->
              received_packets ([E_receive_packet rret data] ++ []) = []).
    { intros Hneg. unfold received_packets. cbn.
      apply Z.ltb_lt in Hneg. now rewrite Hneg. }
    destruct ((rret =? AVERROR_EAGAIN) || (rret =? AVERROR_EOF)) eqn:Hagain.
    { apply pure_inv in H as [[= -> -> ->] ->].
      assert (Hneg : rret < 0).
      { apply orb_true_iff in Hagain as [E|E]; apply Z.eqb_eq in E; rewrite E;
          reflexivity. }
      cbn [config_ frame_size_ pts_ with_encoding with_error]. auto 10. }
    destruct (rret <? 0) eqn:Hneg.
    { apply pure_inv in H as [[= -> -> ->] ->]. apply Z.ltb_lt in Hneg.
      cbn [config_ frame_size_ pts_ with_encoding with_error]. auto 10. }
    rewrite resize_then_memcpy_replaces in H. unfold lift at 1 in H.
    cbn [outcome_bind] in H. run_in H. injection H as <- <- <- <-.
    cbn [config_ frame_size_ pts_ with_encoding with_error].
    apply Z.ltb_ge in Hneg.
    assert (Hdata : received_packets [E_receive_packet rret data; E_packet_unref]
                    = [data]).
    { unfold received_packets. cbn.
      replace (rret <? 0) with false by (symmetry; apply Z.ltb_ge; lia).
      reflexivity. }
    repeat split; try assumption. right. split; [reflexivity|].
    exists data. split; [exact Hdata | reflexivity]. }
  destruct Hrest as (Hconfig & Hsize & Hpts & Hsub & Hresult).
  split; [exact Hconfig|]. split; [exact Hsize|]. right.
  split; [reflexivity|]. split; [exists sent_frame; split; [auto|reflexivity]|].
  split; [exact Hpts|]. rewrite Hgot.
  destruct Hresult as [(-> & -> & Hnone)|(-> & data & Hone & ->)].
  - left. auto.
  - right. split; [reflexivity|]. split; [discriminate|]. eauto.
Qed.

Lemma InitializeResampler_returns (self : t) (fmt : AVSampleFormat) (packed : bool)
    (context : AVCodecContext Priv) :
  context_ self = Some context ->
  returns (fun _ => True) (InitializeResampler self fmt packed).
Proof.
  intros Hcontext.
  unfold InitializeResampler, set_channel_layout, set_int, set_sample_fmt.
  rewrite Hcontext. unfold deref.
  repeat first [exact I | returns_step].
Qed.

Lemma divisor_not_zero (bytes_per_sample channels : Z) :
  0 < channels <= INT_MAX ->
  0 < bytes_per_sample <= 8 ->
  to_size_t (bytes_per_sample * to_size_t channels) <> 0.
Proof.
  unfold to_size_t, INT_MAX. intros Hc Hb.
  rewrite (Z.mod_small channels) by lia. rewrite Z.mod_small by nia. nia.
Qed.

Lemma GetBytesPerSample_range (fmt : AVSampleFormat) :
  GetBytesPerSample fmt = 0 \/ 0 < GetBytesPerSample fmt <= 8.
Proof. destruct fmt; cbn; lia. Qed.

(** With a positive channel count [EncodeInternal] always comes back. *)
Lemma EncodeInternal_returns (self : t) (pcm_data : bytes) (frame : vector_ptr)
    (fmt : AVSampleFormat) (packed : bool) :
  0 < OPUSEncoderConfig.channels (config_ self) <= INT_MAX ->
  returns (fun _ => True) (EncodeInternal self pcm_data frame fmt packed).
Proof.
  intros Hchannels. unfold EncodeInternal.
  destruct (context_ self) as [context|] eqn:Hcontext;
    [|apply returns_pure; exact I].
  destruct (codec_ self); [|apply returns_pure; exact I].
  destruct (frame_ self) as [av_frame|] eqn:Hframe; [|apply returns_pure; exact I].
  destruct (packet_ self); [|apply returns_pure; exact I].
  destruct frame as [out|]; [|apply returns_pure; exact I].
  destruct (InitializeResampler_returns self fmt packed context Hcontext)
    as ([ready self1] & t1 & Hinit & _).
  rewrite Hinit, bind_Ret.
  apply InitializeResampler_effect in Hinit as (Hself1 & Hswr & _).
  assert (Hconfig1 : config_ self1 = config_ self) by (rewrite Hself1; reflexivity).
  assert (Hframe1 : frame_ self1 = Some av_frame) by (rewrite Hself1; exact Hframe).
  assert (Hcontext1 : context_ self1 = Some context)
    by (rewrite Hself1; exact Hcontext).
  clear Hself1.
  assert (Hprefix : forall (A : Type) (m : M A),
            returns (fun _ => True) m ->
            returns (fun _ => True)
              (match m with
               | Ret (b, t2) => Ret (b, t1 ++ t2)
               | Undefined => Undefined
               | OutOfFuel => OutOfFuel
               end)).
  { intros A m (x & tr & -> & _). exists x, (t1 ++ tr). auto. }
  apply Hprefix. clear Hprefix.
  destruct ready; cbn [negb]; [|apply returns_pure; exact I].
  destruct (swr_ctx_ self1) as [swr|] eqn:Hswr1; [clear Hswr|now destruct Hswr].
  rewrite Hframe1. unfold deref at 1. rewrite bind_pure.
  apply returns_then; [apply returns_emit; exact I|]. intros _.
  cbn [config_ frame_size_ swr_ctx_ context_ packet_ pts_ frame_ with_encoding
       with_error].
  rewrite ?Hswr1, ?Hcontext1, ?Hconfig1.
  destruct (_ <? 0); [apply returns_pure; exact I|].
  destruct (GetBytesPerSample_range fmt) as [Hzero|Hrange].
  { rewrite Hzero. cbn [Z.eqb]. apply returns_pure. exact I. }
  destruct (GetBytesPerSample fmt =? 0); [apply returns_pure; exact I|].
  pose proof (divisor_not_zero _ _ Hchannels Hrange) as Hdivisor.
  apply Z.eqb_neq in Hdivisor. rewrite Hdivisor.
  destruct (wrap_int _ <? _); [apply returns_pure; exact I|].
  destruct packed.
  - destruct (_ <? 0); rewrite bind_pure; [apply returns_pure; exact I|].
    cbn [config_ frame_size_ swr_ctx_ context_ packet_ pts_ frame_ with_encoding
         with_error].
    unfold deref at 1. rewrite bind_pure.
    apply returns_then; [apply returns_emit; exact I|]. intros _.
    destruct (_ <? 0); [apply returns_pure; exact I|].
    apply returns_then; [apply returns_emit; exact I|]. intros _.
    destruct (_ || _); [apply returns_pure; exact I|].
    destruct (_ <? 0); [apply returns_pure; exact I|].
    rewrite resize_then_memcpy_replaces. unfold lift at 1. cbn [outcome_bind].
    run. eexists _, _. split; [reflexivity | exact I].
  - rewrite bind_pure. apply returns_pure. exact I.
Qed.

(** X21.  [EncodePCM_F32BE] never encodes.  It declares its input as
    not packed, and [EncodeInternal] turns such input down whenever a
    resampler exists, which is the case after every successful
    [InitializeResampler].  So for an encoder with a positive channel count
    and any input the call returns 0, leaves the output vector alone, hands
    no frame to the codec, receives no packet and does not advance the time
    stamp. *)
Theorem opus_encode_f32be_never_encodes (self : t) (pcm_data : bytes)
    (frame : vector_ptr) :
  0 < OPUSEncoderConfig.channels (config_ self) <= INT_MAX ->
  exists self' tr,
    EncodePCM_F32BE self pcm_data frame = Ret ((0, self', frame), tr)
    /\ submitted_frames tr = [] /\ received_packets tr = []
    /\ pts_ self' = pts_ self.
Proof.
  intros Hchannels. unfold EncodePCM_F32BE.
  destruct (EncodeInternal_returns self pcm_data frame AV_SAMPLE_FMT_FLT false
              Hchannels) as ([[r self'] frame'] & tr & Hrun & _).
  destruct (EncodeInternal_cases _ _ _ _ _ _ _ _ _ Hrun)
    as (_ & _ & [(-> & -> & Hsub & Hrecv & Hpts)|(Hpacked & _)]);
    [|discriminate Hpacked].
  exists self', tr. auto.
Qed.

(** X22.  With a positive channel count a call of [EncodeInternal], and so
    of each [EncodePCM_...] entry point, comes back with 0 or with 1.  With
    0 the output vector is as it was and no packet was taken from the
    codec.  With 1 exactly one packet was taken and the output vector holds
    that packet and nothing else: what it held before is gone. *)
Theorem opus_encode_returns_zero_or_the_one_packet (self : t) (pcm_data : bytes)
    (frame : vector_ptr) (fmt : AVSampleFormat) (packed : bool) :
  0 < OPUSEncoderConfig.channels (config_ self) <= INT_MAX ->
  exists r self' frame' tr,
    EncodeInternal self pcm_data frame fmt packed = Ret ((r, self', frame'), tr)
    /\ ((r = 0 /\ frame' = frame /\ received_packets tr = [])
        \/ (r = 1 /\ exists data, received_packets tr = [data]
                                  /\ frame' = Some data)).
Proof.
  intros Hchannels.
  destruct (EncodeInternal_returns self pcm_data frame fmt packed Hchannels)
    as ([[r self'] frame'] & tr & Hrun & _).
  exists r, self', frame', tr. split; [exact Hrun|].
  destruct (EncodeInternal_cases _ _ _ _ _ _ _ _ _ Hrun)
    as (_ & _ & [(-> & -> & _ & Hrecv & _)|(_ & _ & _ & Hresult)]).
  - left. auto.
  - destruct Hresult as [(-> & -> & Hrecv)|(-> & _ & data & Hrecv & ->)].
    + left. auto.
    + right. eauto.
Qed.

(** X23.  A call of [EncodeInternal] hands at most one frame to the codec.
    That frame carries the time stamp the encoder held before the call, and
    the time stamp then advances by [frame_size_], also when the call goes
    on to return 0 because the codec turned the frame down or had no packet
    yet.  A call that hands no frame over returns 0 and leaves the time
    stamp alone. *)
Theorem opus_frames_are_stamped_and_counted (self self' : t) (pcm_data : bytes)
    (frame frame' : vector_ptr) (fmt : AVSampleFormat) (packed : bool)
    (r : Z) (tr : trace) :
  EncodeInternal self pcm_data frame fmt packed = Ret ((r, self', frame'), tr) ->
  frame_size_ self' = frame_size_ self
  /\ ((submitted_frames tr = [] /\ pts_ self' = pts_ self /\ r = 0)
      \/ (exists f, submitted_frames tr = [Some f] /\ frame_pts f = pts_ self
                    /\ pts_ self' = pts_ self + frame_size_ self)).
Proof.
  intros Hrun.
  destruct (EncodeInternal_cases _ _ _ _ _ _ _ _ _ Hrun)
    as (_ & Hsize & [(-> & _ & Hsub & _ & Hpts)|(_ & (f & Hsub & Hf) & Hpts & _)]).
  - split; [exact Hsize|]. left. auto.
  - split; [exact Hsize|]. right. exists f. auto.
Qed.

End OpusEncoding.

Lemma opus_encode_f32be_never_encodes_witness :
  exists self' tr,
    OPUSEncoding.EncodePCM_F32BE (L := ToyLibrary.library) (R := ToyLibrary.swresample)
      (C := ToyResampling.convert) ToyResampling.opus_encoder
      ToyResampling.pcm_two_samples (Some [])
    = Ret ((0, self', Some []), tr)
    /\ submitted_frames tr = [].
Proof.
  destruct (opus_encode_f32be_never_encodes (L := ToyLibrary.library)
              (R := ToyLibrary.swresample) (C := ToyResampling.convert)
              ToyResampling.opus_encoder ToyResampling.pcm_two_samples (Some []))
    as (self' & tr & Hrun & Hsub & _).
  - vm_compute. split; [reflexivity | discriminate].
  - exists self', tr. auto.
Defined.

Lemma opus_encode_returns_zero_or_the_one_packet_witness :
  exists self' tr,
    OPUSEncoding.EncodePCM_S16LE (L := ToyLibrary.library) (R := ToyLibrary.swresample)
      (C := ToyResampling.convert) ToyResampling.opus_encoder
      ToyResampling.pcm_two_samples (Some [Byte.xff])
    = Ret ((1, self', Some ToyResampling.pcm_two_samples), tr)
    /\ received_packets tr = [ToyResampling.pcm_two_samples].
Proof.
  destruct (opus_encode_returns_zero_or_the_one_packet (L := ToyLibrary.library)
              (R := ToyLibrary.swresample) (C := ToyResampling.convert)
              ToyResampling.opus_encoder ToyResampling.pcm_two_samples
              (Some [Byte.xff]) AV_SAMPLE_FMT_S16 true)
    as (r & self' & frame' & tr & Hrun & Hresult).
  - vm_compute. split; [reflexivity | discriminate].
  - unfold OPUSEncoding.EncodePCM_S16LE.
    assert (Hr : r = 1 /\ frame' = Some ToyResampling.pcm_two_samples).
    { vm_compute in Hrun. injection Hrun as <- _ <- _. split; reflexivity. }
    destruct Hr as [-> ->].
    destruct Hresult as [(Hr & _)|(_ & data & Hrecv & Hdata)]; [discriminate Hr|].
    injection Hdata as <-. exists self', tr. auto.
Defined.

Lemma opus_frames_are_stamped_and_counted_witness :
  exists r self' frame' tr f,
    OPUSEncoding.EncodePCM_U8 (L := ToyLibrary.library) (R := ToyLibrary.swresample)
      (C := ToyResampling.convert) ToyResampling.opus_encoder
      ToyResampling.pcm_two_samples (Some [])
    = Ret ((r, self', frame'), tr)
    /\ submitted_frames tr = [Some f] /\ frame_pts f = 0
    /\ OPUSEncoderImpl.pts_ self' = 2.
Proof.
  destruct (OPUSEncoding.EncodePCM_U8 (L := ToyLibrary.library)
              (R := ToyLibrary.swresample) (C := ToyResampling.convert)
              ToyResampling.opus_encoder ToyResampling.pcm_two_samples (Some []))
    as [[[[r self'] frame'] tr]| |] eqn:Hrun; try (vm_compute in Hrun; discriminate Hrun).
  unfold OPUSEncoding.EncodePCM_U8 in Hrun.
  destruct (opus_frames_are_stamped_and_counted (L := ToyLibrary.library)
              (R := ToyLibrary.swresample) (C := ToyResampling.convert)
              ToyResampling.opus_encoder self' ToyResampling.pcm_two_samples
              (Some []) frame' AV_SAMPLE_FMT_U8 true r tr Hrun)
    as (_ & [(Hsub & _)|(f & Hsub & Hf & Hpts)]).
  - exfalso. vm_compute in Hrun. injection Hrun as _ _ _ <-.
    vm_compute in Hsub. discriminate Hsub.
  - exists r, self', frame', tr, f. split; [reflexivity|]. auto.
Defined.

(** * The Opus encoder: the resampler the set-up leaves *)

Section OpusResamplerSetUp.
Context `{L : FFmpeg} `{R : Swresample}.

Import OPUSEncoderImpl.

(** Past the reuse test the resampler the encoder keeps is the one
    [swr_alloc] returned, with the options of a conversion of the sample
    format only set on it and [swr_init] run on it. *)
Lemma InitializeResampler_sets_up (self self' : t) (fmt : AVSampleFormat)
    (packed r : bool) (evs : trace) :
  InitializeResampler self fmt packed = Ret ((r, self'), evs) ->
  swr_ctx_ self = None \/ last_input_format_ self <> fmt ->
  match swr_alloc with
  | None => r = false /\ swr_ctx_ self' = None
  | Some swr =>
      exists context,
        context_ self = Some context
        /\ let initialized :=
             swr_init
               (converting_format_only swr
                  (OPUSEncoderConfig.channels (config_ self))
                  (OPUSEncoderConfig.sample_rate (config_ self))
                  fmt (ctx_sample_fmt context)) in
           if fst initialized <? 0
           then r = false /\ swr_ctx_ self' = None
           else r = true /\ swr_ctx_ self' = Some (snd initialized)
                /\ last_input_format_ self' = fmt
  end.
Proof.
  unfold InitializeResampler, set_channel_layout, set_int, set_sample_fmt,
    converting_format_only, with_default_layout.
  intros H Hfresh.
  destruct (negb (is_null (swr_ctx_ self)) && _) eqn:Hreuse.
  { exfalso. apply andb_true_iff in Hreuse as [Hset Hsame].
    apply bool_decide_eq_true in Hsame.
    destruct Hfresh as [Hnone|Hne]; [rewrite Hnone in Hset; discriminate | auto]. }
  clear Hreuse.
  destruct swr_alloc as [swr|].
  - destruct (context_ self) as [context|];
      [|destruct new_channel_layout_api, (swr_ctx_ self); run_in H; discriminate].
    exists context. split; [reflexivity|].
    destruct new_channel_layout_api, (swr_ctx_ self); run_in H;
      match type of H with
      | context [swr_init ?s] => destruct (swr_init s) as [ret swr']
      end;
      cbn [fst snd] in H |- *; destruct (ret <? 0); injection H as <- <- <-;
      cbn; auto.
  - destruct (swr_ctx_ self); run_in H; injection H as <- <- <-; cbn; auto.
Qed.

End OpusResamplerSetUp.

(** C5.  [InitializeResampler] comes back whenever the encoder has a codec
    context, and a call for the input format [fmt] that returns did this:
    - if it sets a resampler up (no resampler yet, or the last one was for
      another format, and [swr_alloc] succeeds), the options it sets are
      those of a pure sample-format conversion: both channel layouts from
      [config_.channels], both sample rates [config_.sample_rate], input
      format [fmt], output format the codec context's; the resampler the
      encoder keeps is the allocated one with exactly these options set on
      it through the library and [swr_init] run on it;
    - if [swr_init] fails, the call returns [false] and the encoder is left
      without a resampler context;
    - if it returns [true], a repeated call with the same format returns
      [true] at once: no library call, the object unchanged. *)
Theorem opus_resampler_converts_format_only `{L : FFmpeg} `{R : Swresample}
    (self : OPUSEncoderImpl.t) (fmt : AVSampleFormat) (packed : bool) :
  (OPUSEncoderImpl.context_ self <> None ->
   exists r self' evs,
     OPUSEncoderImpl.InitializeResampler self fmt packed = Ret ((r, self'), evs))
  /\ (forall r self' evs,
        OPUSEncoderImpl.InitializeResampler self fmt packed = Ret ((r, self'), evs) ->
        (OPUSEncoderImpl.swr_ctx_ self = None
         \/ OPUSEncoderImpl.last_input_format_ self <> fmt ->
         swr_alloc <> None ->
         exists context,
           OPUSEncoderImpl.context_ self = Some context
           /\ resampler_options evs
              = format_conversion_only
                  (OPUSEncoderConfig.channels (OPUSEncoderImpl.config_ self))
                  (OPUSEncoderConfig.sample_rate (OPUSEncoderImpl.config_ self))
                  fmt (ctx_sample_fmt context))
        /\ (forall ret, In (E_swr_init ret) evs -> ret < 0 ->
            r = false /\ OPUSEncoderImpl.swr_ctx_ self' = None)
        /\ (r = true ->
            OPUSEncoderImpl.swr_ctx_ self' <> None
            /\ OPUSEncoderImpl.InitializeResampler self' fmt packed
               = Ret ((true, self'), []))
        /\ (OPUSEncoderImpl.swr_ctx_ self = None
            \/ OPUSEncoderImpl.last_input_format_ self <> fmt ->
            match swr_alloc with
            | None => r = false /\ OPUSEncoderImpl.swr_ctx_ self' = None
            | Some swr =>
                exists context,
                  OPUSEncoderImpl.context_ self = Some context
                  /\ let initialized :=
                       swr_init
                         (converting_format_only swr
                            (OPUSEncoderConfig.channels (OPUSEncoderImpl.config_ self))
                            (OPUSEncoderConfig.sample_rate
                               (OPUSEncoderImpl.config_ self))
                            fmt (ctx_sample_fmt context)) in
                     if fst initialized <? 0
                     then r = false /\ OPUSEncoderImpl.swr_ctx_ self' = None
                     else r = true
                          /\ OPUSEncoderImpl.swr_ctx_ self' = Some (snd initialized)
                          /\ OPUSEncoderImpl.last_input_format_ self' = fmt
            end)).
Proof.
  split.
  - intros Hcontext.
    destruct (OPUSEncoderImpl.context_ self) as [context|] eqn:Hc; [|contradiction].
    destruct (InitializeResampler_returns self fmt packed context Hc)
      as ([r self'] & evs & Hrun & _).
    eauto.
  - intros r self' evs Hrun.
    destruct (InitializeResampler_options_and_reuse self self' fmt packed r evs Hrun)
      as (Hoptions & Hfail & Hreuse).
    split; [exact Hoptions|]. split; [exact Hfail|]. split; [exact Hreuse|].
    apply (InitializeResampler_sets_up self self' fmt packed r evs Hrun).
Qed.

(** The resampler of the toy Opus encoder, set up for packed 16-bit input:
    the toy resampler is the list of the options set on it. *)
Lemma opus_resampler_converts_format_only_witness :
  exists self' evs,
    OPUSEncoderImpl.InitializeResampler (L := ToyLibrary.library)
      (R := ToyLibrary.swresample) ToyLibrary.opus_encoder AV_SAMPLE_FMT_S16 true
    = Ret ((true, self'), evs)
    /\ OPUSEncoderImpl.swr_ctx_ self'
       = Some [("in_chlayout", 2); ("in_sample_rate", 48000); ("in_sample_fmt", 0);
               ("out_chlayout", 2); ("out_sample_rate", 48000);
               ("out_sample_fmt", 0)]
    /\ resampler_options evs
       = format_conversion_only (R := ToyLibrary.swresample) 2 48000
           AV_SAMPLE_FMT_S16 AV_SAMPLE_FMT_FLT
    /\ OPUSEncoderImpl.InitializeResampler self' AV_SAMPLE_FMT_S16 true
       = Ret ((true, self'), []).
Proof.
  destruct (opus_resampler_converts_format_only (L := ToyLibrary.library)
              (R := ToyLibrary.swresample) ToyLibrary.opus_encoder
              AV_SAMPLE_FMT_S16 true) as [Hreturns Hrun].
  destruct Hreturns as (r & self' & evs & Hret); [discriminate|].
  destruct (Hrun r self' evs Hret) as (Hoptions & _ & Hreuse & Hsetup).
  destruct Hsetup as (context & Hcontext & Hinit); [left; reflexivity|].
  injection Hcontext as <-. cbn in Hinit. destruct Hinit as (-> & Hswr & _).
  exists self', evs. split; [exact Hret|]. split; [exact Hswr|]. split.
  - destruct Hoptions as (context & Hcontext & ->); [left; reflexivity | discriminate |].
    injection Hcontext as <-. reflexivity.
  - apply Hreuse. reflexivity.
Defined.

(** * Synchronisation: every operation *)

Lemma calls_of_emits {A} (P : Event -> Prop) (m : M A) (tr : trace) :
  emits P m -> Operation.calls_of m = Ret tr -> Forall P tr.
Proof.
  intros Hm. unfold Operation.calls_of.
  destruct m as [[a tr']| |]; cbn; [|discriminate|discriminate].
  intros [= <-]. eapply Hm. reflexivity.
Qed.

Lemma emits_called {A} (P : Event -> Prop) (r : A * trace) :
  Forall P (snd r) -> emits P (called r).
Proof.
  intros Hr a tr H. apply called_inv in H. subst r. exact Hr.
Qed.

Section EveryOperation.
Context `{L : FFmpeg} `{R : Swresample} `{C : !SwresampleConvert} `{E : Encoders}
  `{D : H264DecoderInstance}.

Lemma nvidia_hevc_destroy_unsynchronized (self : NvidiaHEVCEncoder.t) :
  emits unsynchronized (NvidiaHEVCEncoder.destroy self).
Proof. unfold NvidiaHEVCEncoder.destroy. emits_with unsynchronized_call. Qed.

Lemma opus_encode_unsynchronized (self : OPUSEncoderImpl.t) (pcm_data : bytes)
    (frame : vector_ptr) (fmt : AVSampleFormat) (packed : bool) :
  emits unsynchronized (OPUSEncoding.EncodeInternal self pcm_data frame fmt packed).
Proof.
  unfold OPUSEncoding.EncodeInternal, copy_to_plane.
  emits_with ltac:(first [unsynchronized_call | apply opus_resampler_unsynchronized]).
Qed.

Section Facade.
Hypothesis Hencoders : Encoders_unsynchronized.

Ltac facade_call :=
  first
    [ unsynchronized_call
    | apply emits_called; apply Hencoders
    | apply h264_encoder_unsynchronized
    | apply nvidia_hevc_encoder_unsynchronized ].

Ltac unfold_wrappers :=
  unfold VideoEncoder.wrapped, VideoEncoder.wrapped2, VideoEncoder.make,
    VideoEncoder.create_software,
    H264EncoderImpl.new, HEVCEncoderImpl.new, VP8EncoderImpl.new, VP9EncoderImpl.new,
    AV1EncoderImpl.new, NvidiaH264EncoderImpl.new, NvidiaHEVCEncoderImpl.new,
    NvidiaAV1EncoderImpl.new,
    H264EncoderImpl.EncodeYUV420, H264EncoderImpl.Flush, H264EncoderImpl.UpdateBitrate,
    HEVCEncoderImpl.EncodeYUV420, HEVCEncoderImpl.Flush, HEVCEncoderImpl.UpdateBitrate,
    HEVCEncoderImpl.UpdateFramerate, HEVCEncoderImpl.UpdateParams,
    VP8EncoderImpl.EncodeYUV420,
    VP9EncoderImpl.EncodeYUV420, VP9EncoderImpl.UpdateBitrate,
    VP9EncoderImpl.UpdateFramerate,
    AV1EncoderImpl.EncodeYUV420, AV1EncoderImpl.Flush,
    NvidiaH264EncoderImpl.EncodeYUV420, NvidiaH264EncoderImpl.EncodeNV12,
    NvidiaHEVCEncoderImpl.EncodeYUV420, NvidiaHEVCEncoderImpl.EncodeNV12,
    NvidiaAV1EncoderImpl.EncodeYUV420, NvidiaAV1EncoderImpl.EncodeNV12.

Lemma facade_unsynchronized :
  (forall config, emits unsynchronized (VideoEncoder.Create config))
  /\ (forall fuel self yuv_data encoded_frame,
        emits unsynchronized
          (VideoEncoder.EncodeYUV420 fuel self yuv_data encoded_frame))
  /\ (forall self nv12_data encoded_frame,
        emits unsynchronized (VideoEncoder.EncodeNV12 self nv12_data encoded_frame))
  /\ (forall fuel self encoded_frame,
        emits unsynchronized (VideoEncoder.Flush fuel self encoded_frame))
  /\ (forall self new_bitrate,
        emits unsynchronized (VideoEncoder.UpdateBitrate self new_bitrate))
  /\ (forall self new_framerate,
        emits unsynchronized (VideoEncoder.UpdateFramerate self new_framerate)).
Proof.
  repeat split; intros.
  - unfold VideoEncoder.Create. unfold_wrappers. emits_with facade_call.
  - destruct self; cbn [VideoEncoder.EncodeYUV420]; unfold_wrappers;
      emits_with facade_call.
  - destruct self; cbn [VideoEncoder.EncodeNV12]; unfold_wrappers;
      emits_with facade_call.
  - destruct self; cbn [VideoEncoder.Flush]; unfold_wrappers; emits_with facade_call.
  - destruct self; cbn [VideoEncoder.UpdateBitrate]; unfold_wrappers;
      emits_with facade_call.
  - destruct self; cbn [VideoEncoder.UpdateFramerate]; unfold_wrappers;
      emits_with facade_call.
Qed.

End Facade.

End EveryOperation.



Lemma toy_encoders_unsynchronized :
  Encoders_unsynchronized (E := ToyLibrary.no_encoders).
Proof. repeat split; intros; constructor. Qed.

